(** * ycore/markdown: build plugin, runtime data access and slug validation

    A shallow embedding of
    - [src/markdown-utils.ts]          (module [Utils]),
    - [src/@types/markdown.types.ts]   (module [Types]),
    - [src/markdown-config.ts]         (module [Config]),
    - [src/markdown-data.ts]           (module [Data]),
    - [src/plugins/markdown-plugin.ts] (modules [Path], [Plugin], [Pool],
                                        [HotUpdate] and [Highlight]),
    - the loaders of the routes        (module [Loaders]),
    - [src/components.tsx]             (modules [Components] and [DocList]),
    together with the properties of the specification that concern them.
    The JavaScript primitives are in [Js], the effects of asynchronous code
    in [Eff], the vocabulary of the statements in [Spec], [Vocabulary],
    [BuildVocabulary] and [PipelineVocabulary], and the concrete trees,
    assets and hosts of the examples in [Examples] and [Trees].

    Conventions of the embedding.
    - A JavaScript string is a [string]; its characters are the code units
      below 256.  The white space of [String.prototype.trim] and of the
      regular expression class [\s] is the ECMAScript set restricted to that
      range.
    - A [Map] that the code iterates over is an association list in insertion
      order ([Js.mapSet] is [Map.prototype.set]); an object used as a
      dictionary whose keys are only looked up is a [gmap] of its own
      properties.
    - Numbers that the code handles (mtime in milliseconds, size in bytes,
      HTTP status) are integers, [Z].
    - The host (node:fs, node:path on POSIX, Date, marked, DOMPurify, the
      highlighter, fetch on the ASSETS binding, gzip, JSON) is not part of the
      repository; what the code needs from it is a field of an explicit
      record, or an input of the function. *)

From Stdlib Require Import ZArith Ascii String List Bool Lia.
From Stdlib Require Import DecimalString Sorted.
From stdpp Require Import base option list strings gmap.

Local Open Scope Z_scope.
Set Warnings "-register-all".

(** ** JavaScript string primitives *)

Module Js.

(** ECMAScript WhiteSpace and LineTerminator below 256: TAB, LF, VT, FF, CR,
    SP and NBSP. *)
Definition isWhiteSpace (c : ascii) : bool :=
  match N_of_ascii c with
  | 9%N | 10%N | 11%N | 12%N | 13%N | 32%N | 160%N => true
  | _ => false
  end.

(** LineTerminator below 256 (what [.] does not match without the s flag). *)
Definition isLineTerminator (c : ascii) : bool :=
  match N_of_ascii c with
  | 10%N | 13%N => true
  | _ => false
  end.

(** The character U+0022. *)
Definition dquote : ascii := ascii_of_N 34.

(** The character U+000A. *)
Definition newline : ascii := ascii_of_N 10.

Definition isEmpty (s : string) : bool :=
  match s with EmptyString => true | String _ _ => false end.

(** [s.startsWith(p)] *)
Fixpoint startsWith (s p : string) {struct p} : bool :=
  match p with
  | EmptyString => true
  | String a p' =>
      match s with
      | EmptyString => false
      | String b s' => Ascii.eqb a b && startsWith s' p'
      end
  end.

(** [s.endsWith(p)] *)
Fixpoint endsWith (s p : string) : bool :=
  if String.eqb s p then true
  else match s with
       | EmptyString => false
       | String _ s' => endsWith s' p
       end.

(** [s.includes(p)] *)
Fixpoint includes (s p : string) : bool :=
  if startsWith s p then true
  else match s with
       | EmptyString => false
       | String _ s' => includes s' p
       end.

(** [s.trimStart()] *)
Fixpoint trimStart (s : string) : string :=
  match s with
  | EmptyString => EmptyString
  | String c s' => if isWhiteSpace c then trimStart s' else s
  end.

(** [s.trimEnd()] *)
Fixpoint trimEnd (s : string) : string :=
  match s with
  | EmptyString => EmptyString
  | String c s' =>
      let t := trimEnd s' in
      if isWhiteSpace c && isEmpty t then EmptyString else String c t
  end.

(** [s.trim()] *)
Definition trim (s : string) : string := trimEnd (trimStart s).

(** [s.length] *)
Definition length (s : string) : Z := Z.of_nat (String.length s).

(** [s.slice(n)] for [0 <= n] *)
Fixpoint drop (n : nat) (s : string) : string :=
  match n, s with
  | O, _ => s
  | S n', String _ s' => drop n' s'
  | S _, EmptyString => EmptyString
  end.

(** [s.slice(0, n)] for [0 <= n] *)
Fixpoint take (n : nat) (s : string) : string :=
  match n, s with
  | O, _ => EmptyString
  | S n', String c s' => String c (take n' s')
  | S _, EmptyString => EmptyString
  end.

(** [s.replace(p, r)] with a string pattern: the first occurrence only. *)
Fixpoint replaceFirst (s p r : string) : string :=
  if startsWith s p then r +:+ drop (String.length p) s
  else match s with
       | EmptyString => EmptyString
       | String c s' => String c (replaceFirst s' p r)
       end.

(** [s.replace(/[cs]/g, r)] for a class of characters [cls]. *)
Fixpoint replaceClass (cls : ascii -> bool) (r : string) (s : string) : string :=
  match s with
  | EmptyString => EmptyString
  | String c s' =>
      if cls c then r +:+ replaceClass cls r s'
      else String c (replaceClass cls r s')
  end.

(** [s.indexOf(c)] for a one-character pattern; [None] is [-1]. *)
Fixpoint indexOf (s : string) (c : ascii) : option nat :=
  match s with
  | EmptyString => None
  | String d s' =>
      if Ascii.eqb d c then Some O else S <$> indexOf s' c
  end.

(** [s.split(c)] for a one-character separator. *)
Fixpoint split (c : ascii) (s : string) : list string :=
  match s with
  | EmptyString => [EmptyString]
  | String d s' =>
      if Ascii.eqb d c then EmptyString :: split c s'
      else match split c s' with
           | [] => [String d EmptyString]
           | w :: ws => String d w :: ws
           end
  end.

(** [Map.prototype.set] on a map kept in insertion order: an existing key
    keeps its position. *)
Fixpoint mapSet {K V : Type} `{EqDecision K} (k : K) (v : V)
  (m : list (K * V)) : list (K * V) :=
  match m with
  | [] => [(k, v)]
  | (k', v') :: m' =>
      if decide (k' = k) then (k, v) :: m' else (k', v') :: mapSet k v m'
  end.

(** [Map.prototype.get] *)
Fixpoint mapGet {K V : Type} `{EqDecision K} (k : K) (m : list (K * V))
  : option V :=
  match m with
  | [] => None
  | (k', v') :: m' => if decide (k' = k) then Some v' else mapGet k m'
  end.

(** [Map.prototype.has] *)
Definition mapHas {K V : Type} `{EqDecision K} (k : K) (m : list (K * V))
  : bool :=
  match mapGet k m with Some _ => true | None => false end.

(** [Map.prototype.keys] *)
Definition mapKeys {K V : Type} (m : list (K * V)) : list K := map fst m.

(** [new Map(entries)] *)
Definition mapOfEntries {K V : Type} `{EqDecision K} (entries : list (K * V))
  : list (K * V) :=
  fold_left (fun acc kv => mapSet (fst kv) (snd kv) acc) entries [].

End Js.

(** ** markdown-utils.ts *)

Module Utils.

(** A value of type [unknown]. [JsNumber text] is a number, [text] what
    the template literal of the number gives; [JsObject ctor] is any object,
    [ctor] the name of its constructor. *)
Inductive JsValue :=
| JsUndefined
| JsNull
| JsBoolean (b : bool)
| JsNumber (text : string)
| JsString (s : string)
| JsObject (ctor : string).

Record Response := { body : string; status : Z }.

Inductive Outcome :=
| Returns (s : string)
| Throws (r : Response).

(** The class [[a-zA-Z0-9-_/]]: after the range [0-9] the hyphen is a literal. *)
Definition slugClass (c : ascii) : bool :=
  let n := N_of_ascii c in
  ((97 <=? n) && (n <=? 122) || (65 <=? n) && (n <=? 90)
   || (48 <=? n) && (n <=? 57)
   || (n =? 45) || (n =? 95) || (n =? 47))%N.

Fixpoint allChars (p : ascii -> bool) (s : string) : bool :=
  match s with
  | EmptyString => true
  | String c s' => p c && allChars p s'
  end.

(** [/^[a-zA-Z0-9-_/]+$/.test(s)]: no flag, so [^] and [$] are the two ends
    of the input. *)
Definition slugRegexTest (s : string) : bool :=
  negb (Js.isEmpty s) && allChars slugClass s.

(** valibot's message for a value that is not a string. *)
Definition stringify (v : JsValue) : string :=
  match v with
  | JsUndefined => "undefined"
  | JsNull => "null"
  | JsBoolean true => "true"
  | JsBoolean false => "false"
  | JsNumber text => text
  | JsString s => String Js.dquote (s +:+ String Js.dquote EmptyString)
  | JsObject ctor => ctor
  end.

Definition invalidTypeMessage (v : JsValue) : string :=
  "Invalid type: Expected string but received " +:+ stringify v.

(** One validation action of the pipe: the issue it adds, if any. *)
Definition check (ok : bool) (message : string) : list string :=
  if ok then [] else [message].

(** [v.parse(documentSlugSchema, slug)]: the output, or the issues of the
    [ValiError].  The pipe does not abort early: after [v.string()] has
    accepted the input and [v.trim()] has transformed it, every validation
    runs on the trimmed string and adds its issue. *)
Definition parseDocumentSlug (slug : JsValue) : list string + string :=
  match slug with
  | JsString s =>
      let t := Js.trim s in
      let issues :=
        check (1 <=? Js.length t) "Slug cannot be empty"
        ++ check (slugRegexTest t)
             "Slug can only contain letters, numbers, hyphens, underscores, and forward slashes"
        ++ check (negb (Js.includes t "..")) "Directory traversal not allowed"
        ++ check (negb (Js.startsWith t "/")) "Slug cannot start with forward slash"
        ++ check (negb (Js.endsWith t "/")) "Slug cannot end with forward slash" in
      match issues with
      | [] => inr t
      | _ :: _ => inl issues
      end
  | _ => inl [invalidTypeMessage slug]
  end.

(** [a || b] on strings: the empty string is falsy. *)
Definition orElse (a b : string) : string :=
  if Js.isEmpty a then b else a.

Definition validateDocumentSlug (slug : JsValue) : Outcome :=
  match parseDocumentSlug slug with
  | inr t => Returns t
  | inl issues =>
      let message :=
        match issues with
        | m :: _ => orElse m "Invalid document url"
        | [] => "Invalid document url"
        end in
      Throws {| body := message; status := 400 |}
  end.

(** [formatAssetUrl(filename, request)]; [href] is
    [new URL(url, request.url).href] of the host. *)
Definition ASSET_PREFIX_fetch : string := "/assets/docs".

Definition formatAssetUrl (href : string -> string -> string)
  (filename : string) (request : option string) (prefix : option string)
  : string :=
  let fetchPrefix :=
    match prefix with
    | Some p => orElse p ASSET_PREFIX_fetch
    | None => ASSET_PREFIX_fetch
    end in
  let normalizedPrefix :=
    if Js.endsWith fetchPrefix "/"
    then Js.take (String.length fetchPrefix - 1) fetchPrefix
    else fetchPrefix in
  let url := normalizedPrefix +:+ "/" +:+ filename in
  match request with
  | Some requestUrl => href url requestUrl
  | None => url
  end.

End Utils.

(** ** markdown.types.ts *)

Module Types.

(** The values that occur as properties of a metadata record: the frontmatter
    parser produces strings, the build adds numbers, an absent property reads
    as [undefined]. *)
Inductive Value :=
| VUndefined
| VString (s : string)
| VNumber (z : Z).

#[export] Instance Value_eq_dec : EqDecision Value.
Proof. solve_decision. Defined.

(** An object literal: its own properties in insertion order. *)
Abbreviation Object := (list (string * Value)).

(** [o.k] *)
Definition get (o : Object) (k : string) : Value :=
  match Js.mapGet k o with
  | Some v => v
  | None => VUndefined
  end.

(** [{ ...a, ...b }] *)
Definition spread (a b : Object) : Object :=
  fold_left (fun acc kv => Js.mapSet (fst kv) (snd kv) acc) b a.

(** [({ k, ...rest }) => rest] *)
Definition omit (k : string) (o : Object) : Object :=
  List.filter (fun kv => negb (String.eqb (fst kv) k)) o.

(** Truthiness, for [!v] and [v || d]. *)
Definition truthy (v : Value) : bool :=
  match v with
  | VUndefined => false
  | VString s => negb (Js.isEmpty s)
  | VNumber z => negb (z =? 0)
  end.

(** [a === b] *)
Definition strictEq (a b : Value) : bool := bool_decide (a = b).

Abbreviation Frontmatter := Object (only parsing).
Abbreviation MarkdownMeta := Object (only parsing).

Record MarkdownContent := {
  frontmatter : Frontmatter;
  content : string
}.

Abbreviation ContentMap := (gmap string MarkdownContent).

(** The properties that an object literal, or an object that [JSON.parse]
    returns, inherits from [Object.prototype]: reading one of them gives a
    function, or the prototype itself for [__proto__], unless the object
    has an own property of the name. *)
Definition inherited (key : string) : bool :=
  existsb (String.eqb key)
    ["constructor"; "__defineGetter__"; "__defineSetter__"; "hasOwnProperty";
     "__lookupGetter__"; "__lookupSetter__"; "isPrototypeOf";
     "propertyIsEnumerable"; "toString"; "valueOf"; "__proto__";
     "toLocaleString"].

(** What [content[key]] gives when it is not [undefined]: the own property,
    a document, or the inherited property of the name, which is truthy and
    has no [frontmatter]. *)
Inductive Property :=
| Own (document : MarkdownContent)
| Inherited (key : string).

(** [content[key] || null] *)
Definition getProperty (content : ContentMap) (key : string)
  : option Property :=
  match content !! key with
  | Some document => Some (Own document)
  | None => if inherited key then Some (Inherited key) else None
  end.

(** [key in content] *)
Definition hasProperty (content : ContentMap) (key : string) : bool :=
  bool_decide (is_Some (content !! key)) || inherited key.

Inductive BuildMode := single | chunked.

#[export] Instance BuildMode_eq_dec : EqDecision BuildMode.
Proof. solve_decision. Defined.

Record GlobalManifest := {
  documents : list MarkdownMeta;
  chunkedFolders : option (list string);
  _buildMode : BuildMode
}.

Record FileMetadata := { mtime : Z; size : Z }.

End Types.

(** ** Async function bodies with module-level state *)

Module Eff.

Record Error := { message : string }.

Inductive Result (A : Type) :=
| Ok (a : A)
| Thrown (e : Error).
Arguments Ok {A} a.
Arguments Thrown {A} e.

(** An async function body over the state [S]: it runs from a state to a
    result and a state; the state is kept when it throws. *)
Definition Async (S A : Type) : Type := S -> Result A * S.

#[export] Instance Async_ret {S : Type} : MRet (Async S) :=
  fun A a st => (Ok a, st).

#[export] Instance Async_bind {S : Type} : MBind (Async S) :=
  fun A B k m st =>
    match m st with
    | (Ok a, st') => k a st'
    | (Thrown e, st') => (Thrown e, st')
    end.

Definition throw {S A : Type} (e : Error) : Async S A :=
  fun st => (Thrown e, st).

(** [try { body } catch (e) { handler }] *)
Definition tryCatch {S A : Type} (body : Async S A)
  (handler : Error -> Async S A) : Async S A :=
  fun st =>
    match body st with
    | (Ok a, st') => (Ok a, st')
    | (Thrown e, st') => handler e st'
    end.

Definition getState {S : Type} : Async S S := fun st => (Ok st, st).

Definition putState {S : Type} (st : S) : Async S unit := fun _ => (Ok tt, st).

(** A step of the host that yields a value, or throws an error with the
    message in [inl]. *)
Definition fromHost {S T : Type} (v : string + T) : Async S T :=
  match v with
  | inr t => mret t
  | inl m => throw {| message := m |}
  end.

Definition showNumber (z : Z) : string := NilEmpty.string_of_int (Z.to_int z).

(** Every run of the body [m] takes a state to a state related by [R]. *)
Definition Respects {S A : Type} (R : S -> S -> Prop) (m : Async S A) : Prop :=
  forall st, R st (snd (m st)).

End Eff.

(** ** markdown-config.ts *)

Module Config.

Definition EXTENSION : string := ".md".
Definition CHUNK_BY_FOLDER : bool := true.
Definition INCREMENTAL_BY_FOLDER : bool := false.
Definition PREFIX : string := "markdown".
Definition PURIFY_HTML : bool := true.
Definition UPDATE_DATE : bool := true.
Definition COMPRESS : bool := true.
Definition CONCURRENCY_FOLDERS : Z := 5.
Definition CONCURRENCY_FILES : Z := 10.

End Config.

(** ** markdown-data.ts *)

Module Data.
Import Types Eff.

(** A response of the ASSETS binding, its body read at the type [T] the
    caller casts it to: [gunzipJson] is the result of
    [arrayBuffer()], [DecompressionStream('gzip')], [text()] and
    [JSON.parse], [json] the result of [response.json()]; [inl m] when a step
    throws an error with message [m]. *)
Record HttpResponse (T : Type) := {
  ok : bool;
  status : Z;
  statusText : string;
  gunzipJson : string + T;
  json : string + T
}.
Arguments ok {T} _.
Arguments status {T} _.
Arguments statusText {T} _.
Arguments gunzipJson {T} _.
Arguments json {T} _.

Inductive FetchResult (T : Type) :=
| Rejects (m : string)
| Responds (r : HttpResponse T).
Arguments Rejects {T} m.
Arguments Responds {T} r.

(** [assets.fetch], by URL. *)
Definition Fetcher (T : Type) : Type := string -> FetchResult T.

(** The ASSETS binding at the two types the module reads it. *)
Record Assets := {
  manifestAssets : Fetcher GlobalManifest;
  contentAssets : Fetcher ContentMap
}.

(** The module-level caches, and the URLs requested so far (latest first). *)
Record State := {
  manifestCache : option (list MarkdownMeta);
  globalManifestCache : option GlobalManifest;
  contentCache : option ContentMap;
  folderContentCache : gmap string ContentMap;
  requests : list string
}.

Definition initial : State :=
  {| manifestCache := None; globalManifestCache := None; contentCache := None;
     folderContentCache := ∅; requests := [] |}.

Abbreviation M := (Async State).

Definition setManifestCache (v : option (list MarkdownMeta)) : M unit := fun st =>
  (Ok tt, {| manifestCache := v; globalManifestCache := globalManifestCache st;
             contentCache := contentCache st;
             folderContentCache := folderContentCache st;
             requests := requests st |}).

Definition setGlobalManifestCache (v : option GlobalManifest) : M unit := fun st =>
  (Ok tt, {| manifestCache := manifestCache st; globalManifestCache := v;
             contentCache := contentCache st;
             folderContentCache := folderContentCache st;
             requests := requests st |}).

Definition setContentCache (v : option ContentMap) : M unit := fun st =>
  (Ok tt, {| manifestCache := manifestCache st;
             globalManifestCache := globalManifestCache st;
             contentCache := v;
             folderContentCache := folderContentCache st;
             requests := requests st |}).

Definition setFolderContentCache (v : gmap string ContentMap) : M unit := fun st =>
  (Ok tt, {| manifestCache := manifestCache st;
             globalManifestCache := globalManifestCache st;
             contentCache := contentCache st;
             folderContentCache := v;
             requests := requests st |}).

(** [await assets.fetch(url)] *)
Definition fetchFn {T : Type} (assets : Fetcher T) (url : string)
  : M (HttpResponse T) := fun st =>
  let st' := {| manifestCache := manifestCache st;
                globalManifestCache := globalManifestCache st;
                contentCache := contentCache st;
                folderContentCache := folderContentCache st;
                requests := url :: requests st |} in
  match assets url with
  | Responds r => (Ok r, st')
  | Rejects m => (Thrown {| message := m |}, st')
  end.

Definition baseUrlOf (url : string) : string :=
  if Js.endsWith url ".gz" then Js.replaceFirst url ".gz" "" else url.

Definition gzUrlOf (url : string) : string := baseUrlOf url +:+ ".gz".

(** The first [try] of [fetchContent]: [Some parsed] is its [return],
    [None] falling through to the code after it. *)
Definition fetchCompressed {T : Type} (gzUrl : string) (assets : Fetcher T)
  : M (option T) :=
  tryCatch
    (gzResponse ← fetchFn assets gzUrl;
     if ok gzResponse
     then parsed ← fromHost (gunzipJson gzResponse); mret (Some parsed)
     else mret None)
    (fun _compressionError => mret None).

(** The second [try] of [fetchContent]. *)
Definition fetchUncompressed {T : Type} (gzUrl baseUrl : string)
  (assets : Fetcher T) : M T :=
  tryCatch
    (response ← fetchFn assets baseUrl;
     if negb (ok response)
     then throw {| message := "HTTP " +:+ showNumber (status response)
                                +:+ ": " +:+ statusText response |}
     else fromHost (json response))
    (fun uncompressedError =>
       throw {| message :=
         "Failed to fetch both compressed (" +:+ gzUrl
         +:+ ") and uncompressed (" +:+ baseUrl +:+ ") versions: "
         +:+ message uncompressedError |}).

Definition fetchContent {T : Type} (url : string) (assets : Fetcher T) : M T :=
  let baseUrl := baseUrlOf url in
  let gzUrl := baseUrl +:+ ".gz" in
  r ← fetchCompressed gzUrl assets;
  match r with
  | Some parsed => mret parsed
  | None => fetchUncompressed gzUrl baseUrl assets
  end.

Section Runtime.

(** [new URL(url, request.url).href] *)
Variable href : string -> string -> string.

(** [prefix || MARKDOWN_CONFIG.PREFIX] *)
Definition prefixOr (prefix : option string) : string :=
  match prefix with
  | Some p => Utils.orElse p Config.PREFIX
  | None => Config.PREFIX
  end.

Definition fallbackManifest : GlobalManifest :=
  {| documents := []; chunkedFolders := None; _buildMode := single |}.

Definition getGlobalManifest (assets : Assets) (request prefix : option string)
  : M GlobalManifest :=
  st ← getState;
  match globalManifestCache st with
  | Some cached => mret cached
  | None =>
      tryCatch
        (let manifestUrl :=
           Utils.formatAssetUrl href (prefixOr prefix +:+ "-manifest.json")
             request None in
         globalManifest ← fetchContent manifestUrl (manifestAssets assets);
         _ ← setGlobalManifestCache (Some globalManifest);
         mret globalManifest)
        (fun _error => mret fallbackManifest)
  end.

Definition getMarkdownManifest (assets : Assets) (request prefix : option string)
  : M (list MarkdownMeta) :=
  st ← getState;
  match manifestCache st with
  | Some cached => mret cached
  | None =>
      globalManifest ← getGlobalManifest assets request prefix;
      let cleanManifest :=
        map (fun doc => omit "_size" (omit "_mtime" doc))
          (documents globalManifest) in
      _ ← setManifestCache (Some cleanManifest);
      mret cleanManifest
  end.

Definition getMarkdownContent (assets : Assets) (request prefix : option string)
  : M ContentMap :=
  globalManifest ← getGlobalManifest assets request prefix;
  if decide (_buildMode globalManifest = chunked) then mret ∅
  else
    st ← getState;
    match contentCache st with
    | Some cached => mret cached
    | None =>
        tryCatch
          (let contentUrl :=
             Utils.formatAssetUrl href (prefixOr prefix +:+ "-content.json")
               request None in
           content ← fetchContent contentUrl (contentAssets assets);
           _ ← setContentCache (Some content);
           mret content)
          (fun _error => mret ∅)
    end.

Definition isSeparator (c : ascii) : bool :=
  (Ascii.eqb c "/" || Ascii.eqb c "\")%char.

(** [folder.replace(/[/\\]/g, '-')] *)
Definition folderKeyOf (folder : string) : string :=
  Js.replaceClass isSeparator "-" folder.

(** [folder] is the value that [getMarkdownDocument] passes.  The keys of
    [folderContentCache] are strings, since an entry is set only after
    [folder.replace] has returned; on a value that is not a string
    [folder.replace] is a [TypeError], thrown inside the [try]. *)
Definition loadFolderContent (folder : Value) (assets : Assets)
  (request prefix : option string) : M ContentMap :=
  match folder with
  | VString f =>
      st ← getState;
      match folderContentCache st !! f with
      | Some cachedContent => mret cachedContent
      | None =>
          tryCatch
            (let folderKey := folderKeyOf f in
             let contentUrl :=
               Utils.formatAssetUrl href
                 (prefixOr prefix +:+ "-content-" +:+ folderKey +:+ ".json")
                 request None in
             content ← fetchContent contentUrl (contentAssets assets);
             st' ← getState;
             _ ← setFolderContentCache (<[f := content]> (folderContentCache st'));
             mret content)
            (fun _error => mret ∅)
      end
  | _ => mret ∅
  end.

Definition getMarkdownDocument (slug : string) (assets : Assets)
  (request prefix : option string) : M (option Property) :=
  globalManifest ← getGlobalManifest assets request prefix;
  if decide (_buildMode globalManifest = chunked) then
    manifest ← getMarkdownManifest assets request prefix;
    match List.find (fun doc => strictEq (get doc "slug") (VString slug)) manifest with
    | None => mret None
    | Some docMeta =>
        let folder :=
          if truthy (get docMeta "folder") then get docMeta "folder"
          else VString "root" in
        folderContent ← loadFolderContent folder assets request prefix;
        mret (getProperty folderContent slug)
    end
  else
    content ← getMarkdownContent assets request prefix;
    mret (getProperty content slug).


Definition hasMarkdownDocument (slug : string) (assets : Assets)
  (request prefix : option string) : M bool :=
  globalManifest ← getGlobalManifest assets request prefix;
  if decide (_buildMode globalManifest = chunked) then
    manifest ← getMarkdownManifest assets request prefix;
    mret (existsb (fun doc => strictEq (get doc "slug") (VString slug)) manifest)
  else
    content ← getMarkdownContent assets request prefix;
    mret (hasProperty content slug).

End Runtime.

End Data.

(** ** node:path, POSIX flavour *)

Module Path.

Definition slash : ascii := "/"%char.

(** The loop of [posix.dirname]: [rev] holds [path[i]], [path[i-1]], ...,
    [path[0]]; the loop runs while [i >= 1] and yields [end]. *)
Fixpoint dirnameLoop (i : nat) (rev : list ascii) (matchedSlash : bool)
  : option nat :=
  match i, rev with
  | S i', c :: rest =>
      if Ascii.eqb c slash then
        if matchedSlash then dirnameLoop i' rest true else Some i
      else dirnameLoop i' rest false
  | _, _ => None
  end.

(** [path.dirname(p)] *)
Definition dirname (p : string) : string :=
  match p with
  | EmptyString => "."
  | String c0 _ =>
      let hasRoot := Ascii.eqb c0 slash in
      match dirnameLoop (String.length p - 1)
              (List.rev (list_ascii_of_string p)) true with
      | None => if hasRoot then "/" else "."
      | Some e =>
          if hasRoot && Nat.eqb e 1 then "//" else Js.take e p
      end
  end.

(** [path.join(a, b)] for a directory [a] and an entry name [b] of it. *)
Definition join (a b : string) : string := a +:+ "/" +:+ b.

End Path.

(** ** The order of the properties of an object *)

Module ObjectOrder.

Definition isDigit (c : ascii) : bool :=
  let n := N_of_ascii c in ((48 <=? n) && (n <=? 57))%N.

Fixpoint digitsValue (s : string) (acc : N) : option N :=
  match s with
  | EmptyString => Some acc
  | String c s' =>
      if isDigit c then digitsValue s' (10 * acc + (N_of_ascii c - 48))%N
      else None
  end.

(** The key is an array index: the decimal numeral, without a leading
    zero, of an integer below [2^32 - 1]. *)
Definition arrayIndex (key : string) : option N :=
  match key with
  | EmptyString => None
  | String c rest =>
      if Ascii.eqb c "0" && negb (Js.isEmpty rest) then None
      else
        match digitsValue key 0 with
        | Some n => if (n <? 4294967295)%N then Some n else None
        | None => None
        end
  end.

Fixpoint insertIndexed {V : Type} (x : N * (string * V))
  (l : list (N * (string * V))) : list (N * (string * V)) :=
  match l with
  | [] => [x]
  | y :: l' => if (fst x <=? fst y)%N then x :: l else y :: insertIndexed x l'
  end.

(** [Object.entries(o)]: the array indices in ascending order, then the
    other keys in the order of their creation. *)
Definition entries {V : Type} (o : list (string * V)) : list (string * V) :=
  map snd
    (fold_right
       (fun kv acc =>
          match arrayIndex (fst kv) with
          | Some n => insertIndexed (n, kv) acc
          | None => acc
          end) [] o)
  ++ List.filter
       (fun kv => match arrayIndex (fst kv) with Some _ => false | None => true end)
       o.

End ObjectOrder.

(** ** plugins/markdown-plugin.ts: the source tree and change detection *)

Module Plugin.
Import Types Eff.

(** What [readdir] and [stat] show of the source directory, with the text of
    each file. *)
Inductive Entry :=
| File (name : string) (stats : FileMetadata) (text : string)
| Dir (name : string) (entries : list Entry).

Record FileInfo := { path : string; metadata : FileMetadata }.

(** [Map<string, { path; metadata }>] *)
Abbreviation FileMap := (list (string * FileInfo)).

Record Options := {
  source : string;
  extension : string;
  prefix : string;
  updateDate : bool;
  purifyHtml : bool;
  chunkByFolder : bool;
  incrementalByFolder : bool;
  compress : bool
}.

(** The defaults of [MARKDOWN_CONFIG]. *)
Definition defaultOptions (source : string) : Options :=
  {| source := source;
     extension := Config.EXTENSION;
     prefix := Config.PREFIX;
     updateDate := Config.UPDATE_DATE;
     purifyHtml := Config.PURIFY_HTML;
     chunkByFolder := Config.CHUNK_BY_FOLDER;
     incrementalByFolder := Config.INCREMENTAL_BY_FOLDER;
     compress := Config.COMPRESS |}.

Section Detection.

Variable options : Options.

(** [path.relative(dir, path.join(current, name))], where [rel] is the path
    of [current] relative to [dir]; [None] for [dir] itself. *)
Definition relativeOf (rel : option string) (name : string) : string :=
  match rel with
  | None => name
  | Some r => Path.join r name
  end.

(** [walk(current)].  The entries of a directory are visited concurrently,
    and the key of a file is set when its [stat] resolves: the order of the
    keys of the result is the order in which these promises resolve.  The
    embedding takes the order in which [readdir] lists the entries, depth
    first, which is one of these orders. *)
Fixpoint walkEntry (dir : string) (rel : option string) (entry : Entry)
  (result : FileMap) {struct entry} : FileMap :=
  match entry with
  | Dir name entries =>
      fold_left
        (fun acc e => walkEntry dir (Some (relativeOf rel name)) e acc)
        entries result
  | File name stats _ =>
      if Js.endsWith name (extension options) then
        let r := relativeOf rel name in
        Js.mapSet r {| path := Path.join dir r; metadata := stats |} result
      else result
  end.

Definition walk (dir : string) (rel : option string) (entries : list Entry)
  (result : FileMap) : FileMap :=
  fold_left (fun acc e => walkEntry dir rel e acc) entries result.

Definition collectMarkdownFilesWithMetadata (dir : string)
  (tree : list Entry) : FileMap :=
  walk dir None tree [].

(** [path.dirname(relPath) === '.' ? 'root' : path.dirname(relPath)] *)
Definition folderOf (relPath : string) : string :=
  if String.eqb (Path.dirname relPath) "." then "root"
  else Path.dirname relPath.

Definition collectFilesByFolder (dir : string) (tree : list Entry)
  : list (string * FileMap) :=
  let files := collectMarkdownFilesWithMetadata dir tree in
  fold_left
    (fun folderMap entry =>
       let '(relPath, fileInfo) := entry in
       let folder := folderOf relPath in
       let folderMap' :=
         if Js.mapHas folder folderMap then folderMap
         else Js.mapSet folder [] folderMap in
       match Js.mapGet folder folderMap' with
       | Some inner =>
           Js.mapSet folder (Js.mapSet relPath fileInfo inner) folderMap'
       | None => folderMap'
       end)
    files [].

(** [!prev || prev._mtime !== current.mtime || prev._size !== current.size] *)
Definition isFileChanged (prev : option MarkdownMeta) (current : FileMetadata)
  : bool :=
  match prev with
  | None => true
  | Some p =>
      negb (strictEq (get p "_mtime") (VNumber (mtime current)))
      || negb (strictEq (get p "_size") (VNumber (size current)))
  end.

Record Changes := { changed : bool; updatedFiles : FileMap }.

Definition checkForChanges (dir : string) (tree : list Entry)
  (previous : list MarkdownMeta) : Changes :=
  let previousMap :=
    Js.mapOfEntries (map (fun entry => (get entry "path", entry)) previous) in
  let currentFiles := collectMarkdownFilesWithMetadata dir tree in
  if existsb
       (fun entry =>
          isFileChanged (Js.mapGet (VString (fst entry)) previousMap)
            (metadata (snd entry)))
       currentFiles
  then {| changed := true; updatedFiles := currentFiles |}
  else if negb (Z.of_nat (List.length previous)
                =? Z.of_nat (List.length currentFiles))
  then {| changed := true; updatedFiles := currentFiles |}
  else {| changed := false; updatedFiles := currentFiles |}.

(** [meta.folder || 'root'] *)
Definition folderOrRoot (meta : MarkdownMeta) : Value :=
  if truthy (get meta "folder") then get meta "folder" else VString "root".

(** The loop that groups the previous files by folder. *)
Definition groupPrevious (prevGlobalManifest : list MarkdownMeta)
  : list (Value * list (Value * MarkdownMeta)) :=
  fold_left
    (fun prevFilesByFolder meta =>
       let folder := folderOrRoot meta in
       let m :=
         if Js.mapHas folder prevFilesByFolder then prevFilesByFolder
         else Js.mapSet folder [] prevFilesByFolder in
       match Js.mapGet folder m with
       | Some inner =>
           Js.mapSet folder (Js.mapSet (get meta "path") meta inner) m
       | None => m
       end)
    prevGlobalManifest [].

(** The body of the loop over the current folders: whether [folder] is added
    to [changedFolders]. *)
Definition folderChanged
  (prevFilesByFolder : list (Value * list (Value * MarkdownMeta)))
  (folder : string) (files : FileMap) : bool :=
  match Js.mapGet (VString folder) prevFilesByFolder with
  | None => true
  | Some prevFiles =>
      let folderChanged :=
        existsb
          (fun entry =>
             isFileChanged (Js.mapGet (VString (fst entry)) prevFiles)
               (metadata (snd entry)))
          files in
      if negb folderChanged
         && negb (Z.of_nat (List.length prevFiles)
                  =? Z.of_nat (List.length files))
      then true
      else folderChanged
  end.

Record FolderChanges := {
  changedFolders : list string;
  allFolders : list (string * FileMap)
}.

(** [prevGlobalManifest] is what [loadPreviousManifest] returns; it is read
    only when [incrementalByFolder] is set. *)
Definition checkForFolderChanges (dir : string) (tree : list Entry)
  (prevGlobalManifest : list MarkdownMeta) : FolderChanges :=
  let allFolders := collectFilesByFolder dir tree in
  if negb (incrementalByFolder options) then
    {| changedFolders := Js.mapKeys allFolders; allFolders := allFolders |}
  else
    let prevFilesByFolder := groupPrevious prevGlobalManifest in
    {| changedFolders :=
         Js.mapKeys
           (List.filter (fun entry =>
                      folderChanged prevFilesByFolder (fst entry) (snd entry))
              allFolders);
       allFolders := allFolders |}.

End Detection.

(** *** The frontmatter parser *)

(** The maximal run of [\s] at the start of [s], cut after each of its line
    feeds: the rest of [s] after the last line feed of the run first.  This
    is the order in which a greedy [\s*] followed by [\n] is tried. *)
Fixpoint afterSpaces (s : string) : list string :=
  match s with
  | EmptyString => []
  | String c s' =>
      if Js.isWhiteSpace c then
        afterSpaces s' ++ (if Ascii.eqb c Js.newline then [s'] else [])
      else []
  end.

Definition fence : string := String Js.newline "---".

(** The rest of the pattern of [parseFrontmatter], from the start of [s]: a
    lazy group of any characters (s flag), a line feed, three hyphens,
    [\s*], a line feed, and a greedy group up to the end; the shortest first
    group for which the rest matches. *)
Fixpoint lazyBody (s : string) : option (string * string) :=
  match
    (if Js.startsWith s fence then head (afterSpaces (Js.drop 4 s)) else None)
  with
  | Some markdown => Some (EmptyString, markdown)
  | None =>
      match s with
      | EmptyString => None
      | String c s' =>
          match lazyBody s' with
          | Some (g, markdown) => Some (String c g, markdown)
          | None => None
          end
      end
  end.

Fixpoint firstSome {A B : Type} (f : A -> option B) (l : list A) : option B :=
  match l with
  | [] => None
  | a :: l' => match f a with Some b => Some b | None => firstSome f l' end
  end.

(** [content.match(...)] in [parseFrontmatter]: three hyphens at the start of
    the input, [\s*], a line feed, then [lazyBody]; the two groups. *)
Definition matchFrontmatter (content : string) : option (string * string) :=
  if Js.startsWith content "---"
  then firstSome lazyBody (afterSpaces (Js.drop 3 content))
  else None.

Definition isQuote (c : ascii) : bool :=
  Ascii.eqb c "'"%char || Ascii.eqb c Js.dquote.

(** [s] without its last character. *)
Fixpoint dropLast (s : string) : string :=
  match s with
  | EmptyString => EmptyString
  | String c EmptyString => EmptyString
  | String c s' => String c (dropLast s')
  end.

Fixpoint lastIs (p : ascii -> bool) (s : string) : bool :=
  match s with
  | EmptyString => false
  | String c EmptyString => p c
  | String _ s' => lastIs p s'
  end.

(** [value.replace(/^['"]|['"]$/g, '')] *)
Definition stripQuotes (value : string) : string :=
  let v :=
    match value with
    | String c rest => if isQuote c then rest else value
    | EmptyString => value
    end in
  if lastIs isQuote v then dropLast v else v.

Definition isDigit (c : ascii) : bool :=
  let n := N_of_ascii c in ((48 <=? n) && (n <=? 57))%N.

(** [/^\d{4}-\d{2}-\d{2}$/] *)
Definition isDatePattern (s : string) : bool :=
  match list_ascii_of_string s with
  | [y1; y2; y3; y4; d1; m1; m2; d2; a1; a2] =>
      isDigit y1 && isDigit y2 && isDigit y3 && isDigit y4
      && Ascii.eqb d1 "-" && isDigit m1 && isDigit m2
      && Ascii.eqb d2 "-" && isDigit a1 && isDigit a2
  | _ => false
  end.

Inductive MarkedResult :=
| MarkedString (html : string)
| MarkedOther (typeName : string)
| MarkedThrows (m : string).

Inductive HighlightResult :=
| Highlighted (html : string)
| HighlightError (error : string) (errorContext : option string).

(** What the plugin asks of its host. *)
Record Host := {
  (** [new Date(ms).toISOString().split('T')[0]] *)
  isoDateOfTime : Z -> string;
  (** [new Date(s).toISOString().split('T')[0]]; [inl] is the [RangeError]
      of an invalid date. *)
  isoDateOfString : string -> string + string;
  (** [new Date(s).getTime()]; [None] is [NaN]. *)
  dateTime : string -> option Z;
  (** [a.localeCompare(b)] *)
  localeCompare : string -> string -> Z;
  (** Whether [writeFile] (and [utimes]) on the path succeeds. *)
  canWrite : string -> bool;
  (** Whether [mkdir] of the asset directory succeeds. *)
  canMkdir : bool;
  (** Whether [gzip] of the text of an asset succeeds. *)
  canGzip : string -> bool;
  (** [marked.parse(markdown, { breaks: true, gfm: true })] *)
  markedParse : string -> MarkedResult;
  (** [DOMPurify.sanitize(html, DOMPURIFY_CONFIG)] *)
  sanitize : string -> string;
  (** [highlightCodeBlocks(html, highlighter, filePath)] for the
      [highlighter] that [initializeHighlighter] leaves; [None] when it
      leaves [null]. *)
  highlightCodeBlocks : option (string -> string -> HighlightResult)
}.

(** What [parseFrontmatter] returns: [{ data, content }], or the bare
    [frontmatter] object, in which both read as [undefined]. *)
Record Parsed := { data : option Frontmatter; body : option string }.

Section Processing.

Variable options : Options.
Variable host : Host.

(** [frontmatter[key] = value] for a string [value]: the assignment to
    [__proto__] defines no property.  The list keeps the keys in the order
    of the lines. *)
Definition setProperty (key : string) (value : Value) (frontmatter : Frontmatter)
  : Frontmatter :=
  if String.eqb key "__proto__" then frontmatter
  else Js.mapSet key value frontmatter.

(** One iteration of the loop over the lines of the frontmatter text. *)
Definition parseLine {St : Type} (frontmatter : Frontmatter) (line : string)
  : Async St Frontmatter :=
  match Js.indexOf line ":"%char with
  | Some (S i) =>
      let colonIndex := S i in
      let key := Js.trim (Js.take colonIndex line) in
      let value := Js.trim (Js.drop (colonIndex + 1) line) in
      let cleanValue := stripQuotes value in
      if String.eqb key "date" && isDatePattern cleanValue then
        d ← fromHost (isoDateOfString host cleanValue);
        mret (setProperty key (VString d) frontmatter)
      else mret (setProperty key (VString cleanValue) frontmatter)
  | _ => mret frontmatter
  end.

Fixpoint foldM {St A B : Type} (f : B -> A -> Async St B) (l : list A) (b : B)
  : Async St B :=
  match l with
  | [] => mret b
  | a :: l' => b' ← f b a; foldM f l' b'
  end.

Definition parseFrontmatter {St : Type} (content : string) : Async St Parsed :=
  match matchFrontmatter content with
  | None => mret {| data := Some []; body := Some content |}
  | Some (frontmatterText, markdown) =>
      if Js.isEmpty frontmatterText then mret {| data := None; body := None |}
      else
        let lines :=
          List.filter (fun line => negb (Js.isEmpty (Js.trim line)))
            (Js.split Js.newline frontmatterText) in
        frontmatter ← foldM parseLine lines [];
        mret {| data := Some frontmatter; body := Some markdown |}
  end.

(** *** The state of a build *)

Inductive Artifact :=
| ManifestJson (g : GlobalManifest)
| ContentJson (c : ContentMap)
| ContentJsonGz (c : ContentMap).

(** [texts]: the text of the source files, by path; [assets]: the files of
    the asset directory, by file name; [reads]: the paths given to
    [readFile] so far, the latest first. *)
Record BuildState := {
  texts : gmap string string;
  assets : gmap string Artifact;
  reads : list string
}.

Abbreviation B := (Async BuildState).

(** [getAssetPath(filename)], relative to the working directory. *)
Definition getAssetPath (filename : string) : string :=
  "public/assets/docs/" +:+ filename.

(** [await readFile(filePath, 'utf8')] *)
Definition readFile (filePath : string) : B string := fun st =>
  let st' := {| texts := texts st; assets := assets st;
                reads := filePath :: reads st |} in
  match texts st !! filePath with
  | Some text => (Ok text, st')
  | None => (Thrown {| message := "ENOENT: no such file or directory" |}, st')
  end.

(** [await writeFile(filePath, text); await utimes(filePath, d, d)] on a
    source file. *)
Definition writeSource (filePath text : string) : B unit := fun st =>
  if canWrite host filePath then
    (Ok tt, {| texts := <[filePath := text]> (texts st); assets := assets st;
               reads := reads st |})
  else (Thrown {| message := "EACCES: permission denied" |}, st).

(** [await writeFile(getAssetPath(filename), ...)] *)
Definition writeAsset (filename : string) (a : Artifact) : B unit := fun st =>
  if canWrite host (getAssetPath filename) then
    (Ok tt, {| texts := texts st; assets := <[filename := a]> (assets st);
               reads := reads st |})
  else (Thrown {| message := "EACCES: permission denied" |}, st).

(** [await mkdir(dir, { recursive: true })] *)
Definition mkdirAssets : B unit :=
  if canMkdir host then mret tt
  else throw {| message := "EACCES: permission denied" |}.

(** [`${value}`] *)
Definition toStr (v : Value) : string :=
  match v with
  | VString s => s
  | VNumber z => showNumber z
  | VUndefined => "undefined"
  end.

Definition quoted (s : string) : string :=
  String Js.dquote (s +:+ String Js.dquote EmptyString).

(** [lines.join('\n')] *)
Fixpoint joinLines (lines : list string) : string :=
  match lines with
  | [] => EmptyString
  | [l] => l
  | l :: ls => l +:+ String Js.newline (joinLines ls)
  end.

(** [updateFrontmatterDate(filePath, content, fileMtime)]: the lines of
    the frontmatter are written in the order of [Object.entries]. *)
Definition updateFrontmatterDate (filePath content : string) (fileMtime : Z)
  : B string :=
  if negb (updateDate options) then mret content
  else
    parsed ← parseFrontmatter content;
    let fileDate := isoDateOfTime host fileMtime in
    match data parsed with
    | None => mret content
    | Some frontmatter =>
        if strictEq (get frontmatter "date") (VString fileDate)
        then mret content
        else
          let updatedFrontmatter :=
            Js.mapSet "date" (VString fileDate) frontmatter in
          let frontmatterStr :=
            joinLines
              (map (fun kv =>
                      fst kv +:+ ": " +:+
                      match snd kv with
                      | VString s => quoted s
                      | v => toStr v
                      end)
                 (ObjectOrder.entries updatedFrontmatter)) in
          let markdown :=
            match body parsed with Some m => m | None => "undefined" end in
          let updatedContent :=
            "---" +:+ String Js.newline frontmatterStr
            +:+ String Js.newline "---" +:+ String Js.newline markdown in
          tryCatch
            (_ ← writeSource filePath updatedContent; mret updatedContent)
            (fun _error => mret content)
    end.

Record Processed := {
  html : string;
  error : option string;
  errorContext : option string
}.

Definition processMarkdownFile (filePath : string) : B Processed :=
  tryCatch
    (source ← readFile filePath;
     parsed ← parseFrontmatter source;
     let markdownString :=
       match body parsed with Some m => m | None => EmptyString end in
     match markedParse host markdownString with
     | MarkedThrows m => throw {| message := m |}
     | MarkedOther typeName =>
         mret {| html := markdownString;
                 error := Some ("Unexpected marked result type: " +:+ typeName);
                 errorContext := None |}
     | MarkedString htmlContent =>
         let sanitizedContent :=
           if purifyHtml options then sanitize host htmlContent
           else htmlContent in
         match highlightCodeBlocks host with
         | Some highlight =>
             match highlight htmlContent filePath with
             | Highlighted c =>
                 mret {| html := c; error := None; errorContext := None |}
             | HighlightError e ctx =>
                 mret {| html := EmptyString; error := Some e;
                         errorContext := ctx |}
             end
         | None =>
             mret {| html := sanitizedContent; error := None;
                     errorContext := None |}
         end
     end)
    (fun e =>
       mret {| html := EmptyString; error := Some (message e);
               errorContext := None |}).

End Processing.

(** *** Processing the files *)

(** One character of the pattern [new RegExp(`${extension}$`)] against one
    character of the input: [.] matches all but a line terminator, any other
    character itself.  This reads the pattern as the constructor does when
    the extension holds no other operator of the pattern language, which is
    so for the default [.md]. *)
Definition atomMatches (p c : ascii) : bool :=
  if Ascii.eqb p "."%char then negb (Js.isLineTerminator c) else Ascii.eqb p c.

(** The pattern matches [s] from its start to its end. *)
Fixpoint matchesToEnd (pattern s : string) : bool :=
  match pattern, s with
  | EmptyString, EmptyString => true
  | String p pattern', String c s' => atomMatches p c && matchesToEnd pattern' s'
  | _, _ => false
  end.

(** [relPath.replace(new RegExp(`${extension}$`), '')]: the leftmost match
    is removed. *)
Fixpoint removeExtension (pattern s : string) : string :=
  if matchesToEnd pattern s then EmptyString
  else match s with
       | EmptyString => EmptyString
       | String c s' => String c (removeExtension pattern s')
       end.

(** [JSON.stringify] of an object leaves out the properties whose value is
    [undefined]. *)
Definition jsonObject (o : Object) : Object :=
  List.filter
    (fun kv => match snd kv with VUndefined => false | _ => true end) o.

Definition jsonManifest (g : GlobalManifest) : GlobalManifest :=
  {| documents := map jsonObject (documents g);
     chunkedFolders := chunkedFolders g;
     _buildMode := _buildMode g |}.

Record Acc := {
  manifest : list MarkdownMeta;
  content : ContentMap;
  errorCount : Z
}.

Definition emptyAcc : Acc :=
  {| manifest := []; content := ∅; errorCount := 0 |}.

Record ProcessingResult := {
  resultManifest : list MarkdownMeta;
  resultContent : ContentMap;
  processedCount : Z;
  resultErrorCount : Z
}.

Record FolderAcc := {
  globalManifest : list MarkdownMeta;
  totalProcessed : Z;
  totalErrors : Z
}.

Abbreviation B := (Async BuildState).

Definition nl : string := String Js.newline EmptyString.

Section Build.

Variable options : Options.
Variable host : Host.

(** [v || ''] *)
Definition orEmpty (v : Value) : Value :=
  if truthy v then v else VString EmptyString.

(** The comparator of [sortManifest]; [NaN] counts as [0].  The properties
    it reads are strings in every record that the plugin builds. *)
Definition compareMeta (a b : MarkdownMeta) : Z :=
  let folderA := orEmpty (get a "folder") in
  let folderB := orEmpty (get b "folder") in
  if negb (strictEq folderA folderB)
  then localeCompare host (toStr folderA) (toStr folderB)
  else if truthy (get a "date") && truthy (get b "date")
  then match dateTime host (toStr (get b "date")),
             dateTime host (toStr (get a "date")) with
       | Some tb, Some ta => tb - ta
       | _, _ => 0
       end
  else if truthy (get a "title") && truthy (get b "title")
  then localeCompare host (toStr (get a "title")) (toStr (get b "title"))
  else localeCompare host (toStr (get a "slug")) (toStr (get b "slug")).

(** [Array.prototype.sort] is stable; it is embedded as insertion, which
    gives the order of the engine when the comparator is consistent on the
    records. *)
Fixpoint insertSorted (x : MarkdownMeta) (l : list MarkdownMeta)
  : list MarkdownMeta :=
  match l with
  | [] => [x]
  | y :: l' =>
      if compareMeta x y <=? 0 then x :: l else y :: insertSorted x l'
  end.

Definition sortManifest (manifest : list MarkdownMeta) : list MarkdownMeta :=
  fold_right insertSorted [] manifest.

(** [if (error)]: the empty message is falsy. *)
Definition errorOf (p : Processed) : option string :=
  match error p with
  | Some e => if Js.isEmpty e then None else Some e
  | None => None
  end.

(** [path.dirname(relPath) === '.' ? undefined : path.dirname(relPath)] *)
Definition folderValue (relPath : string) : Value :=
  if String.eqb (Path.dirname relPath) "." then VUndefined
  else VString (Path.dirname relPath).

Definition slugOf (relPath : string) : string :=
  removeExtension (extension options) relPath.

(** The record that the handler pushes to the manifest. *)
Definition metaOf (relPath : string) (metadata : FileMetadata)
  (validFrontmatter : Frontmatter) : MarkdownMeta :=
  spread
    [("slug", VString (slugOf relPath));
     ("path", VString relPath);
     ("folder", folderValue relPath);
     ("_mtime", VNumber (mtime metadata));
     ("_size", VNumber (size metadata))]
    validFrontmatter.

(** [content[slug] = document] on the object literal [content]: the
    assignment to [__proto__] sets the prototype of the object and defines
    no property. *)
Definition setContent (slug : string) (document : MarkdownContent)
  (content : ContentMap) : ContentMap :=
  if String.eqb slug "__proto__" then content
  else <[slug := document]> content.

(** The handler that [processChangedFiles] and [processFolderFiles] give to
    [execConcurrently], on the accumulators that it closes over:
    [processRead] is the body of its [try] after the first [readFile]. *)
Definition processRead (acc : Acc) (relPath : string) (info : FileInfo)
  (raw : string) : B Acc :=
  let filePath := path info in
  updated ← updateFrontmatterDate options host filePath raw
              (mtime (metadata info));
  parsed ← parseFrontmatter host updated;
  processed ← processMarkdownFile options host filePath;
  match errorOf processed with
  | Some e =>
      throw {| message :=
        match errorContext processed with
        | Some ctx =>
            if Js.isEmpty ctx then e +:+ nl +:+ "  File: " +:+ filePath
            else e +:+ nl +:+ "  File: " +:+ filePath +:+ nl +:+ "  " +:+ ctx
        | None => e +:+ nl +:+ "  File: " +:+ filePath
        end |}
  | None =>
      let slug := slugOf relPath in
      let validFrontmatter :=
        match data parsed with Some f => f | None => [] end in
      mret {| manifest :=
                manifest acc
                ++ [metaOf relPath (metadata info) validFrontmatter];
              content :=
                setContent slug
                  {| frontmatter := validFrontmatter;
                     Types.content := html processed |}
                  (content acc);
              errorCount := errorCount acc |}
  end.

Definition processEntry (acc : Acc) (entry : string * FileInfo) : B Acc :=
  let '(relPath, info) := entry in
  tryCatch
    (raw ← readFile (path info);
     processRead acc relPath info raw)
    (fun _e =>
       mret {| manifest := manifest acc; content := content acc;
               errorCount := errorCount acc + 1 |}).

(** The handlers run in the order of the items: one of the schedules of
    [execConcurrently] (module [Pool]). *)
Definition processChangedFiles (files : FileMap) : B ProcessingResult :=
  acc ← foldM processEntry files emptyAcc;
  mret {| resultManifest := sortManifest (manifest acc);
          resultContent := content acc;
          processedCount := Z.of_nat (List.length (manifest acc));
          resultErrorCount := errorCount acc |}.

Definition processFolderFiles (folderFiles : FileMap) : B Acc :=
  acc ← foldM processEntry folderFiles emptyAcc;
  mret {| manifest := sortManifest (manifest acc);
          content := content acc;
          errorCount := errorCount acc |}.

Definition writeCompressedVersions (filename : string) (c : ContentMap)
  : B unit :=
  if negb (compress options) then mret tt
  else
    tryCatch
      (if canGzip host filename
       then writeAsset host (filename +:+ ".gz") (ContentJsonGz c)
       else throw {| message := "gzip failed" |})
      (fun _error => mret tt).

(** The object literal of [writeMarkdownFiles]. *)
Definition makeGlobalManifest (manifest : list MarkdownMeta)
  (chunkedFolders : option (list string)) : GlobalManifest :=
  {| documents := manifest;
     chunkedFolders :=
       if chunkByFolder options then chunkedFolders else None;
     _buildMode := if chunkByFolder options then chunked else single |}.

Definition writeMarkdownFiles (manifest : list MarkdownMeta)
  (content : ContentMap) (chunkedFolders : option (list string)) : B unit :=
  tryCatch
    (_ ← mkdirAssets host;
     let globalManifest := makeGlobalManifest manifest chunkedFolders in
     _ ← writeAsset host (prefix options +:+ "-manifest.json")
           (ManifestJson (jsonManifest globalManifest));
     if negb (chunkByFolder options) && (0 <? Z.of_nat (base.size content)) then
       if compress options
       then writeCompressedVersions (prefix options +:+ "-content.json") content
       else writeAsset host (prefix options +:+ "-content.json")
              (ContentJson content)
     else mret tt)
    (fun _e => mret tt).

Definition chunkFilename (folder : string) : string :=
  let folderKey := Data.folderKeyOf folder in
  prefix options +:+ "-content-" +:+ folderKey +:+ ".json".

Definition writeFolderFiles (folder : string) (_manifest : list MarkdownMeta)
  (content : ContentMap) : B unit :=
  tryCatch
    (_ ← mkdirAssets host;
     let filename := chunkFilename folder in
     if compress options then writeCompressedVersions filename content
     else writeAsset host filename (ContentJson content))
    (fun _e => mret tt).

(** The handler that [processChangedFolders] gives to [execConcurrently].
    [allFolders.get(folder)] is [undefined] for a folder that is not a key,
    and reading [files.size] then throws inside the [try]. *)
Definition processFolder (allFolders : list (string * FileMap))
  (acc : FolderAcc) (folder : string) : B FolderAcc :=
  tryCatch
    (match Js.mapGet folder allFolders with
     | None => throw {| message := "TypeError" |}
     | Some files =>
         result ← processFolderFiles files;
         _ ← writeFolderFiles folder (manifest result) (content result);
         mret {| globalManifest := globalManifest acc ++ manifest result;
                 totalProcessed :=
                   totalProcessed acc + Z.of_nat (List.length (manifest result));
                 totalErrors := totalErrors acc + errorCount result |}
     end)
    (fun _error =>
       mret {| globalManifest := globalManifest acc;
               totalProcessed := totalProcessed acc;
               totalErrors := totalErrors acc + 1 |}).

(** The handlers of the folders run in the order of the folders: one of
    the schedules of [execConcurrently] (module [Pool]).  The records are
    sorted at the end, and each handler writes the chunk of its folder. *)
Definition processChangedFolders (changedFolders : list string)
  (allFolders : list (string * FileMap)) : B FolderAcc :=
  acc ← foldM (processFolder allFolders) changedFolders
          {| globalManifest := []; totalProcessed := 0; totalErrors := 0 |};
  mret {| globalManifest := sortManifest (globalManifest acc);
          totalProcessed := totalProcessed acc;
          totalErrors := totalErrors acc |}.

(** The previous manifest is the asset [`${prefix}-manifest.json`], which
    is read when it exists; anything else there has no [documents], or does
    not parse. *)
Definition loadPreviousManifest : B (list MarkdownMeta) :=
  tryCatch
    (st ← getState;
     match assets st !! (prefix options +:+ "-manifest.json") with
     | None => mret []
     | Some file =>
         _ ← putState
               {| texts := texts st; assets := assets st;
                  reads :=
                    getAssetPath (prefix options +:+ "-manifest.json")
                    :: reads st |};
         match file with
         | ManifestJson g => mret (documents g)
         | _ => mret []
         end
     end)
    (fun _e => mret []).

(** [buildStart()]; [tree] is [None] when [stat(docsDir)] throws. *)
Definition buildStart (tree : option (list Entry)) : B unit :=
  match tree with
  | None => mret tt
  | Some tree =>
      let docsDir := source options in
      if chunkByFolder options then
        prev ← (if incrementalByFolder options then loadPreviousManifest
                else mret []);
        let fc := checkForFolderChanges options docsDir tree prev in
        if Z.of_nat (List.length (changedFolders fc)) =? 0 then mret tt
        else
          result ← processChangedFolders (changedFolders fc) (allFolders fc);
          let folderList := Js.mapKeys (allFolders fc) in
          writeMarkdownFiles (globalManifest result) ∅ (Some folderList)
      else
        prev ← loadPreviousManifest;
        let c := checkForChanges options docsDir tree prev in
        if negb (changed c) then mret tt
        else
          result ← processChangedFiles (updatedFiles c);
          writeMarkdownFiles (resultManifest result) (resultContent result) None
  end.

(** The text of every file of the tree, by path. *)
Fixpoint textsOfEntry (current : string) (entry : Entry)
  (acc : gmap string string) {struct entry} : gmap string string :=
  match entry with
  | Dir name entries =>
      fold_left (fun acc e => textsOfEntry (Path.join current name) e acc)
        entries acc
  | File name _ text => <[Path.join current name := text]> acc
  end.

Definition sourceTexts (tree : list Entry) : gmap string string :=
  fold_left (fun acc e => textsOfEntry (source options) e acc) tree ∅.

(** The state in which a build starts: the source tree [tree], and
    [previous] in the asset directory. *)
Definition startOf (tree : list Entry) (previous : gmap string Artifact)
  : BuildState :=
  {| texts := sourceTexts tree; assets := previous; reads := [] |}.

(** The state that a build leaves. *)
Definition build (tree : list Entry) (previous : gmap string Artifact)
  : BuildState :=
  snd (buildStart (Some tree) (startOf tree previous)).

End Build.

End Plugin.

(** ** plugins/markdown-plugin.ts: execConcurrently *)

Module Pool.

(** Where the body of [execConcurrently] stands: before an iteration of the
    outer loop; at [await Promise.race(executing)]; at [await executing[i]]
    of the inner loop, with [n = i + 1]; at
    [await Promise.allSettled(executing)]; returned. *)
Inductive Pc :=
| AtLoop
| AtRace
| AtDrain (n : nat)
| AtAllSettled
| Done.

#[export] Instance Pc_eq_dec : EqDecision Pc.
Proof. solve_decision. Defined.

(** A promise returned by [handler] is named by the number of calls made
    before it.  [pending] holds the promises that have not settled,
    [completed] the others in the order in which they settled, with [true]
    for fulfilled and [false] for rejected. *)
Record State (T : Type) := {
  todo : list T;
  executing : list nat;
  pc : Pc;
  invoked : list T;
  pending : list nat;
  completed : list (nat * bool)
}.
Arguments todo {T} _.
Arguments executing {T} _.
Arguments pc {T} _.
Arguments invoked {T} _.
Arguments pending {T} _.
Arguments completed {T} _.

Section Steps.

Context {T : Type}.
Variable limit : Z.

Definition start (items : list T) : State T :=
  {| todo := items; executing := []; pc := AtLoop; invoked := [];
     pending := []; completed := [] |}.

Definition isSettled (s : State T) (p : nat) : bool :=
  bool_decide (p ∉ pending s).

Definition goto (s : State T) (l : Pc) : State T :=
  {| todo := todo s; executing := executing s; pc := l; invoked := invoked s;
     pending := pending s; completed := completed s |}.

(** One step of the body, if it is not blocked on an [await]. *)
Definition advance (s : State T) : option (State T) :=
  match pc s with
  | AtLoop =>
      match todo s with
      | item :: rest =>
          let p := List.length (invoked s) in
          let executing' := executing s ++ [p] in
          Some {| todo := rest;
                  executing := executing';
                  pc := if limit <=? Z.of_nat (List.length executing')
                        then AtRace else AtLoop;
                  invoked := invoked s ++ [item];
                  pending := pending s ++ [p];
                  completed := completed s |}
      | [] => Some (goto s AtAllSettled)
      end
  | AtRace =>
      if existsb (isSettled s) (executing s)
      then Some (goto s (AtDrain (List.length (executing s))))
      else None
  | AtDrain O => Some (goto s AtLoop)
  | AtDrain (S i) =>
      match executing s !! i with
      | Some p =>
          if isSettled s p then
            Some {| todo := todo s;
                    executing := delete i (executing s);
                    pc := AtDrain i;
                    invoked := invoked s;
                    pending := pending s;
                    completed := completed s |}
          else None
      | None => Some (goto s (AtDrain i))
      end
  | AtAllSettled =>
      if forallb (isSettled s) (executing s) then Some (goto s Done) else None
  | Done => None
  end.

(** The promise [p] settles, fulfilled if [fulfilled] and rejected if not. *)
Definition settle (p : nat) (fulfilled : bool) (s : State T)
  : option (State T) :=
  if bool_decide (p ∈ pending s) then
    Some {| todo := todo s; executing := executing s; pc := pc s;
            invoked := invoked s;
            pending := List.filter (fun q => negb (Nat.eqb q p)) (pending s);
            completed := completed s ++ [(p, fulfilled)] |}
  else None.

Inductive step (s s' : State T) : Prop :=
| step_advance : advance s = Some s' -> step s s'
| step_settle p fulfilled : settle p fulfilled s = Some s' -> step s s'.

Inductive steps (s : State T) : State T -> Prop :=
| steps_refl : steps s s
| steps_step s' s'' : steps s s' -> step s' s'' -> steps s s''.

(** The states of [execConcurrently(items, limit, handler)]. *)
Definition reachable (items : list T) (s : State T) : Prop :=
  steps (start items) s.

(** Every promise that has settled settled as [outcome] says. *)
Definition Agree (outcome : nat -> bool) (s : State T) : Prop :=
  forall p b, In (p, b) (completed s) -> b = outcome p.

(** A bound on the number of steps that are left. *)
Definition measure (s : State T) : nat :=
  (5 * List.length (todo s) + List.length (pending s)
   + List.length (executing s)
   + match pc s with
     | AtLoop => 2
     | AtRace => 4
     | AtDrain _ => 3
     | AtAllSettled => 1
     | Done => 0
     end)%nat.

(** What holds in every state of a run on [items]. *)
Record Inv (items : list T) (s : State T) : Prop := {
  inv_items : invoked s ++ todo s = items;
  inv_pending : forall p, p ∈ pending s -> p ∈ executing s;
  inv_settled :
    Permutation (pending s ++ map fst (completed s))
      (seq 0 (List.length (invoked s)));
  inv_pc :
    match pc s with
    | AtLoop => Z.of_nat (List.length (executing s)) < limit
    | AtRace =>
        (1 <= List.length (executing s))%nat
        /\ Z.of_nat (List.length (executing s)) <= limit
    | AtDrain n =>
        List.length (executing s) = n
        /\ Z.of_nat (List.length (executing s)) <= limit
    | AtAllSettled => Z.of_nat (List.length (executing s)) < limit /\ todo s = []
    | Done =>
        Z.of_nat (List.length (executing s)) < limit /\ todo s = []
        /\ pending s = []
    end
}.

End Steps.

End Pool.

(** ** The statements of the specification *)

Module Spec.
Import Utils Types.

(** The character is between [lo] and [hi]. *)
Definition between (lo hi c : ascii) : Prop :=
  (N_of_ascii lo <= N_of_ascii c /\ N_of_ascii c <= N_of_ascii hi)%N.

(** A character of the class a-z, A-Z, 0-9, hyphen, underscore, slash. *)
Definition SlugChar (c : ascii) : Prop :=
  between "a" "z" c \/ between "A" "Z" c \/ between "0" "9" c
  \/ c = "-"%char \/ c = "_"%char \/ c = "/"%char.

(** The conditions of the specification on the trimmed input. *)
Record ValidSlug (t : string) : Prop := {
  valid_nonempty : t <> EmptyString;
  valid_chars : forall c, In c (list_ascii_of_string t) -> SlugChar c;
  valid_no_traversal : ~ exists a b, t = a +:+ ".." +:+ b;
  valid_no_leading : ~ exists b, t = "/" +:+ b;
  valid_no_trailing : ~ exists a, t = a +:+ "/"
}.

(** The five validations of the pipe. *)
Definition validb (t : string) : bool :=
  (1 <=? Js.length t) && slugRegexTest t && negb (Js.includes t "..")
  && negb (Js.startsWith t "/") && negb (Js.endsWith t "/").

(** What the compressed attempt on [gzUrl] yields: the parsed JSON, when the
    fetch resolves with an ok response whose body gunzips and parses. *)
Definition compressedAttempt {T : Type} (assets : Data.Fetcher T)
  (gzUrl : string) : option T :=
  match assets gzUrl with
  | Data.Responds r =>
      if Data.ok r then
        match Data.gunzipJson r with inr v => Some v | inl _ => None end
      else None
  | Data.Rejects _ => None
  end.

(** What the uncompressed attempt on [baseUrl] yields. *)
Definition uncompressedAttempt {T : Type} (assets : Data.Fetcher T)
  (baseUrl : string) : option T :=
  match assets baseUrl with
  | Data.Responds r =>
      if Data.ok r then
        match Data.json r with inr v => Some v | inl _ => None end
      else None
  | Data.Rejects _ => None
  end.

(** The state [st] after the requests [urls], the latest first. *)
Definition requested (urls : list string) (st : Data.State) : Data.State :=
  {| Data.manifestCache := Data.manifestCache st;
     Data.globalManifestCache := Data.globalManifestCache st;
     Data.contentCache := Data.contentCache st;
     Data.folderContentCache := Data.folderContentCache st;
     Data.requests := urls ++ Data.requests st |}.




(** Every cache entry of [st] is an entry of [st']. *)
Record Keeps (st st' : Data.State) : Prop := {
  keeps_global : forall g,
    Data.globalManifestCache st = Some g -> Data.globalManifestCache st' = Some g;
  keeps_manifest : forall m,
    Data.manifestCache st = Some m -> Data.manifestCache st' = Some m;
  keeps_content : forall c,
    Data.contentCache st = Some c -> Data.contentCache st' = Some c;
  keeps_folder : forall f c,
    Data.folderContentCache st !! f = Some c ->
    Data.folderContentCache st' !! f = Some c
}.

(** The caches of [st'] are those of [st]. *)
Definition SameCaches (st st' : Data.State) : Prop :=
  Data.manifestCache st' = Data.manifestCache st
  /\ Data.globalManifestCache st' = Data.globalManifestCache st
  /\ Data.contentCache st' = Data.contentCache st
  /\ Data.folderContentCache st' = Data.folderContentCache st.

(** The folder in which [getMarkdownDocument] looks for [docMeta]:
    [docMeta.folder || 'root']. *)
Definition lookupFolder (docMeta : Types.Object) : Types.Value :=
  if Types.truthy (Types.get docMeta "folder") then Types.get docMeta "folder"
  else Types.VString "root".

(** The entry of the previous manifest for [relPath]: [previousMap] is
    built in the order of the manifest, so the last entry with the path. *)
Definition previousEntry (previous : list Types.Object) (relPath : string)
  : option Types.Object :=
  List.find
    (fun e => bool_decide (Types.get e "path" = Types.VString relPath))
    (rev previous).

(** The recorded mtime or size of the file differs from the entry of the
    previous manifest, or there is no such entry. *)
Definition MetadataChanged (previous : list Types.Object) (relPath : string)
  (m : Types.FileMetadata) : Prop :=
  match previousEntry previous relPath with
  | None => True
  | Some prev =>
      Types.get prev "_mtime" <> Types.VNumber (Types.mtime m)
      \/ Types.get prev "_size" <> Types.VNumber (Types.size m)
  end.

(** What [loadPreviousManifest] reads in the asset directory. *)
Definition previousDocuments (options : Plugin.Options)
  (assets : gmap string Plugin.Artifact) : list Types.Object :=
  match assets !! (Plugin.prefix options +:+ "-manifest.json") with
  | Some (Plugin.ManifestJson g) => documents g
  | _ => []
  end.

(** The path of the previous manifest. *)
Definition manifestPath (options : Plugin.Options) : string :=
  Plugin.getAssetPath (Plugin.prefix options +:+ "-manifest.json").

(** The state that [loadPreviousManifest] leaves: the read of the manifest
    is in the log when the file exists. *)
Definition afterLoad (options : Plugin.Options) (st : Plugin.BuildState)
  : Plugin.BuildState :=
  match Plugin.assets st !! (Plugin.prefix options +:+ "-manifest.json") with
  | Some _ =>
      {| Plugin.texts := Plugin.texts st; Plugin.assets := Plugin.assets st;
         Plugin.reads := manifestPath options :: Plugin.reads st |}
  | None => st
  end.

(** The state in which [buildStart] has the previous manifest: a chunked
    build that is not incremental does not load it. *)
Definition loadedOf (options : Plugin.Options) (tree : list Plugin.Entry)
  (previous : gmap string Plugin.Artifact) : Plugin.BuildState :=
  if Plugin.chunkByFolder options && negb (Plugin.incrementalByFolder options)
  then Plugin.startOf options tree previous
  else afterLoad options (Plugin.startOf options tree previous).

(** The paths of the files of a map. *)
Definition pathsOf (files : Plugin.FileMap) : list string :=
  map (fun entry => Plugin.path (snd entry)) files.

(** The paths of the files of a folder. *)
Definition pathsOfFolder (allFolders : list (string * Plugin.FileMap))
  (folder : string) : list string :=
  match Js.mapGet folder allFolders with
  | Some files => pathsOf files
  | None => []
  end.

(** The reads of [st'] are those of [st] and some of [p]; the assets are the
    same. *)
Definition ReadsOf (p : string) (st st' : Plugin.BuildState) : Prop :=
  Plugin.assets st' = Plugin.assets st
  /\ exists rs, Plugin.reads st' = rs ++ Plugin.reads st /\ Forall (eq p) rs.

(** The name of a content chunk, compressed or not. *)
Definition isChunkName (options : Plugin.Options) (name : string) : Prop :=
  exists folder,
    name = Plugin.chunkFilename options folder
    \/ name = Plugin.chunkFilename options folder +:+ ".gz".




(** An operator of the pattern language other than the dot. *)
Definition isPatternOperator (c : ascii) : bool :=
  match N_of_ascii c with
  | 36%N | 40%N | 41%N | 42%N | 43%N | 63%N | 91%N | 92%N | 93%N | 94%N
  | 123%N | 124%N | 125%N => true
  | _ => false
  end.

(** The extension holds no operator of the pattern language other than the
    dot: [removeExtension] reads such an extension as the [RegExp]
    constructor does. *)
Definition plainExtension (extension : string) : bool :=
  allChars (fun c => negb (isPatternOperator c)) extension.

(** The same tree with the text of every file emptied. *)
Fixpoint eraseText (e : Plugin.Entry) : Plugin.Entry :=
  match e with
  | Plugin.File name stats _ => Plugin.File name stats EmptyString
  | Plugin.Dir name entries => Plugin.Dir name (map eraseText entries)
  end.

End Spec.

(** ** Inputs of the examples *)

Module Examples.
Import Types Data.

Definition sameUrl : string -> string -> string := fun url _ => url.

Definition okResponse {T : Type} (v : T) : HttpResponse T :=
  {| ok := true; status := 200; statusText := "OK";
     gunzipJson := inr v; json := inr v |}.

Definition notFound {T : Type} : HttpResponse T :=
  {| ok := false; status := 404; statusText := "Not Found";
     gunzipJson := inl "incorrect header check";
     json := inl "Unexpected token" |}.

Definition docA : MarkdownContent :=
  {| frontmatter := [("title", VString "A")]; content := "<p>A</p>" |}.

Definition contentA : ContentMap := {["a" := docA]}.

Definition metaA : MarkdownMeta :=
  [("slug", VString "a"); ("path", VString "a.md"); ("title", VString "A")].

Definition chunkedManifest : GlobalManifest :=
  {| documents := [metaA]; chunkedFolders := Some ["root"];
     _buildMode := chunked |}.

(** No manifest is served; the content file is served uncompressed. *)
Definition assetsContentOnly : Assets :=
  {| manifestAssets := fun _ => Responds notFound;
     contentAssets := fun url =>
       if String.eqb url "/assets/docs/markdown-content.json"
       then Responds (okResponse contentA) else Responds notFound |}.

(** A chunked manifest is served, and no content chunk. *)
Definition assetsManifestOnly : Assets :=
  {| manifestAssets := fun url =>
       if String.eqb url "/assets/docs/markdown-manifest.json"
       then Responds (okResponse chunkedManifest) else Responds notFound;
     contentAssets := fun _ => Responds notFound |}.

(** The record of a file [constructor.md]. *)
Definition metaConstructor : MarkdownMeta :=
  [("slug", VString "constructor"); ("path", VString "constructor.md")].

(** A chunked manifest with that record is served, and no content chunk. *)
Definition assetsConstructor : Assets :=
  {| manifestAssets := fun url =>
       if String.eqb url "/assets/docs/markdown-manifest.json"
       then Responds
              (okResponse
                 {| documents := [metaConstructor];
                    chunkedFolders := Some ["root"];
                    _buildMode := chunked |})
       else Responds notFound;
     contentAssets := fun _ => Responds notFound |}.

(** Nothing is served. *)
Definition assetsNone : Assets :=
  {| manifestAssets := fun _ => Responds notFound;
     contentAssets := fun _ => Responds notFound |}.

(** A host on which every operation succeeds; it renders a text as it is
    and compares strings by their code units. *)
Definition host : Plugin.Host :=
  {| Plugin.isoDateOfTime := fun _ => "2024-01-01";
     Plugin.isoDateOfString := fun s => inr s;
     Plugin.dateTime := fun _ => None;
     Plugin.localeCompare := fun a b =>
       match String.compare a b with Lt => -1 | Eq => 0 | Gt => 1 end;
     Plugin.canWrite := fun _ => true;
     Plugin.canMkdir := true;
     Plugin.canGzip := fun _ => true;
     Plugin.markedParse := fun s => Plugin.MarkedString s;
     Plugin.sanitize := fun s => s;
     Plugin.highlightCodeBlocks := None |}.

(** The default options with [chunkByFolder] off. *)
Definition singleOptions : Plugin.Options :=
  {| Plugin.source := "docs";
     Plugin.extension := Config.EXTENSION;
     Plugin.prefix := Config.PREFIX;
     Plugin.updateDate := Config.UPDATE_DATE;
     Plugin.purifyHtml := Config.PURIFY_HTML;
     Plugin.chunkByFolder := false;
     Plugin.incrementalByFolder := Config.INCREMENTAL_BY_FOLDER;
     Plugin.compress := Config.COMPRESS |}.

Definition stats (mtime size : Z) : FileMetadata :=
  {| mtime := mtime; size := size |}.

(** The lines of a text, each ended by a line feed. *)
Definition text (lines : list string) : string :=
  fold_right (fun line rest => line +:+ String Js.newline rest) EmptyString lines.

(** Two files, of which [a.md] was modified after the previous build. *)
Definition treeTouched : list Plugin.Entry :=
  [Plugin.File "a.md" (stats 2000 10) (text ["# A"]);
   Plugin.File "b.md" (stats 1000 10) (text ["# B"])].

Definition previousDocs : list MarkdownMeta :=
  [[("slug", VString "a"); ("path", VString "a.md");
    ("_mtime", VNumber 1000); ("_size", VNumber 10)];
   [("slug", VString "b"); ("path", VString "b.md");
    ("_mtime", VNumber 1000); ("_size", VNumber 10)]].


(** Two files whose frontmatter names the same slug. *)
Definition treeSlug : list Plugin.Entry :=
  [Plugin.File "a.md" (stats 1000 30)
     (text ["---"; "slug: guide"; "---"; "# A"]);
   Plugin.File "b.md" (stats 1000 30)
     (text ["---"; "slug: guide"; "---"; "# B"])].

(** A top-level file whose frontmatter names a folder. *)
Definition treeFolder : list Plugin.Entry :=
  [Plugin.File "a.md" (stats 1000 32)
     (text ["---"; "folder: guides"; "---"; "# A"])].

(** The folders [a/b] and [a-b], with a file each. *)
Definition treeCollision : list Plugin.Entry :=
  [Plugin.Dir "a" [Plugin.Dir "b" [Plugin.File "x.md" (stats 1000 4) (text ["# X"])]];
   Plugin.Dir "a-b" [Plugin.File "y.md" (stats 1000 4) (text ["# Y"])]].

(** The ASSETS binding that serves the files of the asset directory under
    [ASSET_PREFIX.fetch]. *)
Definition assetName (url : string) : option string :=
  if Js.startsWith url "/assets/docs/" then Some (Js.drop 13 url) else None.

Definition serve (files : gmap string Plugin.Artifact) : Assets :=
  {| manifestAssets := fun url =>
       match assetName url ≫= (files !!.) with
       | Some (Plugin.ManifestJson g) =>
           Responds {| ok := true; status := 200; statusText := "OK";
                       gunzipJson := inl "incorrect header check";
                       json := inr g |}
       | _ => Responds notFound
       end;
     contentAssets := fun url =>
       match assetName url ≫= (files !!.) with
       | Some (Plugin.ContentJson c) =>
           Responds {| ok := true; status := 200; statusText := "OK";
                       gunzipJson := inl "incorrect header check";
                       json := inr c |}
       | Some (Plugin.ContentJsonGz c) =>
           Responds {| ok := true; status := 200; statusText := "OK";
                       gunzipJson := inr c;
                       json := inl "Unexpected token" |}
       | _ => Responds notFound
       end |}.

End Examples.

(** ** loaders: markdownLoader and markdownSlugLoader *)

Module Loaders.
Import Types Eff Data.

(** What a loader throws: a [Response], or the error of a call. *)
Inductive Exception :=
| ThrownResponse (r : Utils.Response)
| ThrownError (e : Error).

(** The body of a loader: it returns, or throws an [Exception]. *)
Definition Loader (A : Type) : Type := State -> (Exception + A) * State.

#[export] Instance Loader_ret : MRet Loader :=
  fun A a st => (inr a, st).

#[export] Instance Loader_bind : MBind Loader :=
  fun A B k m st =>
    match m st with
    | (inr a, st') => k a st'
    | (inl x, st') => (inl x, st')
    end.

(** [await] of a call of [markdown-data.ts]. *)
Definition await {A : Type} (m : M A) : Loader A := fun st =>
  match m st with
  | (Ok a, st') => (inr a, st')
  | (Thrown e, st') => (inl (ThrownError e), st')
  end.

Definition throwResponse {A : Type} (r : Utils.Response) : Loader A :=
  fun st => (inl (ThrownResponse r), st).

Definition rethrow {A : Type} (x : Exception) : Loader A :=
  fun st => (inl x, st).

Definition throwError {A : Type} (e : Error) : Loader A :=
  fun st => (inl (ThrownError e), st).

(** [try { body } catch (error) { handler }] *)
Definition catch {A : Type} (body : Loader A) (handler : Exception -> Loader A)
  : Loader A := fun st =>
  match body st with
  | (inr a, st') => (inr a, st')
  | (inl x, st') => handler x st'
  end.

(** What the loaders read of a [Request]: its URL and its [Accept] header. *)
Record Request := { url : string; accept : option string }.

(** What [markdownSlugLoader] returns: the page data, where [loading] is
    [true] or absent, or [Response.json] of a document. *)
Inductive Loaded :=
| Page (manifest : list MarkdownMeta) (selectedDoc : string)
    (document : option MarkdownContent) (loading : bool)
| Json (content : string) (frontmatter : Frontmatter) (slug : string).

Definition documentNotFound : Utils.Response :=
  {| Utils.body := "Document not found"; Utils.status := 404 |}.

Section Loaders.

(** [new URL(url, request.url).href] *)
Variable href : string -> string -> string.

(** [new URL(url).searchParams.has(name)] *)
Variable searchParamsHas : string -> string -> bool.

(** [new Date(date).toLocaleDateString('en-US', ...)] *)
Variable toLocaleDateString : Value -> string.

Definition markdownLoader (request : Request) (ASSETS : Assets)
  : M (list MarkdownMeta) :=
  tryCatch
    (getMarkdownManifest href ASSETS (Some (url request)) None)
    (fun _error => mret []).

(** [url.searchParams.has('api') ||
    request.headers.get('Accept')?.includes('application/json')], as a
    condition. *)
Definition isApiCall (request : Request) : bool :=
  searchParamsHas (url request) "api"
  || match accept request with
     | Some a => Js.includes a "application/json"
     | None => false
     end.

(** [getMarkdownManifest(ASSETS, request).catch(() => [])] *)
Definition manifestOrEmpty (request : Request) (ASSETS : Assets)
  : M (list MarkdownMeta) :=
  tryCatch
    (getMarkdownManifest href ASSETS (Some (url request)) None)
    (fun _ => mret []).

(** [{ ...doc.frontmatter, formattedDate: ... }] *)
Definition enhancedFrontmatter (doc : MarkdownContent) : Frontmatter :=
  spread (frontmatter doc)
    [("formattedDate",
      if truthy (get (frontmatter doc) "date")
      then VString (toLocaleDateString (get (frontmatter doc) "date"))
      else VUndefined)].

(** [error instanceof Response && error.status === 404] *)
Definition isNotFound (error : Exception) : bool :=
  match error with
  | ThrownResponse r => Utils.status r =? 404
  | ThrownError _ => false
  end.

Definition markdownSlugLoader (validatedSlug : string) (request : Request)
  (ASSETS : Assets) : Loader Loaded :=
  catch
    (manifest ← await (manifestOrEmpty request ASSETS);
     let docExists :=
       existsb (fun doc => strictEq (get doc "slug") (VString validatedSlug))
         manifest in
     if negb docExists then throwResponse documentNotFound
     else
       doc ← await (getMarkdownDocument href validatedSlug ASSETS
                      (Some (url request)) None);
       match doc with
       | None =>
           if isApiCall request then throwResponse documentNotFound
           else mret (Page manifest validatedSlug None true)
       | Some (Inherited _) =>
           throwError
             {| message :=
                  "Cannot read properties of undefined (reading 'date')" |}
       | Some (Own doc) =>
           if isApiCall request
           then mret (Json (content doc) (enhancedFrontmatter doc) validatedSlug)
           else
             let enhancedDoc :=
               {| frontmatter := enhancedFrontmatter doc;
                  content := content doc |} in
             mret (Page manifest validatedSlug (Some enhancedDoc) false)
       end)
    (fun error =>
       if isNotFound error then rethrow error
       else if negb (isApiCall request) then
         manifest ← await (manifestOrEmpty request ASSETS);
         mret (Page manifest validatedSlug None true)
       else rethrow error).

End Loaders.

End Loaders.

(** ** components.tsx: the selection of a document from the location *)

Module Components.
Import Types.

(** [ASSET_ROUTES] of [markdown-config.ts] *)
Definition docs (slug : string) : string := "/forge/docs/" +:+ slug.

Definition docsApi (slug : string) : string := "/forge/docs/" +:+ slug +:+ "?api".

(** [parts.indexOf(x)]; [None] is [-1]. *)
Fixpoint indexOf (parts : list string) (x : string) : option nat :=
  match parts with
  | [] => None
  | p :: parts' => if String.eqb p x then Some O else S <$> indexOf parts' x
  end.

(** [parts.join('/')] *)
Fixpoint join (parts : list string) : string :=
  match parts with
  | [] => EmptyString
  | [p] => p
  | p :: parts' => p +:+ "/" +:+ join parts'
  end.

(** The state of [MarkdownPage] that the effect writes, and the URLs given
    to [fetcher.load], the latest first. *)
Record PageState := {
  selectedDoc : option string;
  error : option string;
  loads : list string
}.

(** A string or [undefined], as a condition. *)
Definition given (s : option string) : bool :=
  match s with
  | Some t => negb (Js.isEmpty t)
  | None => false
  end.

(** The body of the effect that initializes the selected document from the
    preloaded data or from [location.pathname]. *)
Definition selectFromLocation (docs : list MarkdownMeta)
  (preloadedDoc : option string) (preloadedDocument : option MarkdownContent)
  (pathname : string) (s : PageState) : PageState :=
  if given preloadedDoc && negb (bool_decide (preloadedDoc = selectedDoc s))
  then {| selectedDoc := preloadedDoc; error := None; loads := loads s |}
  else
    let pathParts := Js.split "/" pathname in
    match indexOf pathParts "docs" with
    | Some docsIndex =>
        if Z.of_nat docsIndex <? Z.of_nat (List.length pathParts) - 1 then
          let slug := join (skipn (docsIndex + 1) pathParts) in
          if negb (Js.isEmpty slug)
             && existsb (fun doc => strictEq (get doc "slug") (VString slug)) docs
             && negb (bool_decide (selectedDoc s = Some slug))
          then
            {| selectedDoc := Some slug;
               error := error s;
               loads :=
                 if match preloadedDocument with Some _ => false | None => true end
                    || negb (bool_decide (preloadedDoc = Some slug))
                 then docsApi slug :: loads s
                 else loads s |}
          else s
        else if given (selectedDoc s) && negb (given preloadedDoc)
        then {| selectedDoc := None; error := None; loads := loads s |}
        else s
    | None =>
        if given (selectedDoc s) && negb (given preloadedDoc)
        then {| selectedDoc := None; error := None; loads := loads s |}
        else s
    end.

End Components.

(** ** The vocabulary of the further properties *)

Module Vocabulary.
Import Utils Types.

(** What [fetchContent] obtains at [url]: the result of the compressed
    attempt, and otherwise of the uncompressed one. *)
Definition fetched {T : Type} (assets : Data.Fetcher T) (url : string)
  : option T :=
  match Spec.compressedAttempt assets (Data.gzUrlOf url) with
  | Some v => Some v
  | None => Spec.uncompressedAttempt assets (Data.baseUrlOf url)
  end.

(** The build mode that [getGlobalManifest] reports in the state [st]: the
    mode of the cached manifest, and otherwise of the manifest that it
    fetches, [single] when it fetches none. *)
Definition modeAt (href : string -> string -> string) (assets : Data.Assets)
  (request prefix : option string) (st : Data.State) : BuildMode :=
  match Data.globalManifestCache st with
  | Some g => _buildMode g
  | None =>
      match fetched (Data.manifestAssets assets)
              (formatAssetUrl href (Data.prefixOr prefix +:+ "-manifest.json")
                 request None) with
      | Some g => _buildMode g
      | None => single
      end
  end.

(** The record without the two properties of the build. *)
Definition Stripped (doc item : Object) : Prop :=
  forall k,
    get item k
    = if bool_decide (k = "_mtime" \/ k = "_size") then VUndefined else get doc k.

End Vocabulary.

(** ** The vocabulary of the properties of the build *)

Module BuildVocabulary.
Import Types Plugin.

(** [a] does not come after [b] for the comparator of [sortManifest]. *)
Definition before (host : Host) (a b : MarkdownMeta) : Prop :=
  compareMeta host a b <= 0.

(** The comparator is a consistent comparator on the records of [l]: any two
    of them are comparable, and the order is transitive. *)
Definition Consistent (host : Host) (l : list MarkdownMeta) : Prop :=
  (forall a b, In a l -> In b l -> before host a b \/ before host b a)
  /\ (forall a b c, In a l -> In b l -> In c l ->
        before host a b -> before host b c -> before host a c).

(** The file that [writeFolderFiles] and [writeMarkdownFiles] write for the
    content [c] under the name [filename]: compressed, with [.gz] added to
    the name, when [compress] is on. *)
Definition contentFile (options : Options) (filename : string) (c : ContentMap)
  : string * Artifact :=
  if compress options then (filename +:+ ".gz", ContentJsonGz c)
  else (filename, ContentJson c).

(** The string holds no line feed. *)
Definition noLineFeed (s : string) : bool :=
  Utils.allChars (fun c => negb (Ascii.eqb c Js.newline)) s.

(** The string holds a character that is not white space. *)
Definition hasInk (s : string) : bool :=
  negb (Utils.allChars Js.isWhiteSpace s).

(** The string holds no colon. *)
Definition noColon (s : string) : bool :=
  Utils.allChars (fun c => negb (Ascii.eqb c ":")) s.

(** A property that the parser of the frontmatter sets: the key is trimmed,
    holds no colon and no line feed, and is not [__proto__]; the value is a
    string, without a line feed unless the host gave it for the key
    [date]. *)
Definition ParsedEntry (entry : string * Value) : Prop :=
  noColon (fst entry) = true
  /\ noLineFeed (fst entry) = true
  /\ Js.trim (fst entry) = fst entry
  /\ fst entry <> "__proto__"
  /\ exists s, snd entry = VString s
               /\ (fst entry <> "date" -> noLineFeed s = true).

(** The line that [updateFrontmatterDate] writes for a property. *)
Definition lineOf (kv : string * Value) : string :=
  fst kv +:+ ": " +:+
  match snd kv with
  | VString s => quoted s
  | v => toStr v
  end.

(** The frontmatter holds none of the properties that the detection of
    changes reads in a record. *)
Definition keepsBuildFields (frontmatter : Frontmatter) : Prop :=
  Js.mapGet "path" frontmatter = None
  /\ Js.mapGet "_mtime" frontmatter = None
  /\ Js.mapGet "_size" frontmatter = None.

(** The records that the handler pushes for the files, as the manifest file
    holds them, where [frontmatterOf] gives the frontmatter of a file. *)
Definition recordsOf (options : Options) (frontmatterOf : string -> Frontmatter)
  (files : FileMap) : list MarkdownMeta :=
  map (fun entry =>
         jsonObject (metaOf options (fst entry) (metadata (snd entry))
                       (frontmatterOf (fst entry))))
    files.

(** A host that highlights: [highlightCodeBlocks] returns the HTML as it
    is. *)
Definition highlighting (sanitize : string -> string) : Host :=
  {| isoDateOfTime := fun _ => "2024-01-01";
     isoDateOfString := fun s => inr s;
     dateTime := fun _ => None;
     localeCompare := fun a b =>
       match String.compare a b with Lt => -1 | Eq => 0 | Gt => 1 end;
     canWrite := fun _ => true;
     canMkdir := true;
     canGzip := fun _ => true;
     markedParse := fun s => MarkedString s;
     sanitize := sanitize;
     highlightCodeBlocks := Some (fun html _ => Highlighted html) |}.

End BuildVocabulary.

(** ** plugins/markdown-plugin.ts: handleHotUpdate *)

Module HotUpdate.
Import Types Eff Plugin.

Section HotUpdate.

Variable options : Options.
Variable host : Host.

(** [path.relative(docsDir, file)] *)
Variable relative : string -> string -> string.

(** [handleHotUpdate({ file, server })] on the source tree [tree]; it
    returns whether it has sent the full reload to the server. *)
Definition handleHotUpdate (file : string) (tree : list Entry) : B bool :=
  if Js.includes file (source options) && Js.endsWith file (extension options)
  then
    let docsDir := source options in
    _ ← (if chunkByFolder options then
           let relativePath := relative docsDir file in
           let folder := folderOf relativePath in
           let allFolders := collectFilesByFolder options docsDir tree in
           let changedFolders := [folder] in
           result ← processChangedFolders options host changedFolders allFolders;
           globalManifest ← loadPreviousManifest options;
           let updatedManifest :=
             List.filter
               (fun item => negb (strictEq (get item "folder") (VString folder)))
               globalManifest
             ++ Plugin.globalManifest result in
           let allFoldersForHotReload :=
             collectFilesByFolder options docsDir tree in
           let folderList := Js.mapKeys allFoldersForHotReload in
           writeMarkdownFiles options host (sortManifest host updatedManifest) ∅
             (Some folderList)
         else
           let files := collectMarkdownFilesWithMetadata options docsDir tree in
           result ← processChangedFiles options host files;
           writeMarkdownFiles options host (resultManifest result)
             (resultContent result) None);
    mret true
  else mret false.

End HotUpdate.

End HotUpdate.

(** ** The vocabulary of the statements on a whole build *)

Module PipelineVocabulary.
Import Types Plugin BuildVocabulary.

(** What the handler of a file does to the accumulators: it pushes the
    record of the file and sets its content, for some frontmatter and
    HTML. *)
Definition Pushed (options : Options) (acc : Acc) (relPath : string)
  (info : FileInfo) (acc' : Acc) : Prop :=
  exists validFrontmatter html,
    manifest acc' = manifest acc ++ [metaOf options relPath (metadata info) validFrontmatter]
    /\ Plugin.content acc'
       = setContent (slugOf options relPath)
           {| frontmatter := validFrontmatter; Types.content := html |}
           (Plugin.content acc)
    /\ errorCount acc' = errorCount acc.

(** Or it counts an error, and leaves the manifest and the content. *)
Definition Failed (acc acc' : Acc) : Prop :=
  manifest acc' = manifest acc
  /\ Plugin.content acc' = Plugin.content acc
  /\ errorCount acc' = errorCount acc + 1.

(** The accumulators [acc''] after the handler has run on the files, in
    their order, from the accumulators [acc]. *)
Fixpoint Steps (options : Options) (files : FileMap) (acc acc'' : Acc) : Prop :=
  match files with
  | [] => acc'' = acc
  | entry :: files' =>
      exists acc',
        (Pushed options acc (fst entry) (snd entry) acc' \/ Failed acc acc')
        /\ Steps options files' acc' acc''
  end.

(** The host can make the asset directory, write every file and, when
    [compress] is on, compress every text. *)
Definition Able (options : Options) (host : Host) : Prop :=
  canMkdir host = true
  /\ (forall filePath, canWrite host filePath = true)
  /\ (compress options = true -> forall filename, canGzip host filename = true).

(** The content that a file of the asset directory holds, when it is a
    content file. *)
Definition chunkOf (a : Artifact) : option ContentMap :=
  match a with
  | ContentJson c | ContentJsonGz c => Some c
  | ManifestJson _ => None
  end.

(** The chunk of [folder], as [writeFolderFiles] writes it, is in the asset
    directory [out] and holds the document [document] under [slug]. *)
Definition Stored (options : Options) (out : gmap string Artifact)
  (folder slug : string) (document : MarkdownContent) : Prop :=
  exists c,
    out !! fst (contentFile options (chunkFilename options folder) c)
    = Some (snd (contentFile options (chunkFilename options folder) c))
    /\ c !! slug = Some document.

(** The frontmatter of the document holds no [slug] and no [folder]. *)
Definition plainDocument (document : MarkdownContent) : bool :=
  negb (Js.mapHas "slug" (frontmatter document))
  && negb (Js.mapHas "folder" (frontmatter document)).

(** No document of a content file of the asset directory holds a [slug] or
    a [folder] in its frontmatter. *)
Definition plainChunks (out : gmap string Artifact) : bool :=
  forallb
    (fun file =>
       match chunkOf (snd file) with
       | Some c => forallb (fun entry => plainDocument (snd entry)) (map_to_list c)
       | None => true
       end)
    (map_to_list out).

(** No two folders have the same [folderKey]. *)
Definition distinctKeys (folders : list (string * FileMap)) : Prop :=
  forall f1 f2,
    In f1 (Js.mapKeys folders) -> In f2 (Js.mapKeys folders) ->
    Data.folderKeyOf f1 = Data.folderKeyOf f2 -> f1 = f2.

(** The record is the record of a file of one of the folders, and the chunk
    of the folder holds, under the slug of the path, a document with the
    frontmatter of the record, unless the slug is [__proto__]. *)
Definition FolderRecord (options : Options)
  (allFolders : list (string * FileMap)) (out : gmap string Artifact)
  (folders : list string) (record : MarkdownMeta) : Prop :=
  exists folder files relPath info validFrontmatter html,
    In folder folders
    /\ Js.mapGet folder allFolders = Some files
    /\ In (relPath, info) files
    /\ record = metaOf options relPath (metadata info) validFrontmatter
    /\ (slugOf options relPath <> "__proto__" ->
        Stored options out folder (slugOf options relPath)
          {| frontmatter := validFrontmatter; Types.content := html |}).

(** The groups of [collectFilesByFolder]: the folders are distinct, the
    paths of a group are distinct, and a file of a group is a collected file
    of the folder. *)
Definition Grouped (files : FileMap) (m : list (string * FileMap)) : Prop :=
  List.NoDup (map fst m)
  /\ forall folder inner, In (folder, inner) m ->
       List.NoDup (map fst inner)
       /\ forall relPath info, In (relPath, info) inner ->
            In (relPath, info) files /\ folderOf relPath = folder.

(** What is in [after] and not in [before] is a chunk as
    [writeFolderFiles] writes it. *)
Definition ChunksOnly (options : Options) (before after : gmap string Artifact)
  : Prop :=
  forall name a, after !! name = Some a ->
    before !! name = Some a
    \/ exists folder c,
         name = fst (contentFile options (chunkFilename options folder) c)
         /\ a = snd (contentFile options (chunkFilename options folder) c).

End PipelineVocabulary.

(** ** A source tree with a folder *)

Module Trees.
Import Types Examples.

(** A top-level file and a file of the folder [guides]. *)
Definition treeGuides : list Plugin.Entry :=
  [Plugin.File "index.md" (stats 1000 8) (text ["# Index"]);
   Plugin.Dir "guides"
     [Plugin.File "intro.md" (stats 2000 30)
        (text ["---"; "title: Intro"; "---"; "# Intro"])]].

(** A top-level file [__proto__.md] whose frontmatter holds a [slug]. *)
Definition treeProto : list Plugin.Entry :=
  [Plugin.File "__proto__.md" (stats 1000 8)
     (text ["---"; "slug: intro"; "---"; "# Proto"])].

(** [path.relative(from, to)] for a path [to] below the directory [from]. *)
Definition relativeBelow (from to : string) : string :=
  Js.drop (String.length from + 1) to.

End Trees.

(** ** components.tsx: the groups of DocList *)

Module DocList.
Import Types Eff ObjectOrder.

(** [doc.folder || ''], as a property key. *)
Definition folderKey (doc : Object) : string :=
  if truthy (get doc "folder") then Plugin.toStr (get doc "folder")
  else EmptyString.

(** The body of the loop of [groupedDocs] on [groups], the own properties
    of the object in the order of their creation.  An inherited property is
    truthy and has no [push]. *)
Definition groupStep (groups : list (string * list Object)) (doc : Object)
  : Error + list (string * list Object) :=
  let folder := folderKey doc in
  match Js.mapGet folder groups with
  | Some folderDocs => inr (Js.mapSet folder (folderDocs ++ [doc]) groups)
  | None =>
      if inherited folder
      then inl {| message := "groups[folder].push is not a function" |}
      else inr (Js.mapSet folder [doc] groups)
  end.

Fixpoint groupLoop (docs : list Object) (groups : list (string * list Object))
  : Error + list (string * list Object) :=
  match docs with
  | [] => inr groups
  | doc :: docs' =>
      match groupStep groups doc with
      | inl e => inl e
      | inr groups' => groupLoop docs' groups'
      end
  end.

(** [groupedDocs()] *)
Definition groupedDocs (docs : list Object)
  : Error + list (string * list Object) :=
  groupLoop docs [].

End DocList.

(** ** plugins/markdown-plugin.ts: the highlighter *)

Module Highlight.
Import Types Eff Plugin.

(** The text before and after the first occurrence of [p] in [s]. *)
Fixpoint cut (s p : string) : option (string * string) :=
  if Js.startsWith s p then Some (EmptyString, Js.drop (String.length p) s)
  else match s with
       | EmptyString => None
       | String c s' =>
           match cut s' p with
           | Some (before, after) => Some (String c before, after)
           | None => None
           end
       end.

(** The longest prefix of [s] whose characters are in the class, and the
    rest. *)
Fixpoint span (cls : ascii -> bool) (s : string) : string * string :=
  match s with
  | EmptyString => (EmptyString, EmptyString)
  | String c s' =>
      if cls c then let (a, b) := span cls s' in (String c a, b)
      else (EmptyString, s)
  end.

(** [s.replace(/p/g, r)] for a pattern [p] and a replacement [r] without
    operators; [skip] is the number of characters up to the end of the last
    match. *)
Fixpoint replaceAll (p r : string) (s : string) (skip : nat) : string :=
  match s with
  | EmptyString => EmptyString
  | String c s' =>
      match skip with
      | S k => replaceAll p r s' k
      | O =>
          if Js.startsWith s p
          then r +:+ replaceAll p r s' (String.length p - 1)
          else String c (replaceAll p r s' 0)
      end
  end.

(** The replacement text of [String.prototype.replace] for a string
    pattern: [$$], [$&], [$`] and [$'] are expanded; there are no
    captures. *)
Fixpoint substitution (matched before after : string) (r : string) : string :=
  match r with
  | EmptyString => EmptyString
  | String "$" (String "$" r') =>
      String "$" (substitution matched before after r')
  | String "$" (String "&" r') =>
      matched +:+ substitution matched before after r'
  | String "$" (String "`" r') =>
      before +:+ substitution matched before after r'
  | String "$" (String "'" r') =>
      after +:+ substitution matched before after r'
  | String c r' => String c (substitution matched before after r')
  end.

(** [s.replace(p, r)] for strings [p] and [r]. *)
Definition replaceString (s p r : string) : string :=
  match cut s p with
  | Some (before, after) => before +:+ substitution p before after r +:+ after
  | None => s
  end.

(** A match of [codeBlockRegex]: [match[0]], [match[1]] and [match[2]]. *)
Record Block := {
  fullMatch : string;
  language : option string;
  codeContent : string
}.

Definition preCode : string := "<pre><code".

(** The text [class=], a quotation mark and [language-]. *)
Definition classAttribute : string := "class=" +:+ String Js.dquote "language-".

Definition codePre : string := "</code></pre>".

(** The optional group of [codeBlockRegex] (white space, the class
    attribute, the language up to the next quotation mark, and that mark)
    and the [>] after it, at the start of [s]: the language, when the group
    takes part, and what follows.  The white space and the language are the
    longest that there are: after a shorter one the next character is not
    the one that the pattern asks for. *)
Definition openingTag (s : string) : option (option string * string) :=
  if Js.startsWith s ">" then Some (None, Js.drop 1 s)
  else
    let (spaces, r) := span Js.isWhiteSpace s in
    if Js.isEmpty spaces then None
    else if Js.startsWith r classAttribute then
      let (lang, r') :=
        span (fun c => negb (Ascii.eqb c Js.dquote))
          (Js.drop (String.length classAttribute) r) in
      if Js.startsWith r' (String Js.dquote ">")
      then Some (Some lang, Js.drop 2 r')
      else None
    else None.

(** The match of [codeBlockRegex] at the start of [s], and what follows
    it. *)
Definition blockAt (s : string) : option (Block * string) :=
  if Js.startsWith s preCode then
    match openingTag (Js.drop (String.length preCode) s) with
    | Some (lang, r) =>
        match cut r codePre with
        | Some (code, rest) =>
            Some ({| fullMatch :=
                       Js.take (String.length s - String.length rest) s;
                     language := lang;
                     codeContent := code |}, rest)
        | None => None
        end
    | None => None
    end
  else None.

(** [[...s.matchAll(codeBlockRegex)]]; [skip] is the number of characters
    up to [lastIndex]. *)
Fixpoint matchAll (s : string) (skip : nat) : list Block :=
  match s with
  | EmptyString => []
  | String _ s' =>
      match skip with
      | S k => matchAll s' k
      | O =>
          match blockAt s with
          | Some (block, _) =>
              block :: matchAll s' (String.length (fullMatch block) - 1)
          | None => matchAll s' 0
          end
      end
  end.

(** The five replacements that decode the entities, in their order. *)
Definition decodeEntities (codeContent : string) : string :=
  replaceAll "&#39;" "'"
    (replaceAll "&quot;" (String Js.dquote EmptyString)
       (replaceAll "&amp;" "&"
          (replaceAll "&gt;" ">"
             (replaceAll "&lt;" "<" codeContent 0) 0) 0) 0) 0.

(** [language || 'text'] *)
Definition languageOrText (language : option string) : string :=
  match language with
  | Some l => if Js.isEmpty l then "text" else l
  | None => "text"
  end.

(** [`${language}`] *)
Definition languageText (language : option string) : string :=
  match language with
  | Some l => l
  | None => "undefined"
  end.

Definition errorContextOf (language : option string) (decodedContent : string)
  : string :=
  let codeSnippet :=
    replaceAll nl (String "\" "n") (Js.take 100 decodedContent) 0 in
  "Language: `" +:+ languageOrText language +:+ "`" +:+ nl
  +:+ "  Code snippet: " +:+ String Js.dquote codeSnippet
  +:+ (if 100 <? Js.length decodedContent then "..." else EmptyString)
  +:+ String Js.dquote EmptyString.

Section Highlighter.

(** [highlighter.highlight(code, language)]; [inl] is what it throws. *)
Variable highlight : string -> string -> Error + string.

(** The loop over the matches, on [processedContent]. *)
Fixpoint highlightLoop (matches : list Block) (processedContent : string)
  : HighlightResult :=
  match matches with
  | [] => Highlighted processedContent
  | block :: matches' =>
      if Js.isEmpty (codeContent block)
      then highlightLoop matches' processedContent
      else
        let decodedContent := decodeEntities (codeContent block) in
        match highlight decodedContent (languageOrText (language block)) with
        | inr highlightedContent =>
            highlightLoop matches'
              (replaceString processedContent (fullMatch block)
                 highlightedContent)
        | inl _error =>
            HighlightError
              ("Failed to highlight code block with language "
               +:+ String Js.dquote (languageText (language block))
               +:+ String Js.dquote EmptyString)
              (Some (errorContextOf (language block) decodedContent))
        end
  end.

(** Whether the highlighter throws on the block. *)
Definition fails (block : Block) : bool :=
  match highlight (decodeEntities (codeContent block))
          (languageOrText (language block)) with
  | inl _ => true
  | inr _ => false
  end.

(** [highlightCodeBlocks(htmlContent, highlighter, filePath)]; the path is
    read for the console only. *)
Definition highlightCodeBlocks (htmlContent : string) : HighlightResult :=
  highlightLoop (matchAll htmlContent 0) htmlContent.

End Highlighter.

Section Shiki.

(** [highlighter.codeToHtml(code, { lang, theme, colorReplacements })] of
    the highlighter that [createHighlighter] returned. *)
Variable codeToHtml : string -> string -> Error + string.

Definition preClass : string :=
  "<pre class=" +:+ String Js.dquote "overflow-x-auto text-xs md:text-sm"
  +:+ String Js.dquote " style=" +:+ String Js.dquote
        "background-color: #1f2937 !important;"
  +:+ String Js.dquote ">".

(** [html.replace(/<pre[^>]*>/, preClass)]: the first [<pre] that a [>]
    follows, up to that [>]. *)
Fixpoint replacePre (html : string) : string :=
  if Js.startsWith html "<pre" then
    match cut (Js.drop 4 html) ">" with
    | Some (_, after) => preClass +:+ after
    | None => html
    end
  else match html with
       | EmptyString => EmptyString
       | String c html' => String c (replacePre html')
       end.

(** The [highlight] of the object that [createShikiHighlighter] returns. *)
Definition shikiHighlight (code language : string) : Error + string :=
  match codeToHtml code language with
  | inr html => inr (replacePre html)
  | inl error =>
      if Js.includes (message error) "not found"
      then inl {| message := "Language `" +:+ language
                             +:+ "` not found in Shiki highlighter" |}
      else inl error
  end.

End Shiki.

(** A paragraph, a block of JavaScript and a paragraph. *)
Definition sampleHtml : string :=
  "<p>x</p><pre><code class=" +:+ String Js.dquote "language-js"
  +:+ String Js.dquote ">a &lt; b</code></pre><p>y</p>".

(** A highlighter that wraps the code in a [span] of the language. *)
Definition sampleHighlight (code language : string) : Error + string :=
  inr ("<span class=" +:+ language +:+ ">" +:+ code +:+ "</span>").

(** A [codeToHtml] that returns a [pre] element with a style. *)
Definition sampleCodeToHtml (code language : string) : Error + string :=
  inr ("<pre style=" +:+ language +:+ "><code>" +:+ code +:+ "</code></pre>").

(** A block without a class. *)
Definition sampleBare : string := "<pre><code>x</code></pre>".

(** A highlighter that knows no language. *)
Definition sampleFailing (code language : string) : Error + string :=
  inl {| message := "Language not found" |}.

End Highlight.

(** * Properties *)

(** ** Strings *)

Section StringFacts.

Lemma startsWith_spec (s p : string) :
  Js.startsWith s p = true <-> exists b, s = p +:+ b.
Proof.
  revert s. induction p as [|c p IH]; intros s; simpl.
  - split; [intros _; exists s; reflexivity | intros _; reflexivity].
  - destruct s as [|d s]; simpl.
    + split; [discriminate | intros [b Hb]; discriminate].
    + rewrite andb_true_iff, IH, Ascii.eqb_eq.
      split; [intros [-> [b ->]]; exists b; reflexivity|].
      intros [b Hb]. injection Hb as -> ->. split; [reflexivity | exists b; reflexivity].
Qed.

Lemma includes_unfold (s p : string) :
  Js.includes s p =
  if Js.startsWith s p then true
  else match s with
       | EmptyString => false
       | String _ s' => Js.includes s' p
       end.
Proof. destruct s; reflexivity. Qed.

Lemma includes_spec (s p : string) :
  Js.includes s p = true <-> exists a b, s = a +:+ p +:+ b.
Proof.
  split.
  - induction s as [|c s IH]; rewrite includes_unfold;
      destruct (Js.startsWith _ p) eqn:Hp.
    + intros _. apply startsWith_spec in Hp as [b Hb]. exists EmptyString, b. exact Hb.
    + discriminate.
    + intros _. apply startsWith_spec in Hp as [b Hb]. exists EmptyString, b. exact Hb.
    + intros H. destruct (IH H) as (a & b & ->). exists (String c a), b. reflexivity.
  - intros (a & b & ->). induction a as [|c a IH]; rewrite includes_unfold.
    + assert (Js.startsWith (EmptyString +:+ p +:+ b) p = true) as ->; [|reflexivity].
      apply startsWith_spec. exists b. reflexivity.
    + destruct (Js.startsWith _ p); [reflexivity | exact IH].
Qed.

Lemma endsWith_unfold (s p : string) :
  Js.endsWith s p =
  if String.eqb s p then true
  else match s with
       | EmptyString => false
       | String _ s' => Js.endsWith s' p
       end.
Proof. destruct s; reflexivity. Qed.

Lemma endsWith_spec (s p : string) :
  Js.endsWith s p = true <-> exists a, s = a +:+ p.
Proof.
  split.
  - induction s as [|c s IH]; rewrite endsWith_unfold;
      destruct (String.eqb _ p) eqn:He.
    + intros _. apply String.eqb_eq in He. exists EmptyString. exact He.
    + discriminate.
    + intros _. apply String.eqb_eq in He. exists EmptyString. exact He.
    + intros H. destruct (IH H) as [a ->]. exists (String c a). reflexivity.
  - intros [a ->]. induction a as [|c a IH]; rewrite endsWith_unfold.
    + simpl. rewrite String.eqb_refl. reflexivity.
    + destruct (String.eqb _ p); [reflexivity | exact IH].
Qed.

Lemma allChars_spec (f : ascii -> bool) (s : string) :
  Utils.allChars f s = true <->
  forall c, In c (list_ascii_of_string s) -> f c = true.
Proof.
  induction s as [|d s IH]; simpl.
  - split; [intros _ c [] | reflexivity].
  - rewrite andb_true_iff, IH. split.
    + intros [Hd Hs] c [<-|Hc]; auto.
    + intros H. split; [apply H; left; reflexivity | intros c Hc; apply H; right; exact Hc].
Qed.

Lemma isEmpty_spec (s : string) : Js.isEmpty s = true <-> s = EmptyString.
Proof. destruct s; simpl; split; congruence. Qed.

End StringFacts.

(** ** validateDocumentSlug *)

Module SlugFacts.
Import Utils Spec.

Lemma code_eq (c d : ascii) : N_of_ascii c = N_of_ascii d <-> c = d.
Proof.
  split; [|intros ->; reflexivity].
  intros H. rewrite <- (ascii_N_embedding c), <- (ascii_N_embedding d), H.
  reflexivity.
Qed.

Lemma slugClass_spec (c : ascii) : slugClass c = true <-> SlugChar c.
Proof.
  unfold slugClass, SlugChar, between.
  rewrite !orb_true_iff, !andb_true_iff, !N.leb_le, !N.eqb_eq.
  rewrite <- !code_eq. simpl N_of_ascii. tauto.
Qed.

Lemma length_nonempty (t : string) :
  (1 <=? Js.length t) = true <-> t <> EmptyString.
Proof.
  unfold Js.length. destruct t as [|c t]; simpl String.length.
  - split; [discriminate | congruence].
  - split; [discriminate | intros _; apply Z.leb_le; lia].
Qed.

Lemma validb_spec (t : string) : validb t = true <-> ValidSlug t.
Proof.
  unfold validb, slugRegexTest.
  rewrite !andb_true_iff, !negb_true_iff, length_nonempty, allChars_spec.
  rewrite <- !not_true_iff_false, isEmpty_spec, includes_spec,
    startsWith_spec, endsWith_spec.
  split.
  - intros ((((Hne & _ & Hc) & Ht) & Hl) & He).
    constructor; try assumption.
    intros c Hin. apply slugClass_spec, Hc, Hin.
  - intros [Hne Hc Ht Hl He]. repeat split; try assumption.
    intros c Hin. apply slugClass_spec, Hc, Hin.
Qed.

(** [parseDocumentSlug] on a string, by the five validations. *)
Lemma parseDocumentSlug_string (s : string) :
  (validb (Js.trim s) = true /\ parseDocumentSlug (JsString s) = inr (Js.trim s))
  \/ (validb (Js.trim s) = false /\
      exists m issues, parseDocumentSlug (JsString s) = inl (m :: issues)
                       /\ m <> EmptyString).
Proof.
  unfold validb, parseDocumentSlug.
  generalize (1 <=? Js.length (Js.trim s)), (slugRegexTest (Js.trim s)),
    (Js.includes (Js.trim s) ".."), (Js.startsWith (Js.trim s) "/"),
    (Js.endsWith (Js.trim s) "/").
  intros [] [] [] [] []; cbn [check negb andb app];
    first [ left; split; reflexivity
          | right; split; [reflexivity|]; eexists _, _;
            split; [reflexivity | discriminate] ].
Qed.

(** C9. [validateDocumentSlug] returns the trimmed input exactly when the
    input is a string whose trimmed form is not empty, has only characters
    of the class a-z, A-Z, 0-9, hyphen, underscore and slash, does not
    contain two dots in a row, and neither starts nor ends with a slash; on
    every other input it throws a [Response] of status 400. *)
Theorem validateDocumentSlug_spec (input : JsValue) :
  (exists s, input = JsString s /\ ValidSlug (Js.trim s)
             /\ validateDocumentSlug input = Returns (Js.trim s))
  \/ ((~ exists s, input = JsString s /\ ValidSlug (Js.trim s))
      /\ exists m, validateDocumentSlug input
                   = Throws {| body := m; status := 400 |}).
Proof.
  destruct input as [| |b|z|s|ctor];
    try (right; split;
         [intros (s' & Hs' & _); discriminate | eexists; reflexivity]).
  destruct (parseDocumentSlug_string s) as [[Hv Hp]|[Hv (m & issues & Hp & Hm)]].
  - left. exists s. split; [reflexivity|]. split; [apply validb_spec, Hv|].
    unfold validateDocumentSlug. rewrite Hp. reflexivity.
  - right. split.
    + intros (s' & Hs' & Hvalid). injection Hs' as <-.
      apply validb_spec in Hvalid. congruence.
    + unfold validateDocumentSlug. rewrite Hp. eexists. reflexivity.
Qed.

End SlugFacts.

(** ** fetchContent *)

Module FetchFacts.
Import Types Eff Data Spec.

Lemma requested_nil (st : State) : requested [] st = st.
Proof. destruct st; reflexivity. Qed.

Lemma requested_app (us vs : list string) (st : State) :
  requested us (requested vs st) = requested (us ++ vs) st.
Proof. unfold requested; simpl. rewrite app_assoc. reflexivity. Qed.

Lemma fetchFn_run {T : Type} (assets : Fetcher T) (url : string) (st : State) :
  fetchFn assets url st =
  (match assets url with
   | Responds r => Ok r
   | Rejects m => Thrown {| message := m |}
   end, requested [url] st).
Proof. unfold fetchFn, requested. destruct (assets url); reflexivity. Qed.

Lemma fetchCompressed_run {T : Type} (assets : Fetcher T) (gzUrl : string)
  (st : State) :
  fetchCompressed gzUrl assets st
  = (Ok (compressedAttempt assets gzUrl), requested [gzUrl] st).
Proof.
  unfold fetchCompressed, tryCatch, compressedAttempt, mbind, Async_bind.
  rewrite fetchFn_run. destruct (assets gzUrl) as [m|r]; [reflexivity|].
  destruct (ok r); [|reflexivity].
  destruct (gunzipJson r); reflexivity.
Qed.

Lemma fetchUncompressed_run {T : Type} (assets : Fetcher T)
  (gzUrl baseUrl : string) (st : State) :
  match uncompressedAttempt assets baseUrl with
  | Some v =>
      fetchUncompressed gzUrl baseUrl assets st
      = (Ok v, requested [baseUrl] st)
  | None =>
      exists e, fetchUncompressed gzUrl baseUrl assets st
                = (Thrown e, requested [baseUrl] st)
  end.
Proof.
  unfold fetchUncompressed, tryCatch, uncompressedAttempt, mbind, Async_bind.
  rewrite fetchFn_run. destruct (assets baseUrl) as [m|r].
  - eexists. reflexivity.
  - destruct (ok r); simpl; [|eexists; reflexivity].
    destruct (json r); simpl; [eexists; reflexivity | reflexivity].
Qed.

(** [fetchContent], by the outcome of its two attempts. *)
Lemma fetchContent_run {T : Type} (url : string) (assets : Fetcher T)
  (st : State) :
  let baseUrl := baseUrlOf url in
  let gzUrl := baseUrl +:+ ".gz" in
  match compressedAttempt assets gzUrl, uncompressedAttempt assets baseUrl with
  | Some v, _ => fetchContent url assets st = (Ok v, requested [gzUrl] st)
  | None, Some v =>
      fetchContent url assets st = (Ok v, requested [baseUrl; gzUrl] st)
  | None, None =>
      exists e, fetchContent url assets st
                = (Thrown e, requested [baseUrl; gzUrl] st)
  end.
Proof.
  intros baseUrl gzUrl. unfold fetchContent. fold baseUrl. fold gzUrl.
  unfold mbind, Async_bind. rewrite fetchCompressed_run.
  destruct (compressedAttempt assets gzUrl) as [v|]; [reflexivity|].
  pose proof (fetchUncompressed_run assets gzUrl baseUrl (requested [gzUrl] st)) as H.
  destruct (uncompressedAttempt assets baseUrl) as [v|].
  - rewrite H, requested_app. reflexivity.
  - destruct H as [e He]. exists e. rewrite He, requested_app. reflexivity.
Qed.

(** C5. [fetchContent] first requests the base URL with [.gz] appended; if
    that attempt fails or its response is not ok, it requests the base URL;
    it returns the JSON of the first attempt that succeeds, and it throws
    exactly when both attempts fail. *)
Theorem fetchContent_fallback {T : Type} (url : string) (assets : Fetcher T)
  (st : State) :
  let baseUrl := baseUrlOf url in
  let gzUrl := baseUrl +:+ ".gz" in
  match compressedAttempt assets gzUrl, uncompressedAttempt assets baseUrl with
  | Some v, _ => fetchContent url assets st = (Ok v, requested [gzUrl] st)
  | None, Some v =>
      fetchContent url assets st = (Ok v, requested [baseUrl; gzUrl] st)
  | None, None =>
      exists e, fetchContent url assets st
                = (Thrown e, requested [baseUrl; gzUrl] st)
  end.
Proof. exact (fetchContent_run url assets st). Qed.

End FetchFacts.

(** ** The caches of markdown-data.ts *)

Module CacheFacts.
Import Types Eff Data Spec FetchFacts.

Section WithHref.

Variable href : string -> string -> string.

Lemma Keeps_refl (st : State) : Keeps st st.
Proof. constructor; auto. Qed.

Lemma Keeps_trans (a b c : State) : Keeps a b -> Keeps b c -> Keeps a c.
Proof. intros [] []. constructor; auto. Qed.

Lemma SameCaches_refl (st : State) : SameCaches st st.
Proof. repeat split. Qed.

Lemma SameCaches_trans (a b c : State) :
  SameCaches a b -> SameCaches b c -> SameCaches a c.
Proof. unfold SameCaches. intros (?&?&?&?) (?&?&?&?). repeat split; congruence. Qed.

Lemma SameCaches_Keeps (st st' : State) : SameCaches st st' -> Keeps st st'.
Proof. intros (H1 & H2 & H3 & H4). constructor; intros; congruence. Qed.

Lemma SameCaches_requested (urls : list string) (st : State) :
  SameCaches st (requested urls st).
Proof. repeat split. Qed.

(** [fetchContent] requests at least one URL and leaves the caches. *)
Lemma fetchContent_frame {T : Type} (url : string) (assets : Fetcher T)
  (st : State) :
  exists r u urls, fetchContent url assets st = (r, requested (u :: urls) st).
Proof.
  pose proof (fetchContent_run url assets st) as H. cbv zeta in H.
  destruct (compressedAttempt _ _); [eauto|].
  destruct (uncompressedAttempt _ _); [eauto|].
  destruct H as [e He]. eauto.
Qed.

Lemma getGlobalManifest_run (a : Assets) (r p : option string) (st : State) :
  getGlobalManifest href a r p st =
  match globalManifestCache st with
  | Some g => (Ok g, st)
  | None =>
      match fetchContent
              (Utils.formatAssetUrl href (prefixOr p +:+ "-manifest.json") r None)
              (manifestAssets a) st with
      | (Ok g, st1) => (Ok g, snd (setGlobalManifestCache (Some g) st1))
      | (Thrown _, st1) => (Ok fallbackManifest, st1)
      end
  end.
Proof.
  unfold getGlobalManifest, mbind, Async_bind, getState, tryCatch.
  destruct (globalManifestCache st); [reflexivity|].
  destruct (fetchContent _ _ st) as [[g|e] st1]; reflexivity.
Qed.

(** [getGlobalManifest] never throws; it keeps the caches and touches only
    its own; what it returns is in the cache afterwards, unless it is the
    value of the error branch, which leaves the caches as they were. *)
Lemma getGlobalManifest_ok (a : Assets) (r p : option string) (st : State) :
  exists g st', getGlobalManifest href a r p st = (Ok g, st')
    /\ Keeps st st'
    /\ (manifestCache st' = manifestCache st
        /\ contentCache st' = contentCache st
        /\ folderContentCache st' = folderContentCache st)
    /\ (globalManifestCache st' = Some g
        \/ (g = fallbackManifest /\ SameCaches st st'
            /\ globalManifestCache st = None)).
Proof.
  rewrite getGlobalManifest_run.
  destruct (globalManifestCache st) as [g|] eqn:Hc.
  - exists g, st. split; [reflexivity|]. split; [apply Keeps_refl|].
    split; [auto | left; exact Hc].
  - destruct (fetchContent_frame
                (Utils.formatAssetUrl href (prefixOr p +:+ "-manifest.json") r None)
                (manifestAssets a) st) as (res & u & urls & ->).
    destruct res as [g|e].
    + eexists _, _. split; [reflexivity|]. simpl.
      split; [|split; [auto | left; reflexivity]].
      constructor; simpl; auto. intros g'. congruence.
    + eexists _, _. split; [reflexivity|].
      split; [apply SameCaches_Keeps, SameCaches_requested|].
      split; [simpl; auto|].
      right. split; [reflexivity|]. split; [apply SameCaches_requested | reflexivity].
Qed.

Lemma getGlobalManifest_hit (a : Assets) (r p : option string) (st : State)
  (g : GlobalManifest) :
  globalManifestCache st = Some g ->
  getGlobalManifest href a r p st = (Ok g, st).
Proof. intros H. rewrite getGlobalManifest_run, H. reflexivity. Qed.

Lemma getMarkdownManifest_hit (a : Assets) (r p : option string) (st : State)
  (m : list MarkdownMeta) :
  manifestCache st = Some m ->
  getMarkdownManifest href a r p st = (Ok m, st).
Proof.
  intros H. unfold getMarkdownManifest, mbind, Async_bind, getState.
  rewrite H. reflexivity.
Qed.

(** [getMarkdownManifest] never throws, and what it returns is in its cache
    afterwards. *)
Lemma getMarkdownManifest_ok (a : Assets) (r p : option string) (st : State) :
  exists m st', getMarkdownManifest href a r p st = (Ok m, st')
    /\ Keeps st st' /\ manifestCache st' = Some m.
Proof.
  destruct (manifestCache st) as [m|] eqn:Hc.
  - exists m, st. rewrite (getMarkdownManifest_hit a r p st m Hc).
    split; [reflexivity|]. split; [apply Keeps_refl | exact Hc].
  - destruct (getGlobalManifest_ok a r p st) as (g & st1 & Hg & Hk & (Hm & Hcc & Hf) & _).
    unfold getMarkdownManifest, mbind, Async_bind, getState.
    rewrite Hc, Hg. eexists _, _. split; [reflexivity|]. simpl.
    split; [|reflexivity].
    destruct Hk as [K1 K2 K3 K4]. constructor; simpl; auto.
    intros m. congruence.
Qed.


(** [getMarkdownContent] never throws; what it returns is in its cache
    afterwards, or it is the empty map and its cache is as before. *)
Lemma getMarkdownContent_ok (a : Assets) (r p : option string) (st : State) :
  exists c st', getMarkdownContent href a r p st = (Ok c, st')
    /\ Keeps st st'
    /\ (contentCache st' = Some c
        \/ (c = ∅ /\ contentCache st' = contentCache st)).
Proof.
  destruct (getGlobalManifest_ok a r p st) as (g & st1 & Hg & Hk & (Hm & Hcc & Hf) & _).
  unfold getMarkdownContent, mbind, Async_bind. rewrite Hg.
  destruct (decide (_buildMode g = chunked)) as [_|_].
  - exists ∅, st1. split; [reflexivity|]. split; [exact Hk|]. right. auto.
  - unfold getState. destruct (contentCache st1) as [c|] eqn:Hc1.
    + exists c, st1. split; [reflexivity|]. split; [exact Hk | left; exact Hc1].
    + unfold tryCatch.
      destruct (fetchContent_frame
                  (Utils.formatAssetUrl href (prefixOr p +:+ "-content.json") r None)
                  (contentAssets a) st1) as (res & u & urls & ->).
      destruct res as [c|e].
      * eexists _, _. split; [reflexivity|]. simpl. split; [|left; reflexivity].
        apply (Keeps_trans _ st1); [exact Hk|].
        constructor; simpl; auto. intros c'. congruence.
      * eexists _, _. split; [reflexivity|]. simpl.
        split; [|right; split; [reflexivity | congruence]].
        apply (Keeps_trans _ st1); [exact Hk|].
        apply SameCaches_Keeps, SameCaches_requested.
Qed.

Lemma loadFolderContent_hit (f : string) (a : Assets) (r p : option string)
  (st : State) (c : ContentMap) :
  folderContentCache st !! f = Some c ->
  loadFolderContent href (VString f) a r p st = (Ok c, st).
Proof.
  intros H. unfold loadFolderContent, mbind, Async_bind, getState.
  rewrite H. reflexivity.
Qed.

(** [loadFolderContent] never throws; what it returns for a folder is in
    the cache of the folder afterwards, or it is the empty map of the error
    branch, which leaves the caches as they were. *)
Lemma loadFolderContent_ok (folder : Value) (a : Assets) (r p : option string)
  (st : State) :
  exists c st', loadFolderContent href folder a r p st = (Ok c, st')
    /\ Keeps st st'
    /\ ((exists f, folder = VString f /\ folderContentCache st' !! f = Some c)
        \/ (c = ∅ /\ SameCaches st st')).
Proof.
  destruct folder as [|f|z];
    try (exists ∅, st; split; [reflexivity|];
         split; [apply Keeps_refl | right; split; [reflexivity | apply SameCaches_refl]]).
  destruct (folderContentCache st !! f) as [c|] eqn:Hc.
  - exists c, st. rewrite (loadFolderContent_hit f a r p st c Hc).
    split; [reflexivity|]. split; [apply Keeps_refl | left; eauto].
  - unfold loadFolderContent, mbind, Async_bind, getState, tryCatch. rewrite Hc.
    destruct (fetchContent_frame
                (Utils.formatAssetUrl href
                   (prefixOr p +:+ "-content-" +:+ folderKeyOf f +:+ ".json") r None)
                (contentAssets a) st) as (res & u & urls & ->).
    destruct res as [c|e].
    + eexists _, _. split; [reflexivity|]. simpl.
      split; [|left; exists f; split; [reflexivity | apply lookup_insert_eq]].
      constructor; simpl; auto.
      intros f' c' Hf'. rewrite lookup_insert_ne; [exact Hf'|]. congruence.
    + eexists _, _. split; [reflexivity|].
      split; [apply SameCaches_Keeps, SameCaches_requested|].
      right. split; [reflexivity | apply SameCaches_requested].
Qed.

(** [getMarkdownDocument], step by step: each inner call returns, with a
    value that is in its cache afterwards or with the empty value of its
    error branch. *)
Lemma getMarkdownDocument_run (slug : string) (a : Assets)
  (r p : option string) (st : State) :
  exists g st1, getGlobalManifest href a r p st = (Ok g, st1) /\ Keeps st st1
    /\ (globalManifestCache st1 = Some g \/ g = fallbackManifest) /\
    if decide (_buildMode g = chunked) then
      exists m st2, getMarkdownManifest href a r p st1 = (Ok m, st2)
        /\ Keeps st1 st2 /\
        match List.find (fun doc => strictEq (get doc "slug") (VString slug)) m with
        | None => getMarkdownDocument href slug a r p st = (Ok None, st2)
        | Some docMeta =>
            exists fc st3,
              loadFolderContent href (lookupFolder docMeta) a r p st2 = (Ok fc, st3)
              /\ Keeps st2 st3
              /\ ((exists f, lookupFolder docMeta = VString f
                             /\ folderContentCache st3 !! f = Some fc)
                  \/ fc = ∅)
              /\ getMarkdownDocument href slug a r p st = (Ok (getProperty fc slug), st3)
        end
    else
      exists c st2, getMarkdownContent href a r p st1 = (Ok c, st2)
        /\ Keeps st1 st2
        /\ (contentCache st2 = Some c \/ c = ∅)
        /\ getMarkdownDocument href slug a r p st = (Ok (getProperty c slug), st2).
Proof.
  destruct (getGlobalManifest_ok a r p st) as (g & st1 & Hg & Hk & _ & Hgc).
  exists g, st1. split; [exact Hg|]. split; [exact Hk|].
  split; [destruct Hgc as [?|(? & _)]; auto|].
  unfold getMarkdownDocument, mbind, Async_bind. rewrite Hg.
  destruct (decide (_buildMode g = chunked)) as [_|_].
  - destruct (getMarkdownManifest_ok a r p st1) as (m & st2 & Hm & Hk2 & _).
    exists m, st2. split; [exact Hm|]. split; [exact Hk2|]. rewrite Hm.
    destruct (List.find _ m) as [docMeta|]; [|reflexivity].
    destruct (loadFolderContent_ok (lookupFolder docMeta) a r p st2)
      as (fc & st3 & Hf & Hk3 & Hfc).
    exists fc, st3. split; [exact Hf|]. split; [exact Hk3|].
    split; [destruct Hfc as [?|(? & _)]; auto|].
    unfold lookupFolder in Hf. rewrite Hf. reflexivity.
  - destruct (getMarkdownContent_ok a r p st1) as (c & st2 & Hc & Hk2 & Hcc).
    exists c, st2. split; [exact Hc|]. split; [exact Hk2|].
    split; [destruct Hcc as [?|(? & _)]; auto|]. rewrite Hc. reflexivity.
Qed.

Lemma getMarkdownDocument_ok (slug : string) (a : Assets)
  (r p : option string) (st : State) :
  exists res st', getMarkdownDocument href slug a r p st = (Ok res, st')
    /\ Keeps st st'.
Proof.
  destruct (getMarkdownDocument_run slug a r p st) as (g & st1 & _ & Hk & _ & H).
  destruct (decide (_buildMode g = chunked)) as [_|_].
  - destruct H as (m & st2 & _ & Hk2 & H).
    destruct (List.find _ m) as [docMeta|].
    + destruct H as (fc & st3 & _ & Hk3 & _ & ->). eexists _, _.
      split; [reflexivity|]. eauto using Keeps_trans.
    + rewrite H. eexists _, _. split; [reflexivity|]. eauto using Keeps_trans.
  - destruct H as (c & st2 & _ & Hk2 & _ & ->). eexists _, _.
    split; [reflexivity|]. eauto using Keeps_trans.
Qed.






End WithHref.

End CacheFacts.

(** ** Runs of markdown-data.ts on the examples *)

Module CacheExamples.
Import Types Eff Data Spec Examples.


(** [getMarkdownManifest] caches the empty list of the error branch of
    [getGlobalManifest], and returns it on assets that serve a manifest. *)
Lemma getMarkdownManifest_caches_fallback :
  let first := getMarkdownManifest sameUrl assetsNone None None initial in
  let second :=
    getMarkdownManifest sameUrl assetsManifestOnly None None (snd first) in
  fst first = Ok []
  /\ globalManifestCache (snd first) = None
  /\ manifestCache (snd first) = Some []
  /\ second = (Ok [], snd first).
Proof. vm_compute. repeat split. Qed.


(** The slug [constructor] passes [validateDocumentSlug] and is no key of
    the content map of a single build; [getMarkdownDocument] returns the
    property of [Object.prototype], not [null], and [hasMarkdownDocument]
    returns [true]. *)
Lemma getMarkdownDocument_inherited_name :
  Utils.validateDocumentSlug (Utils.JsString "constructor")
  = Utils.Returns "constructor"
  /\ fst (getMarkdownContent sameUrl assetsContentOnly None None initial)
     = Ok contentA
  /\ contentA !! "constructor" = None
  /\ fst (getMarkdownDocument sameUrl "constructor" assetsContentOnly
            None None initial)
     = Ok (Some (Inherited "constructor"))
  /\ fst (hasMarkdownDocument sameUrl "constructor" assetsContentOnly
            None None initial)
     = Ok true.
Proof. vm_compute. repeat split. Qed.

End CacheExamples.

(** ** Async function bodies *)

Module EffFacts.
Import Eff.

Lemma bind_run {S A B : Type} (m : Async S A) (k : A -> Async S B) (st : S) :
  (m ≫= k) st
  = match m st with
    | (Ok a, st') => k a st'
    | (Thrown e, st') => (Thrown e, st')
    end.
Proof. reflexivity. Qed.

Lemma tryCatch_run {S A : Type} (body : Async S A) (handler : Error -> Async S A)
  (st : S) :
  tryCatch body handler st
  = match body st with
    | (Ok a, st') => (Ok a, st')
    | (Thrown e, st') => handler e st'
    end.
Proof. reflexivity. Qed.

(** A body whose handler returns never throws. *)
Lemma tryCatch_ok {S A : Type} (body : Async S A) (handler : Error -> Async S A)
  (st : S) :
  (forall e st', exists a, fst (handler e st') = Ok a) ->
  exists a, fst (tryCatch body handler st) = Ok a.
Proof.
  intros H. rewrite tryCatch_run. destruct (body st) as [[a|e] st'].
  - exists a. reflexivity.
  - apply H.
Qed.

Section Respects.

Context {S : Type} (R : S -> S -> Prop).
Hypothesis R_refl : forall st, R st st.
Hypothesis R_trans : forall a b c, R a b -> R b c -> R a c.

Lemma Respects_ret {A : Type} (a : A) : Respects R (mret a).
Proof. intros st. apply R_refl. Qed.

Lemma Respects_throw {A : Type} (e : Error) : Respects R (@throw S A e).
Proof. intros st. apply R_refl. Qed.

Lemma Respects_getState : Respects R (@getState S).
Proof. intros st. apply R_refl. Qed.

Lemma Respects_fromHost {T : Type} (v : string + T) : Respects R (@fromHost S T v).
Proof. destruct v; [apply Respects_throw | apply Respects_ret]. Qed.

Lemma Respects_bind {A B : Type} (m : Async S A) (k : A -> Async S B) :
  Respects R m -> (forall a, Respects R (k a)) -> Respects R (m ≫= k).
Proof.
  intros Hm Hk st. rewrite bind_run. specialize (Hm st).
  destruct (m st) as [[a|e] st']; simpl in *; [|exact Hm].
  apply (R_trans _ st'); [exact Hm | apply Hk].
Qed.

Lemma Respects_tryCatch {A : Type} (body : Async S A)
  (handler : Error -> Async S A) :
  Respects R body -> (forall e, Respects R (handler e)) ->
  Respects R (tryCatch body handler).
Proof.
  intros Hb Hh st. rewrite tryCatch_run. specialize (Hb st).
  destruct (body st) as [[a|e] st']; simpl in *; [exact Hb|].
  apply (R_trans _ st'); [exact Hb | apply Hh].
Qed.

End Respects.

End EffFacts.

(** ** Change detection *)

Module DetectionFacts.
Import Types Eff Plugin Spec.

(** Induction on a tree of entries. *)
Lemma Entry_nested_ind (P : Entry -> Prop)
  (HFile : forall name stats text, P (File name stats text))
  (HDir : forall name entries, Forall P entries -> P (Dir name entries)) :
  forall e, P e.
Proof.
  exact (fix rec (e : Entry) : P e :=
           match e with
           | File name stats text => HFile name stats text
           | Dir name entries =>
               HDir name entries
                 ((fix all (es : list Entry) : Forall P es :=
                     match es with
                     | [] => List.Forall_nil P
                     | e0 :: es0 =>
                         @List.Forall_cons Entry P e0 es0 (rec e0) (all es0)
                     end) entries)
           end).
Qed.

Lemma mapGet_mapSet {K V : Type} `{EqDecision K} (k k' : K) (v : V)
  (m : list (K * V)) :
  Js.mapGet k (Js.mapSet k' v m)
  = if decide (k' = k) then Some v else Js.mapGet k m.
Proof.
  induction m as [|[k0 v0] m IH]; simpl.
  - destruct (decide (k' = k)); reflexivity.
  - destruct (decide (k0 = k')) as [->|Hne]; simpl.
    + destruct (decide (k' = k)); reflexivity.
    + destruct (decide (k0 = k)) as [->|Hne'].
      * destruct (decide (k' = k)); [congruence | reflexivity].
      * exact IH.
Qed.

Lemma find_snoc {A : Type} (f : A -> bool) (l : list A) (x : A) :
  List.find f (l ++ [x])
  = match List.find f l with
    | Some y => Some y
    | None => if f x then Some x else None
    end.
Proof.
  induction l as [|a l IH]; simpl; [reflexivity|].
  destruct (f a); [reflexivity | exact IH].
Qed.

Lemma mapGet_fold_mapSet {K V : Type} `{EqDecision K} (k : K)
  (l acc : list (K * V)) :
  Js.mapGet k (fold_left (fun acc kv => Js.mapSet (fst kv) (snd kv) acc) l acc)
  = match List.find (fun kv => bool_decide (fst kv = k)) (rev l) with
    | Some kv => Some (snd kv)
    | None => Js.mapGet k acc
    end.
Proof.
  revert acc. induction l as [|[k' v'] l IH]; intros acc; simpl; [reflexivity|].
  rewrite IH, find_snoc, mapGet_mapSet. simpl.
  destruct (List.find _ (rev l)); [reflexivity|].
  destruct (decide (k' = k)) as [Heq|Hne].
  - rewrite bool_decide_eq_true_2; [reflexivity | exact Heq].
  - rewrite bool_decide_eq_false_2; [reflexivity | exact Hne].
Qed.

Lemma find_map {A B : Type} (g : A -> B) (f : B -> bool) (l : list A) :
  List.find f (map g l) = g <$> List.find (fun a => f (g a)) l.
Proof.
  induction l as [|a l IH]; simpl; [reflexivity|].
  destruct (f (g a)); [reflexivity | exact IH].
Qed.

(** [previousMap.get(relPath)] is the last entry of the previous manifest
    with that path. *)
Lemma previousMap_get (previous : list MarkdownMeta) (relPath : string) :
  Js.mapGet (VString relPath)
    (Js.mapOfEntries (map (fun entry => (get entry "path", entry)) previous))
  = previousEntry previous relPath.
Proof.
  unfold Js.mapOfEntries, previousEntry.
  rewrite mapGet_fold_mapSet, <- map_rev, find_map. simpl.
  destruct (List.find _ (rev previous)); reflexivity.
Qed.

Lemma isFileChanged_spec (previous : list MarkdownMeta) (relPath : string)
  (m : FileMetadata) :
  isFileChanged (previousEntry previous relPath) m = true
  <-> MetadataChanged previous relPath m.
Proof.
  unfold isFileChanged, MetadataChanged.
  destruct (previousEntry previous relPath) as [prev|]; [|tauto].
  unfold strictEq.
  rewrite orb_true_iff, !negb_true_iff, !bool_decide_eq_false. tauto.
Qed.

Section WithOptions.

Variable options : Options.

Lemma walkEntry_eraseText (dir : string) (e : Entry) :
  forall rel result,
    walkEntry options dir rel (eraseText e) result
    = walkEntry options dir rel e result.
Proof.
  induction e as [name stats text|name entries IH] using Entry_nested_ind;
    intros rel result; simpl; [reflexivity|].
  revert result. induction IH as [|e es He _ IHes]; intros result; simpl.
  - reflexivity.
  - rewrite He. apply IHes.
Qed.

Lemma collect_eraseText (dir : string) (tree : list Entry) :
  collectMarkdownFilesWithMetadata options dir (map eraseText tree)
  = collectMarkdownFilesWithMetadata options dir tree.
Proof.
  unfold collectMarkdownFilesWithMetadata, walk. generalize (@nil (string * FileInfo)).
  induction tree as [|e tree IH]; intros acc; simpl; [reflexivity|].
  rewrite walkEntry_eraseText. apply IH.
Qed.

(** C2. [checkForChanges] reports a change exactly when some current file
    has no entry of the previous manifest with its relative path, or its
    mtime or size differs from the [_mtime] or [_size] of that entry, or the
    number of previous entries differs from the number of current files;
    the text of the files plays no part. *)
Theorem checkForChanges_spec (dir : string) (tree : list Entry)
  (previous : list MarkdownMeta) :
  (changed (checkForChanges options dir tree previous) = true
   <-> (exists relPath info,
          In (relPath, info) (collectMarkdownFilesWithMetadata options dir tree)
          /\ MetadataChanged previous relPath (metadata info))
       \/ List.length previous
          <> List.length (collectMarkdownFilesWithMetadata options dir tree))
  /\ checkForChanges options dir (map eraseText tree) previous
     = checkForChanges options dir tree previous.
Proof.
  split.
  - unfold checkForChanges.
    set (files := collectMarkdownFilesWithMetadata options dir tree).
    destruct (existsb _ files) eqn:Hex.
    + simpl. split; [intros _|reflexivity]. left.
      apply existsb_exists in Hex as ([relPath info] & Hin & Hch). simpl in Hch.
      rewrite previousMap_get in Hch. exists relPath, info.
      split; [exact Hin | apply isFileChanged_spec, Hch].
    + assert (~ exists relPath info, In (relPath, info) files
                /\ MetadataChanged previous relPath (metadata info)) as Hno.
      { intros (relPath & info & Hin & Hch).
        apply not_true_iff_false in Hex. apply Hex, existsb_exists.
        exists (relPath, info). split; [exact Hin|]. simpl.
        rewrite previousMap_get. apply isFileChanged_spec, Hch. }
      destruct (Z.of_nat (List.length previous) =? Z.of_nat (List.length files)) eqn:Hlen;
        simpl.
      * apply Z.eqb_eq in Hlen. split; [discriminate|].
        intros [H|H]; [destruct (Hno H) | lia].
      * apply Z.eqb_neq in Hlen. split; [|reflexivity]. intros _. right. lia.
  - unfold checkForChanges. rewrite collect_eraseText. reflexivity.
Qed.





Lemma allFolders_check (dir : string) (tree : list Entry)
  (prev : list MarkdownMeta) :
  allFolders (checkForFolderChanges options dir tree prev)
  = collectFilesByFolder options dir tree.
Proof.
  unfold checkForFolderChanges. destruct (negb _); reflexivity.
Qed.


End WithOptions.

End DetectionFacts.

(** ** The record of a document *)

Module MetaFacts.
Import Types Eff Plugin Spec DetectionFacts.

Lemma matchesToEnd_self (ext : string) : matchesToEnd ext ext = true.
Proof.
  induction ext as [|c ext IH]; simpl; [reflexivity|].
  rewrite IH, andb_true_r. unfold atomMatches.
  destruct (Ascii.eqb c ".") eqn:Hc; [|apply Ascii.eqb_refl].
  apply Ascii.eqb_eq in Hc as ->. reflexivity.
Qed.

Lemma matchesToEnd_length (pattern s : string) :
  matchesToEnd pattern s = true -> String.length pattern = String.length s.
Proof.
  revert s. induction pattern as [|p pattern IH]; intros [|c s]; simpl;
    try discriminate; [reflexivity|].
  intros H. apply andb_true_iff in H as [_ H]. f_equal. apply IH, H.
Qed.

Lemma removeExtension_unfold (pattern s : string) :
  removeExtension pattern s
  = if matchesToEnd pattern s then EmptyString
    else match s with
         | EmptyString => EmptyString
         | String c s' => String c (removeExtension pattern s')
         end.
Proof. destruct s; reflexivity. Qed.

Lemma length_append (a b : string) :
  String.length (a +:+ b) = (String.length a + String.length b)%nat.
Proof.
  induction a as [|c a IH]; [reflexivity|].
  change (S (String.length (a +:+ b)) = S (String.length a + String.length b)).
  f_equal. exact IH.
Qed.

Lemma removeExtension_append (ext base : string) :
  removeExtension ext (base +:+ ext) = base.
Proof.
  induction base as [|c base IH].
  - change (EmptyString +:+ ext) with ext.
    rewrite removeExtension_unfold, matchesToEnd_self. reflexivity.
  - change (String c base +:+ ext) with (String c (base +:+ ext)).
    rewrite removeExtension_unfold.
    destruct (matchesToEnd ext (String c (base +:+ ext))) eqn:Hm.
    + apply matchesToEnd_length in Hm. simpl in Hm.
      rewrite length_append in Hm. lia.
    + rewrite IH. reflexivity.
Qed.

Section WithOptions.

Variable options : Options.

(** X1. For an extension without operators of the pattern language other
    than the dot, the slug that the handler derives from a relative path
    ending in the extension is the path without the extension, and paths
    that differ have slugs that differ. *)
Theorem slugOf_path (Hplain : plainExtension (extension options) = true) :
  (forall base, slugOf options (base +:+ extension options) = base)
  /\ (forall p q,
        Js.endsWith p (extension options) = true ->
        Js.endsWith q (extension options) = true ->
        slugOf options p = slugOf options q -> p = q).
Proof.
  split.
  - intros base. apply removeExtension_append.
  - intros p q Hp Hq. apply endsWith_spec in Hp as [a ->].
    apply endsWith_spec in Hq as [b ->]. unfold slugOf.
    rewrite !removeExtension_append. intros ->. reflexivity.
Qed.

Lemma find_rev_none {V : Type} (k : string) (l : list (string * V)) :
  Js.mapGet k l = None ->
  List.find (fun kv => bool_decide (fst kv = k)) (rev l) = None.
Proof.
  induction l as [|[k' v] l IH]; simpl; [reflexivity|].
  destruct (decide (k' = k)) as [->|Hne]; [discriminate|].
  intros H. rewrite find_snoc, (IH H). simpl.
  rewrite bool_decide_eq_false_2 by exact Hne. reflexivity.
Qed.

(** [{ ...a, ...b }.k] is [a.k] when [b] has no property [k]. *)
Lemma get_spread_absent (a b : Object) (k : string) :
  Js.mapGet k b = None -> get (spread a b) k = get a k.
Proof.
  intros H. unfold get, spread. rewrite mapGet_fold_mapSet, (find_rev_none k b H).
  reflexivity.
Qed.

(** X2. The record that the handler pushes has the slug, the path and the
    folder that it derives from the relative path, and the mtime and size of
    the file, for each of these keys that the frontmatter does not hold. *)
Theorem metaOf_fields (relPath : string) (metadata : FileMetadata)
  (frontmatter : Frontmatter) :
  (Js.mapGet "slug" frontmatter = None ->
   get (metaOf options relPath metadata frontmatter) "slug"
   = VString (slugOf options relPath))
  /\ (Js.mapGet "path" frontmatter = None ->
      get (metaOf options relPath metadata frontmatter) "path" = VString relPath)
  /\ (Js.mapGet "folder" frontmatter = None ->
      get (metaOf options relPath metadata frontmatter) "folder"
      = folderValue relPath)
  /\ (Js.mapGet "_mtime" frontmatter = None ->
      get (metaOf options relPath metadata frontmatter) "_mtime"
      = VNumber (mtime metadata))
  /\ (Js.mapGet "_size" frontmatter = None ->
      get (metaOf options relPath metadata frontmatter) "_size"
      = VNumber (size metadata)).
Proof.
  unfold metaOf.
  repeat split; intros H; rewrite (get_spread_absent _ _ _ H); reflexivity.
Qed.

End WithOptions.

End MetaFacts.

(** ** Processing and writing *)

Module BuildFacts.
Import Types Eff Plugin Spec EffFacts.

Lemma Respects_foldM {St A B : Type} (R : St -> St -> Prop)
  (R_refl : forall st, R st st) (R_trans : forall a b c, R a b -> R b c -> R a c)
  (f : B -> A -> Async St B) (l : list A) :
  (forall b a, In a l -> Respects R (f b a)) ->
  forall b, Respects R (foldM f l b).
Proof.
  induction l as [|a l IH]; intros Hf b; simpl.
  - apply Respects_ret, R_refl.
  - apply Respects_bind; [exact R_trans | apply Hf; left; reflexivity|].
    intros b'. apply IH. intros b0 a0 Hin. apply Hf. right. exact Hin.
Qed.

Lemma ReadsOf_refl (p : string) (st : BuildState) : ReadsOf p st st.
Proof. split; [reflexivity|]. exists []. split; [reflexivity | constructor]. Qed.

Lemma ReadsOf_trans (p : string) (a b c : BuildState) :
  ReadsOf p a b -> ReadsOf p b c -> ReadsOf p a c.
Proof.
  intros [Ha (rs & Hr & Hf)] [Hb (rs' & Hr' & Hf')].
  split; [congruence|]. exists (rs' ++ rs). split.
  - rewrite Hr', Hr, app_assoc. reflexivity.
  - apply Forall_app. split; assumption.
Qed.

Section WithHost.

Variable options : Options.
Variable host : Host.

Section AnyRelation.

Context {St : Type} (R : St -> St -> Prop).
Hypothesis R_refl : forall st, R st st.
Hypothesis R_trans : forall a b c, R a b -> R b c -> R a c.

Lemma Respects_parseLine (frontmatter : Frontmatter) (line : string) :
  Respects R (parseLine host frontmatter line).
Proof.
  unfold parseLine. destruct (Js.indexOf line ":") as [[|i]|];
    try (apply Respects_ret, R_refl).
  destruct (_ && _).
  - apply Respects_bind; [exact R_trans | apply Respects_fromHost, R_refl|].
    intros d. apply Respects_ret, R_refl.
  - apply Respects_ret, R_refl.
Qed.

Lemma Respects_parseFrontmatter (content : string) :
  Respects R (parseFrontmatter host content).
Proof.
  unfold parseFrontmatter. destruct (matchFrontmatter content) as [[text markdown]|];
    [|apply Respects_ret, R_refl].
  destruct (Js.isEmpty text); [apply Respects_ret, R_refl|].
  apply Respects_bind; [exact R_trans| |intros f; apply Respects_ret, R_refl].
  apply Respects_foldM; [exact R_refl | exact R_trans|].
  intros b a _. apply Respects_parseLine.
Qed.

End AnyRelation.

Section OneFile.

Variable p : string.

Local Abbreviation Rp := (ReadsOf p).

Lemma Respects_readFile : Respects Rp (readFile p).
Proof.
  intros st. unfold readFile. destruct (texts st !! p); simpl;
    (split; [reflexivity|]; exists [p]; split; [reflexivity|]; repeat constructor).
Qed.

Lemma Respects_writeSource (filePath text : string) :
  Respects Rp (writeSource host filePath text).
Proof.
  intros st. unfold writeSource. destruct (canWrite host filePath); simpl;
    (split; [reflexivity|]; exists []; split; [reflexivity | constructor]).
Qed.

Lemma Respects_updateFrontmatterDate (content : string) (fileMtime : Z) :
  Respects Rp (updateFrontmatterDate options host p content fileMtime).
Proof.
  unfold updateFrontmatterDate.
  destruct (negb (updateDate options));
    [apply Respects_ret, ReadsOf_refl|].
  apply Respects_bind;
    [apply ReadsOf_trans
    |apply Respects_parseFrontmatter; [apply ReadsOf_refl | apply ReadsOf_trans]|].
  intros parsed. destruct (data parsed) as [frontmatter|];
    [|apply Respects_ret, ReadsOf_refl].
  destruct (strictEq _ _); [apply Respects_ret, ReadsOf_refl|].
  apply Respects_tryCatch; [apply ReadsOf_trans| |].
  - apply Respects_bind; [apply ReadsOf_trans | apply Respects_writeSource|].
    intros _. apply Respects_ret, ReadsOf_refl.
  - intros e. apply Respects_ret, ReadsOf_refl.
Qed.

Lemma Respects_processMarkdownFile :
  Respects Rp (processMarkdownFile options host p).
Proof.
  unfold processMarkdownFile.
  apply Respects_tryCatch; [apply ReadsOf_trans| |intros e; apply Respects_ret, ReadsOf_refl].
  apply Respects_bind; [apply ReadsOf_trans | apply Respects_readFile|].
  intros source.
  apply Respects_bind;
    [apply ReadsOf_trans
    |apply Respects_parseFrontmatter; [apply ReadsOf_refl | apply ReadsOf_trans]|].
  intros parsed. destruct (markedParse host _);
    [|apply Respects_ret, ReadsOf_refl | apply Respects_throw, ReadsOf_refl].
  destruct (highlightCodeBlocks host) as [highlight|];
    [|apply Respects_ret, ReadsOf_refl].
  destruct (highlight _ _); apply Respects_ret, ReadsOf_refl.
Qed.

Lemma Respects_processRead (acc : Acc) (relPath : string) (info : FileInfo)
  (raw : string) :
  path info = p -> Respects Rp (processRead options host acc relPath info raw).
Proof.
  intros Hp. unfold processRead. rewrite Hp.
  apply Respects_bind; [apply ReadsOf_trans | apply Respects_updateFrontmatterDate|].
  intros updated.
  apply Respects_bind;
    [apply ReadsOf_trans
    |apply Respects_parseFrontmatter; [apply ReadsOf_refl | apply ReadsOf_trans]|].
  intros parsed.
  apply Respects_bind; [apply ReadsOf_trans | apply Respects_processMarkdownFile|].
  intros processed. destruct (errorOf processed);
    [apply Respects_throw, ReadsOf_refl | apply Respects_ret, ReadsOf_refl].
Qed.

End OneFile.

(** The handler never throws, leaves the assets, and reads the file of the
    entry and no other. *)
Lemma processEntry_effect (acc : Acc) (relPath : string) (info : FileInfo)
  (st : BuildState) :
  exists acc' st',
    processEntry options host acc (relPath, info) st = (Ok acc', st')
    /\ assets st' = assets st
    /\ exists rs, reads st' = rs ++ path info :: reads st
                  /\ Forall (eq (path info)) rs.
Proof.
  unfold processEntry. rewrite tryCatch_run, bind_run.
  unfold readFile at 1.
  destruct (texts st !! path info) as [raw|].
  - match goal with
    | |- context [processRead _ _ ?a ?r ?i ?w ?s] =>
        pose proof (Respects_processRead (path info) a r i w eq_refl s) as H;
        destruct (processRead options host a r i w s) as [[acc'|e] st2]
    end; simpl in H; destruct H as [Ha (rs & Hr & Hf)];
      eexists _, _; (split; [reflexivity|]); eauto.
  - eexists _, _. split; [reflexivity|]. simpl. split; [reflexivity|].
    exists []. split; [reflexivity | constructor].
Qed.

Lemma foldM_processEntry_effect (files : FileMap) :
  forall acc st, exists acc' st',
    foldM (processEntry options host) files acc st = (Ok acc', st')
    /\ assets st' = assets st
    /\ forall q, In q (reads st') <-> In q (pathsOf files) \/ In q (reads st).
Proof.
  induction files as [|[relPath info] files IH]; intros acc st.
  - exists acc, st. split; [reflexivity|]. split; [reflexivity|]. simpl. tauto.
  - cbn [foldM]. rewrite bind_run.
    destruct (processEntry_effect acc relPath info st)
      as (acc1 & st1 & -> & Ha1 & rs & Hr1 & Hf1).
    destruct (IH acc1 st1) as (acc2 & st2 & -> & Ha2 & Hr2).
    exists acc2, st2. split; [reflexivity|]. split; [congruence|].
    intros q. rewrite Hr2, Hr1, in_app_iff. simpl.
    rewrite Forall_forall in Hf1. split.
    + intros [H|[H|[H|H]]];
        [tauto | left; left; apply Hf1, list_elem_of_In, H | tauto | tauto].
    + tauto.
Qed.

Lemma processChangedFiles_effect (files : FileMap) (st : BuildState) :
  exists result st',
    processChangedFiles options host files st = (Ok result, st')
    /\ assets st' = assets st
    /\ forall q, In q (reads st') <-> In q (pathsOf files) \/ In q (reads st).
Proof.
  unfold processChangedFiles. rewrite bind_run.
  destruct (foldM_processEntry_effect files emptyAcc st) as (acc & st' & -> & Ha & Hr).
  eexists _, st'. split; [reflexivity|]. auto.
Qed.

Lemma processFolderFiles_effect (files : FileMap) (st : BuildState) :
  exists result st',
    processFolderFiles options host files st = (Ok result, st')
    /\ assets st' = assets st
    /\ forall q, In q (reads st') <-> In q (pathsOf files) \/ In q (reads st).
Proof.
  unfold processFolderFiles. rewrite bind_run.
  destruct (foldM_processEntry_effect files emptyAcc st) as (acc & st' & -> & Ha & Hr).
  eexists _, st'. split; [reflexivity|]. auto.
Qed.

(** [writeAsset] writes the file or throws, and leaves the rest. *)
Lemma writeAsset_effect (filename : string) (a : Artifact) (st : BuildState) :
  exists r st', writeAsset host filename a st = (r, st')
    /\ reads st' = reads st
    /\ (assets st' = <[filename := a]> (assets st) \/ assets st' = assets st).
Proof.
  unfold writeAsset. destruct (canWrite host _); eexists _, _;
    (split; [reflexivity|]); simpl; auto.
Qed.

Lemma writeCompressedVersions_effect (filename : string) (c : ContentMap)
  (st : BuildState) :
  exists st', writeCompressedVersions options host filename c st = (Ok tt, st')
    /\ reads st' = reads st
    /\ (assets st' = <[filename +:+ ".gz" := ContentJsonGz c]> (assets st)
        \/ assets st' = assets st).
Proof.
  unfold writeCompressedVersions. destruct (negb (compress options)).
  - exists st. auto.
  - rewrite tryCatch_run. destruct (canGzip host filename).
    + destruct (writeAsset_effect (filename +:+ ".gz") (ContentJsonGz c) st)
        as (r & st' & -> & Hr & Ha).
      destruct r as [[]|e]; exists st'; auto.
    + exists st. auto.
Qed.

Lemma writeFolderFiles_effect (folder : string) (m : list MarkdownMeta)
  (c : ContentMap) (st : BuildState) :
  exists st', writeFolderFiles options host folder m c st = (Ok tt, st')
    /\ reads st' = reads st
    /\ forall n, ~ isChunkName options n -> assets st' !! n = assets st !! n.
Proof.
  unfold writeFolderFiles, mkdirAssets. rewrite tryCatch_run, bind_run.
  destruct (canMkdir host); [|exists st; auto].
  unfold mret at 1. unfold Async_ret at 1. cbv beta iota.
  destruct (compress options).
  - destruct (writeCompressedVersions_effect (chunkFilename options folder) c st)
      as (st' & -> & Hr & Ha).
    exists st'. split; [reflexivity|]. split; [exact Hr|]. intros n Hn.
    destruct Ha as [-> | ->]; [|reflexivity].
    apply lookup_insert_ne. intros <-. apply Hn. exists folder. auto.
  - destruct (writeAsset_effect (chunkFilename options folder) (ContentJson c) st)
      as (r & st' & -> & Hr & Ha).
    assert (forall n, ~ isChunkName options n -> assets st' !! n = assets st !! n) as Hn.
    { intros n Hn. destruct Ha as [-> | ->]; [|reflexivity].
      apply lookup_insert_ne. intros <-. apply Hn. exists folder. auto. }
    destruct r as [[]|e]; exists st'; auto.
Qed.

(** The handler of a folder never throws, reads the files of the folder and
    no other, and writes content chunks only. *)
Lemma processFolder_effect (allFolders : list (string * FileMap))
  (acc : FolderAcc) (folder : string) (st : BuildState) :
  exists acc' st',
    processFolder options host allFolders acc folder st = (Ok acc', st')
    /\ (forall q, In q (reads st')
                  <-> In q (pathsOfFolder allFolders folder) \/ In q (reads st))
    /\ forall n, ~ isChunkName options n -> assets st' !! n = assets st !! n.
Proof.
  unfold processFolder, pathsOfFolder. rewrite tryCatch_run.
  destruct (Js.mapGet folder allFolders) as [files|].
  - rewrite bind_run.
    destruct (processFolderFiles_effect files st) as (result & st1 & -> & Ha & Hr).
    rewrite bind_run.
    destruct (writeFolderFiles_effect folder (manifest result) (content result) st1)
      as (st2 & -> & Hr2 & Ha2).
    eexists _, st2. split; [reflexivity|]. split.
    + intros q. rewrite Hr2. apply Hr.
    + intros n Hn. rewrite Ha2, Ha; auto.
  - eexists _, st. split; [reflexivity|]. split; [simpl; tauto | auto].
Qed.

Lemma processChangedFolders_effect (allFolders : list (string * FileMap))
  (folders : list string) (st : BuildState) :
  exists result st',
    processChangedFolders options host folders allFolders st = (Ok result, st')
    /\ (forall q, In q (reads st')
                  <-> (exists folder, In folder folders
                         /\ In q (pathsOfFolder allFolders folder))
                      \/ In q (reads st))
    /\ forall n, ~ isChunkName options n -> assets st' !! n = assets st !! n.
Proof.
  unfold processChangedFolders. rewrite bind_run.
  generalize {| globalManifest := []; totalProcessed := 0; totalErrors := 0 |}.
  assert (forall acc st, exists acc' st',
            foldM (processFolder options host allFolders) folders acc st
            = (Ok acc', st')
            /\ (forall q, In q (reads st')
                  <-> (exists folder, In folder folders
                         /\ In q (pathsOfFolder allFolders folder))
                      \/ In q (reads st))
            /\ forall n, ~ isChunkName options n ->
                 assets st' !! n = assets st !! n) as Hfold.
  { clear st. induction folders as [|folder folders IH]; intros acc st.
    - exists acc, st. split; [reflexivity|]. split; [|auto].
      intros q. split; [auto | intros [(f & [] & _)|H]; exact H].
    - cbn [foldM]. rewrite bind_run.
      destruct (processFolder_effect allFolders acc folder st)
        as (acc1 & st1 & -> & Hr1 & Ha1).
      destruct (IH acc1 st1) as (acc2 & st2 & -> & Hr2 & Ha2).
      exists acc2, st2. split; [reflexivity|]. split.
      + intros q. rewrite Hr2, Hr1. split.
        * intros [(f & Hf & Hq)|[H|H]];
            [left; exists f; split; [right; exact Hf | exact Hq]
            |left; exists folder; split; [left; reflexivity | exact H]
            |right; exact H].
        * intros [(f & [<-|Hf] & Hq)|H];
            [right; left; exact Hq
            |left; exists f; split; assumption
            |right; right; exact H].
      + intros n Hn. rewrite Ha2, Ha1; auto. }
  intros acc. destruct (Hfold acc st) as (acc' & st' & -> & Hr & Ha).
  eexists _, st'. split; [reflexivity|]. auto.
Qed.

Lemma append_inv (p a b : string) : p +:+ a = p +:+ b -> a = b.
Proof.
  induction p as [|c p IH]; [auto|].
  change (String c (p +:+ a) = String c (p +:+ b) -> a = b).
  intros [= H]. auto.
Qed.

Lemma append_assoc3 (a b c : string) : (a +:+ b) +:+ c = a +:+ (b +:+ c).
Proof.
  induction a as [|x a IH]; [reflexivity|].
  change (String x ((a +:+ b) +:+ c) = String x (a +:+ b +:+ c)).
  f_equal. exact IH.
Qed.

Lemma manifest_not_chunk :
  ~ isChunkName options (prefix options +:+ "-manifest.json").
Proof.
  intros (folder & [H|H]); unfold chunkFilename in H;
    rewrite ?append_assoc3 in H; apply append_inv in H; discriminate.
Qed.

(** The object literal of [writeMarkdownFiles], as it is serialized. *)
Lemma makeGlobalManifest_structure (manifest : list MarkdownMeta)
  (folders : option (list string)) :
  let written := jsonManifest (makeGlobalManifest options manifest folders) in
  documents written = map jsonObject manifest
  /\ (_buildMode written = chunked <-> chunkByFolder options = true)
  /\ (_buildMode written = single <-> chunkByFolder options = false)
  /\ (forall l, chunkedFolders written = Some l
                <-> chunkByFolder options = true /\ folders = Some l).
Proof.
  unfold jsonManifest, makeGlobalManifest; simpl.
  destruct (chunkByFolder options).
  - repeat split; intros; try discriminate; try tauto.
  - repeat split; intros; try discriminate; try tauto.
    destruct H; discriminate.
Qed.

(** [writeMarkdownFiles] never throws and reads nothing; it leaves the
    manifest of its arguments as the manifest file, or the asset directory
    as it was. *)
Lemma writeMarkdownFiles_effect (manifest : list MarkdownMeta)
  (content : ContentMap) (folders : option (list string)) (st : BuildState) :
  exists st',
    writeMarkdownFiles options host manifest content folders st = (Ok tt, st')
    /\ reads st' = reads st
    /\ (assets st' !! (prefix options +:+ "-manifest.json")
        = Some (ManifestJson
                  (jsonManifest (makeGlobalManifest options manifest folders)))
        \/ assets st' = assets st).
Proof.
  unfold writeMarkdownFiles, mkdirAssets. rewrite tryCatch_run, bind_run.
  destruct (canMkdir host); [|exists st; auto].
  unfold mret at 1. unfold Async_ret at 1. cbv beta iota. rewrite bind_run.
  set (g := jsonManifest (makeGlobalManifest options manifest folders)).
  set (name := prefix options +:+ "-manifest.json").
  unfold writeAsset at 1. destruct (canWrite host (getAssetPath name));
    [|exists st; auto].
  set (st1 := {| texts := texts st; assets := <[name := ManifestJson g]> (assets st);
                 reads := reads st |}).
  assert (assets st1 !! name = Some (ManifestJson g)) as H1
    by apply lookup_insert_eq.
  destruct (negb (chunkByFolder options) && _); [|exists st1; auto].
  destruct (compress options).
  - destruct (writeCompressedVersions_effect (prefix options +:+ "-content.json")
                content st1) as (st2 & -> & Hr & Ha).
    exists st2. split; [reflexivity|]. split; [rewrite Hr; reflexivity|]. left.
    destruct Ha as [-> | ->]; [|exact H1].
    rewrite lookup_insert_ne; [exact H1|].
    unfold name. intros H. rewrite append_assoc3 in H.
    apply append_inv in H. discriminate.
  - destruct (writeAsset_effect (prefix options +:+ "-content.json")
                (ContentJson content) st1) as (r & st2 & -> & Hr & Ha).
    assert (assets st2 !! name = Some (ManifestJson g)) as H2.
    { destruct Ha as [-> | ->]; [|exact H1].
      rewrite lookup_insert_ne; [exact H1|].
      unfold name. intros H. apply append_inv in H. discriminate. }
    destruct r as [[]|e]; exists st2; (split; [reflexivity|]);
      (split; [rewrite Hr; reflexivity | left; exact H2]).
Qed.

Lemma loadPreviousManifest_run (st : BuildState) :
  loadPreviousManifest options st
  = (Ok (previousDocuments options (assets st)), afterLoad options st).
Proof.
  unfold loadPreviousManifest, previousDocuments, afterLoad, manifestPath.
  rewrite tryCatch_run, bind_run. unfold getState.
  destruct (assets st !! _) as [[g|c|c]|]; reflexivity.
Qed.

Lemma afterLoad_texts (st : BuildState) :
  texts (afterLoad options st) = texts st.
Proof. unfold afterLoad. destruct (assets st !! _); reflexivity. Qed.

Lemma afterLoad_assets (st : BuildState) :
  assets (afterLoad options st) = assets st.
Proof. unfold afterLoad. destruct (assets st !! _); reflexivity. Qed.


Lemma loadedOf_texts (tree : list Entry) (previous : gmap string Artifact) :
  texts (loadedOf options tree previous) = sourceTexts options tree.
Proof.
  unfold loadedOf. destruct (_ && _); [reflexivity|].
  rewrite afterLoad_texts. reflexivity.
Qed.

Lemma loadedOf_assets (tree : list Entry) (previous : gmap string Artifact) :
  assets (loadedOf options tree previous) = previous.
Proof.
  unfold loadedOf. destruct (_ && _); [reflexivity|].
  rewrite afterLoad_assets. reflexivity.
Qed.


(** [buildStart], step by step. *)
Lemma build_run (tree : list Entry) (previous : gmap string Artifact) :
  let prev := previousDocuments options previous in
  let st0 := loadedOf options tree previous in
  if chunkByFolder options then
    let fc := checkForFolderChanges options (source options) tree
                (if incrementalByFolder options then prev else []) in
    match changedFolders fc with
    | [] => build options host tree previous = st0
    | _ :: _ =>
        exists result st1 st2,
          processChangedFolders options host (changedFolders fc)
            (allFolders fc) st0 = (Ok result, st1)
          /\ writeMarkdownFiles options host (globalManifest result) ∅
               (Some (Js.mapKeys (allFolders fc))) st1 = (Ok tt, st2)
          /\ build options host tree previous = st2
    end
  else
    let c := checkForChanges options (source options) tree prev in
    if changed c then
      exists result st1 st2,
        processChangedFiles options host (updatedFiles c) st0 = (Ok result, st1)
        /\ writeMarkdownFiles options host (resultManifest result)
             (resultContent result) None st1 = (Ok tt, st2)
        /\ build options host tree previous = st2
    else build options host tree previous = st0.
Proof.
  intros prev st0. unfold build, buildStart. subst st0. unfold loadedOf.
  destruct (chunkByFolder options).
  - rewrite bind_run.
    set (st0 := if true && negb (incrementalByFolder options)
                then startOf options tree previous
                else afterLoad options (startOf options tree previous)).
    assert ((if incrementalByFolder options
             then loadPreviousManifest options else mret [])
              (startOf options tree previous)
            = (Ok (if incrementalByFolder options then prev else []), st0)) as ->.
    { subst st0. destruct (incrementalByFolder options);
        [rewrite loadPreviousManifest_run | ]; reflexivity. }
    cbv zeta.
    destruct (changedFolders _) as [|f fs] eqn:Hf; [reflexivity|].
    rewrite <- Hf.
    assert ((Z.of_nat (List.length (changedFolders
              (checkForFolderChanges options (source options) tree
                 (if incrementalByFolder options then prev else [])))) =? 0)
            = false) as ->.
    { rewrite Hf. simpl. reflexivity. }
    match goal with
    | |- context [processChangedFolders _ _ ?a ?b] =>
        destruct (processChangedFolders_effect b a st0) as (result & st1 & Hp & _)
    end.
    destruct (writeMarkdownFiles_effect (globalManifest result) ∅
                (Some (Js.mapKeys (allFolders
                   (checkForFolderChanges options (source options) tree
                      (if incrementalByFolder options then prev else []))))) st1)
      as (st2 & Hw & _).
    exists result, st1, st2. split; [exact Hp|]. split; [exact Hw|].
    unfold mbind, Async_bind. rewrite Hp, Hw. reflexivity.
  - rewrite bind_run, loadPreviousManifest_run. cbn [andb].
    set (st0 := afterLoad options (startOf options tree previous)).
    change (assets (startOf options tree previous)) with previous.
    fold prev. cbv zeta.
    destruct (changed _); cbn [negb]; cbv iota; [|reflexivity].
    match goal with
    | |- context [processChangedFiles _ _ ?a] =>
        destruct (processChangedFiles_effect a st0) as (result & st1 & Hp & _)
    end.
    destruct (writeMarkdownFiles_effect (resultManifest result)
                (resultContent result) None st1) as (st2 & Hw & _).
    exists result, st1, st2. split; [exact Hp|]. split; [exact Hw|].
    unfold mbind, Async_bind. rewrite Hp, Hw. reflexivity.
Qed.


(** When the host can make the directory and write the manifest file,
    [writeMarkdownFiles] leaves the manifest of its arguments as the
    manifest file. *)
Lemma writeMarkdownFiles_manifest (manifest : list MarkdownMeta)
  (content : ContentMap) (folders : option (list string)) (st : BuildState) :
  canMkdir host = true ->
  canWrite host (getAssetPath (prefix options +:+ "-manifest.json")) = true ->
  assets (snd (writeMarkdownFiles options host manifest content folders st))
    !! (prefix options +:+ "-manifest.json")
  = Some (ManifestJson
            (jsonManifest (makeGlobalManifest options manifest folders))).
Proof.
  intros Hmk Hw.
  unfold writeMarkdownFiles, mkdirAssets.
  rewrite tryCatch_run, bind_run, Hmk.
  unfold mret at 1. unfold Async_ret at 1. cbv beta iota. rewrite bind_run.
  unfold writeAsset at 1. rewrite Hw.
  set (st1 := {| texts := texts st;
                 assets := <[prefix options +:+ "-manifest.json" :=
                             ManifestJson
                               (jsonManifest
                                  (makeGlobalManifest options manifest folders))]>
                             (assets st);
                 reads := reads st |}).
  assert (assets st1 !! (prefix options +:+ "-manifest.json")
          = Some (ManifestJson
                    (jsonManifest (makeGlobalManifest options manifest folders))))
    as H1 by apply lookup_insert_eq.
  destruct (negb (chunkByFolder options) && _).
  - destruct (compress options).
    + destruct (writeCompressedVersions_effect
                  (prefix options +:+ "-content.json") content st1)
        as (st2 & -> & _ & Ha).
      cbn [snd]. destruct Ha as [-> | ->]; [|exact H1].
      rewrite lookup_insert_ne; [exact H1|].
      intros H. rewrite append_assoc3 in H. apply append_inv in H. discriminate.
    + destruct (writeAsset_effect (prefix options +:+ "-content.json")
                  (ContentJson content) st1) as (r & st2 & -> & _ & Ha).
      assert (assets st2 !! (prefix options +:+ "-manifest.json")
              = Some (ManifestJson
                        (jsonManifest
                           (makeGlobalManifest options manifest folders)))) as H2.
      { destruct Ha as [-> | ->]; [|exact H1].
        rewrite lookup_insert_ne; [exact H1|].
        intros H. apply append_inv in H. discriminate. }
      destruct r as [[]|e]; exact H2.
  - exact H1.
Qed.

(** C7. The global manifest that [writeMarkdownFiles] writes holds the
    records of the documents, a [_buildMode] that is [chunked] exactly when
    [chunkByFolder] is on and [single] otherwise, and the [chunkedFolders]
    list exactly when [chunkByFolder] is on and a list of folders is given;
    it is the manifest file afterwards when the host can make the asset
    directory and write the file, and otherwise the asset directory is as
    it was. After a build the manifest file is the one of the asset
    directory before it, or such a manifest, whose folders are the current
    folders in some order when [chunkByFolder] is on; it is such a
    manifest when the build has found a change and the host can make the
    directory and write the file. *)
Theorem global_manifest_structure :
  (forall manifest content folders st,
     let name := prefix options +:+ "-manifest.json" in
     let written := jsonManifest (makeGlobalManifest options manifest folders) in
     let st' := snd (writeMarkdownFiles options host manifest content folders st) in
     (assets st' !! name = Some (ManifestJson written)
      \/ assets st' = assets st)
     /\ (canMkdir host = true -> canWrite host (getAssetPath name) = true ->
         assets st' !! name = Some (ManifestJson written))
     /\ documents written = map jsonObject manifest
     /\ (_buildMode written = chunked <-> chunkByFolder options = true)
     /\ (_buildMode written = single <-> chunkByFolder options = false)
     /\ (forall l, chunkedFolders written = Some l
                   <-> chunkByFolder options = true /\ folders = Some l))
  /\ (forall tree previous,
        let name := prefix options +:+ "-manifest.json" in
        let prev := previousDocuments options previous in
        let st' := build options host tree previous in
        let found :=
          if chunkByFolder options
          then negb (Z.of_nat
                       (List.length
                          (changedFolders
                             (checkForFolderChanges options (source options) tree
                                (if incrementalByFolder options
                                 then prev else [])))) =? 0)
          else changed (checkForChanges options (source options) tree prev) in
        let Written :=
          exists manifest folders,
            assets st' !! name
            = Some (ManifestJson
                      (jsonManifest (makeGlobalManifest options manifest folders)))
            /\ if chunkByFolder options
               then exists l,
                      folders = Some l
                      /\ Permutation l
                           (Js.mapKeys
                              (collectFilesByFolder options (source options) tree))
               else folders = None in
        (assets st' !! name = previous !! name \/ Written)
        /\ (found = false -> assets st' = previous)
        /\ (found = true -> canMkdir host = true ->
            canWrite host (getAssetPath name) = true -> Written)).
Proof.
  split.
  - intros manifest content folders st name written st'.
    destruct (writeMarkdownFiles_effect manifest content folders st)
      as (st2 & Hw & _ & Ha).
    split; [unfold st'; rewrite Hw; exact Ha|].
    split; [apply writeMarkdownFiles_manifest|].
    apply makeGlobalManifest_structure.
  - intros tree previous name prev st' found Written.
    pose proof (build_run tree previous) as Hrun.
    cbv zeta in Hrun. fold st' prev in Hrun. subst found Written.
    destruct (chunkByFolder options).
    + destruct (changedFolders _) as [|f fs] eqn:Hf.
      * rewrite Hrun, loadedOf_assets.
        split; [left; reflexivity|]. split; [reflexivity | discriminate].
      * rewrite <- Hf in Hrun. destruct Hrun as (result & st1 & st2 & Hp & Hw & Hb).
        match type of Hp with
        | processChangedFolders _ _ ?a ?b ?s = _ =>
            destruct (processChangedFolders_effect b a s)
              as (result' & st1' & Hp' & _ & Ha)
        end.
        rewrite Hp in Hp'. injection Hp' as <- <-.
        specialize (Ha name manifest_not_chunk). rewrite loadedOf_assets in Ha.
        rewrite DetectionFacts.allFolders_check in Hw.
        assert (st' = snd (writeMarkdownFiles options host (globalManifest result) ∅
                             (Some (Js.mapKeys
                                      (collectFilesByFolder options
                                         (source options) tree))) st1)) as Hst
          by (rewrite Hw; exact Hb).
        destruct (writeMarkdownFiles_effect (globalManifest result) ∅
                    (Some (Js.mapKeys
                             (collectFilesByFolder options (source options) tree)))
                    st1) as (st2' & Hw' & _ & Hm).
        rewrite Hw in Hw'. injection Hw' as <-. rewrite Hb.
        split; [|split; [discriminate|]].
        -- destruct Hm as [Hm|Hm].
           ++ right. exists (globalManifest result), (Some (Js.mapKeys
                 (collectFilesByFolder options (source options) tree))).
              split; [exact Hm|]. eexists. split; [reflexivity|]. reflexivity.
           ++ left. rewrite Hm. exact Ha.
        -- intros _ Hmk Hcw.
           exists (globalManifest result), (Some (Js.mapKeys
              (collectFilesByFolder options (source options) tree))).
           split; [|eexists; split; reflexivity].
           rewrite <- Hb, Hst. apply writeMarkdownFiles_manifest; assumption.
    + destruct (changed _).
      * destruct Hrun as (result & st1 & st2 & Hp & Hw & Hb).
        destruct (processChangedFiles_effect
                    (updatedFiles
                       (checkForChanges options (source options) tree prev))
                    (loadedOf options tree previous)) as (result' & st1' & Hp' & Ha & _).
        rewrite Hp in Hp'. injection Hp' as <- <-.
        rewrite loadedOf_assets in Ha.
        assert (st' = snd (writeMarkdownFiles options host (resultManifest result)
                             (resultContent result) None st1)) as Hst
          by (rewrite Hw; exact Hb).
        destruct (writeMarkdownFiles_effect (resultManifest result)
                    (resultContent result) None st1) as (st2' & Hw' & _ & Hm).
        rewrite Hw in Hw'. injection Hw' as <-. rewrite Hb.
        split; [|split; [discriminate|]].
        -- destruct Hm as [Hm|Hm].
           ++ right. exists (resultManifest result), None. split; [exact Hm|reflexivity].
           ++ left. rewrite Hm, Ha. reflexivity.
        -- intros _ Hmk Hcw. exists (resultManifest result), None.
           split; [|reflexivity].
           rewrite <- Hb, Hst. apply writeMarkdownFiles_manifest; assumption.
      * rewrite Hrun, loadedOf_assets.
        split; [left; reflexivity|]. split; [reflexivity | discriminate].
Qed.

End WithHost.

End BuildFacts.

(** ** Builds on the examples *)

Module BuildExamples.
Import Types Eff Plugin Spec Examples.


(** C3, at the failing input. Two files with distinct paths, whose
    frontmatter holds the same [slug] key: the records of the manifest have
    the paths [a.md] and [b.md] and the same slug, which is neither [a] nor
    [b]. *)
Lemma frontmatter_slug_duplicates :
  let options := defaultOptions "docs" in
  let written :=
    previousDocuments options (assets (build options host treeSlug ∅)) in
  map (fun d => get d "path") written = [VString "a.md"; VString "b.md"]
  /\ map (fun d => get d "slug") written = [VString "guide"; VString "guide"]
  /\ slugOf options "a.md" = "a"
  /\ slugOf options "b.md" = "b".
Proof. vm_compute. repeat split. Qed.

(** C4, at the failing input. The content of the top-level file [a.md],
    whose frontmatter holds a [folder] key, is written to the root chunk;
    the record of the manifest has the folder of the frontmatter, and
    [getMarkdownDocument], on the assets that the build wrote, requests the
    chunk of that folder and returns [null]. *)
Lemma frontmatter_folder_misleads_lookup :
  let options := defaultOptions "docs" in
  let out := assets (build options host treeFolder ∅) in
  let found :=
    Data.getMarkdownDocument sameUrl "a" (serve out) None None Data.initial in
  match out !! "markdown-content-root.json.gz" with
  | Some (ContentJsonGz c) => c !! "a"
  | _ => None
  end
  = Some {| frontmatter :=
              [("folder", VString "guides"); ("date", VString "2024-01-01")];
            Types.content := text ["# A"] |}
  /\ map (fun d => (get d "slug", get d "folder")) (previousDocuments options out)
     = [(VString "a", VString "guides")]
  /\ fst found = Ok None
  /\ Data.requests (snd found)
     = ["/assets/docs/markdown-content-guides.json";
        "/assets/docs/markdown-content-guides.json.gz";
        "/assets/docs/markdown-manifest.json";
        "/assets/docs/markdown-manifest.json.gz"].
Proof. vm_compute. repeat split. Qed.

(** The folders [a/b] and [a-b] have the same chunk file: after the build
    it holds the content of one of them, and the document of the other is
    in no chunk. *)
Lemma chunk_names_collide :
  let options := defaultOptions "docs" in
  let out := assets (build options host treeCollision ∅) in
  chunkFilename options "a/b" = chunkFilename options "a-b"
  /\ map (fun d => get d "slug") (previousDocuments options out)
     = [VString "a-b/y"; VString "a/b/x"]
  /\ map fst (map_to_list out)
     = ["markdown-content-a-b.json.gz"; "markdown-manifest.json"]
  /\ fst (Data.getMarkdownDocument sameUrl "a/b/x" (serve out) None None
            Data.initial)
     = Ok None
  /\ fst (Data.getMarkdownDocument sameUrl "a-b/y" (serve out) None None
            Data.initial)
     = Ok (Some (Own {| frontmatter := [("date", VString "2024-01-01")];
                        Types.content := text ["# Y"] |})).
Proof. vm_compute. repeat split. Qed.

(** On files without such keys the build and the lookup agree. *)
Lemma build_then_lookup :
  let options := defaultOptions "docs" in
  let out := assets (build options host treeTouched ∅) in
  fst (Data.getMarkdownDocument sameUrl "a" (serve out) None None Data.initial)
  = Ok (Some (Own {| frontmatter := [("date", VString "2024-01-01")];
                     Types.content := text ["# A"] |})).
Proof. vm_compute. reflexivity. Qed.

(** X1 at the default extension. *)
Lemma slugOf_path_default :
  plainExtension (extension (defaultOptions "docs")) = true
  /\ slugOf (defaultOptions "docs") ("guides/intro" +:+ ".md") = "guides/intro".
Proof.
  split.
  - reflexivity.
  - exact (proj1 (MetaFacts.slugOf_path (defaultOptions "docs") eq_refl)
             "guides/intro").
Defined.

End BuildExamples.

(** ** execConcurrently *)

Module PoolFacts.
Import Pool.

Lemma steps_step_l {T : Type} (limit : Z) (s s' s'' : State T) :
  step limit s s' -> steps limit s' s'' -> steps limit s s''.
Proof.
  intros Hstep Hsteps. induction Hsteps as [|a b _ IH Hab].
  - eapply steps_step; [apply steps_refl | exact Hstep].
  - eapply steps_step; [exact IH | exact Hab].
Qed.

Ltac pool_advance :=
  eapply steps_step_l; [apply step_advance; vm_compute; reflexivity|].

Ltac pool_settle p :=
  eapply steps_step_l;
  [apply (step_settle _ _ _ p true); vm_compute; reflexivity|].

(** With two items and the limit 2 the two promises are pending together,
    and a run ends whichever settles first. *)
Lemma both_orders {T : Type} (x y : T) :
  exists s1 s2 : State T,
    reachable 2 [x; y] s1 /\ reachable 2 [x; y] s2
    /\ pc s1 = Done /\ pc s2 = Done
    /\ map fst (completed s1) = [0; 1]%nat
    /\ map fst (completed s2) = [1; 0]%nat.
Proof.
  eexists _, _. split; [|split].
  - unfold reachable.
    do 2 pool_advance. pool_settle 0%nat. pool_settle 1%nat. do 6 pool_advance.
    apply steps_refl.
  - unfold reachable.
    do 2 pool_advance. pool_settle 1%nat. pool_settle 0%nat. do 6 pool_advance.
    apply steps_refl.
  - repeat split.
Qed.

Section WithLimit.

Context {T : Type}.
Variable limit : Z.
Hypothesis limit_pos : 1 <= limit.
Variable items : list T.

Lemma Inv_start : Inv limit items (start items).
Proof.
  constructor; simpl.
  - reflexivity.
  - intros p Hp. exact Hp.
  - constructor.
  - lia.
Qed.

Lemma elem_of_delete_ne (l : list nat) (i : nat) (p q : nat) :
  l !! i = Some p -> q ∈ l -> q <> p -> q ∈ delete i l.
Proof.
  revert i. induction l as [|x l IH]; intros i Hi Hq Hne.
  - inversion Hq.
  - destruct i as [|i]; simpl in *.
    + injection Hi as ->. apply elem_of_cons in Hq as [->|Hq]; [congruence | exact Hq].
    + apply elem_of_cons in Hq as [->|Hq]; [left | right; eapply IH; eauto].
Qed.

Lemma pending_nodup (s : State T) :
  Inv limit items s -> List.NoDup (pending s).
Proof.
  intros [_ _ Hperm _].
  pose proof (seq_NoDup (List.length (invoked s)) 0) as Hnd.
  apply (Permutation_NoDup (Permutation_sym Hperm)) in Hnd.
  apply List.NoDup_app_remove_r in Hnd. exact Hnd.
Qed.

Lemma pending_le_executing (s : State T) :
  Inv limit items s ->
  (List.length (pending s) <= List.length (executing s))%nat.
Proof.
  intros Hinv. apply List.NoDup_incl_length; [apply pending_nodup, Hinv|].
  intros p Hp. apply list_elem_of_In, (inv_pending _ _ _ Hinv), list_elem_of_In, Hp.
Qed.

Lemma executing_le_limit (s : State T) :
  Inv limit items s -> Z.of_nat (List.length (executing s)) <= limit.
Proof.
  intros [_ _ _ Hpc]. destruct (pc s); lia.
Qed.

Lemma filter_out_absent (l : list nat) (p : nat) :
  ~ In p l -> List.filter (fun q => negb (Nat.eqb q p)) l = l.
Proof.
  induction l as [|y l IH]; intros Hx; [reflexivity|]. simpl.
  destruct (Nat.eqb_spec y p) as [->|_]; simpl.
  - exfalso. apply Hx. left. reflexivity.
  - f_equal. apply IH. intros H. apply Hx. right. exact H.
Qed.

Lemma filter_out_perm (l : list nat) (p : nat) :
  List.NoDup l -> In p l ->
  Permutation l (p :: List.filter (fun q => negb (Nat.eqb q p)) l).
Proof.
  induction l as [|x l IH]; intros Hnd Hin; [destruct Hin|].
  apply List.NoDup_cons_iff in Hnd as [Hx Hnd]. simpl.
  destruct (Nat.eqb_spec x p) as [->|Hne]; simpl.
  - rewrite (filter_out_absent l p Hx). reflexivity.
  - destruct Hin as [->|Hin]; [congruence|].
    rewrite (IH Hnd Hin) at 1. apply perm_swap.
Qed.

Lemma filter_out_shorter (l : list nat) (p : nat) :
  In p l ->
  (List.length (List.filter (fun q => negb (Nat.eqb q p)) l) < List.length l)%nat.
Proof.
  induction l as [|x l IH]; intros Hin; [destruct Hin|]. simpl.
  destruct (Nat.eqb_spec x p) as [->|Hne]; simpl.
  - pose proof (List.filter_length_le (fun q => negb (Nat.eqb q p)) l). lia.
  - destruct Hin as [->|Hin]; [congruence|]. specialize (IH Hin). lia.
Qed.

Lemma isSettled_spec (s : State T) (p : nat) :
  isSettled s p = true <-> p ∉ pending s.
Proof. unfold isSettled. apply bool_decide_eq_true. Qed.

Lemma Inv_advance (s s' : State T) :
  Inv limit items s -> advance limit s = Some s' -> Inv limit items s'.
Proof.
  intros Hinv Hadv. pose proof Hinv as [Hitems Hpend Hperm Hpc].
  unfold advance in Hadv. destruct (pc s) as [| |[|i]| |] eqn:Epc.
  - destruct (todo s) as [|item rest] eqn:Etodo; injection Hadv as <-.
    + constructor; simpl; rewrite ?Etodo; auto.
    + constructor; simpl.
      * rewrite <- app_assoc. exact Hitems.
      * intros p Hp. apply elem_of_app in Hp as [Hp|Hp]; apply elem_of_app; auto.
      * rewrite length_app, seq_app. simpl.
        rewrite <- app_assoc, (Permutation_app_comm [_]), app_assoc.
        apply Permutation_app_tail. exact Hperm.
      * rewrite length_app. simpl.
        destruct (limit <=? _) eqn:Hl; [apply Z.leb_le in Hl | apply Z.leb_gt in Hl];
          rewrite ?length_app in Hl; simpl in *; lia.
  - destruct (existsb _ _); [|discriminate]. injection Hadv as <-.
    constructor; simpl; rewrite ?Epc; auto. lia.
  - injection Hadv as <-. constructor; simpl; rewrite ?Epc; auto. lia.
  - destruct Hpc as [Hlen Hle].
    destruct (executing s !! i) as [p|] eqn:Hi.
    + destruct (isSettled s p) eqn:Hs; [|discriminate]. injection Hadv as <-.
      apply isSettled_spec in Hs.
      constructor; simpl; auto.
      * intros q Hq. apply (elem_of_delete_ne _ _ p); auto. congruence.
      * rewrite length_delete by eauto. lia.
    + apply lookup_ge_None in Hi. lia.
  - destruct (forallb _ _) eqn:Hall; [|discriminate]. injection Hadv as <-.
    constructor; simpl; rewrite ?Epc; auto.
    destruct Hpc as [Hlt Htodo]. repeat split; auto.
    destruct (pending s) as [|q l] eqn:Ep; [reflexivity|]. exfalso.
    assert (q ∈ q :: l) as Hq by left.
    rewrite forallb_forall in Hall.
    specialize (Hall q (proj1 (list_elem_of_In _ _) (Hpend q Hq))).
    apply isSettled_spec in Hall. rewrite Ep in Hall. exact (Hall Hq).
  - discriminate.
Qed.

Lemma Inv_settle (s s' : State T) (p : nat) (fulfilled : bool) :
  Inv limit items s -> settle p fulfilled s = Some s' -> Inv limit items s'.
Proof.
  intros Hinv Hs. pose proof (pending_nodup s Hinv) as Hnd.
  destruct Hinv as [Hitems Hpend Hperm Hpc].
  unfold settle in Hs. destruct (bool_decide (p ∈ pending s)) eqn:Hp; [|discriminate].
  apply bool_decide_eq_true in Hp. injection Hs as <-.
  constructor; simpl; auto.
  - intros q Hq. apply Hpend. apply list_elem_of_In in Hq.
    apply filter_In in Hq as [Hq _]. apply list_elem_of_In, Hq.
  - rewrite map_app. simpl. rewrite <- Hperm.
    rewrite (filter_out_perm (pending s) p Hnd) at 2
      by (apply list_elem_of_In, Hp).
    rewrite app_assoc, <- Permutation_cons_append. reflexivity.
  - destruct (pc s); auto. destruct Hpc as (? & ? & Hnil).
    rewrite Hnil in Hp. inversion Hp.
Qed.

Lemma Inv_step (s s' : State T) :
  Inv limit items s -> step limit s s' -> Inv limit items s'.
Proof.
  intros Hinv [Ha|p b Hs]; [eapply Inv_advance | eapply Inv_settle]; eauto.
Qed.

Lemma Inv_reachable (s : State T) :
  reachable limit items s -> Inv limit items s.
Proof.
  induction 1 as [|s' s'' _ IH Hstep]; [apply Inv_start|].
  eapply Inv_step; eauto.
Qed.

Lemma settle_pending (s : State T) (p : nat) (b : bool) :
  p ∈ pending s -> exists s', settle p b s = Some s'.
Proof.
  intros Hp. unfold settle. rewrite bool_decide_eq_true_2 by exact Hp. eauto.
Qed.

Lemma unsettled_pending (s : State T) (p : nat) :
  isSettled s p = false -> p ∈ pending s.
Proof.
  unfold isSettled. intros H. apply bool_decide_eq_false in H.
  destruct (decide (p ∈ pending s)) as [Hin|Hnot]; [exact Hin | destruct (H Hnot)].
Qed.

(** A state that has not returned is not stuck: the body advances, or it
    awaits a promise that is pending, which can settle either way. *)
Lemma progress (outcome : nat -> bool) (s : State T) :
  Inv limit items s -> pc s <> Done ->
  (exists s', advance limit s = Some s')
  \/ (exists p s', settle p (outcome p) s = Some s').
Proof.
  intros [_ _ _ Hpc] Hnd. unfold advance.
  destruct (pc s) as [| |[|i]| |] eqn:Epc.
  - left. destruct (todo s); eauto.
  - destruct (existsb _ _) eqn:Hex; [left; eauto|]. right.
    destruct (executing s) as [|p l] eqn:Ee; [simpl in Hpc; lia|].
    simpl in Hex. apply orb_false_iff in Hex as [Hp _].
    exists p. apply settle_pending, unsettled_pending, Hp.
  - left. eauto.
  - destruct (executing s !! i) as [p|]; [|left; eauto].
    destruct (isSettled s p) eqn:Hp; [left; eauto|]. right.
    exists p. apply settle_pending, unsettled_pending, Hp.
  - destruct (forallb _ _) eqn:Hall; [left; eauto|]. right.
    assert (exists p, In p (executing s) /\ isSettled s p = false) as (p & _ & Hp).
    { clear -Hall. induction (executing s) as [|p l IH]; [discriminate|].
      simpl in Hall. apply andb_false_iff in Hall as [Hp|Hl].
      - exists p. split; [left; reflexivity | exact Hp].
      - destruct (IH Hl) as (q & Hq & Hs). exists q. split; [right|]; assumption. }
    exists p. apply settle_pending, unsettled_pending, Hp.
  - congruence.
Qed.

Lemma measure_advance (s s' : State T) :
  Inv limit items s -> advance limit s = Some s' ->
  (measure s' < measure s)%nat.
Proof.
  intros [_ _ _ Hpc] Hadv. unfold advance in Hadv. unfold measure.
  destruct (pc s) as [| |[|i]| |] eqn:Epc.
  - destruct (todo s) as [|item rest] eqn:Et; injection Hadv as <-; simpl;
      rewrite ?Et; simpl.
    + lia.
    + rewrite !length_app. simpl. destruct (limit <=? _); lia.
  - destruct (existsb _ _); [|discriminate]. injection Hadv as <-. simpl. lia.
  - injection Hadv as <-. simpl. lia.
  - destruct Hpc as [Hlen _].
    destruct (executing s !! i) as [p|] eqn:Hi.
    + destruct (isSettled s p); [|discriminate]. injection Hadv as <-. simpl.
      rewrite length_delete by eauto. lia.
    + apply lookup_ge_None in Hi. lia.
  - destruct (forallb _ _); [|discriminate]. injection Hadv as <-. simpl. lia.
  - discriminate.
Qed.

Lemma measure_settle (s s' : State T) (p : nat) (b : bool) :
  settle p b s = Some s' -> (measure s' < measure s)%nat.
Proof.
  unfold settle. destruct (bool_decide (p ∈ pending s)) eqn:Hp; [|discriminate].
  apply bool_decide_eq_true, list_elem_of_In in Hp. intros [= <-].
  unfold measure. simpl. pose proof (filter_out_shorter (pending s) p Hp). lia.
Qed.

Lemma measure_step (s s' : State T) :
  Inv limit items s -> step limit s s' -> (measure s' < measure s)%nat.
Proof.
  intros Hinv [Ha|p b Hs]; [eapply measure_advance | eapply measure_settle]; eauto.
Qed.

(** From every state of a run there is a run to the end in which the
    promises settle as [outcome] says. *)
Lemma run_to_done (outcome : nat -> bool) (n : nat) :
  forall s, (measure s < n)%nat -> Inv limit items s -> Agree outcome s ->
    exists s', steps limit s s' /\ pc s' = Done /\ Agree outcome s'.
Proof.
  induction n as [|n IH]; intros s Hm Hinv Hag; [lia|].
  destruct (decide (pc s = Done)) as [Hd|Hd].
  - exists s. split; [apply steps_refl | auto].
  - destruct (progress outcome s Hinv Hd) as [(s1 & Ha)|(p & s1 & Hs)].
    + destruct (IH s1) as (s' & Hsteps & Hdone & Hag').
      * pose proof (measure_advance s s1 Hinv Ha). lia.
      * eapply Inv_advance; eauto.
      * intros q b Hq. apply Hag.
        unfold advance in Ha.
        destruct (pc s) as [| |[|i]| |]; try discriminate.
        -- destruct (todo s); injection Ha as <-; exact Hq.
        -- destruct (existsb _ _); [|discriminate]. injection Ha as <-. exact Hq.
        -- injection Ha as <-. exact Hq.
        -- destruct (executing s !! i) as [r|].
           ++ destruct (isSettled s r); [|discriminate]. injection Ha as <-. exact Hq.
           ++ injection Ha as <-. exact Hq.
        -- destruct (forallb _ _); [|discriminate]. injection Ha as <-. exact Hq.
      * exists s'. split; [|auto].
        eapply steps_step_l; [apply step_advance; exact Ha | exact Hsteps].
    + destruct (IH s1) as (s' & Hsteps & Hdone & Hag').
      * pose proof (measure_settle s s1 p (outcome p) Hs). lia.
      * eapply Inv_settle; eauto.
      * intros q b Hq. unfold settle in Hs.
        destruct (bool_decide (p ∈ pending s)); [|discriminate].
        injection Hs as <-. simpl in Hq. apply in_app_iff in Hq as [Hq|[Hq|[]]].
        -- apply Hag, Hq.
        -- injection Hq as <- <-. reflexivity.
      * exists s'. split; [|auto].
        eapply steps_step_l; [eapply step_settle; exact Hs | exact Hsteps].
Qed.

(** C8. For a limit of at least 1, in every state of
    [execConcurrently(items, limit, handler)] the handler has been called
    once on each item that has been taken, in the order of the items, and
    at most [limit] of its promises are pending; the function is never
    stuck while its promises can settle, fulfilled or rejected, every step
    brings it nearer to its end, and at its end the handler has been called
    once on every item and every promise has settled; for every choice of
    fulfilled and rejected there is such a run to the end.  The order in
    which the promises settle is not fixed: for two items and the limit 2
    both orders end a run. *)
Theorem execConcurrently_pool :
  (forall s, reachable limit items s ->
     invoked s ++ todo s = items
     /\ Z.of_nat (List.length (pending s)) <= limit
     /\ (pc s = Done ->
         invoked s = items /\ pending s = []
         /\ Permutation (map fst (completed s)) (seq 0 (List.length items)))
     /\ (pc s <> Done -> exists s', step limit s s')
     /\ (forall s', step limit s s' -> (measure s' < measure s)%nat))
  /\ (forall outcome : nat -> bool,
        exists s, reachable limit items s /\ pc s = Done /\ Agree outcome s)
  /\ (forall x y : T, exists s1 s2 : State T,
        reachable 2 [x; y] s1 /\ reachable 2 [x; y] s2
        /\ pc s1 = Done /\ pc s2 = Done
        /\ map fst (completed s1) = [0; 1]%nat
        /\ map fst (completed s2) = [1; 0]%nat).
Proof.
  split; [|split].
  - intros s Hreach. pose proof (Inv_reachable s Hreach) as Hinv.
    split; [apply (inv_items _ _ _ Hinv)|]. split.
    { pose proof (pending_le_executing s Hinv).
      pose proof (executing_le_limit s Hinv). lia. }
    split; [|split].
    + intros Hd. destruct Hinv as [Hitems _ Hperm Hpc]. rewrite Hd in Hpc.
      destruct Hpc as (_ & Htodo & Hpend).
      rewrite Htodo, app_nil_r in Hitems. rewrite Hpend in Hperm. simpl in Hperm.
      rewrite Hitems in Hperm. auto.
    + intros Hd.
      destruct (progress (fun _ => true) s Hinv Hd) as [(s' & Ha)|(p & s' & Hs)];
        exists s'; [apply step_advance | eapply step_settle]; eauto.
    + intros s' Hstep. apply measure_step; assumption.
  - intros outcome.
    destruct (run_to_done outcome (S (measure (start items))) (start items))
      as (s & Hsteps & Hd & Hag); [lia | apply Inv_start | intros p b []|].
    exists s. auto.
  - intros x y. apply both_orders.
Qed.

End WithLimit.

End PoolFacts.

(** ** Runs of execConcurrently *)

Module PoolExamples.
Import Pool PoolFacts.

(** C8 at the limit 2 and two files. *)
Lemma execConcurrently_pool_two_files :
  1 <= 2
  /\ forall s, reachable 2 ["a.md"; "b.md"] s ->
       invoked s ++ todo s = ["a.md"; "b.md"]
       /\ Z.of_nat (List.length (pending s)) <= 2
       /\ (pc s = Done ->
           invoked s = ["a.md"; "b.md"] /\ pending s = []
           /\ Permutation (map fst (completed s)) (seq 0 2))
       /\ (pc s <> Done -> exists s', step 2 s s')
       /\ (forall s', step 2 s s' -> (measure s' < measure s)%nat).
Proof.
  split.
  - exact (proj1 (Z.leb_le 1 2) eq_refl).
  - exact (proj1 (execConcurrently_pool 2 (proj1 (Z.leb_le 1 2) eq_refl)
                    ["a.md"; "b.md"])).
Defined.

End PoolExamples.

(** ** The messages of validateDocumentSlug *)

Module SlugMessages.
Import Utils Spec SlugFacts.

Lemma slugClass_not_space (c : ascii) :
  slugClass c = true -> Js.isWhiteSpace c = false.
Proof.
  destruct (Js.isWhiteSpace c) eqn:E; [|reflexivity].
  revert E. destruct c as [[|] [|] [|] [|] [|] [|] [|] [|]]; vm_compute; congruence.
Qed.

Lemma trimEnd_slug (t : string) :
  allChars slugClass t = true -> Js.trimEnd t = t.
Proof.
  induction t as [|c t IH]; simpl; [reflexivity|].
  intros H. apply andb_true_iff in H as [Hc Ht].
  rewrite (slugClass_not_space c Hc), (IH Ht). reflexivity.
Qed.

Lemma trim_slug (t : string) : allChars slugClass t = true -> Js.trim t = t.
Proof.
  intros H. unfold Js.trim.
  assert (Js.trimStart t = t) as ->; [|apply trimEnd_slug, H].
  destruct t as [|c t]; simpl; [reflexivity|].
  simpl in H. apply andb_true_iff in H as [Hc _].
  rewrite (slugClass_not_space c Hc). reflexivity.
Qed.

Lemma slug_no_dots (t : string) :
  allChars slugClass t = true -> Js.includes t ".." = false.
Proof.
  induction t as [|c t IH]; [reflexivity|].
  intros H. simpl in H. apply andb_true_iff in H as [Hc Ht].
  rewrite includes_unfold. cbn [Js.startsWith].
  destruct (Ascii.eqb "." c) eqn:E.
  - apply Ascii.eqb_eq in E as <-. discriminate.
  - cbn [andb]. apply IH, Ht.
Qed.

(** The message that [validateDocumentSlug] throws is the one of the first
    validation that fails, in this order: the type, the empty string, the
    class of characters, the leading slash, the trailing slash.  A string
    that holds two dots fails the class of characters, so the check for
    directory traversal never gives the message. *)
Theorem validateDocumentSlug_first_issue (input : JsValue) :
  validateDocumentSlug input =
  match input with
  | JsString s =>
      let t := Js.trim s in
      if Js.isEmpty t
      then Throws {| body := "Slug cannot be empty"; status := 400 |}
      else if negb (allChars slugClass t)
      then Throws {| body := "Slug can only contain letters, numbers, hyphens, underscores, and forward slashes";
                     status := 400 |}
      else if Js.startsWith t "/"
      then Throws {| body := "Slug cannot start with forward slash";
                     status := 400 |}
      else if Js.endsWith t "/"
      then Throws {| body := "Slug cannot end with forward slash";
                     status := 400 |}
      else Returns t
  | _ => Throws {| body := invalidTypeMessage input; status := 400 |}
  end.
Proof.
  destruct input as [| |b|z|s|ctor]; try reflexivity.
  unfold validateDocumentSlug, parseDocumentSlug, slugRegexTest. cbv zeta.
  destruct (Js.trim s) as [|c t] eqn:Ht; [reflexivity|].
  set (u := String c t).
  assert ((1 <=? Js.length u) = true) as ->.
  { apply length_nonempty. discriminate. }
  change (Js.isEmpty u) with false. cbn [negb andb check app].
  destruct (allChars slugClass u) eqn:Hc; cbn [negb check app]; [|reflexivity].
  rewrite (slug_no_dots u Hc). cbn [negb check app].
  destruct (Js.startsWith u "/"); cbn [negb check app]; [reflexivity|].
  destruct (Js.endsWith u "/"); reflexivity.
Qed.

(** A slug that [validateDocumentSlug] returns is returned as it is when it
    is validated again. *)
Theorem validateDocumentSlug_idempotent (input : JsValue) (t : string) :
  validateDocumentSlug input = Returns t ->
  validateDocumentSlug (JsString t) = Returns t.
Proof.
  intros H.
  assert (validb t = true) as Hv.
  { destruct input as [| |b|z|s|ctor]; try discriminate.
    unfold validateDocumentSlug in H.
    destruct (parseDocumentSlug_string s) as [[Hv Hp]|[_ (m & issues & Hp & _)]];
      rewrite Hp in H; [|discriminate].
    injection H as <-. exact Hv. }
  assert (Js.trim t = t) as Ht.
  { apply trim_slug. unfold validb, slugRegexTest in Hv.
    rewrite !andb_true_iff in Hv. tauto. }
  unfold validateDocumentSlug.
  destruct (parseDocumentSlug_string t) as [[_ Hp]|[Hv' _]].
  - rewrite Hp, Ht. reflexivity.
  - rewrite Ht in Hv'. congruence.
Qed.

Lemma validateDocumentSlug_idempotent_padded :
  validateDocumentSlug (JsString "  guides/intro ") = Returns "guides/intro"
  /\ validateDocumentSlug (JsString "guides/intro") = Returns "guides/intro".
Proof.
  split.
  - reflexivity.
  - exact (validateDocumentSlug_idempotent (JsString "  guides/intro ")
             "guides/intro" eq_refl).
Defined.

(** The message for a number names it as the template literal prints
    it. *)
Lemma validateDocumentSlug_number :
  validateDocumentSlug (JsNumber "1e+21")
  = Throws {| body := "Invalid type: Expected string but received 1e+21";
              status := 400 |}.
Proof. reflexivity. Qed.

End SlugMessages.

(** ** The URLs of the assets *)

Module UrlFacts.
Import Utils Types Eff Data Spec.

Lemma take_append (a b : string) : Js.take (String.length a) (a +:+ b) = a.
Proof.
  induction a as [|c a IH]; [destruct b; reflexivity|].
  change (String c (Js.take (String.length a) (a +:+ b)) = String c a).
  f_equal. exact IH.
Qed.

Lemma append_empty_r (a : string) : a +:+ EmptyString = a.
Proof.
  induction a as [|c a IH]; [reflexivity|].
  change (String c (a +:+ EmptyString) = String c a). f_equal. exact IH.
Qed.

Lemma length_snoc (a : string) (c : ascii) :
  String.length (a +:+ String c EmptyString) = S (String.length a).
Proof.
  induction a as [|d a IH]; [reflexivity|].
  change (S (String.length (a +:+ String c EmptyString)) = S (S (String.length a))).
  f_equal. exact IH.
Qed.

(** A slash at the end of the prefix is optional: with or without it the
    URL is the prefix, a slash and the file name; an empty prefix stands for
    [ASSET_PREFIX.fetch]. *)
Theorem formatAssetUrl_prefix (href : string -> string -> string)
  (filename p : string) (request : option string) :
  p <> EmptyString -> Js.endsWith p "/" = false ->
  formatAssetUrl href filename None (Some p) = p +:+ "/" +:+ filename
  /\ formatAssetUrl href filename request (Some (p +:+ "/"))
     = formatAssetUrl href filename request (Some p)
  /\ formatAssetUrl href filename request (Some EmptyString)
     = formatAssetUrl href filename request None.
Proof.
  intros Hne Hend.
  assert (orElse p ASSET_PREFIX_fetch = p) as Hp.
  { destruct p; [congruence | reflexivity]. }
  assert (orElse (p +:+ "/") ASSET_PREFIX_fetch = p +:+ "/") as Hq.
  { destruct p; [congruence | reflexivity]. }
  assert (Js.endsWith (p +:+ "/") "/" = true) as Hs.
  { apply endsWith_spec. exists p. reflexivity. }
  unfold formatAssetUrl. rewrite Hp, Hq, Hend, Hs, length_snoc.
  replace (S (String.length p) - 1)%nat with (String.length p) by lia.
  rewrite take_append. repeat split.
Qed.

Lemma formatAssetUrl_prefix_cdn :
  Js.endsWith "/cdn" "/" = false
  /\ formatAssetUrl (fun url _ => url) "markdown-manifest.json" None (Some "/cdn/")
     = "/cdn/markdown-manifest.json".
Proof.
  split; [reflexivity|].
  destruct (formatAssetUrl_prefix (fun url _ => url) "markdown-manifest.json"
              "/cdn" None) as (H1 & H2 & _);
    [discriminate | reflexivity |].
  exact (eq_trans H2 H1).
Defined.

Lemma endsWith_includes (s p : string) :
  Js.endsWith s p = true -> Js.includes s p = true.
Proof.
  intros H. apply endsWith_spec in H as [a ->]. apply includes_spec.
  exists a, EmptyString. rewrite append_empty_r. reflexivity.
Qed.

(** The first occurrence of [.gz] in a URL that holds none, with [.gz]
    appended, is the one appended. *)
Lemma replaceFirst_gz (url : string) :
  Js.includes url ".gz" = false ->
  Js.replaceFirst (url +:+ ".gz") ".gz" EmptyString = url.
Proof.
  induction url as [|c url IH]; [reflexivity|].
  rewrite includes_unfold.
  destruct (Js.startsWith (String c url) ".gz") eqn:Hs; [discriminate|].
  intros Hinc.
  change (String c url +:+ ".gz") with (String c (url +:+ ".gz")).
  assert (Js.startsWith (String c (url +:+ ".gz")) ".gz" = false) as Hs'.
  { revert Hs. cbn [Js.startsWith]. destruct (Ascii.eqb "." c); [|reflexivity].
    cbn [andb]. destruct url as [|d url]; [reflexivity|].
    change (String d url +:+ ".gz") with (String d (url +:+ ".gz")).
    cbn [Js.startsWith]. destruct (Ascii.eqb "g" d); [|reflexivity].
    cbn [andb]. destruct url as [|e url]; [reflexivity|].
    change (String e url +:+ ".gz") with (String e (url +:+ ".gz")).
    cbn [Js.startsWith]. destruct (Ascii.eqb "z" e); [|reflexivity].
    discriminate. }
  cbn [Js.replaceFirst]. rewrite Hs'. f_equal. apply IH, Hinc.
Qed.

(** [fetchContent] takes the URL of the file or the URL of its compressed
    version: on a URL that holds no [.gz], and on that URL with [.gz]
    appended, it makes the same requests and returns the same. *)
Theorem fetchContent_gz_url {T : Type} (url : string) (assets : Fetcher T) :
  Js.includes url ".gz" = false ->
  baseUrlOf (url +:+ ".gz") = url
  /\ baseUrlOf url = url
  /\ forall st, fetchContent (url +:+ ".gz") assets st = fetchContent url assets st.
Proof.
  intros Hinc.
  assert (baseUrlOf (url +:+ ".gz") = url) as H1.
  { unfold baseUrlOf.
    assert (Js.endsWith (url +:+ ".gz") ".gz" = true) as ->.
    { apply endsWith_spec. exists url. reflexivity. }
    apply replaceFirst_gz, Hinc. }
  assert (baseUrlOf url = url) as H2.
  { unfold baseUrlOf. destruct (Js.endsWith url ".gz") eqn:He; [|reflexivity].
    apply endsWith_includes in He. congruence. }
  split; [exact H1|]. split; [exact H2|].
  intros st. unfold fetchContent. rewrite H1, H2. reflexivity.
Qed.

Lemma fetchContent_gz_url_manifest :
  Js.includes "/assets/docs/markdown-content.json" ".gz" = false
  /\ baseUrlOf "/assets/docs/markdown-content.json.gz"
     = "/assets/docs/markdown-content.json".
Proof.
  split; [reflexivity|].
  exact (proj1 (fetchContent_gz_url (T := ContentMap)
                  "/assets/docs/markdown-content.json"
                  (fun _ => Rejects "offline") eq_refl)).
Defined.

End UrlFacts.

(** ** The manifest and the documents at run time *)

Module LookupFacts.
Import Utils Types Eff Data Spec Vocabulary FetchFacts CacheFacts.

Lemma get_omit (k k' : string) (o : Object) :
  get (omit k o) k' = if bool_decide (k' = k) then VUndefined else get o k'.
Proof.
  unfold get, omit. induction o as [|[k0 v0] o IH]; simpl.
  - destruct (bool_decide (k' = k)); reflexivity.
  - destruct (String.eqb k0 k) eqn:E; simpl.
    + apply String.eqb_eq in E as ->.
      destruct (decide (k = k')) as [->|Hne].
      * rewrite bool_decide_eq_true_2 in IH |- * by reflexivity. exact IH.
      * exact IH.
    + apply String.eqb_neq in E.
      destruct (decide (k0 = k')) as [->|Hne]; [|exact IH].
      rewrite bool_decide_eq_false_2 by exact E. reflexivity.
Qed.

Lemma omit_Stripped (doc : Object) :
  Stripped doc (omit "_size" (omit "_mtime" doc)).
Proof.
  intros k. rewrite !get_omit.
  destruct (decide (k = "_size")) as [->|H1].
  - rewrite !bool_decide_eq_true_2; auto.
  - rewrite (bool_decide_eq_false_2 (k = "_size")) by exact H1.
    destruct (decide (k = "_mtime")) as [->|H2].
    + rewrite !bool_decide_eq_true_2; auto.
    + rewrite !bool_decide_eq_false_2; [reflexivity | tauto | exact H2].
Qed.

Section WithHref.

Variable href : string -> string -> string.

(** What [getMarkdownManifest] returns is the list of its cache, or the
    documents of the global manifest without their [_mtime] and [_size],
    every other property as it is. *)
Theorem getMarkdownManifest_strips (a : Assets) (r p : option string)
  (st : State) :
  exists m st', getMarkdownManifest href a r p st = (Ok m, st')
    /\ match manifestCache st with
       | Some cached => m = cached
       | None =>
           exists g st1, getGlobalManifest href a r p st = (Ok g, st1)
             /\ Forall2 Stripped (documents g) m
       end.
Proof.
  destruct (manifestCache st) as [cached|] eqn:Hc.
  - exists cached, st. split; [apply getMarkdownManifest_hit, Hc | reflexivity].
  - destruct (getGlobalManifest_ok href a r p st) as (g & st1 & Hg & _).
    unfold getMarkdownManifest, mbind, Async_bind, getState. rewrite Hc, Hg.
    eexists _, _. split; [reflexivity|]. exists g, st1. split; [reflexivity|].
    induction (documents g) as [|doc docs IH]; constructor;
      [apply omit_Stripped | exact IH].
Qed.

Lemma fetchContent_fetched {T : Type} (url : string) (assets : Fetcher T)
  (st : State) :
  exists st', SameCaches st st'
    /\ match fetched assets url with
       | Some v => fetchContent url assets st = (Ok v, st')
       | None => exists e, fetchContent url assets st = (Thrown e, st')
       end.
Proof.
  pose proof (fetchContent_run url assets st) as H. cbv zeta in H.
  unfold fetched, gzUrlOf.
  destruct (compressedAttempt _ _) as [v|].
  - eexists. split; [|exact H]. apply SameCaches_requested.
  - destruct (uncompressedAttempt _ _) as [v|].
    + eexists. split; [|exact H]. apply SameCaches_requested.
    + destruct H as [e He]. eexists. split; [|exists e; exact He].
      apply SameCaches_requested.
Qed.

Lemma modeAt_ext (a : Assets) (r p : option string) (st st' : State) :
  globalManifestCache st' = globalManifestCache st ->
  modeAt href a r p st' = modeAt href a r p st.
Proof. unfold modeAt. intros ->. reflexivity. Qed.

(** [getGlobalManifest] reports the mode of the state, and keeps it. *)
Lemma getGlobalManifest_mode (a : Assets) (r p : option string) (st : State) :
  exists g st', getGlobalManifest href a r p st = (Ok g, st')
    /\ _buildMode g = modeAt href a r p st
    /\ modeAt href a r p st' = modeAt href a r p st
    /\ manifestCache st' = manifestCache st
    /\ contentCache st' = contentCache st.
Proof.
  rewrite getGlobalManifest_run. unfold modeAt.
  destruct (globalManifestCache st) as [g|] eqn:Hc.
  - exists g, st. rewrite Hc. auto.
  - destruct (fetchContent_fetched
                (formatAssetUrl href (prefixOr p +:+ "-manifest.json") r None)
                (manifestAssets a) st) as (st1 & (H1 & H2 & H3 & H4) & Hf).
    destruct (fetched _ _) as [g|].
    + rewrite Hf. eexists _, _. split; [reflexivity|]. simpl. auto.
    + destruct Hf as [e ->]. eexists _, _. split; [reflexivity|].
      rewrite H2, Hc. auto.
Qed.

(** [getMarkdownContent] keeps the mode; in single mode it returns the
    content of its cache, when there is one. *)
Lemma getMarkdownContent_mode (a : Assets) (r p : option string) (st : State) :
  exists c st', getMarkdownContent href a r p st = (Ok c, st')
    /\ modeAt href a r p st' = modeAt href a r p st
    /\ (c <> ∅ -> contentCache st' = Some c)
    /\ (forall c0, modeAt href a r p st = single -> contentCache st = Some c0 ->
          c = c0 /\ contentCache st' = Some c0).
Proof.
  destruct (getGlobalManifest_mode a r p st) as (g & st1 & Hg & Hm & Hk & _ & Hcc).
  unfold getMarkdownContent, mbind, Async_bind. rewrite Hg.
  destruct (decide (_buildMode g = chunked)) as [Hch|_].
  - exists ∅, st1. split; [reflexivity|]. split; [exact Hk|].
    split; [congruence|]. intros c0 Hs. congruence.
  - unfold getState. destruct (contentCache st1) as [c1|] eqn:Hc1.
    + exists c1, st1. split; [reflexivity|]. split; [exact Hk|].
      split; [auto|]. intros c0 _ H0. split; congruence.
    + unfold tryCatch.
      destruct (fetchContent_frame
                  (formatAssetUrl href (prefixOr p +:+ "-content.json") r None)
                  (contentAssets a) st1) as (res & u & urls & ->).
      destruct res as [c|e].
      * eexists _, _. split; [reflexivity|]. simpl.
        split; [rewrite <- Hk; apply modeAt_ext; reflexivity|].
        split; [reflexivity|]. intros c0 _ H0. congruence.
      * eexists _, _. split; [reflexivity|]. simpl.
        split; [rewrite <- Hk; apply modeAt_ext; reflexivity|].
        split; [congruence|]. intros c0 _ H0. congruence.
Qed.

(** After [getMarkdownDocument] has returned a document, or any value
    other than [null], [hasMarkdownDocument] returns [true] for its slug,
    on the same arguments. *)
Theorem hasMarkdownDocument_after_get (slug : string) (a : Assets)
  (r p : option string) (st st1 : State) (doc : Property) :
  getMarkdownDocument href slug a r p st = (Ok (Some doc), st1) ->
  exists st2, hasMarkdownDocument href slug a r p st1 = (Ok true, st2).
Proof.
  intros Hget.
  destruct (getGlobalManifest_mode a r p st) as (g & s1 & Hg & Hm & Hk & _ & _).
  unfold getMarkdownDocument, mbind, Async_bind in Hget. rewrite Hg in Hget.
  destruct (decide (_buildMode g = chunked)) as [Hch|Hsingle].
  - (* chunked: the manifest and its list are in the caches *)
    destruct (getGlobalManifest_ok href a r p st)
      as (g' & s1' & Hg' & _ & _ & [Hgc|(Hf & _)]);
      rewrite Hg in Hg'; injection Hg' as <- <-;
      [|rewrite Hf in Hch; discriminate].
    destruct (getMarkdownManifest_ok href a r p s1) as (m & s2 & Hmm & K2 & Hmc).
    rewrite Hmm in Hget.
    destruct (List.find _ m) as [docMeta|] eqn:Hfind; [|discriminate].
    destruct (loadFolderContent_ok href
                (if truthy (get docMeta "folder") then get docMeta "folder"
                 else VString "root") a r p s2) as (fc & s3 & Hl & K3 & _).
    rewrite Hl in Hget. injection Hget as _ <-.
    pose proof (Keeps_trans _ _ _ K2 K3) as K.
    unfold hasMarkdownDocument, mbind, Async_bind.
    rewrite (getGlobalManifest_hit href a r p s3 g (keeps_global _ _ K _ Hgc)).
    destruct (decide (_buildMode g = chunked)) as [_|Hne]; [|contradiction].
    rewrite (getMarkdownManifest_hit href a r p s3 m (keeps_manifest _ _ K3 _ Hmc)).
    assert (existsb (fun doc => strictEq (get doc "slug") (VString slug)) m
            = true) as ->.
    { apply existsb_exists. apply find_some in Hfind as [Hin Heq]. eauto. }
    exists s3. reflexivity.
  - (* single: the content is in the cache, and the mode is kept *)
    assert (modeAt href a r p s1 = single) as Hmode.
    { rewrite Hk, <- Hm. destruct (_buildMode g); congruence. }
    destruct (getMarkdownContent_mode a r p s1) as (c & s2 & Hc & Hk2 & Hcc & _).
    rewrite Hc in Hget. injection Hget as Hdoc <-.
    destruct (getGlobalManifest_mode a r p s2) as (g3 & s3 & Hg3 & Hm3 & Hk3 & _ & Hc3).
    unfold hasMarkdownDocument, mbind, Async_bind. rewrite Hg3.
    destruct (decide (_buildMode g3 = chunked)) as [Hch3|_]; [congruence|].
    destruct (getMarkdownContent_mode a r p s3) as (c4 & s4 & Hc4 & _ & _ & Hhit).
    rewrite Hc4. exists s4. unfold getProperty in Hdoc. unfold hasProperty.
    destruct (c !! slug) as [d|] eqn:Hd.
    + assert (contentCache s2 = Some c) as Hcache.
      { apply Hcc. intros ->. rewrite lookup_empty in Hd. discriminate. }
      destruct (Hhit c) as [-> _]; [congruence | congruence|].
      rewrite (bool_decide_eq_true_2 (is_Some (c !! slug)))
        by (rewrite Hd; eauto).
      reflexivity.
    + destruct (inherited slug); [|discriminate].
      rewrite orb_true_r. reflexivity.
Qed.

End WithHref.

End LookupFacts.

Module LookupExamples.
Import Types Eff Data Examples.

Lemma hasMarkdownDocument_after_get_single :
  fst (getMarkdownDocument sameUrl "a" assetsContentOnly None None initial)
  = Ok (Some (Own docA))
  /\ exists st2,
       hasMarkdownDocument sameUrl "a" assetsContentOnly None None
         (snd (getMarkdownDocument sameUrl "a" assetsContentOnly None None initial))
       = (Ok true, st2).
Proof.
  split; [vm_compute; reflexivity|].
  apply (LookupFacts.hasMarkdownDocument_after_get sameUrl "a" assetsContentOnly
           None None initial _ (Own docA)).
  vm_compute. reflexivity.
Defined.

End LookupExamples.

(** ** The loaders *)

Module LoaderFacts.
Import Types Eff Data Loaders CacheFacts.

Section WithHost.

Variable href : string -> string -> string.
Variable searchParamsHas : string -> string -> bool.
Variable toLocaleDateString : Value -> string.

Local Abbreviation slugLoader :=
  (markdownSlugLoader href searchParamsHas toLocaleDateString).

(** [markdownLoader] returns what [getMarkdownManifest] returns.
    [markdownSlugLoader] throws the [Response] of status 404 when no record
    of the manifest has the slug, and when the document is [null] on an
    API call; when the document is [null] on another call it returns the
    page in its loading state. When [getMarkdownDocument] returns a
    document it returns the document, as JSON on an API call, with the
    formatted date added to its frontmatter. When [getMarkdownDocument]
    returns a property of [Object.prototype], which has no frontmatter,
    the read of the date throws a [TypeError]: an API call rethrows it, and
    another call requests the manifest again and returns the page in its
    loading state. *)
Theorem markdownSlugLoader_outcomes (validatedSlug : string)
  (request : Request) (ASSETS : Assets) (st : State) :
  let r := Some (url request) in
  let api := isApiCall searchParamsHas request in
  markdownLoader href request ASSETS st = getMarkdownManifest href ASSETS r None st
  /\ exists m st1, getMarkdownManifest href ASSETS r None st = (Ok m, st1) /\
       if existsb (fun doc => strictEq (get doc "slug") (VString validatedSlug)) m
       then
         exists doc st2,
           getMarkdownDocument href validatedSlug ASSETS r None st1 = (Ok doc, st2)
           /\ match doc with
              | None =>
                  slugLoader validatedSlug request ASSETS st
                  = (if api then inl (ThrownResponse documentNotFound)
                     else inr (Page m validatedSlug None true), st2)
              | Some (Own d) =>
                  let enhanced := enhancedFrontmatter toLocaleDateString d in
                  slugLoader validatedSlug request ASSETS st
                  = (if api then inr (Json (content d) enhanced validatedSlug)
                     else inr (Page m validatedSlug
                                 (Some {| frontmatter := enhanced;
                                          content := content d |}) false), st2)
              | Some (Inherited _) =>
                  if api then
                    slugLoader validatedSlug request ASSETS st
                    = (inl (ThrownError
                              {| message :=
                                   "Cannot read properties of undefined (reading 'date')" |}),
                       st2)
                  else
                    exists m' st3,
                      getMarkdownManifest href ASSETS r None st2 = (Ok m', st3)
                      /\ slugLoader validatedSlug request ASSETS st
                         = (inr (Page m' validatedSlug None true), st3)
              end
       else
         slugLoader validatedSlug request ASSETS st
         = (inl (ThrownResponse documentNotFound), st1).
Proof.
  intros r api.
  destruct (getMarkdownManifest_ok href ASSETS r None st) as (m & st1 & Hm & _).
  split.
  { unfold markdownLoader, tryCatch. fold r. rewrite Hm. reflexivity. }
  exists m, st1. split; [exact Hm|].
  unfold markdownSlugLoader, catch, mbind, Loader_bind, await, manifestOrEmpty,
    tryCatch. fold r. rewrite Hm.
  destruct (existsb _ m); cbn [negb].
  - destruct (getMarkdownDocument_ok href validatedSlug ASSETS r None st1)
      as (doc & st2 & Hd & _).
    exists doc, st2. split; [exact Hd|]. rewrite Hd. fold api.
    destruct doc as [[d|k]|]; [destruct api; reflexivity| |destruct api; reflexivity].
    cbn [throwError isNotFound].
    destruct api; cbn [negb]; [reflexivity|].
    destruct (getMarkdownManifest_ok href ASSETS r None st2) as (m' & st3 & Hm' & _).
    exists m', st3. split; [exact Hm'|]. rewrite Hm'. reflexivity.
  - reflexivity.
Qed.

End WithHost.

End LoaderFacts.

Module LoaderExamples.
Import Types Eff Data Loaders Examples.

(** The manifest holds the record of [constructor.md] and the chunk of its
    folder is not served: [getMarkdownDocument] returns the property of
    [Object.prototype], and [markdownSlugLoader] throws the [TypeError] on
    an API call and returns the page in its loading state on another
    call. *)
Lemma markdownSlugLoader_inherited_name :
  let request := {| url := "/docs/constructor"; accept := None |} in
  let toLocaleDateString := fun _ : Value => "Jan 1, 2024" in
  fst (getMarkdownManifest sameUrl assetsConstructor (Some (url request)) None
         initial)
  = Ok [metaConstructor]
  /\ fst (getMarkdownDocument sameUrl "constructor" assetsConstructor
            (Some (url request)) None initial)
     = Ok (Some (Inherited "constructor"))
  /\ fst (markdownSlugLoader sameUrl (fun _ _ => true) toLocaleDateString
            "constructor" request assetsConstructor initial)
     = inl (ThrownError
              {| message :=
                   "Cannot read properties of undefined (reading 'date')" |})
  /\ fst (markdownSlugLoader sameUrl (fun _ _ => false) toLocaleDateString
            "constructor" request assetsConstructor initial)
     = inr (Page [metaConstructor] "constructor" None true).
Proof. vm_compute. repeat split. Qed.

End LoaderExamples.

(** ** The route of a document *)

Module RouteFacts.
Import Types Components.

Lemma split_nonempty (c : ascii) (s : string) : Js.split c s <> [].
Proof.
  induction s as [|d s IH]; simpl; [discriminate|].
  destruct (Ascii.eqb d c); [discriminate|].
  destruct (Js.split c s); discriminate.
Qed.

(** [s.split('/').join('/')] is [s]. *)
Lemma join_split (s : string) : join (Js.split "/" s) = s.
Proof.
  induction s as [|d s IH]; [reflexivity|].
  cbn [Js.split]. destruct (Ascii.eqb d "/") eqn:E.
  - apply Ascii.eqb_eq in E as ->.
    pose proof (split_nonempty "/" s) as Hne.
    destruct (Js.split "/" s) as [|w ws]; [congruence|].
    change (join (EmptyString :: w :: ws)) with ("/" +:+ join (w :: ws)).
    rewrite IH. reflexivity.
  - pose proof (split_nonempty "/" s) as Hne.
    destruct (Js.split "/" s) as [|w ws]; [congruence|].
    destruct ws as [|w' ws].
    + cbn [join] in IH |- *. rewrite IH. reflexivity.
    + change (join (String d w :: w' :: ws))
        with (String d (w +:+ "/" +:+ join (w' :: ws))).
      change (join (w :: w' :: ws)) with (w +:+ "/" +:+ join (w' :: ws)) in IH.
      rewrite IH. reflexivity.
Qed.

(** The parts of the route of a slug. *)
Lemma split_docs (slug : string) :
  Js.split "/" (docs slug)
  = EmptyString :: "forge" :: "docs" :: Js.split "/" slug.
Proof.
  unfold docs. pose proof (split_nonempty "/" slug) as Hne.
  change ("/forge/docs/" +:+ slug)
    with (String "/" (String "f" (String "o" (String "r" (String "g" (String "e"
          (String "/" (String "d" (String "o" (String "c" (String "s"
          (String "/" slug)))))))))))).
  cbn [Js.split Ascii.eqb Bool.eqb].
  destruct (Js.split "/" slug) as [|w ws]; [congruence | reflexivity].
Qed.

(** At the route that [ASSET_ROUTES.docs] gives for a slug of the manifest
    that is not selected, and with no preloaded document, the effect selects
    the slug and loads the document from [ASSET_ROUTES.docsApi]. *)
Theorem selectFromLocation_route (manifest : list MarkdownMeta)
  (slug : string) (s : PageState) :
  slug <> EmptyString ->
  (exists doc, In doc manifest /\ get doc "slug" = VString slug) ->
  selectedDoc s <> Some slug ->
  selectFromLocation manifest None None (docs slug) s
  = {| selectedDoc := Some slug; error := error s;
       loads := docsApi slug :: loads s |}.
Proof.
  intros Hne (doc & Hin & Hslug) Hsel.
  unfold selectFromLocation. cbn [given andb].
  rewrite split_docs.
  change (indexOf (EmptyString :: "forge" :: "docs" :: Js.split "/" slug) "docs")
    with (Some 2%nat).
  cbv iota beta.
  assert ((Z.of_nat 2 <? Z.of_nat (List.length
             (EmptyString :: "forge" :: "docs" :: Js.split "/" slug)) - 1) = true)
    as ->.
  { pose proof (split_nonempty "/" slug) as Hs. apply Z.ltb_lt.
    destruct (Js.split "/" slug); [congruence | simpl List.length; lia]. }
  change (skipn (2 + 1) (EmptyString :: "forge" :: "docs" :: Js.split "/" slug))
    with (Js.split "/" slug).
  rewrite join_split.
  assert (Js.isEmpty slug = false) as ->.
  { destruct slug; [congruence | reflexivity]. }
  assert (existsb (fun doc => strictEq (get doc "slug") (VString slug)) manifest
          = true) as ->.
  { apply existsb_exists. exists doc. split; [exact Hin|].
    apply bool_decide_eq_true_2, Hslug. }
  rewrite (bool_decide_eq_false_2 _ Hsel). reflexivity.
Qed.

Lemma selectFromLocation_route_intro :
  selectFromLocation [[("slug", VString "guides/intro")]] None None
    "/forge/docs/guides/intro"
    {| selectedDoc := None; error := None; loads := [] |}
  = {| selectedDoc := Some "guides/intro"; error := None;
       loads := ["/forge/docs/guides/intro?api"] |}.
Proof.
  apply (selectFromLocation_route [[("slug", VString "guides/intro")]]
           "guides/intro" {| selectedDoc := None; error := None; loads := [] |}).
  - discriminate.
  - eexists. split; [left; reflexivity | reflexivity].
  - discriminate.
Defined.

End RouteFacts.

(** ** sortManifest *)

Module SortFacts.
Import Types Plugin BuildVocabulary.

Section WithHost.

Variable host : Host.

Lemma insertSorted_perm (x : MarkdownMeta) (l : list MarkdownMeta) :
  Permutation (insertSorted host x l) (x :: l).
Proof.
  induction l as [|y l IH]; simpl; [reflexivity|].
  destruct (compareMeta host x y <=? 0); [reflexivity|].
  rewrite IH. apply perm_swap.
Qed.

Lemma sortManifest_perm (manifest : list MarkdownMeta) :
  Permutation (sortManifest host manifest) manifest.
Proof.
  unfold sortManifest. induction manifest as [|x l IH]; simpl; [reflexivity|].
  rewrite insertSorted_perm, IH. reflexivity.
Qed.

(** [sortManifest] returns the records that it is given, each as many times
    as it is given. *)
Theorem sortManifest_permutation (manifest : list MarkdownMeta) :
  Permutation (sortManifest host manifest) manifest.
Proof.
  transitivity (fold_right (insertSorted host) [] manifest); [reflexivity|].
  induction manifest as [|x l IH]; simpl; [reflexivity|].
  transitivity (x :: fold_right (insertSorted host) [] l);
    [apply insertSorted_perm | constructor; exact IH].
Qed.

Lemma insertSorted_sorted (x : MarkdownMeta) (l : list MarkdownMeta) :
  Consistent host (x :: l) ->
  StronglySorted (before host) l ->
  StronglySorted (before host) (insertSorted host x l).
Proof.
  intros [Htot Htrans]. induction l as [|y l IH]; intros Hs; simpl.
  - constructor; constructor.
  - apply StronglySorted_inv in Hs as [Hs Hy].
    destruct (compareMeta host x y <=? 0) eqn:Hc.
    + apply Z.leb_le in Hc. constructor; [constructor; assumption|].
      constructor; [exact Hc|].
      rewrite List.Forall_forall in Hy |- *. intros z Hz.
      apply (Htrans x y z); simpl; auto.
    + apply Z.leb_gt in Hc. constructor.
      * apply IH; [| |exact Hs].
        -- intros a b Ha Hb. apply Htot; simpl in *; tauto.
        -- intros a b c Ha Hb Hc'. apply Htrans; simpl in *; tauto.
      * rewrite List.Forall_forall in Hy |- *. intros z Hz.
        apply (Permutation_in _ (insertSorted_perm x l)) in Hz as [<-|Hz].
        -- destruct (Htot x y) as [H|H]; simpl; auto.
           unfold before in H. lia.
        -- apply Hy, Hz.
Qed.

(** When the comparator is consistent on the records, [sortManifest] returns
    them in its order: no record comes after a record that follows it. *)
Theorem sortManifest_sorted (manifest : list MarkdownMeta) :
  Consistent host manifest ->
  StronglySorted (before host) (sortManifest host manifest).
Proof.
  unfold sortManifest. induction manifest as [|x l IH]; intros Hc; simpl.
  - constructor.
  - apply insertSorted_sorted.
    + destruct Hc as [Htot Htrans]. split.
      * intros a b [<-|Ha] [<-|Hb]; apply Htot; simpl; auto;
          right; apply (Permutation_in _ (sortManifest_perm l));
          assumption.
      * intros a b c Ha Hb Hc.
        assert (forall z, In z (x :: fold_right (insertSorted host) [] l) ->
                          In z (x :: l)) as Hin.
        { intros z [<-|Hz]; [left; reflexivity|].
          right. apply (Permutation_in _ (sortManifest_perm l)), Hz. }
        apply Htrans; auto.
    + apply IH. destruct Hc as [Htot Htrans]. split.
      * intros a b Ha Hb. apply Htot; simpl; auto.
      * intros a b c Ha Hb Hc. apply Htrans; simpl; auto.
Qed.

End WithHost.

End SortFacts.

Module SortExamples.
Import Types Plugin BuildVocabulary Examples.

Lemma sortManifest_sorted_three :
  let manifest :=
    [[("slug", VString "guides/setup"); ("folder", VString "guides")];
     [("slug", VString "intro")];
     [("slug", VString "guides/api"); ("folder", VString "guides")]] in
  Consistent host manifest
  /\ StronglySorted (before host) (sortManifest host manifest).
Proof.
  intros manifest.
  assert (Consistent host manifest) as H.
  { split.
    - intros a b Ha Hb. simpl in Ha, Hb.
      destruct Ha as [<-|[<-|[<-|[]]]]; destruct Hb as [<-|[<-|[<-|[]]]];
        first [ left; apply Z.leb_le; vm_compute; reflexivity
              | right; apply Z.leb_le; vm_compute; reflexivity ].
    - intros a b c Ha Hb Hc H1 H2. simpl in Ha, Hb, Hc.
      apply Z.leb_le in H1, H2. apply Z.leb_le.
      destruct Ha as [<-|[<-|[<-|[]]]]; destruct Hb as [<-|[<-|[<-|[]]]];
        destruct Hc as [<-|[<-|[<-|[]]]];
        first [ vm_compute; reflexivity
              | vm_compute in H1; discriminate H1
              | vm_compute in H2; discriminate H2 ]. }
  split; [exact H | exact (SortFacts.sortManifest_sorted host manifest H)].
Defined.

End SortExamples.

(** ** The conversion of a file *)

Module ConvertFacts.
Import Types Eff Plugin BuildVocabulary EffFacts.

Lemma foldM_ext_run {St A B : Type} (f g : B -> A -> Async St B) (l : list A) :
  (forall b a st, f b a st = g b a st) ->
  forall b st, foldM f l b st = foldM g l b st.
Proof.
  intros H. induction l as [|a l IH]; intros b st; simpl; [reflexivity|].
  rewrite !bind_run, H. destruct (g b a st) as [[b'|e] st']; [apply IH | reflexivity].
Qed.

(** The parser asks nothing of its host but the conversion of a date. *)
Lemma parseFrontmatter_host (h1 h2 : Host) {St : Type} (content : string)
  (st : St) :
  isoDateOfString h1 = isoDateOfString h2 ->
  parseFrontmatter h1 content st = parseFrontmatter h2 content st.
Proof.
  intros Hd. unfold parseFrontmatter.
  destruct (matchFrontmatter content) as [[text markdown]|]; [|reflexivity].
  destruct (Js.isEmpty text); [reflexivity|].
  rewrite !bind_run.
  rewrite (foldM_ext_run (parseLine h1) (parseLine h2)); [reflexivity|].
  intros b a st'. unfold parseLine. rewrite Hd. reflexivity.
Qed.

(** [processMarkdownFile] never throws: what fails in it is returned as the
    [error] of its result. *)
Theorem processMarkdownFile_never_throws (options : Options) (host : Host)
  (filePath : string) (st : BuildState) :
  exists processed st',
    processMarkdownFile options host filePath st = (Ok processed, st')
    /\ (texts st !! filePath = None ->
        html processed = EmptyString /\ error processed <> None).
Proof.
  unfold processMarkdownFile. rewrite tryCatch_run, bind_run.
  unfold readFile at 1. destruct (texts st !! filePath) as [source|].
  - match goal with
    | |- context [match ?body with _ => _ end] =>
        destruct body as [[processed|e] st'] eqn:Hb
    end; eexists _, _; (split; [reflexivity | discriminate]).
  - eexists _, _. split; [reflexivity|]. intros _. simpl. split; [reflexivity | discriminate].
Qed.

(** When a highlighter is set, the result of [processMarkdownFile] does not
    depend on [purifyHtml] nor on what the sanitizer returns: the HTML that
    is highlighted is the one that [marked] returned. *)
Theorem processMarkdownFile_highlighted (o1 o2 : Options) (h1 h2 : Host)
  (highlight : string -> string -> HighlightResult) (filePath : string)
  (st : BuildState) :
  highlightCodeBlocks h1 = Some highlight ->
  highlightCodeBlocks h2 = Some highlight ->
  markedParse h1 = markedParse h2 ->
  isoDateOfString h1 = isoDateOfString h2 ->
  processMarkdownFile o1 h1 filePath st = processMarkdownFile o2 h2 filePath st.
Proof.
  intros H1 H2 Hm Hd. unfold processMarkdownFile.
  rewrite !tryCatch_run, !bind_run.
  destruct (readFile filePath st) as [[source|e] st1]; [|reflexivity].
  rewrite !bind_run, (parseFrontmatter_host h1 h2 source st1 Hd).
  destruct (parseFrontmatter h2 source st1) as [[parsed|e] st2]; [|reflexivity].
  rewrite Hm, H1, H2. reflexivity.
Qed.

End ConvertFacts.

Module ConvertExamples.
Import Types Eff Plugin BuildVocabulary.

Lemma processMarkdownFile_highlighted_unsanitized :
  let st := {| texts := {["docs/a.md" := "<i>x</i>"]}; assets := ∅; reads := [] |} in
  let purifying := defaultOptions "docs" in
  let plain :=
    {| source := "docs"; extension := ".md"; prefix := "markdown";
       updateDate := true; purifyHtml := false; chunkByFolder := true;
       incrementalByFolder := false; compress := true |} in
  fst (processMarkdownFile purifying (highlighting (fun _ => EmptyString))
         "docs/a.md" st)
  = Ok {| html := "<i>x</i>"; error := None; errorContext := None |}
  /\ processMarkdownFile purifying (highlighting (fun _ => EmptyString))
       "docs/a.md" st
     = processMarkdownFile plain (highlighting (fun s => s)) "docs/a.md" st.
Proof.
  intros st purifying plain. split; [vm_compute; reflexivity|].
  apply (ConvertFacts.processMarkdownFile_highlighted purifying plain
           (highlighting (fun _ => EmptyString)) (highlighting (fun s => s))
           (fun html _ => Highlighted html) "docs/a.md" st); reflexivity.
Defined.

End ConvertExamples.

(** ** The files that are collected *)

Module CollectFacts.
Import Types Eff Plugin DetectionFacts.

Lemma keys_mapSet {K V : Type} `{EqDecision K} (x k : K) (v : V)
  (m : list (K * V)) :
  In x (map fst (Js.mapSet k v m)) <-> x = k \/ In x (map fst m).
Proof.
  induction m as [|[k0 v0] m IH]; simpl.
  - intuition congruence.
  - destruct (decide (k0 = k)) as [->|Hne]; simpl; [intuition congruence|].
    rewrite IH. intuition congruence.
Qed.

Lemma NoDup_mapSet {K V : Type} `{EqDecision K} (k : K) (v : V)
  (m : list (K * V)) :
  List.NoDup (map fst m) -> List.NoDup (map fst (Js.mapSet k v m)).
Proof.
  induction m as [|[k0 v0] m IH]; simpl; intros Hn.
  - constructor; [intros [] | constructor].
  - inversion Hn as [|? ? Hnotin Hn']; subst.
    destruct (decide (k0 = k)) as [->|Hne]; simpl.
    + constructor; assumption.
    + constructor; [|apply IH, Hn'].
      rewrite keys_mapSet. intros [H|H]; [congruence | exact (Hnotin H)].
Qed.

Lemma In_mapSet {K V : Type} `{EqDecision K} (k k' : K) (v v' : V)
  (m : list (K * V)) :
  In (k, v) (Js.mapSet k' v' m) -> (k, v) = (k', v') \/ In (k, v) m.
Proof.
  induction m as [|[k0 v0] m IH]; simpl.
  - intros [H|[]]; left; congruence.
  - destruct (decide (k0 = k')) as [->|Hne]; simpl.
    + intros [H|H]; [left; congruence | right; right; exact H].
    + intros [H|H]; [right; left; exact H|].
      destruct (IH H); [left | right; right]; assumption.
Qed.

Section WithOptions.

Variable options : Options.
Variable dir : string.

(** What holds of every entry of the map of the files. *)
Local Abbreviation Collected := (fun result : FileMap =>
  List.NoDup (map fst result)
  /\ forall rel info, In (rel, info) result ->
       Js.endsWith rel (extension options) = true
       /\ path info = Path.join dir rel).

Lemma endsWith_relativeOf (rel : option string) (name : string) :
  Js.endsWith name (extension options) = true ->
  Js.endsWith (relativeOf rel name) (extension options) = true.
Proof.
  intros H. destruct rel as [r|]; [|exact H].
  apply endsWith_spec in H as [a ->]. apply endsWith_spec.
  exists (r +:+ "/" +:+ a). unfold relativeOf, Path.join.
  rewrite !BuildFacts.append_assoc3. reflexivity.
Qed.

Lemma walkEntry_Collected (e : Entry) :
  forall rel result, Collected result ->
    Collected (walkEntry options dir rel e result).
Proof.
  induction e as [name stats text|name entries IH] using Entry_nested_ind;
    intros rel result [Hn Hr]; simpl.
  - destruct (Js.endsWith name (extension options)) eqn:He; [|split; assumption].
    split; [apply NoDup_mapSet, Hn|].
    intros r info Hin. apply In_mapSet in Hin as [[= -> ->]|Hin]; [|apply Hr, Hin].
    split; [apply endsWith_relativeOf, He | reflexivity].
  - revert result Hn Hr.
    induction IH as [|e es He _ IHes]; intros result Hn Hr; simpl.
    + split; assumption.
    + destruct (He (Some (relativeOf rel name)) result (conj Hn Hr)) as [Hn' Hr'].
      apply IHes; assumption.
Qed.

Lemma collect_Collected (tree : list Entry) :
  Collected (collectMarkdownFilesWithMetadata options dir tree).
Proof.
  unfold collectMarkdownFilesWithMetadata, walk.
  assert (Collected []) as H0.
  { split; [constructor | intros rel info []]. }
  revert H0. generalize (@nil (string * FileInfo)).
  induction tree as [|e tree IH]; intros result H; simpl; [exact H|].
  apply IH, walkEntry_Collected, H.
Qed.

(** [collectMarkdownFilesWithMetadata] collects, under distinct relative
    paths, only files whose name ends with the extension, each with its path
    below the directory. *)
Theorem collect_only_extension (tree : list Entry) :
  let files := collectMarkdownFilesWithMetadata options dir tree in
  List.NoDup (map fst files)
  /\ forall rel info, In (rel, info) files ->
       Js.endsWith rel (extension options) = true
       /\ path info = Path.join dir rel.
Proof.
  intros files. destruct (collect_Collected tree) as [Hn Hr]. split.
  - exact Hn.
  - intros rel info Hin. exact (Hr rel info Hin).
Qed.

(** One iteration of the loop that groups the files by folder. *)
Lemma folderStep_get (m : list (string * FileMap)) (relPath : string)
  (fileInfo : FileInfo) (k : string) :
  Js.mapGet k
    (let folder := folderOf relPath in
     let m' := if Js.mapHas folder m then m else Js.mapSet folder [] m in
     match Js.mapGet folder m' with
     | Some inner => Js.mapSet folder (Js.mapSet relPath fileInfo inner) m'
     | None => m'
     end)
  = if decide (folderOf relPath = k)
    then Some (Js.mapSet relPath fileInfo (default [] (Js.mapGet k m)))
    else Js.mapGet k m.
Proof.
  cbv zeta. unfold Js.mapHas.
  destruct (Js.mapGet (folderOf relPath) m) as [inner|] eqn:Hget.
  - rewrite Hget, mapGet_mapSet.
    destruct (decide (folderOf relPath = k)) as [<-|_]; [rewrite Hget|]; reflexivity.
  - rewrite mapGet_mapSet.
    destruct (decide (folderOf relPath = folderOf relPath)); [|congruence].
    rewrite !mapGet_mapSet.
    destruct (decide (folderOf relPath = k)) as [<-|_]; [rewrite Hget|]; reflexivity.
Qed.

Lemma mapGet_In {K V : Type} `{EqDecision K} (k : K) (v : V) (m : list (K * V)) :
  Js.mapGet k m = Some v -> In (k, v) m.
Proof.
  induction m as [|[k0 v0] m IH]; simpl; [discriminate|].
  destruct (decide (k0 = k)) as [->|_]; [intros [= ->]; left; reflexivity|].
  intros H. right. apply IH, H.
Qed.

Lemma In_mapGet {K V : Type} `{EqDecision K} (k : K) (v : V) (m : list (K * V)) :
  List.NoDup (map fst m) -> In (k, v) m -> Js.mapGet k m = Some v.
Proof.
  induction m as [|[k0 v0] m IH]; simpl; [intros _ []|].
  intros Hn [H|H].
  - injection H as -> ->. destruct (decide (k = k)); [reflexivity | congruence].
  - inversion Hn as [|? ? Hnotin Hn']; subst.
    destruct (decide (k0 = k)) as [->|_]; [|apply IH; assumption].
    destruct Hnotin. apply (in_map fst) in H. exact H.
Qed.

(** The groups after the files [done], before the files [todo]. *)
Lemma group_fold (todo : FileMap) :
  forall (done : FileMap) (m : list (string * FileMap)),
    List.NoDup (map fst (done ++ todo)) ->
    (forall folder rel info,
       (exists files, Js.mapGet folder m = Some files
                      /\ Js.mapGet rel files = Some info)
       <-> In (rel, info) done /\ folderOf rel = folder) ->
    forall folder rel info,
      (exists files,
         Js.mapGet folder
           (fold_left
              (fun folderMap entry =>
                 let '(relPath, fileInfo) := entry in
                 let folder := folderOf relPath in
                 let folderMap' :=
                   if Js.mapHas folder folderMap then folderMap
                   else Js.mapSet folder [] folderMap in
                 match Js.mapGet folder folderMap' with
                 | Some inner =>
                     Js.mapSet folder (Js.mapSet relPath fileInfo inner) folderMap'
                 | None => folderMap'
                 end) todo m) = Some files
         /\ Js.mapGet rel files = Some info)
      <-> In (rel, info) (done ++ todo) /\ folderOf rel = folder.
Proof.
  induction todo as [|[r i] todo IH]; intros done m Hn Hinv folder rel info.
  - simpl. rewrite app_nil_r. apply Hinv.
  - cbn [fold_left].
    replace (done ++ (r, i) :: todo) with ((done ++ [(r, i)]) ++ todo)
      by (rewrite <- app_assoc; reflexivity).
    apply IH; [rewrite <- app_assoc; exact Hn|].
    clear IH folder rel info. intros folder rel info.
    assert (~ In r (map fst done)) as Hfresh.
    { rewrite map_app in Hn. apply NoDup_remove_2 in Hn.
      intros H. apply Hn, in_or_app. left. exact H. }
    rewrite folderStep_get, in_app_iff. simpl.
    destruct (decide (folderOf r = folder)) as [<-|Hne].
    + split.
      * intros (files & [= <-] & Hget). rewrite mapGet_mapSet in Hget.
        destruct (decide (r = rel)) as [<-|Hr].
        -- injection Hget as <-. auto.
        -- destruct (Js.mapGet (folderOf r) m) as [inner|] eqn:Hm;
             simpl in Hget; [|discriminate].
           destruct (proj1 (Hinv (folderOf r) rel info)) as [Hin Hf]; eauto.
      * intros [[Hin|[[= <- <-]|[]]] Hf].
        -- destruct (proj2 (Hinv (folderOf r) rel info) (conj Hin Hf))
             as (inner & Hm & Hget).
           eexists. split; [reflexivity|]. rewrite mapGet_mapSet, Hm. simpl.
           destruct (decide (r = rel)) as [<-|_]; [|exact Hget].
           destruct Hfresh. apply (in_map fst) in Hin. exact Hin.
        -- eexists. split; [reflexivity|]. rewrite mapGet_mapSet.
           destruct (decide (r = r)); [reflexivity | congruence].
    + rewrite Hinv. split.
      * intros [Hin Hf]. auto.
      * intros [[Hin|[[= <- <-]|[]]] Hf]; [auto | congruence].
Qed.

(** [collectFilesByFolder] puts every collected file in the group of the
    folder of its path, and in no other group. *)
Theorem collectFilesByFolder_partition (tree : list Entry)
  (folder rel : string) (info : FileInfo) :
  (exists files,
     Js.mapGet folder (collectFilesByFolder options dir tree) = Some files
     /\ Js.mapGet rel files = Some info)
  <-> In (rel, info) (collectMarkdownFilesWithMetadata options dir tree)
      /\ folderOf rel = folder.
Proof.
  unfold collectFilesByFolder. cbv zeta.
  apply (group_fold (collectMarkdownFilesWithMetadata options dir tree) [] []).
  - apply collect_Collected.
  - intros f r i. simpl. split; [intros (files & [=] & _) | intros [[] _]].
Qed.

End WithOptions.

End CollectFacts.

(** ** The files that are written *)

Module WriteFacts.
Import Types Eff Plugin Spec BuildVocabulary EffFacts BuildFacts.

Section WithHost.

Variable options : Options.
Variable host : Host.

(** [writeFolderFiles] never throws and touches no source file; it writes
    the chunk of the folder, compressed under the name with [.gz] when
    [compress] is on and as it is otherwise, or nothing; it writes the file
    when the host can make the directory, compress the text (when [compress]
    is on) and write the file. *)
Theorem writeFolderFiles_writes (folder : string) (m : list MarkdownMeta)
  (c : ContentMap) (st : BuildState) :
  let name := fst (contentFile options (chunkFilename options folder) c) in
  let file := snd (contentFile options (chunkFilename options folder) c) in
  exists st',
    writeFolderFiles options host folder m c st = (Ok tt, st')
    /\ texts st' = texts st /\ reads st' = reads st
    /\ (assets st' = <[name := file]> (assets st) \/ assets st' = assets st)
    /\ (canMkdir host = true ->
        canWrite host (getAssetPath name) = true ->
        (compress options = true ->
         canGzip host (chunkFilename options folder) = true) ->
        assets st' = <[name := file]> (assets st)).
Proof.
  intros name file. unfold name, file, contentFile.
  unfold writeFolderFiles, mkdirAssets, writeCompressedVersions.
  rewrite tryCatch_run, bind_run.
  destruct (canMkdir host); [|exists st; repeat split; auto; discriminate].
  unfold mret at 1. unfold Async_ret at 1. cbv beta iota.
  destruct (compress options); cbn [negb fst snd].
  - rewrite tryCatch_run.
    destruct (canGzip host (chunkFilename options folder)).
    + unfold writeAsset. destruct (canWrite host _).
      * eexists. split; [reflexivity|]. simpl. auto.
      * exists st. repeat split; auto. discriminate.
    + exists st. repeat split; auto. intros _ _ H. discriminate (H eq_refl).
  - unfold writeAsset. destruct (canWrite host _).
    + eexists. split; [reflexivity|]. simpl. auto.
    + exists st. repeat split; auto. discriminate.
Qed.

(** When the host can make the directory and write the manifest file,
    [writeMarkdownFiles] leaves the records as the documents of the manifest
    file. *)
Lemma writeMarkdownFiles_written (manifest : list MarkdownMeta)
  (content : ContentMap) (folders : option (list string)) (st : BuildState) :
  canMkdir host = true ->
  canWrite host (getAssetPath (prefix options +:+ "-manifest.json")) = true ->
  exists st',
    writeMarkdownFiles options host manifest content folders st = (Ok tt, st')
    /\ reads st' = reads st
    /\ previousDocuments options (assets st') = map jsonObject manifest.
Proof.
  intros Hmk Hw.
  destruct (writeMarkdownFiles_effect options host manifest content folders st)
    as (st' & Hrun & Hreads & _).
  exists st'. split; [exact Hrun|]. split; [exact Hreads|].
  unfold previousDocuments.
  assert (assets st' !! (prefix options +:+ "-manifest.json")
          = Some (ManifestJson
                    (jsonManifest (makeGlobalManifest options manifest folders))))
    as ->; [|reflexivity].
  revert Hrun. unfold writeMarkdownFiles, mkdirAssets.
  rewrite tryCatch_run, bind_run, Hmk.
  unfold mret at 1. unfold Async_ret at 1. cbv beta iota. rewrite bind_run.
  unfold writeAsset at 1. rewrite Hw.
  set (st1 := {| texts := texts st;
                 assets := <[prefix options +:+ "-manifest.json" :=
                             ManifestJson
                               (jsonManifest
                                  (makeGlobalManifest options manifest folders))]>
                             (assets st);
                 reads := reads st |}).
  assert (assets st1 !! (prefix options +:+ "-manifest.json")
          = Some (ManifestJson
                    (jsonManifest (makeGlobalManifest options manifest folders))))
    as H1 by apply lookup_insert_eq.
  destruct (negb (chunkByFolder options) && _).
  - destruct (compress options).
    + destruct (writeCompressedVersions_effect options host
                  (prefix options +:+ "-content.json") content st1)
        as (st2 & -> & _ & Ha).
      intros [= <-]. destruct Ha as [-> | ->]; [|exact H1].
      rewrite lookup_insert_ne; [exact H1|].
      intros H. rewrite append_assoc3 in H. apply append_inv in H. discriminate.
    + destruct (writeAsset_effect host (prefix options +:+ "-content.json")
                  (ContentJson content) st1) as (r & st2 & -> & _ & Ha).
      assert (assets st2 !! (prefix options +:+ "-manifest.json")
              = Some (ManifestJson
                        (jsonManifest
                           (makeGlobalManifest options manifest folders)))) as H2.
      { destruct Ha as [-> | ->]; [|exact H1].
        rewrite lookup_insert_ne; [exact H1|].
        intros H. apply append_inv in H. discriminate. }
      destruct r as [[]|e]; intros [= <-]; exact H2.
  - intros [= <-]. exact H1.
Qed.

(** The manifest that [writeMarkdownFiles] has written is the one that
    [loadPreviousManifest] reads: its documents are the records that were
    given, as JSON holds them; the read of the manifest file is all that
    [loadPreviousManifest] does to the state. *)
Theorem manifest_round_trip (manifest : list MarkdownMeta)
  (content : ContentMap) (folders : option (list string)) (st : BuildState) :
  canMkdir host = true ->
  canWrite host (getAssetPath (prefix options +:+ "-manifest.json")) = true ->
  exists st',
    writeMarkdownFiles options host manifest content folders st = (Ok tt, st')
    /\ loadPreviousManifest options st'
       = (Ok (map jsonObject manifest),
          {| texts := texts st'; assets := assets st';
             reads := getAssetPath (prefix options +:+ "-manifest.json")
                      :: reads st' |}).
Proof.
  intros Hmk Hw.
  destruct (writeMarkdownFiles_written manifest content folders st Hmk Hw)
    as (st' & Hrun & _ & Hdocs).
  exists st'. split; [exact Hrun|].
  rewrite loadPreviousManifest_run, Hdocs. f_equal.
  pose proof (writeMarkdownFiles_manifest options host manifest content folders
                st Hmk Hw) as Hm.
  rewrite Hrun in Hm. cbn [snd] in Hm. unfold afterLoad. rewrite Hm. reflexivity.
Qed.

End WithHost.

End WriteFacts.

Module WriteExamples.
Import Types Eff Plugin Spec BuildVocabulary Examples.

Lemma manifest_round_trip_previous :
  let st := {| texts := ∅; assets := ∅; reads := [] |} in
  canMkdir host = true
  /\ exists st',
       writeMarkdownFiles (defaultOptions "docs") host previousDocs ∅ None st
       = (Ok tt, st')
       /\ loadPreviousManifest (defaultOptions "docs") st'
          = (Ok (map jsonObject previousDocs),
             {| texts := texts st'; assets := assets st';
                reads := getAssetPath
                           (prefix (defaultOptions "docs") +:+ "-manifest.json")
                         :: reads st' |}).
Proof.
  intros st. split; [reflexivity|].
  exact (WriteFacts.manifest_round_trip (defaultOptions "docs") host
           previousDocs ∅ None st eq_refl eq_refl).
Defined.

End WriteExamples.

(** ** The records of a build and the next detection of changes *)

Module RecordFacts.
Import Types Eff Plugin Spec BuildVocabulary DetectionFacts MetaFacts CollectFacts.

Lemma NoDup_spread (a b : Object) :
  List.NoDup (map fst a) -> List.NoDup (map fst (spread a b)).
Proof.
  unfold spread. revert a. induction b as [|[k v] b IH]; intros a Ha; simpl.
  - exact Ha.
  - apply IH, NoDup_mapSet, Ha.
Qed.

Lemma mapGet_notin {V : Type} (k : string) (o : list (string * V)) :
  ~ In k (map fst o) -> Js.mapGet k o = None.
Proof.
  induction o as [|[k0 v0] o IH]; simpl; [reflexivity|].
  intros H. destruct (decide (k0 = k)) as [->|_]; [tauto|]. apply IH. tauto.
Qed.

(** [JSON.stringify] and [JSON.parse] keep what is read of the properties
    of an object. *)
Lemma get_jsonObject (o : Object) (k : string) :
  List.NoDup (map fst o) -> get (jsonObject o) k = get o k.
Proof.
  unfold get, jsonObject. induction o as [|[k0 v0] o IH]; simpl; [reflexivity|].
  intros Hn. inversion Hn as [|? ? Hnotin Hn']; subst.
  destruct (decide (k0 = k)) as [->|Hne].
  - destruct v0; simpl; try (destruct (decide (k = k)); [reflexivity | congruence]).
    rewrite mapGet_notin; [reflexivity|].
    intros H. apply Hnotin. apply in_map_iff in H as ([k1 v1] & Hk & Hin).
    apply filter_In in Hin as [Hin _]. simpl in Hk. subst k1.
    apply (in_map fst) in Hin. exact Hin.
  - destruct v0; simpl;
      try (destruct (decide (k0 = k)); [congruence|]); apply IH, Hn'.
Qed.

Section WithOptions.

Variable options : Options.

Lemma NoDup_metaOf (relPath : string) (metadata : FileMetadata)
  (frontmatter : Frontmatter) :
  List.NoDup (map fst (metaOf options relPath metadata frontmatter)).
Proof.
  apply NoDup_spread. simpl.
  repeat (constructor; [simpl; intuition discriminate|]). constructor.
Qed.

(** What the detection of changes reads in the record of a file. *)
Lemma record_fields (relPath : string) (metadata : FileMetadata)
  (frontmatter : Frontmatter) :
  keepsBuildFields frontmatter ->
  let record := jsonObject (metaOf options relPath metadata frontmatter) in
  get record "path" = VString relPath
  /\ get record "_mtime" = VNumber (mtime metadata)
  /\ get record "_size" = VNumber (size metadata).
Proof.
  intros (Hp & Hm & Hs) record. unfold record.
  rewrite !get_jsonObject by apply NoDup_metaOf. unfold metaOf.
  rewrite !get_spread_absent by assumption. repeat split.
Qed.

(** A manifest that holds the record of every current file, and no other
    record, is one on which [checkForChanges] reports no change, when no
    frontmatter holds a property [path], [_mtime] or [_size]. *)
Theorem checkForChanges_after_records (dir : string) (tree : list Entry)
  (frontmatterOf : string -> Frontmatter) (previous : list MarkdownMeta) :
  (forall relPath, keepsBuildFields (frontmatterOf relPath)) ->
  Permutation previous
    (recordsOf options frontmatterOf
       (collectMarkdownFilesWithMetadata options dir tree)) ->
  changed (checkForChanges options dir tree previous) = false.
Proof.
  intros Hkeeps Hperm. unfold checkForChanges.
  set (files := collectMarkdownFilesWithMetadata options dir tree) in *.
  pose proof (proj1 (collect_Collected options dir tree)) as Hnodup.
  fold files in Hnodup.
  assert (existsb
            (fun entry =>
               isFileChanged
                 (Js.mapGet (VString (fst entry))
                    (Js.mapOfEntries
                       (map (fun entry => (get entry "path", entry)) previous)))
                 (metadata (snd entry))) files = false) as ->.
  { apply not_true_iff_false. intros Hex.
    apply existsb_exists in Hex as ([rel info] & Hin & Hch). simpl in Hch.
    rewrite previousMap_get in Hch. unfold previousEntry in Hch.
    destruct (List.find _ (rev previous)) as [e|] eqn:Hfind.
    - apply find_some in Hfind as [He Hpath].
      apply bool_decide_eq_true in Hpath.
      apply in_rev in He. apply (Permutation_in _ Hperm) in He.
      unfold recordsOf in He. apply in_map_iff in He as ([rel' info'] & <- & Hin').
      simpl in Hpath, Hch.
      destruct (record_fields rel' (metadata info') (frontmatterOf rel')
                  (Hkeeps rel')) as (Hp & Hm & Hs).
      cbv zeta in Hp, Hm, Hs. rewrite Hp in Hpath. injection Hpath as ->.
      assert (info' = info) as ->.
      { apply (In_mapGet _ _ _ Hnodup) in Hin, Hin'. congruence. }
      unfold isFileChanged, strictEq in Hch. rewrite Hm, Hs in Hch.
      rewrite !bool_decide_eq_true_2 in Hch by reflexivity. discriminate.
    - assert (In (jsonObject (metaOf options rel (metadata info)
                                  (frontmatterOf rel))) (rev previous)) as Hrec.
      { apply in_rev. rewrite rev_involutive.
        apply (Permutation_in _ (Permutation_sym Hperm)).
        unfold recordsOf. apply in_map_iff. exists (rel, info). auto. }
      pose proof (find_none _ _ Hfind _ Hrec) as Hno. cbv beta in Hno.
      destruct (record_fields rel (metadata info) (frontmatterOf rel)
                  (Hkeeps rel)) as (Hp & _).
      cbv zeta in Hp. rewrite Hp in Hno.
      rewrite bool_decide_eq_true_2 in Hno by reflexivity. discriminate. }
  apply Permutation_length in Hperm. unfold recordsOf in Hperm.
  rewrite length_map in Hperm. rewrite Hperm, Z.eqb_refl. reflexivity.
Qed.

End WithOptions.

End RecordFacts.

Module RecordExamples.
Import Types Eff Plugin Spec BuildVocabulary Examples.

Lemma checkForChanges_after_records_touched :
  let files := collectMarkdownFilesWithMetadata singleOptions "docs" treeTouched in
  keepsBuildFields []
  /\ changed (checkForChanges singleOptions "docs" treeTouched
                (recordsOf singleOptions (fun _ => []) files))
     = false.
Proof.
  intros files. split; [repeat split|].
  apply (RecordFacts.checkForChanges_after_records singleOptions "docs"
           treeTouched (fun _ => [])).
  - intros relPath. repeat split.
  - reflexivity.
Defined.

End RecordExamples.

(** ** The order of the properties of an object *)

Module ObjectOrderFacts.
Import ObjectOrder.

Lemma insertIndexed_perm {V : Type} (x : N * (string * V))
  (l : list (N * (string * V))) :
  Permutation (insertIndexed x l) (x :: l).
Proof.
  induction l as [|y l IH]; cbn [insertIndexed]; [reflexivity|].
  destruct (fst x <=? fst y)%N; [reflexivity|].
  rewrite IH. apply perm_swap.
Qed.

Lemma entries_perm {V : Type} (o : list (string * V)) :
  Permutation (entries o) o.
Proof.
  unfold entries. induction o as [|kv o IH]; [reflexivity|].
  cbn [fold_right List.filter].
  destruct (arrayIndex (fst kv)) as [n|].
  - rewrite insertIndexed_perm. cbn [map snd app]. constructor. exact IH.
  - rewrite <- Permutation_middle. constructor. exact IH.
Qed.

(** Without array indices among the keys, [Object.entries] keeps the order
    of creation. *)
Lemma entries_plain {V : Type} (o : list (string * V)) :
  Forall (fun kv => arrayIndex (fst kv) = None) o -> entries o = o.
Proof.
  intros H. unfold entries.
  assert (fold_right
            (fun (kv : string * V) acc =>
               match arrayIndex (fst kv) with
               | Some n => insertIndexed (n, kv) acc
               | None => acc
               end) [] o = []) as ->.
  { induction H as [|kv o Hkv _ IH]; [reflexivity|].
    cbn [fold_right]. rewrite Hkv. exact IH. }
  cbn [map app]. induction H as [|kv o Hkv _ IH]; [reflexivity|].
  cbn [List.filter]. rewrite Hkv, IH. reflexivity.
Qed.

End ObjectOrderFacts.

(** ** The frontmatter parser *)

Module FrontmatterFacts.
Import Utils Types Eff Plugin Spec BuildVocabulary EffFacts BuildFacts UrlFacts.

Lemma drop_append (p b : string) : Js.drop (String.length p) (p +:+ b) = b.
Proof.
  induction p as [|c p IH]; [destruct b; reflexivity|].
  change (Js.drop (String.length p) (p +:+ b) = b). exact IH.
Qed.

(** A candidate of [afterSpaces] is what follows white space and a line
    feed. *)
Lemma afterSpaces_In (r s : string) :
  In r (afterSpaces s) ->
  exists w, s = w +:+ String Js.newline r /\ allChars Js.isWhiteSpace w = true.
Proof.
  revert r. induction s as [|c s IH]; intros r; simpl; [intros []|].
  destruct (Js.isWhiteSpace c) eqn:Hc; [|intros []].
  rewrite in_app_iff. intros [H|H].
  - destruct (IH r H) as (w & -> & Hw). exists (String c w).
    split; [reflexivity|]. simpl. rewrite Hc, Hw. reflexivity.
  - destruct (Ascii.eqb c Js.newline) eqn:Hn; [|destruct H].
    destruct H as [<-|[]]. apply Ascii.eqb_eq in Hn as ->.
    exists EmptyString. split; reflexivity.
Qed.

Lemma head_In {A : Type} (l : list A) (x : A) : head l = Some x -> In x l.
Proof. destruct l; simpl; [discriminate | intros [= ->]; left; reflexivity]. Qed.

Lemma lazyBody_unfold (s : string) :
  lazyBody s =
  match
    (if Js.startsWith s fence then head (afterSpaces (Js.drop 4 s)) else None)
  with
  | Some markdown => Some (EmptyString, markdown)
  | None =>
      match s with
      | EmptyString => None
      | String c s' =>
          match lazyBody s' with
          | Some (g, markdown) => Some (String c g, markdown)
          | None => None
          end
      end
  end.
Proof. destruct s; reflexivity. Qed.

(** What [lazyBody] finds is the text before the closing fence and the text
    after it. *)
Lemma lazyBody_sound (s g markdown : string) :
  lazyBody s = Some (g, markdown) ->
  exists w, s = g +:+ fence +:+ w +:+ String Js.newline markdown
            /\ allChars Js.isWhiteSpace w = true.
Proof.
  revert g. induction s as [|c s IH]; intros g; rewrite lazyBody_unfold.
  - destruct (Js.startsWith EmptyString fence); discriminate.
  - destruct (if Js.startsWith (String c s) fence
              then head (afterSpaces (Js.drop 4 (String c s))) else None)
      as [m|] eqn:Hm.
    + intros [= <- <-].
      destruct (Js.startsWith (String c s) fence) eqn:Hs; [|discriminate].
      apply startsWith_spec in Hs as [b Hb]. rewrite Hb in Hm |- *.
      change 4%nat with (String.length fence) in Hm. rewrite drop_append in Hm.
      apply head_In, afterSpaces_In in Hm as (w & -> & Hw).
      exists w. split; [reflexivity | exact Hw].
    + destruct (lazyBody s) as [[g' m]|]; [|discriminate].
      intros [= <- <-]. destruct (IH g' eq_refl) as (w & -> & Hw).
      exists w. split; [reflexivity | exact Hw].
Qed.

Lemma firstSome_In {A B : Type} (f : A -> option B) (l : list A) (b : B) :
  firstSome f l = Some b -> exists a, In a l /\ f a = Some b.
Proof.
  induction l as [|a l IH]; simpl; [discriminate|].
  destruct (f a) as [b'|] eqn:Hf.
  - intros [= ->]. exists a. auto.
  - intros H. destruct (IH H) as (a' & Hin & Ha). exists a'. auto.
Qed.

(** The match of the pattern of [parseFrontmatter]: the content is three
    hyphens, white space, a line feed, the first group, a line feed, three
    hyphens, white space, a line feed, and the second group. *)
Lemma matchFrontmatter_sound (content text markdown : string) :
  matchFrontmatter content = Some (text, markdown) ->
  exists w1 w2,
    content = "---" +:+ w1 +:+ String Js.newline text
              +:+ fence +:+ w2 +:+ String Js.newline markdown
    /\ allChars Js.isWhiteSpace w1 = true
    /\ allChars Js.isWhiteSpace w2 = true.
Proof.
  unfold matchFrontmatter.
  destruct (Js.startsWith content "---") eqn:Hs; [|discriminate].
  apply startsWith_spec in Hs as [b ->].
  change 3%nat with (String.length "---"). rewrite drop_append.
  intros H. apply firstSome_In in H as (a & Hin & Ha).
  apply afterSpaces_In in Hin as (w1 & -> & Hw1).
  apply lazyBody_sound in Ha as (w2 & -> & Hw2).
  exists w1, w2. auto.
Qed.

(** *** White space and lines *)

Lemma allChars_append (f : ascii -> bool) (a b : string) :
  allChars f (a +:+ b) = allChars f a && allChars f b.
Proof.
  induction a as [|c a IH]; [reflexivity|].
  change (f c && allChars f (a +:+ b) = f c && allChars f a && allChars f b).
  rewrite IH, andb_assoc. reflexivity.
Qed.

Lemma allChars_take (f : ascii -> bool) (n : nat) (s : string) :
  allChars f s = true -> allChars f (Js.take n s) = true.
Proof.
  revert n. induction s as [|c s IH]; intros [|n]; simpl; auto.
  intros H. apply andb_true_iff in H as [-> H]. apply IH, H.
Qed.

Lemma allChars_drop (f : ascii -> bool) (n : nat) (s : string) :
  allChars f s = true -> allChars f (Js.drop n s) = true.
Proof.
  revert n. induction s as [|c s IH]; intros [|n]; simpl; auto.
  intros H. apply andb_true_iff in H as [_ H]. apply IH, H.
Qed.

Lemma allChars_trimStart (f : ascii -> bool) (s : string) :
  allChars f s = true -> allChars f (Js.trimStart s) = true.
Proof.
  induction s as [|c s IH]; simpl; [auto|].
  intros H. destruct (Js.isWhiteSpace c); [|exact H].
  apply andb_true_iff in H as [_ H]. apply IH, H.
Qed.

Lemma allChars_trimEnd (f : ascii -> bool) (s : string) :
  allChars f s = true -> allChars f (Js.trimEnd s) = true.
Proof.
  induction s as [|c s IH]; simpl; [auto|].
  intros H. apply andb_true_iff in H as [Hc H].
  destruct (Js.isWhiteSpace c && Js.isEmpty (Js.trimEnd s)); [reflexivity|].
  simpl. rewrite Hc, (IH H). reflexivity.
Qed.

Lemma allChars_trim (f : ascii -> bool) (s : string) :
  allChars f s = true -> allChars f (Js.trim s) = true.
Proof. intros H. apply allChars_trimEnd, allChars_trimStart, H. Qed.

Lemma allChars_dropLast (f : ascii -> bool) (s : string) :
  allChars f s = true -> allChars f (dropLast s) = true.
Proof.
  induction s as [|c s IH]; [auto|].
  intros H. simpl in H. apply andb_true_iff in H as [Hc H].
  destruct s as [|d s]; [reflexivity|].
  change (f c && allChars f (dropLast (String d s)) = true).
  rewrite Hc, (IH H). reflexivity.
Qed.

Lemma allChars_stripQuotes (f : ascii -> bool) (s : string) :
  allChars f s = true -> allChars f (stripQuotes s) = true.
Proof.
  intros H. unfold stripQuotes.
  assert (allChars f match s with
                     | String c rest => if isQuote c then rest else s
                     | EmptyString => s
                     end = true) as H'.
  { destruct s as [|c rest]; [exact H|]. destruct (isQuote c); [|exact H].
    simpl in H. apply andb_true_iff in H as [_ H]. exact H. }
  destruct (lastIs isQuote _); [apply allChars_dropLast|]; exact H'.
Qed.

Lemma trimEnd_idempotent (s : string) : Js.trimEnd (Js.trimEnd s) = Js.trimEnd s.
Proof.
  induction s as [|c s IH]; [reflexivity|]. cbn [Js.trimEnd]. cbv zeta.
  destruct (Js.isWhiteSpace c && Js.isEmpty (Js.trimEnd s)) eqn:E; [reflexivity|].
  cbn [Js.trimEnd]. cbv zeta. rewrite IH, E. reflexivity.
Qed.

Lemma trimStart_ink (c : ascii) (s : string) :
  Js.isWhiteSpace c = false -> Js.trimStart (String c s) = String c s.
Proof. intros H. simpl. rewrite H. reflexivity. Qed.

(** [trimStart] leaves a string that is empty or starts with a character that
    is not white space. *)
Lemma trimStart_head (s : string) :
  Js.trimStart s = EmptyString
  \/ exists c t, Js.trimStart s = String c t /\ Js.isWhiteSpace c = false.
Proof.
  induction s as [|c s IH]; simpl; [left; reflexivity|].
  destruct (Js.isWhiteSpace c) eqn:E; [exact IH|]. right. eauto.
Qed.

Lemma trim_head (s : string) :
  Js.trim s = EmptyString
  \/ exists c t, Js.trim s = String c t /\ Js.isWhiteSpace c = false.
Proof.
  unfold Js.trim. destruct (trimStart_head s) as [->|(c & t & -> & Hc)].
  - left. reflexivity.
  - right. cbn [Js.trimEnd]. cbv zeta. rewrite Hc. cbn [andb]. eauto.
Qed.

Lemma trim_idempotent (s : string) : Js.trim (Js.trim s) = Js.trim s.
Proof.
  destruct (trim_head s) as [->|(c & t & H & Hc)]; [reflexivity|].
  unfold Js.trim at 1. rewrite H, (trimStart_ink c t Hc), <- H.
  unfold Js.trim. apply trimEnd_idempotent.
Qed.

(** [trimEnd] leaves a string that ends with a character that is not white
    space. *)
Lemma trimEnd_snoc (s : string) (c : ascii) :
  Js.isWhiteSpace c = false ->
  Js.trimEnd (s +:+ String c EmptyString) = s +:+ String c EmptyString.
Proof.
  intros Hc. induction s as [|d s IH].
  - simpl. rewrite Hc. reflexivity.
  - change (Js.trimEnd (String d (s +:+ String c EmptyString))
            = String d (s +:+ String c EmptyString)).
    cbn [Js.trimEnd]. cbv zeta. rewrite IH.
    assert (Js.isEmpty (s +:+ String c EmptyString) = false) as ->
      by (destruct s; reflexivity).
    rewrite andb_false_r. reflexivity.
Qed.

Lemma lastIs_snoc (f : ascii -> bool) (s : string) (c : ascii) :
  lastIs f (s +:+ String c EmptyString) = f c.
Proof.
  induction s as [|d s IH]; [reflexivity|].
  change (lastIs f (String d (s +:+ String c EmptyString)) = f c).
  destruct s as [|e s]; [reflexivity | exact IH].
Qed.

Lemma dropLast_snoc (s : string) (c : ascii) :
  dropLast (s +:+ String c EmptyString) = s.
Proof.
  induction s as [|d s IH]; [reflexivity|].
  change (dropLast (String d (s +:+ String c EmptyString)) = String d s).
  destruct s as [|e s]; [reflexivity|].
  change (String d (dropLast (String e s +:+ String c EmptyString))
          = String d (String e s)).
  rewrite IH. reflexivity.
Qed.

(** The value that the writer quotes is the value that the parser reads. *)
Lemma stripQuotes_quoted (v : string) : stripQuotes (quoted v) = v.
Proof.
  unfold stripQuotes, quoted.
  change (isQuote Js.dquote) with true. cbv iota.
  rewrite lastIs_snoc. change (isQuote Js.dquote) with true. cbv iota.
  apply dropLast_snoc.
Qed.

Lemma trim_quoted (v : string) :
  Js.trim (String " " (quoted v)) = quoted v.
Proof.
  unfold Js.trim, quoted. change (Js.trimStart (String " " ?s)) with (Js.trimStart s).
  rewrite trimStart_ink by reflexivity.
  change (String Js.dquote (v +:+ String Js.dquote EmptyString))
    with (String Js.dquote v +:+ String Js.dquote EmptyString).
  apply trimEnd_snoc. reflexivity.
Qed.

(** No white space is skipped on a line that holds another character. *)
Lemma afterSpaces_blocked (t rest : string) :
  noLineFeed t = true -> hasInk t = true -> afterSpaces (t +:+ rest) = [].
Proof.
  unfold noLineFeed, hasInk. induction t as [|c t IH]; [discriminate|].
  intros Hn Hi. simpl in Hn, Hi. apply andb_true_iff in Hn as [Hc Hn].
  change (afterSpaces (String c (t +:+ rest)) = []). cbn [afterSpaces].
  destruct (Js.isWhiteSpace c); [|reflexivity].
  rewrite (IH Hn Hi). apply negb_true_iff in Hc. rewrite Hc. reflexivity.
Qed.

Lemma lastIs_hasInk (t : string) :
  lastIs (Ascii.eqb Js.dquote) t = true -> hasInk t = true.
Proof.
  unfold hasInk. induction t as [|c t IH]; [discriminate|].
  destruct t as [|d t].
  - intros H. change (Ascii.eqb Js.dquote c = true) in H.
    apply Ascii.eqb_eq in H as <-. reflexivity.
  - intros H. change (lastIs (Ascii.eqb Js.dquote) (String d t) = true) in H.
    specialize (IH H). apply negb_true_iff in IH.
    change (negb (Js.isWhiteSpace c && allChars Js.isWhiteSpace (String d t)) = true).
    rewrite IH, andb_false_r. reflexivity.
Qed.

(** The closing fence is not found at the start of a line that ends with a
    quote. *)
Lemma fence_not_at_line (l rest : string) :
  noLineFeed l = true -> lastIs (Ascii.eqb Js.dquote) l = true ->
  (if Js.startsWith (String Js.newline (l +:+ String Js.newline rest)) fence
   then head (afterSpaces
                (Js.drop 4 (String Js.newline (l +:+ String Js.newline rest))))
   else None) = None.
Proof.
  intros Hn Hq. unfold fence. cbn [Js.startsWith Js.drop].
  rewrite Ascii.eqb_refl. cbn [andb].
  destruct l as [|c1 [|c2 [|c3 t]]].
  - discriminate.
  - change (String c1 EmptyString +:+ String Js.newline rest)
      with (String c1 (String Js.newline rest)).
    cbn [Js.startsWith]. change (Ascii.eqb "-" Js.newline) with false.
    rewrite andb_false_r. reflexivity.
  - change (String c1 (String c2 EmptyString) +:+ String Js.newline rest)
      with (String c1 (String c2 (String Js.newline rest))).
    cbn [Js.startsWith]. change (Ascii.eqb "-" Js.newline) with false.
    rewrite !andb_false_r. reflexivity.
  - change (String c1 (String c2 (String c3 t)) +:+ String Js.newline rest)
      with (String c1 (String c2 (String c3 (t +:+ String Js.newline rest)))).
    cbn [Js.startsWith Js.drop].
    destruct (Ascii.eqb "-" c1 && (Ascii.eqb "-" c2 && (Ascii.eqb "-" c3 && true)))
      eqn:E; [|reflexivity].
    rewrite !andb_true_iff in E. destruct E as (_ & _ & E3 & _).
    apply Ascii.eqb_eq in E3 as <-.
    destruct t as [|d t]; [discriminate|].
    assert (lastIs (Ascii.eqb Js.dquote) (String d t) = true) as Hq' by exact Hq.
    rewrite afterSpaces_blocked; [reflexivity| |apply lastIs_hasInk, Hq'].
    unfold noLineFeed in Hn |- *. simpl in Hn.
    rewrite !andb_true_iff in Hn. simpl. apply andb_true_iff. tauto.
Qed.

(** [lazyBody] goes over a line. *)
Lemma lazyBody_line (l rest : string) :
  noLineFeed l = true ->
  lazyBody (l +:+ rest)
  = match lazyBody rest with
    | Some (g, markdown) => Some (l +:+ g, markdown)
    | None => None
    end.
Proof.
  unfold noLineFeed. induction l as [|c l IH]; intros Hn.
  - change (EmptyString +:+ rest) with rest.
    destruct (lazyBody rest) as [[g m]|]; reflexivity.
  - simpl in Hn. apply andb_true_iff in Hn as [Hc Hn].
    change (String c l +:+ rest) with (String c (l +:+ rest)).
    rewrite lazyBody_unfold. unfold fence at 1. cbn [Js.startsWith].
    apply negb_true_iff in Hc. rewrite Ascii.eqb_sym, Hc. cbn [andb].
    rewrite (IH Hn). destruct (lazyBody rest) as [[g m]|]; reflexivity.
Qed.

Lemma joinLines_cons (l : string) (ls : list string) :
  ls <> [] -> joinLines (l :: ls) = l +:+ String Js.newline (joinLines ls).
Proof. destruct ls; [congruence | reflexivity]. Qed.

(** The text after a line of the frontmatter starts with a line feed. *)
Lemma joinLines_closing (l : string) (ls : list string) (closing : string) :
  exists rest,
    joinLines (l :: ls) +:+ String Js.newline closing
    = l +:+ String Js.newline rest.
Proof.
  destruct ls as [|l2 ls].
  - exists closing. reflexivity.
  - exists (joinLines (l2 :: ls) +:+ String Js.newline closing).
    rewrite joinLines_cons by discriminate. apply append_assoc3.
Qed.

(** On the lines that the writer joins, followed by the closing fence,
    [lazyBody] finds the lines. *)
Lemma lazyBody_lines (ls : list string) (markdown found : string) :
  ls <> [] ->
  Forall (fun l => noLineFeed l = true
                   /\ lastIs (Ascii.eqb Js.dquote) l = true) ls ->
  head (afterSpaces (String Js.newline markdown)) = Some found ->
  lazyBody (joinLines ls +:+ fence +:+ String Js.newline markdown)
  = Some (joinLines ls, found).
Proof.
  intros Hne Hls Hfound. induction ls as [|l ls IH]; [congruence|].
  apply Forall_cons_1 in Hls as [[Hn Hq] Hls].
  destruct ls as [|l2 ls].
  - cbn [joinLines]. rewrite lazyBody_line by exact Hn.
    rewrite lazyBody_unfold.
    assert (Js.startsWith (fence +:+ String Js.newline markdown) fence = true)
      as -> by (apply startsWith_spec; eauto).
    change 4%nat with (String.length fence). rewrite drop_append, Hfound.
    rewrite append_empty_r. reflexivity.
  - rewrite joinLines_cons by discriminate. rewrite append_assoc3.
    rewrite lazyBody_line by exact Hn.
    change (String Js.newline (joinLines (l2 :: ls)) +:+ fence
            +:+ String Js.newline markdown)
      with (String Js.newline (joinLines (l2 :: ls) +:+ fence
                               +:+ String Js.newline markdown)).
    rewrite lazyBody_unfold.
    destruct (joinLines_closing l2 ls ("---" +:+ String Js.newline markdown))
      as [rest Hrest].
    change (joinLines (l2 :: ls) +:+ fence +:+ String Js.newline markdown)
      with (joinLines (l2 :: ls)
            +:+ String Js.newline ("---" +:+ String Js.newline markdown)).
    rewrite Hrest.
    apply Forall_cons_1 in Hls as [[Hn2 Hq2] Hls'].
    rewrite (fence_not_at_line l2 rest Hn2 Hq2). rewrite <- Hrest.
    change (joinLines (l2 :: ls)
            +:+ String Js.newline ("---" +:+ String Js.newline markdown))
      with (joinLines (l2 :: ls) +:+ fence +:+ String Js.newline markdown).
    rewrite IH; [reflexivity | discriminate|].
    constructor; [split; assumption | exact Hls'].
Qed.

Lemma split_unfold (c d : ascii) (s : string) :
  Js.split c (String d s)
  = if Ascii.eqb d c then EmptyString :: Js.split c s
    else match Js.split c s with
         | [] => [String d EmptyString]
         | w :: ws => String d w :: ws
         end.
Proof. reflexivity. Qed.

Lemma split_line (l rest : string) :
  noLineFeed l = true ->
  Js.split Js.newline (l +:+ String Js.newline rest)
  = l :: Js.split Js.newline rest.
Proof.
  unfold noLineFeed. induction l as [|c l IH]; intros Hn.
  - change (EmptyString +:+ String Js.newline rest) with (String Js.newline rest).
    rewrite split_unfold, Ascii.eqb_refl. reflexivity.
  - simpl in Hn. apply andb_true_iff in Hn as [Hc Hn].
    change (String c l +:+ String Js.newline rest)
      with (String c (l +:+ String Js.newline rest)).
    apply negb_true_iff in Hc. rewrite split_unfold, Hc, (IH Hn). reflexivity.
Qed.

Lemma split_single (l : string) :
  noLineFeed l = true -> Js.split Js.newline l = [l].
Proof.
  unfold noLineFeed. induction l as [|c l IH]; intros Hn; [reflexivity|].
  simpl in Hn. apply andb_true_iff in Hn as [Hc Hn].
  apply negb_true_iff in Hc. rewrite split_unfold, Hc, (IH Hn). reflexivity.
Qed.

(** The lines that the writer joins are the lines that the parser splits. *)
Lemma split_joinLines (ls : list string) :
  ls <> [] -> Forall (fun l => noLineFeed l = true) ls ->
  Js.split Js.newline (joinLines ls) = ls.
Proof.
  intros Hne Hls. induction ls as [|l ls IH]; [congruence|].
  apply Forall_cons_1 in Hls as [Hl Hls]. destruct ls as [|l2 ls].
  - apply split_single, Hl.
  - rewrite joinLines_cons by discriminate. rewrite split_line by exact Hl.
    rewrite IH; [reflexivity | discriminate | exact Hls].
Qed.

(** The lines that the parser splits hold no line feed. *)
Lemma split_noLineFeed (s : string) :
  Forall (fun l => noLineFeed l = true) (Js.split Js.newline s).
Proof.
  induction s as [|c s IH]; [repeat constructor|].
  rewrite split_unfold. destruct (Ascii.eqb c Js.newline) eqn:Hc.
  - constructor; [reflexivity | exact IH].
  - destruct (Js.split Js.newline s) as [|w ws]; [repeat constructor|].
    + unfold noLineFeed. simpl. rewrite Hc. reflexivity.
    + apply Forall_cons_1 in IH as [Hw Hws]. constructor; [|exact Hws].
      unfold noLineFeed in Hw |- *. simpl. rewrite Hc, Hw. reflexivity.
Qed.

Lemma hasInk_trim (l : string) :
  hasInk l = true -> Js.isEmpty (Js.trim l) = false.
Proof.
  unfold hasInk, Js.trim. induction l as [|c l IH]; [discriminate|].
  cbn [allChars Js.trimStart]. destruct (Js.isWhiteSpace c) eqn:Hc; [exact IH|].
  intros _. cbn [Js.trimEnd]. cbv zeta. rewrite Hc. reflexivity.
Qed.

Lemma indexOf_key (k rest : string) :
  noColon k = true ->
  Js.indexOf (k +:+ String ":" rest) ":" = Some (String.length k).
Proof.
  unfold noColon. induction k as [|c k IH]; intros Hn; [reflexivity|].
  simpl in Hn. apply andb_true_iff in Hn as [Hc Hn].
  change (String c k +:+ String ":" rest) with (String c (k +:+ String ":" rest)).
  cbn [Js.indexOf String.length]. apply negb_true_iff in Hc.
  rewrite Hc, (IH Hn). reflexivity.
Qed.

Lemma indexOf_take (s : string) (c : ascii) (i : nat) :
  Js.indexOf s c = Some i ->
  allChars (fun d => negb (Ascii.eqb d c)) (Js.take i s) = true.
Proof.
  revert i. induction s as [|d s IH]; intros i; [discriminate|].
  cbn [Js.indexOf]. destruct (Ascii.eqb d c) eqn:Hd.
  - intros [= <-]. reflexivity.
  - destruct (Js.indexOf s c) as [j|]; [|discriminate].
    intros [= <-]. simpl. rewrite Hd, (IH j eq_refl). reflexivity.
Qed.

Lemma drop_key (k : string) (c : ascii) (rest : string) :
  Js.drop (String.length k + 1) (k +:+ String c rest) = rest.
Proof.
  induction k as [|d k IH]; [destruct rest; reflexivity|].
  change (Js.drop (String.length k + 1) (k +:+ String c rest) = rest). exact IH.
Qed.

Section WithHost.

Variable host : Host.

Lemma parseLine_state {St : Type} (frontmatter : Frontmatter) (line : string)
  (st : St) : snd (parseLine host frontmatter line st) = st.
Proof.
  unfold parseLine. destruct (Js.indexOf line ":") as [[|i]|]; try reflexivity.
  destruct (_ && _); [|reflexivity].
  rewrite bind_run. destruct (isoDateOfString host _); reflexivity.
Qed.

Lemma foldM_parseLine_state {St : Type} (lines : list string) :
  forall (frontmatter : Frontmatter) (st : St),
    snd (foldM (parseLine host) lines frontmatter st) = st.
Proof.
  induction lines as [|l lines IH]; intros frontmatter st; [reflexivity|].
  cbn [foldM]. rewrite bind_run.
  pose proof (parseLine_state frontmatter l st) as H.
  destruct (parseLine host frontmatter l st) as [[f|e] st']; simpl in H; subst st'.
  - apply IH.
  - reflexivity.
Qed.

Lemma parseFrontmatter_state {St : Type} (content : string) (st : St) :
  snd (parseFrontmatter host content st) = st.
Proof.
  unfold parseFrontmatter.
  destruct (matchFrontmatter content) as [[text markdown]|]; [|reflexivity].
  destruct (Js.isEmpty text); [reflexivity|]. rewrite bind_run.
  pose proof (foldM_parseLine_state
                (List.filter (fun line => negb (Js.isEmpty (Js.trim line)))
                   (Js.split Js.newline text)) [] st) as Hst.
  destruct (foldM _ _ _ st) as [[f|e] st1]; simpl in Hst; subst st1; reflexivity.
Qed.

(** [parseFrontmatter] returns one of three shapes.  When the content does
    not match, [data] is the empty object and [content] the content.  When
    it matches with nothing between the fences, neither is defined.
    Otherwise [content] is what follows the closing fence, and the content
    is the opening fence, the frontmatter text, the closing fence and that
    text, the fences ending with white space and a line feed. *)
Theorem parseFrontmatter_shapes {St : Type} (content : string) (st st' : St)
  (parsed : Parsed) :
  parseFrontmatter host content st = (Ok parsed, st') ->
  st' = st
  /\ ((matchFrontmatter content = None
       /\ data parsed = Some [] /\ body parsed = Some content)
      \/ exists w1 text w2 markdown,
           content = "---" +:+ w1 +:+ String Js.newline text
                     +:+ fence +:+ w2 +:+ String Js.newline markdown
           /\ allChars Js.isWhiteSpace w1 = true
           /\ allChars Js.isWhiteSpace w2 = true
           /\ if Js.isEmpty text
              then data parsed = None /\ body parsed = None
              else (exists frontmatter, data parsed = Some frontmatter)
                   /\ body parsed = Some markdown).
Proof.
  unfold parseFrontmatter.
  destruct (matchFrontmatter content) as [[text markdown]|] eqn:Hm.
  - apply matchFrontmatter_sound in Hm as (w1 & w2 & Hc & Hw1 & Hw2).
    destruct (Js.isEmpty text) eqn:He.
    + intros [= <- <-]. split; [reflexivity|]. right.
      exists w1, text, w2, markdown. rewrite He. auto.
    + rewrite bind_run.
      pose proof (foldM_parseLine_state
                    (List.filter (fun line => negb (Js.isEmpty (Js.trim line)))
                       (Js.split Js.newline text)) [] st) as Hst.
      destruct (foldM _ _ _ st) as [[f|e] st1]; [|discriminate].
      simpl in Hst. subst st1. intros [= <- <-]. split; [reflexivity|]. right.
      exists w1, text, w2, markdown. rewrite He. simpl. repeat split; eauto.
  - intros [= <- <-]. split; [reflexivity|]. left. auto.
Qed.

(** *** The properties that the parser sets *)

Local Abbreviation Parsed_ok := (fun frontmatter : Frontmatter =>
  List.NoDup (map fst frontmatter)
  /\ Forall ParsedEntry frontmatter).

Lemma Forall_mapSet (P : string * Value -> Prop) (k : string) (v : Value)
  (m : Frontmatter) :
  P (k, v) -> Forall P m -> Forall P (Js.mapSet k v m).
Proof.
  intros Hkv Hm. induction m as [|[k0 v0] m IH]; simpl.
  - repeat constructor. exact Hkv.
  - apply Forall_cons_1 in Hm as [H0 Hm].
    destruct (decide (k0 = k)); constructor; auto.
Qed.

Lemma setProperty_ne (k : string) (v : Value) (m : Frontmatter) :
  k <> "__proto__" -> setProperty k v m = Js.mapSet k v m.
Proof.
  intros Hne. unfold setProperty.
  destruct (String.eqb_spec k "__proto__"); [contradiction | reflexivity].
Qed.

Lemma setProperty_entries (k : string) (v : Value) (m : Frontmatter) :
  Parsed_ok m -> (k <> "__proto__" -> ParsedEntry (k, v)) ->
  Parsed_ok (setProperty k v m).
Proof.
  intros [Hn Hf] Hkv. unfold setProperty.
  destruct (String.eqb_spec k "__proto__") as [_|Hne]; [split; assumption|].
  split; [apply CollectFacts.NoDup_mapSet, Hn|].
  apply Forall_mapSet; [apply Hkv, Hne | exact Hf].
Qed.

Lemma parseLine_entries {St : Type} (frontmatter frontmatter' : Frontmatter)
  (line : string) (st st' : St) :
  noLineFeed line = true -> Parsed_ok frontmatter ->
  parseLine host frontmatter line st = (Ok frontmatter', st') ->
  Parsed_ok frontmatter'.
Proof.
  intros Hl [Hn Hf]. unfold parseLine.
  destruct (Js.indexOf line ":") as [[|i]|] eqn:Hi;
    try (intros [= <- <-]; split; assumption).
  set (key := Js.trim (Js.take (S i) line)).
  set (clean := stripQuotes (Js.trim (Js.drop (S i + 1) line))).
  assert (noColon key = true /\ noLineFeed key = true /\ Js.trim key = key)
    as (Hk1 & Hk2 & Hk3).
  { split; [|split].
    - apply allChars_trim, (indexOf_take line ":" (S i)), Hi.
    - apply allChars_trim, allChars_take, Hl.
    - apply trim_idempotent. }
  assert (noLineFeed clean = true) as Hc.
  { apply allChars_stripQuotes, allChars_trim, allChars_drop, Hl. }
  destruct (String.eqb key "date" && isDatePattern clean) eqn:Hd.
  - rewrite bind_run. destruct (isoDateOfString host clean) as [m|d]; [discriminate|].
    intros [= <- <-]. apply setProperty_entries; [split; assumption|].
    intros Hp.
    apply andb_true_iff in Hd as [Hd _]. apply String.eqb_eq in Hd.
    repeat split; try assumption. exists d. split; [reflexivity|].
    simpl. congruence.
  - intros [= <- <-]. apply setProperty_entries; [split; assumption|].
    intros Hp.
    repeat split; try assumption. exists clean. auto.
Qed.

Lemma foldM_parseLine_entries {St : Type} (lines : list string) :
  Forall (fun l => noLineFeed l = true) lines ->
  forall (frontmatter frontmatter' : Frontmatter) (st st' : St),
    Parsed_ok frontmatter ->
    foldM (parseLine host) lines frontmatter st = (Ok frontmatter', st') ->
    Parsed_ok frontmatter'.
Proof.
  induction lines as [|l lines IH]; intros Hls frontmatter frontmatter' st st' Hf.
  - intros [= <- <-]. exact Hf.
  - apply Forall_cons_1 in Hls as [Hl Hls]. cbn [foldM]. rewrite bind_run.
    destruct (parseLine host frontmatter l st) as [[f1|e] st1] eqn:Hp;
      [|discriminate].
    apply (IH Hls f1 frontmatter' st1 st').
    apply (parseLine_entries frontmatter f1 l st st1 Hl Hf Hp).
Qed.

Lemma Forall_filter_keep {A : Type} (P : A -> Prop) (f : A -> bool) (l : list A) :
  Forall P l -> Forall P (List.filter f l).
Proof.
  induction l as [|a l IH]; simpl; intros H; [constructor|].
  apply Forall_cons_1 in H as [Ha H].
  destruct (f a); [constructor|]; auto.
Qed.

(** The frontmatter that [parseFrontmatter] returns has distinct keys, and
    properties as the parser sets them. *)
Lemma parseFrontmatter_entries {St : Type} (content : string) (st st' : St)
  (parsed : Parsed) (frontmatter : Frontmatter) :
  parseFrontmatter host content st = (Ok parsed, st') ->
  data parsed = Some frontmatter -> Parsed_ok frontmatter.
Proof.
  unfold parseFrontmatter.
  destruct (matchFrontmatter content) as [[text markdown]|].
  - destruct (Js.isEmpty text); [intros [= <- <-]; discriminate|].
    rewrite bind_run.
    destruct (foldM _ _ _ st) as [[f|e] st1] eqn:Hfold; [|discriminate].
    intros [= <- <-] [= <-].
    refine (foldM_parseLine_entries _ _ [] f st st1 _ Hfold).
    + apply Forall_filter_keep, split_noLineFeed.
    + split; constructor.
  - intros [= <- <-] [= <-]. split; constructor.
Qed.

(** *** The lines that updateFrontmatterDate writes *)

Lemma lineOf_line (k s : string) :
  noLineFeed k = true -> noLineFeed s = true ->
  noLineFeed (lineOf (k, VString s)) = true
  /\ lastIs (Ascii.eqb Js.dquote) (lineOf (k, VString s)) = true.
Proof.
  intros Hk Hs. unfold lineOf, quoted. simpl fst. simpl snd. split.
  - unfold noLineFeed in *. rewrite !allChars_append, Hk.
    change (String Js.dquote (s +:+ String Js.dquote EmptyString))
      with (String Js.dquote EmptyString +:+ s +:+ String Js.dquote EmptyString).
    rewrite !allChars_append, Hs. reflexivity.
  - change (k +:+ ": " +:+ String Js.dquote (s +:+ String Js.dquote EmptyString))
      with (k +:+ (": " +:+ String Js.dquote EmptyString) +:+ s
            +:+ String Js.dquote EmptyString).
    rewrite <- !append_assoc3. apply lastIs_snoc.
Qed.

(** A line that is written starts with a character that is not white
    space. *)
Lemma lineOf_head (k s : string) :
  Js.trim k = k ->
  exists c t, lineOf (k, VString s) = String c t /\ Js.isWhiteSpace c = false.
Proof.
  intros Hk. unfold lineOf. simpl fst. simpl snd.
  destruct (trim_head k) as [H|(c & t & H & Hc)]; rewrite Hk in H; rewrite H.
  - eexists _, _. split; reflexivity.
  - exists c. eexists. split; [reflexivity | exact Hc].
Qed.

(** What the parser does of a line that is written. *)
Lemma parseLine_written {St : Type} (frontmatter : Frontmatter) (k s : string)
  (st : St) :
  noColon k = true -> Js.trim k = k ->
  parseLine host frontmatter (lineOf (k, VString s)) st
  = if Js.isEmpty k then (Ok frontmatter, st)
    else if String.eqb k "date" && isDatePattern s
    then match isoDateOfString host s with
         | inr d => (Ok (setProperty k (VString d) frontmatter), st)
         | inl m => (Thrown {| message := m |}, st)
         end
    else (Ok (setProperty k (VString s) frontmatter), st).
Proof.
  intros Hk Ht. unfold parseLine, lineOf. cbn [fst snd].
  change (k +:+ ": " +:+ quoted s) with (k +:+ String ":" (String " " (quoted s))).
  rewrite (indexOf_key k _ Hk).
  destruct k as [|c k]; [reflexivity|].
  cbn [String.length Js.isEmpty]. cbv zeta.
  change (S (String.length k)) with (String.length (String c k)).
  rewrite take_append, drop_key, Ht, trim_quoted, stripQuotes_quoted.
  destruct (String.eqb (String c k) "date" && isDatePattern s); [|reflexivity].
  rewrite bind_run. destruct (isoDateOfString host s); reflexivity.
Qed.

(** The entries that are written: properties as the parser sets them,
    where the value of [date] is [date]. *)
Local Abbreviation Dated := (fun (date : string) (entry : string * Value) =>
  noColon (fst entry) = true
  /\ noLineFeed (fst entry) = true
  /\ Js.trim (fst entry) = fst entry
  /\ fst entry <> "__proto__"
  /\ exists s, snd entry = VString s /\ noLineFeed s = true
               /\ (fst entry = "date" -> s = date)).

(** The parser reads the date in the lines that are written. *)
Lemma foldM_written {St : Type} (date : string) (entries : Frontmatter) :
  (isDatePattern date = true -> isoDateOfString host date = inr date) ->
  Forall (Dated date) entries ->
  forall (frontmatter : Frontmatter) (st : St),
    exists frontmatter',
      foldM (parseLine host) (map lineOf entries) frontmatter st
      = (Ok frontmatter', st)
      /\ get frontmatter' "date"
         = if existsb (fun kv => String.eqb (fst kv) "date") entries
           then VString date else get frontmatter "date".
Proof.
  intros Hhost. induction entries as [|[k v] entries IH]; intros Hes frontmatter st.
  - exists frontmatter. split; reflexivity.
  - apply Forall_cons_1 in Hes as [(Hk1 & Hk2 & Hk3 & Hp & s & Hv & Hs & Hd) Hes].
    simpl in Hk1, Hk2, Hk3, Hp, Hv, Hd. subst v.
    cbn [map foldM existsb fst]. rewrite bind_run.
    rewrite (parseLine_written frontmatter k s st Hk1 Hk3).
    unfold setProperty. rewrite (proj2 (String.eqb_neq k "__proto__") Hp).
    destruct (Js.isEmpty k) eqn:Hempty.
    + apply isEmpty_spec in Hempty as ->.
      destruct (IH Hes frontmatter st) as (f' & -> & Hget).
      exists f'. split; [reflexivity | exact Hget].
    + destruct (String.eqb k "date") eqn:Hdate.
      * apply String.eqb_eq in Hdate as ->. rewrite (Hd eq_refl).
        assert ((if true && isDatePattern date
                 then match isoDateOfString host date with
                      | inr d =>
                          (Ok (Js.mapSet "date" (VString d) frontmatter), st)
                      | inl m => (Thrown {| message := m |}, st)
                      end
                 else (Ok (Js.mapSet "date" (VString date) frontmatter), st))
                = (Ok (Js.mapSet "date" (VString date) frontmatter), st)) as ->.
        { cbn [andb]. destruct (isDatePattern date) eqn:E; [|reflexivity].
          rewrite (Hhost eq_refl). reflexivity. }
        destruct (IH Hes (Js.mapSet "date" (VString date) frontmatter) st)
          as (f' & -> & Hget).
        exists f'. split; [reflexivity|]. rewrite Hget. cbn [orb].
        destruct (existsb _ entries); [reflexivity|].
        unfold get. rewrite DetectionFacts.mapGet_mapSet.
        destruct (decide ("date" = "date")); [reflexivity | congruence].
      * cbn [andb].
        destruct (IH Hes (Js.mapSet k (VString s) frontmatter) st)
          as (f' & -> & Hget).
        exists f'. split; [reflexivity|]. rewrite Hget. cbn [orb].
        destruct (existsb _ entries); [reflexivity|].
        unfold get. rewrite DetectionFacts.mapGet_mapSet.
        apply String.eqb_neq in Hdate.
        destruct (decide (k = "date")); [congruence | reflexivity].
Qed.

Lemma existsb_mapSet (k : string) (v : Value) (m : Frontmatter) :
  existsb (fun kv => String.eqb (fst kv) k) (Js.mapSet k v m) = true.
Proof.
  induction m as [|[k0 v0] m IH]; simpl.
  - rewrite String.eqb_refl. reflexivity.
  - destruct (decide (k0 = k)); simpl.
    + rewrite String.eqb_refl. reflexivity.
    + rewrite IH. apply orb_true_r.
Qed.

(** The entries that [updateFrontmatterDate] writes. *)
Lemma updated_Dated (date : string) (frontmatter : Frontmatter) :
  noLineFeed date = true ->
  List.NoDup (map fst frontmatter) -> Forall ParsedEntry frontmatter ->
  Forall (Dated date) (Js.mapSet "date" (VString date) frontmatter).
Proof.
  intros Hdate Hn Hf.
  assert (List.NoDup (map fst (Js.mapSet "date" (VString date) frontmatter)))
    as Hn' by apply CollectFacts.NoDup_mapSet, Hn.
  apply List.Forall_forall. intros [k v] Hin.
  assert (k = "date" -> v = VString date) as Hv.
  { intros ->. apply (CollectFacts.In_mapGet _ _ _ Hn') in Hin.
    rewrite DetectionFacts.mapGet_mapSet in Hin.
    destruct (decide ("date" = "date")); congruence. }
  apply CollectFacts.In_mapSet in Hin as [[= -> ->]|Hin].
  - repeat split; [discriminate|]. exists date. auto.
  - rewrite List.Forall_forall in Hf.
    destruct (Hf _ Hin) as (H1 & H2 & H3 & Hp & s & Hs & Hs').
    simpl in *. repeat split; try assumption.
    destruct (decide (k = "date")) as [->|Hne].
    + exists date. split; [apply Hv; reflexivity | auto].
    + exists s. split; [exact Hs|]. split; [apply Hs', Hne | congruence].
Qed.

Lemma head_afterSpaces_newline (markdown : string) :
  exists found, head (afterSpaces (String Js.newline markdown)) = Some found.
Proof.
  change (afterSpaces (String Js.newline markdown))
    with (afterSpaces markdown ++ [markdown]).
  destruct (afterSpaces markdown) as [|a l]; simpl; eauto.
Qed.

(** The parser finds the date in the content that [updateFrontmatterDate]
    writes. *)
Lemma parse_written {St : Type} (date markdown : string)
  (frontmatter : Frontmatter) (st : St) :
  noLineFeed date = true ->
  (isDatePattern date = true -> isoDateOfString host date = inr date) ->
  List.NoDup (map fst frontmatter) -> Forall ParsedEntry frontmatter ->
  let updated :=
    ObjectOrder.entries (Js.mapSet "date" (VString date) frontmatter) in
  exists parsed written,
    parseFrontmatter host
      ("---" +:+ String Js.newline (joinLines (map lineOf updated))
       +:+ String Js.newline "---" +:+ String Js.newline markdown) st
    = (Ok parsed, st)
    /\ data parsed = Some written
    /\ get written "date" = VString date.
Proof.
  intros Hdate Hhost Hn Hf updated.
  pose proof (ObjectOrderFacts.entries_perm
                (Js.mapSet "date" (VString date) frontmatter)) as Hperm.
  fold updated in Hperm.
  assert (Forall (Dated date) updated) as Hup.
  { apply List.Forall_forall. intros kv Hin.
    apply (Permutation_in _ Hperm) in Hin. revert kv Hin.
    apply List.Forall_forall, (updated_Dated date frontmatter Hdate Hn Hf). }
  assert (updated <> []) as Hne.
  { intros Hnil. rewrite Hnil in Hperm. apply Permutation_nil in Hperm.
    revert Hperm. destruct frontmatter as [|[k0 v0] m]; simpl; [discriminate|].
    destruct (decide (k0 = "date")); discriminate. }
  set (lines := map lineOf updated).
  assert (lines <> []) as Hlines.
  { unfold lines. destruct updated; [congruence | discriminate]. }
  assert (Forall (fun l => noLineFeed l = true
                           /\ lastIs (Ascii.eqb Js.dquote) l = true) lines) as Hgood.
  { unfold lines. apply List.Forall_forall. intros l Hl.
    apply in_map_iff in Hl as ([k v] & <- & Hin).
    rewrite List.Forall_forall in Hup.
    destruct (Hup _ Hin) as (_ & Hk & _ & _ & s & Hv & Hs & _). simpl in Hk, Hv.
    subst v. apply lineOf_line; assumption. }
  assert (exists c t, joinLines lines = String c t /\ Js.isWhiteSpace c = false)
    as (c & t & Hjoin & Hc).
  { unfold lines. destruct updated as [|[k v] rest]; [congruence|].
    apply Forall_cons_1 in Hup as [(_ & _ & Hk & _ & s & Hv & _) _].
    simpl in Hk, Hv. subst v.
    destruct (lineOf_head k s Hk) as (c & t & Hl & Hc).
    cbn [map]. destruct (map lineOf rest) as [|l2 ls] eqn:Hrest.
    - exists c, t. split; [exact Hl | exact Hc].
    - rewrite joinLines_cons by discriminate. rewrite Hl.
      exists c. eexists. split; [reflexivity | exact Hc]. }
  destruct (head_afterSpaces_newline markdown) as [found Hfound].
  assert (matchFrontmatter
            ("---" +:+ String Js.newline (joinLines lines)
             +:+ String Js.newline "---" +:+ String Js.newline markdown)
          = Some (joinLines lines, found)) as Hmatch.
  { unfold matchFrontmatter.
    change ("---" +:+ String Js.newline (joinLines lines)
            +:+ String Js.newline "---" +:+ String Js.newline markdown)
      with ("---" +:+ String Js.newline
                        (joinLines lines +:+ fence +:+ String Js.newline markdown)).
    assert (Js.startsWith
              ("---" +:+ String Js.newline
                 (joinLines lines +:+ fence +:+ String Js.newline markdown))
              "---" = true) as -> by (apply startsWith_spec; eauto).
    change 3%nat with (String.length "---"). rewrite drop_append.
    change (afterSpaces (String Js.newline ?z)) with (afterSpaces z ++ [z]).
    assert (afterSpaces (joinLines lines +:+ fence +:+ String Js.newline markdown)
            = []) as ->.
    { rewrite Hjoin.
      change (String c t +:+ fence +:+ String Js.newline markdown)
        with (String c (t +:+ fence +:+ String Js.newline markdown)).
      cbn [afterSpaces]. rewrite Hc. reflexivity. }
    cbn [app firstSome].
    rewrite (lazyBody_lines lines markdown found Hlines Hgood Hfound).
    reflexivity. }
  unfold parseFrontmatter. rewrite Hmatch.
  assert (Js.isEmpty (joinLines lines) = false) as -> by (rewrite Hjoin; reflexivity).
  assert (List.filter (fun line => negb (Js.isEmpty (Js.trim line)))
            (Js.split Js.newline (joinLines lines)) = lines) as ->.
  { rewrite split_joinLines; [|exact Hlines|].
    - apply forallb_filter_id. apply forallb_forall. intros l Hl.
      rewrite List.Forall_forall in Hgood. destruct (Hgood l Hl) as [_ Hq].
      rewrite (hasInk_trim l (lastIs_hasInk l Hq)). reflexivity.
    - eapply Forall_impl; [exact Hgood|]. intros l [H _]. exact H. }
  rewrite bind_run.
  destruct (foldM_written date updated Hhost Hup [] st) as (written & Hfold & Hget).
  fold lines in Hfold. rewrite Hfold.
  eexists _, written. split; [reflexivity|]. split; [reflexivity|].
  rewrite Hget.
  assert (existsb (fun kv => String.eqb (fst kv) "date") updated = true) as ->;
    [|reflexivity].
  pose proof (existsb_mapSet "date" (VString date) frontmatter) as Hex.
  apply existsb_exists in Hex as (kv & Hin & Hkv).
  apply existsb_exists. exists kv. split; [|exact Hkv].
  apply (Permutation_in _ (Permutation_sym Hperm)), Hin.
Qed.

End WithHost.

Section WithOptions.

Variable options : Options.
Variable host : Host.

(** [updateFrontmatterDate] is idempotent: on the content that it returns,
    in the state that it leaves, it returns that content and leaves that
    state, for a host whose date of the file holds no line feed and is read
    back as it is.  What it returns is the content that it was given, and
    then it leaves the state, or the content that it wrote to the file. *)
Theorem updateFrontmatterDate_idempotent (filePath content : string)
  (fileMtime : Z) (st st' : BuildState) (content' : string) :
  let fileDate := isoDateOfTime host fileMtime in
  noLineFeed fileDate = true ->
  (isDatePattern fileDate = true -> isoDateOfString host fileDate = inr fileDate) ->
  updateFrontmatterDate options host filePath content fileMtime st
  = (Ok content', st') ->
  updateFrontmatterDate options host filePath content' fileMtime st'
  = (Ok content', st')
  /\ ((content' = content /\ st' = st)
      \/ (texts st' !! filePath = Some content' /\ assets st' = assets st
          /\ reads st' = reads st)).
Proof.
  intros fileDate Hdate Hhost Hrun.
  assert ((content' = content /\ st' = st)
          \/ (texts st' !! filePath = Some content'
              /\ updateFrontmatterDate options host filePath content' fileMtime st'
                 = (Ok content', st')
              /\ assets st' = assets st /\ reads st' = reads st)) as [[-> ->]|H].
  { revert Hrun. unfold updateFrontmatterDate.
    destruct (negb (updateDate options)) eqn:Hup; [intros [= <- <-]; auto|].
    rewrite bind_run.
    destruct (parseFrontmatter host content st) as [[parsed|e] st1] eqn:Hparse;
      [|discriminate].
    assert (st1 = st) as ->.
    { pose proof (parseFrontmatter_state host content st) as H.
      rewrite Hparse in H. exact H. }
    destruct (data parsed) as [frontmatter|] eqn:Hdata; [|intros [= <- <-]; auto].
    fold fileDate.
    destruct (strictEq (get frontmatter "date") (VString fileDate));
      [intros [= <- <-]; auto|].
    rewrite tryCatch_run, bind_run. unfold writeSource.
    destruct (canWrite host filePath); [|intros [= <- <-]; auto].
    intros [= <- <-]. right. cbn [texts assets reads].
    split; [apply lookup_insert_eq|]. split; [|auto].
    destruct (parseFrontmatter_entries host content st st parsed frontmatter
                Hparse Hdata) as [Hn Hf].
    match goal with
    | |- context [String Js.newline ?m] =>
        match m with
        | match body parsed with _ => _ end =>
            destruct (parse_written host fileDate m frontmatter
                        {| texts := <[filePath := "---" +:+
                                      String Js.newline
                                        (joinLines
                                           (map lineOf
                                              (ObjectOrder.entries
                                                 (Js.mapSet "date"
                                                    (VString fileDate)
                                                    frontmatter))))
                                      +:+ String Js.newline "---"
                                      +:+ String Js.newline m]> (texts st);
                           assets := assets st; reads := reads st |}
                        Hdate Hhost Hn Hf)
              as (parsed' & written & Hparse' & Hdata' & Hget)
        end
    end.
    cbv zeta in Hparse'. rewrite bind_run.
    match goal with
    | |- context [parseFrontmatter host ?c ?s] =>
        replace (parseFrontmatter host c s) with (Ok parsed', s)
          by (symmetry; exact Hparse')
    end.
    rewrite Hdata', Hget.
    unfold strictEq. rewrite bool_decide_eq_true_2 by reflexivity. reflexivity. }
  - split; [exact Hrun | left; auto].
  - destruct H as (Ht & Hidem & Ha & Hr). split; [exact Hidem | right; auto].
Qed.

End WithOptions.

End FrontmatterFacts.

Module FrontmatterExamples.
Import Utils Types Eff Plugin BuildVocabulary Examples.

Lemma parseFrontmatter_shapes_title :
  let content := text ["---"; "title: A"; "---"; "# A"] in
  let parsed :=
    {| data := Some [("title", VString "A")]; body := Some (text ["# A"]) |} in
  parseFrontmatter host content tt = (Ok parsed, tt)
  /\ exists w1 frontmatterText w2 markdown,
       content = "---" +:+ w1 +:+ String Js.newline frontmatterText
                 +:+ fence +:+ w2 +:+ String Js.newline markdown
       /\ body parsed = Some markdown.
Proof.
  intros content parsed.
  assert (parseFrontmatter host content tt = (Ok parsed, tt)) as Hrun
    by (vm_compute; reflexivity).
  split; [exact Hrun|].
  destruct (FrontmatterFacts.parseFrontmatter_shapes host content tt tt parsed Hrun)
    as [_ [(Hno & _)|(w1 & tx & w2 & md & Hc & _ & _ & H)]].
  - vm_compute in Hno. discriminate Hno.
  - exists w1, tx, w2, md. split; [exact Hc|].
    destruct (Js.isEmpty tx); [destruct H as [H _]; discriminate H | apply H].
Defined.

Lemma updateFrontmatterDate_idempotent_plain :
  let st := {| texts := {["docs/a.md" := text ["# A"]]}; assets := ∅; reads := [] |} in
  let first :=
    updateFrontmatterDate (defaultOptions "docs") host "docs/a.md"
      (text ["# A"]) 1000 st in
  exists written,
    fst first = Ok written
    /\ written <> text ["# A"]
    /\ updateFrontmatterDate (defaultOptions "docs") host "docs/a.md" written
         1000 (snd first)
       = (Ok written, snd first).
Proof.
  intros st first.
  destruct first as [[written|e] st'] eqn:Hfirst.
  - exists written. split; [reflexivity|].
    split; [vm_compute in Hfirst; injection Hfirst as <- _; discriminate|].
    apply (FrontmatterFacts.updateFrontmatterDate_idempotent
             (defaultOptions "docs") host "docs/a.md" (text ["# A"]) 1000 st st'
             written); [reflexivity | intros _; reflexivity | exact Hfirst].
  - vm_compute in Hfirst. discriminate Hfirst.
Defined.

(** [updateFrontmatterDate] writes the property whose key is an array
    index first, as [Object.entries] lists it. *)
Lemma updateFrontmatterDate_index_first :
  fst (updateFrontmatterDate (defaultOptions "docs") host "docs/a.md"
         (text ["---"; "title: A"; "7: x"; "---"; "# A"]) 1000
         {| texts := ∅; assets := ∅; reads := [] |})
  = Ok (text ["---"; "7: " +:+ quoted "x"; "title: " +:+ quoted "A";
              "date: " +:+ quoted "2024-01-01"; "---"; "# A"]).
Proof. vm_compute. reflexivity. Qed.

End FrontmatterExamples.

(** * The hot update *)

Module HotFacts.
Import Types Eff Plugin Spec HotUpdate EffFacts BuildFacts SortFacts WriteFacts.

Section WithHost.

Variable options : Options.
Variable host : Host.
Variable relative : string -> string -> string.


End WithHost.

End HotFacts.

Module HotExamples.
Import Types Eff Plugin Spec HotUpdate Examples Trees.

(** After a build of [treeGuides] by folder, a hot update for the top-level
    file [index.md] processes the folder [root] and keeps the previous
    record of the file, which has no [folder]: the manifest lists the file
    twice.  A hot update for [guides/intro.md] replaces the record of the
    file. *)
Lemma handleHotUpdate_top_level_twice :
  let options := defaultOptions "docs" in
  let st := build options host treeGuides ∅ in
  let listed := fun st' : BuildState =>
    map (fun d => (get d "slug", get d "folder"))
      (previousDocuments options (assets st')) in
  folderOf (relativeBelow (source options) "docs/index.md") = "root"
  /\ listed st
     = [(VString "index", VUndefined); (VString "guides/intro", VString "guides")]
  /\ listed (snd (handleHotUpdate options host relativeBelow "docs/index.md"
                    treeGuides st))
     = [(VString "index", VUndefined); (VString "index", VUndefined);
        (VString "guides/intro", VString "guides")]
  /\ listed (snd (handleHotUpdate options host relativeBelow
                    "docs/guides/intro.md" treeGuides st))
     = [(VString "index", VUndefined); (VString "guides/intro", VString "guides")].
Proof. vm_compute. repeat split. Qed.

End HotExamples.

(** * The accumulators of the handler of a file *)

Module AccountFacts.
Import Types Eff Plugin Spec PipelineVocabulary EffFacts BuildFacts SortFacts.

Section WithHost.

Variable options : Options.
Variable host : Host.

Lemma processEntry_step (acc : Acc) (relPath : string) (info : FileInfo)
  (st : BuildState) :
  exists acc' st',
    processEntry options host acc (relPath, info) st = (Ok acc', st')
    /\ (Pushed options acc relPath info acc' \/ Failed acc acc').
Proof.
  unfold processEntry. rewrite tryCatch_run, bind_run.
  destruct (readFile (path info) st) as [[raw|e] st0];
    [|eexists _, _; split; [reflexivity | right; repeat split]].
  unfold processRead. rewrite bind_run.
  destruct (updateFrontmatterDate _ _ _ _ _ st0) as [[updated|e] st1];
    [|eexists _, _; split; [reflexivity | right; repeat split]].
  rewrite bind_run.
  destruct (parseFrontmatter host updated st1) as [[parsed|e] st2];
    [|eexists _, _; split; [reflexivity | right; repeat split]].
  rewrite bind_run.
  destruct (processMarkdownFile options host (path info) st2)
    as [[processed|e] st3];
    [|eexists _, _; split; [reflexivity | right; repeat split]].
  destruct (errorOf processed);
    [eexists _, _; split; [reflexivity | right; repeat split]|].
  eexists _, _. split; [reflexivity|]. left.
  eexists _, _. repeat split.
Qed.

Lemma foldM_processEntry_steps (files : FileMap) :
  forall acc st, exists acc' st',
    foldM (processEntry options host) files acc st = (Ok acc', st')
    /\ Steps options files acc acc'.
Proof.
  induction files as [|[relPath info] files IH]; intros acc st.
  - exists acc, st. split; reflexivity.
  - cbn [foldM]. rewrite bind_run.
    destruct (processEntry_step acc relPath info st) as (acc1 & st1 & -> & H1).
    destruct (IH acc1 st1) as (acc2 & st2 & -> & H2).
    exists acc2, st2. split; [reflexivity|]. exists acc1. split; assumption.
Qed.

Lemma Steps_count (files : FileMap) :
  forall acc acc', Steps options files acc acc' ->
    Z.of_nat (List.length (manifest acc')) + errorCount acc'
    = Z.of_nat (List.length (manifest acc)) + errorCount acc
      + Z.of_nat (List.length files).
Proof.
  induction files as [|[relPath info] files IH]; intros acc acc'; cbn [Steps].
  - intros ->. simpl. lia.
  - intros (acc1 & H1 & H2). rewrite (IH _ _ H2).
    destruct H1 as [(f & h & Hm & _ & He)|(Hm & _ & He)]; rewrite Hm, He.
    + rewrite length_app. cbn [List.length]. lia.
    + cbn [List.length]. lia.
Qed.

(** [content[slug] = document]: the property is set, but for the slug
    [__proto__]; the other properties stay. *)
Lemma setContent_eq (slug : string) (document : MarkdownContent)
  (content : ContentMap) :
  slug <> "__proto__" -> setContent slug document content !! slug = Some document.
Proof.
  intros Hne. unfold setContent.
  destruct (String.eqb_spec slug "__proto__") as [->|_]; [destruct Hne; reflexivity|].
  apply lookup_insert_eq.
Qed.

Lemma setContent_ne (slug slug' : string) (document : MarkdownContent)
  (content : ContentMap) :
  slug <> slug' -> setContent slug document content !! slug' = content !! slug'.
Proof.
  intros Hne. unfold setContent. destruct (String.eqb slug "__proto__"); [reflexivity|].
  apply lookup_insert_ne. exact Hne.
Qed.

Lemma setContent_proto (slug : string) (document : MarkdownContent)
  (content : ContentMap) :
  setContent slug document content !! "__proto__" = content !! "__proto__".
Proof.
  unfold setContent.
  destruct (String.eqb_spec slug "__proto__") as [->|Hne]; [reflexivity|].
  apply lookup_insert_ne. exact Hne.
Qed.

Lemma setContent_is_Some (slug slug' : string) (document : MarkdownContent)
  (content : ContentMap) :
  is_Some (setContent slug document content !! slug') ->
  is_Some (content !! slug') \/ slug' = slug.
Proof.
  destruct (decide (slug = slug')) as [<-|Hne]; [auto|].
  rewrite setContent_ne by exact Hne. auto.
Qed.

(** The content that is set stays set. *)
Lemma Steps_keeps (files : FileMap) :
  forall acc acc' slug, Steps options files acc acc' ->
    is_Some (Plugin.content acc !! slug) -> is_Some (Plugin.content acc' !! slug).
Proof.
  induction files as [|[relPath info] files IH]; intros acc acc' slug; cbn [Steps].
  - intros ->. auto.
  - intros (acc1 & H1 & H2) Hs. apply (IH _ _ _ H2).
    destruct H1 as [(f & h & _ & Hc & _)|(_ & Hc & _)]; rewrite Hc; [|exact Hs].
    unfold setContent. destruct (String.eqb _ _); [exact Hs|].
    destruct (decide (slugOf options relPath = slug)) as [<-|Hne].
    + rewrite lookup_insert_eq. eauto.
    + rewrite lookup_insert_ne; assumption.
Qed.

(** The content of a slug stays as it is when no later file has the slug. *)
Lemma Steps_keeps_exact (files : FileMap) :
  forall acc acc' slug, Steps options files acc acc' ->
    ~ In slug (map (fun entry => slugOf options (fst entry)) files) ->
    Plugin.content acc' !! slug = Plugin.content acc !! slug.
Proof.
  induction files as [|[relPath info] files IH]; intros acc acc' slug; cbn [Steps].
  - intros ->. auto.
  - intros (acc1 & H1 & H2) Hs. cbn [map fst In] in Hs.
    rewrite (IH _ _ _ H2) by tauto.
    destruct H1 as [(f & h & _ & Hc & _)|(_ & Hc & _)]; rewrite Hc; [|reflexivity].
    apply setContent_ne. tauto.
Qed.

(** No content is set under [__proto__]. *)
Lemma Steps_proto (files : FileMap) :
  forall acc acc', Steps options files acc acc' ->
    Plugin.content acc' !! "__proto__" = Plugin.content acc !! "__proto__".
Proof.
  induction files as [|[relPath info] files IH]; intros acc acc'; cbn [Steps].
  - intros ->. auto.
  - intros (acc1 & H1 & H2). rewrite (IH _ _ H2).
    destruct H1 as [(f & h & _ & Hc & _)|(_ & Hc & _)]; rewrite Hc; [|reflexivity].
    apply setContent_proto.
Qed.

(** A record of the manifest is the record of a file, and the content of
    the slug of the file is set, unless the slug is [__proto__]. *)
Lemma Steps_records (files : FileMap) :
  forall acc acc' record, Steps options files acc acc' ->
    In record (manifest acc') ->
    In record (manifest acc)
    \/ exists relPath info validFrontmatter,
         In (relPath, info) files
         /\ record = metaOf options relPath (metadata info) validFrontmatter
         /\ (slugOf options relPath <> "__proto__" ->
             is_Some (Plugin.content acc' !! slugOf options relPath)).
Proof.
  induction files as [|[relPath info] files IH]; intros acc acc' record;
    cbn [Steps].
  - intros ->. auto.
  - intros (acc1 & H1 & H2) Hin.
    destruct (IH _ _ _ H2 Hin) as [H|(r & i & f & Hf & Hr & Hs)].
    + destruct H1 as [(f & h & Hm & Hc & _)|(Hm & _ & _)]; rewrite Hm in H;
        [|left; exact H].
      apply in_app_iff in H as [H|[<-|[]]]; [left; exact H|]. right.
      exists relPath, info, f. split; [left; reflexivity|]. split; [reflexivity|].
      intros Hne. apply (Steps_keeps _ _ _ _ H2).
      rewrite Hc, setContent_eq by exact Hne. eauto.
    + right. exists r, i, f. split; [right; exact Hf|]. auto.
Qed.

(** With distinct slugs, the content of the slug of a record holds the
    frontmatter of the record, unless the slug is [__proto__]. *)
Lemma Steps_records_exact (files : FileMap) :
  forall acc acc' record, Steps options files acc acc' ->
    List.NoDup (map (fun entry => slugOf options (fst entry)) files) ->
    In record (manifest acc') ->
    In record (manifest acc)
    \/ exists relPath info validFrontmatter html,
         In (relPath, info) files
         /\ record = metaOf options relPath (metadata info) validFrontmatter
         /\ (slugOf options relPath <> "__proto__" ->
             Plugin.content acc' !! slugOf options relPath
             = Some {| frontmatter := validFrontmatter; Types.content := html |}).
Proof.
  induction files as [|[relPath info] files IH]; intros acc acc' record;
    cbn [Steps].
  - intros ->. auto.
  - intros (acc1 & H1 & H2) Hnodup Hin. cbn [map fst] in Hnodup.
    apply List.NoDup_cons_iff in Hnodup as [Hfresh Hnodup].
    destruct (IH _ _ _ H2 Hnodup Hin) as [H|(r & i & f & h & Hf & Hr & Hs)].
    + destruct H1 as [(f & h & Hm & Hc & _)|(Hm & _ & _)]; rewrite Hm in H;
        [|left; exact H].
      apply in_app_iff in H as [H|[<-|[]]]; [left; exact H|]. right.
      exists relPath, info, f, h. split; [left; reflexivity|].
      split; [reflexivity|]. intros Hne.
      rewrite (Steps_keeps_exact _ _ _ _ H2 Hfresh), Hc.
      apply setContent_eq. exact Hne.
    + right. exists r, i, f, h. split; [right; exact Hf|]. auto.
Qed.

(** A slug whose content is set is the slug of a file. *)
Lemma Steps_keys (files : FileMap) :
  forall acc acc' slug, Steps options files acc acc' ->
    is_Some (Plugin.content acc' !! slug) ->
    is_Some (Plugin.content acc !! slug)
    \/ exists relPath info,
         In (relPath, info) files /\ slug = slugOf options relPath.
Proof.
  induction files as [|[relPath info] files IH]; intros acc acc' slug;
    cbn [Steps].
  - intros ->. auto.
  - intros (acc1 & H1 & H2) Hs.
    destruct (IH _ _ _ H2 Hs) as [H|(r & i & Hf & Hr)].
    + destruct H1 as [(f & h & _ & Hc & _)|(_ & Hc & _)]; rewrite Hc in H;
        [|left; exact H].
      apply setContent_is_Some in H as [H| ->]; [left; exact H|].
      right. exists relPath, info. split; [left; reflexivity | reflexivity].
    + right. exists r, i. split; [right; exact Hf | exact Hr].
Qed.

(** [processChangedFiles] accounts for every file: it never throws, and
    each file is counted as processed, with its record in the manifest, or
    as an error.  Every record of the manifest is the record of one of the
    files, whose content is set under the slug of its path unless the slug
    is [__proto__], under which no content is set; and the content is set
    under slugs of the files only. *)
Theorem processChangedFiles_accounts (files : FileMap) (st : BuildState) :
  exists result st',
    processChangedFiles options host files st = (Ok result, st')
    /\ processedCount result = Z.of_nat (List.length (resultManifest result))
    /\ processedCount result + resultErrorCount result
       = Z.of_nat (List.length files)
    /\ (forall record, In record (resultManifest result) ->
          exists relPath info validFrontmatter,
            In (relPath, info) files
            /\ record = metaOf options relPath (metadata info) validFrontmatter
            /\ (slugOf options relPath <> "__proto__" ->
                is_Some (resultContent result !! slugOf options relPath)))
    /\ resultContent result !! "__proto__" = None
    /\ (forall slug, is_Some (resultContent result !! slug) ->
          exists relPath info,
            In (relPath, info) files /\ slug = slugOf options relPath).
Proof.
  unfold processChangedFiles. rewrite bind_run.
  destruct (foldM_processEntry_steps files emptyAcc st) as (acc & st' & -> & H).
  eexists _, st'. split; [reflexivity|]. cbn [processedCount resultManifest
    resultErrorCount resultContent].
  pose proof (sortManifest_perm host (manifest acc)) as Hperm.
  split; [|split; [|split; [|split]]].
  - rewrite (Permutation_length Hperm). reflexivity.
  - rewrite (Steps_count _ _ _ H). simpl. lia.
  - intros record Hin. apply (Permutation_in _ Hperm) in Hin.
    destruct (Steps_records _ _ _ _ H Hin) as [[]|Hr]. exact Hr.
  - rewrite (Steps_proto _ _ _ H). apply lookup_empty.
  - intros slug Hs. destruct (Steps_keys _ _ _ _ H Hs) as [Hs0|Hr]; [|exact Hr].
    simpl in Hs0. rewrite lookup_empty in Hs0. destruct Hs0 as [? [=]].
Qed.

End WithHost.

End AccountFacts.

(** * From the build to the lookup *)

Module PipelineFacts.
Import Utils Types Eff Plugin Spec BuildVocabulary PipelineVocabulary.
Import EffFacts DetectionFacts BuildFacts SortFacts CollectFacts AccountFacts.

Lemma list_ascii_append (a b : string) :
  list_ascii_of_string (a +:+ b)
  = list_ascii_of_string a ++ list_ascii_of_string b.
Proof.
  induction a as [|c a IH]; [reflexivity|].
  change (c :: list_ascii_of_string (a +:+ b)
          = c :: (list_ascii_of_string a ++ list_ascii_of_string b)).
  f_equal. exact IH.
Qed.

Lemma append_inv_r (a b c : string) : a +:+ c = b +:+ c -> a = b.
Proof.
  intros H. apply (f_equal list_ascii_of_string) in H.
  rewrite !list_ascii_append in H. apply app_inv_tail in H.
  rewrite <- (string_of_list_ascii_of_string a),
    <- (string_of_list_ascii_of_string b), H. reflexivity.
Qed.

(** A name that ends with [.json] does not end with [.gz]. *)
Lemma json_not_gz (a : string) : Js.endsWith (a +:+ ".json") ".gz" = false.
Proof.
  destruct (Js.endsWith (a +:+ ".json") ".gz") eqn:E; [|reflexivity].
  apply endsWith_spec in E as [b E].
  apply (f_equal (fun s => rev (list_ascii_of_string s))) in E.
  rewrite !list_ascii_append, !rev_app_distr in E. discriminate E.
Qed.

Lemma Grouped_step (done : FileMap) (m : list (string * FileMap))
  (relPath : string) (fileInfo : FileInfo) :
  Grouped done m ->
  Grouped (done ++ [(relPath, fileInfo)])
    (let folder := folderOf relPath in
     let m' := if Js.mapHas folder m then m else Js.mapSet folder [] m in
     match Js.mapGet folder m' with
     | Some inner => Js.mapSet folder (Js.mapSet relPath fileInfo inner) m'
     | None => m'
     end).
Proof.
  intros [Hn Hi]. cbv zeta.
  set (folder := folderOf relPath).
  assert (Grouped (done ++ [(relPath, fileInfo)])
            (if Js.mapHas folder m then m else Js.mapSet folder [] m)) as [Hn' Hi'].
  { split.
    - destruct (Js.mapHas folder m); [exact Hn | apply NoDup_mapSet, Hn].
    - intros f inner Hin.
      assert ((f, inner) = (folder, []) \/ In (f, inner) m) as [[= -> ->]|Hin'].
      { destruct (Js.mapHas folder m); [right; exact Hin|].
        apply In_mapSet in Hin. exact Hin. }
      + split; [constructor | intros r i []].
      + destruct (Hi f inner Hin') as [H1 H2]. split; [exact H1|].
        intros r i Hr. destruct (H2 r i Hr) as [H3 H4].
        split; [apply in_app_iff; left; exact H3 | exact H4]. }
  destruct (Js.mapGet folder _) as [inner|] eqn:Hget; [|split; assumption].
  split; [apply NoDup_mapSet, Hn'|].
  intros f inner' Hin. apply In_mapSet in Hin as [[= -> ->]|Hin];
    [|apply Hi', Hin].
  apply mapGet_In in Hget. destruct (Hi' folder inner Hget) as [H1 H2].
  split; [apply NoDup_mapSet, H1|].
  intros r i Hr. apply In_mapSet in Hr as [[= -> ->]|Hr]; [|apply H2, Hr].
  split; [apply in_app_iff; right; left; reflexivity | reflexivity].
Qed.

Lemma Grouped_fold (todo : FileMap) :
  forall (done : FileMap) (m : list (string * FileMap)),
    Grouped done m ->
    Grouped (done ++ todo)
      (fold_left
         (fun folderMap entry =>
            let '(relPath, fileInfo) := entry in
            let folder := folderOf relPath in
            let folderMap' :=
              if Js.mapHas folder folderMap then folderMap
              else Js.mapSet folder [] folderMap in
            match Js.mapGet folder folderMap' with
            | Some inner =>
                Js.mapSet folder (Js.mapSet relPath fileInfo inner) folderMap'
            | None => folderMap'
            end) todo m).
Proof.
  induction todo as [|[relPath fileInfo] todo IH]; intros done m H.
  - rewrite app_nil_r. exact H.
  - cbn [fold_left].
    replace (done ++ (relPath, fileInfo) :: todo)
      with ((done ++ [(relPath, fileInfo)]) ++ todo)
      by (rewrite <- app_assoc; reflexivity).
    apply IH, Grouped_step, H.
Qed.

Lemma Grouped_collect (options : Options) (dir : string) (tree : list Entry) :
  Grouped (collectMarkdownFilesWithMetadata options dir tree)
    (collectFilesByFolder options dir tree).
Proof.
  unfold collectFilesByFolder.
  apply (Grouped_fold _ [] []). split; [constructor | intros f i []].
Qed.

Lemma mapGet_key {K V : Type} `{EqDecision K} (k : K) (m : list (K * V)) :
  In k (map fst m) -> exists v, Js.mapGet k m = Some v.
Proof.
  induction m as [|[k' v'] m IH]; [intros []|]. intros [H|H]; cbn [Js.mapGet].
  - simpl in H. subst k'. rewrite decide_True by reflexivity. eauto.
  - destruct (decide (k' = k)); [eauto | exact (IH H)].
Qed.

Section WithHost.

Variable options : Options.
Variable host : Host.

Hypothesis able : Able options host.

Lemma writeFolderFiles_able (folder : string) (m : list MarkdownMeta)
  (c : ContentMap) (st : BuildState) :
  writeFolderFiles options host folder m c st
  = (Ok tt,
     {| texts := texts st;
        assets := <[fst (contentFile options (chunkFilename options folder) c) :=
                      snd (contentFile options (chunkFilename options folder) c)]>
                    (assets st);
        reads := reads st |}).
Proof.
  destruct able as (Hmk & Hw & Hgz).
  unfold contentFile, writeFolderFiles, mkdirAssets, writeCompressedVersions.
  rewrite tryCatch_run, bind_run, Hmk.
  unfold mret at 1. unfold Async_ret at 1. cbv beta iota.
  destruct (compress options) eqn:Hc; cbn [negb fst snd].
  - rewrite tryCatch_run, (Hgz eq_refl). unfold writeAsset. rewrite Hw.
    reflexivity.
  - unfold writeAsset. rewrite Hw. reflexivity.
Qed.

Lemma writeMarkdownFiles_able (manifest : list MarkdownMeta)
  (content : ContentMap) (folders : option (list string)) (st : BuildState) :
  chunkByFolder options = true ->
  writeMarkdownFiles options host manifest content folders st
  = (Ok tt,
     {| texts := texts st;
        assets := <[prefix options +:+ "-manifest.json" :=
                      ManifestJson
                        (jsonManifest (makeGlobalManifest options manifest folders))]>
                    (assets st);
        reads := reads st |}).
Proof.
  intros Hchunk. destruct able as (Hmk & Hw & _).
  unfold writeMarkdownFiles, mkdirAssets. rewrite tryCatch_run, bind_run, Hmk.
  unfold mret at 1. unfold Async_ret at 1. cbv beta iota. rewrite bind_run.
  unfold writeAsset at 1. rewrite Hw, Hchunk. reflexivity.
Qed.

Lemma processFolderFiles_steps (files : FileMap) (st : BuildState) :
  exists acc st',
    Steps options files emptyAcc acc
    /\ assets st' = assets st
    /\ processFolderFiles options host files st
       = (Ok {| manifest := sortManifest host (manifest acc);
                Plugin.content := Plugin.content acc;
                errorCount := errorCount acc |}, st').
Proof.
  destruct (foldM_processEntry_steps options host files emptyAcc st)
    as (acc & st' & Hrun & Hsteps).
  destruct (foldM_processEntry_effect options host files emptyAcc st)
    as (acc1 & st1 & Hrun1 & Hassets & _).
  rewrite Hrun in Hrun1. injection Hrun1 as <- <-.
  exists acc, st'. split; [exact Hsteps|]. split; [exact Hassets|].
  unfold processFolderFiles. rewrite bind_run, Hrun. reflexivity.
Qed.

Lemma contentFile_name (filename : string) (c c' : ContentMap) :
  fst (contentFile options filename c) = fst (contentFile options filename c').
Proof. unfold contentFile. destruct (compress options); reflexivity. Qed.

Lemma contentFile_name_inj (f1 f2 : string) (c1 c2 : ContentMap) :
  fst (contentFile options f1 c1) = fst (contentFile options f2 c2) -> f1 = f2.
Proof.
  unfold contentFile. destruct (compress options); cbn [fst]; [|auto].
  apply append_inv_r.
Qed.

Lemma Stored_insert (out : gmap string Artifact) (folder folder' slug : string)
  (document : MarkdownContent) (c : ContentMap) :
  chunkFilename options folder <> chunkFilename options folder' ->
  Stored options out folder slug document ->
  Stored options
    (<[fst (contentFile options (chunkFilename options folder') c) :=
         snd (contentFile options (chunkFilename options folder') c)]> out)
    folder slug document.
Proof.
  intros Hne (c0 & Hout & Hc). exists c0. split; [|exact Hc].
  rewrite lookup_insert_ne; [exact Hout|].
  intros H. apply contentFile_name_inj in H. auto.
Qed.

Lemma FolderRecord_more (allFolders : list (string * FileMap))
  (out : gmap string Artifact) (folders folders' : list string)
  (record : MarkdownMeta) :
  (forall folder, In folder folders -> In folder folders') ->
  FolderRecord options allFolders out folders record ->
  FolderRecord options allFolders out folders' record.
Proof.
  intros Hsub (folder & files & r & i & f & h & H1 & H).
  exists folder, files, r, i, f, h. split; [apply Hsub, H1 | exact H].
Qed.

Lemma processFolder_able (allFolders : list (string * FileMap)) (acc : FolderAcc)
  (folder : string) (files : FileMap) (st : BuildState) :
  Js.mapGet folder allFolders = Some files ->
  exists result st1,
    Steps options files emptyAcc result
    /\ assets st1 = assets st
    /\ processFolder options host allFolders acc folder st
       = (Ok {| globalManifest :=
                  globalManifest acc ++ sortManifest host (manifest result);
                totalProcessed :=
                  totalProcessed acc
                  + Z.of_nat (List.length (sortManifest host (manifest result)));
                totalErrors := totalErrors acc + errorCount result |},
          {| texts := texts st1;
             assets :=
               <[fst (contentFile options (chunkFilename options folder)
                        (Plugin.content result)) :=
                   snd (contentFile options (chunkFilename options folder)
                          (Plugin.content result))]> (assets st1);
             reads := reads st1 |}).
Proof.
  intros Hget.
  destruct (processFolderFiles_steps files st) as (result & st1 & Hs & Ha & Hrun).
  exists result, st1. split; [exact Hs|]. split; [exact Ha|].
  unfold processFolder. rewrite tryCatch_run, Hget, bind_run, Hrun, bind_run.
  cbn [manifest Plugin.content errorCount].
  rewrite writeFolderFiles_able. reflexivity.
Qed.

Lemma foldM_processFolder_able (allFolders : list (string * FileMap))
  (todo : list string) :
  forall (done : list string) (acc : FolderAcc) (st : BuildState),
    (forall folder, In folder todo ->
       exists files,
         Js.mapGet folder allFolders = Some files
         /\ List.NoDup (map (fun entry => slugOf options (fst entry)) files)) ->
    List.NoDup (map (chunkFilename options) (done ++ todo)) ->
    (forall record, In record (globalManifest acc) ->
       FolderRecord options allFolders (assets st) done record) ->
    exists acc' st',
      foldM (processFolder options host allFolders) todo acc st = (Ok acc', st')
      /\ (forall record, In record (globalManifest acc') ->
            FolderRecord options allFolders (assets st') (done ++ todo) record)
      /\ ChunksOnly options (assets st) (assets st').
Proof.
  induction todo as [|folder todo IH]; intros done acc st Hfiles Hnames Hacc.
  - exists acc, st. split; [reflexivity|]. rewrite app_nil_r.
    split; [exact Hacc | intros n a H; left; exact H].
  - destruct (Hfiles folder (or_introl eq_refl)) as (files & Hget & Hslugs).
    destruct (processFolder_able allFolders acc folder files st Hget)
      as (result & st1 & Hsteps & Ha & Hrun).
    cbn [foldM]. rewrite bind_run, Hrun.
    match goal with
    | |- context [foldM _ todo ?a ?s] =>
        destruct (IH (done ++ [folder]) a s) as (acc2 & st2 & Hrun2 & Hrec & Hch)
    end.
    + intros f Hf. apply Hfiles. right. exact Hf.
    + rewrite <- app_assoc. exact Hnames.
    + cbn [globalManifest assets]. intros record Hin.
      apply in_app_iff in Hin as [Hin|Hin].
      * apply Hacc in Hin as (f0 & fs & r & i & fm & h & Hd & Hg & Hi & Hr & Hs).
        exists f0, fs, r, i, fm, h.
        split; [apply in_app_iff; left; exact Hd|].
        split; [exact Hg|]. split; [exact Hi|]. split; [exact Hr|].
        intros Hp. rewrite Ha. apply Stored_insert; [|exact (Hs Hp)].
        intros Heq. rewrite map_app in Hnames. cbn [map] in Hnames.
        apply List.NoDup_remove_2 in Hnames. apply Hnames, in_app_iff. left.
        rewrite <- Heq. apply in_map, Hd.
      * apply (Permutation_in _ (sortManifest_perm host _)) in Hin.
        destruct (Steps_records_exact options _ _ _ _ Hsteps Hslugs Hin)
          as [[]|(r & i & fm & h & Hi & Hr & Hc)].
        exists folder, files, r, i, fm, h.
        split; [apply in_app_iff; right; left; reflexivity|].
        split; [exact Hget|]. split; [exact Hi|]. split; [exact Hr|].
        intros Hp. exists (Plugin.content result).
        split; [apply lookup_insert_eq | exact (Hc Hp)].
    + exists acc2, st2. split; [exact Hrun2|]. split.
      * intros record Hin. rewrite <- app_assoc in Hrec. apply Hrec, Hin.
      * intros n a Hn. destruct (Hch n a Hn) as [H|H]; [|right; exact H].
        cbn [assets] in H. rewrite Ha in H.
        destruct (decide (fst (contentFile options (chunkFilename options folder)
                                 (Plugin.content result)) = n)) as [<-|Hne].
        -- rewrite lookup_insert_eq in H. injection H as <-. right. eauto.
        -- rewrite lookup_insert_ne in H by exact Hne. left. exact H.
Qed.

Lemma changedFolders_clean (dir : string) (tree : list Entry) :
  changedFolders (checkForFolderChanges options dir tree [])
  = Js.mapKeys (collectFilesByFolder options dir tree).
Proof.
  unfold checkForFolderChanges.
  destruct (incrementalByFolder options); cbn [negb changedFolders];
    [|reflexivity].
  f_equal. induction (collectFilesByFolder options dir tree) as [|e l IH];
    [reflexivity|].
  cbn [List.filter]. unfold folderChanged at 1. cbn [groupPrevious fold_left Js.mapGet].
  f_equal. exact IH.
Qed.

Lemma chunkFilename_inj (f1 f2 : string) :
  chunkFilename options f1 = chunkFilename options f2 ->
  Data.folderKeyOf f1 = Data.folderKeyOf f2.
Proof.
  unfold chunkFilename. intros H.
  apply append_inv, append_inv in H.
  apply append_inv_r in H. exact H.
Qed.

Lemma slugs_distinct (dir : string) (tree : list Entry) (folder : string)
  (files : FileMap) :
  In (folder, files) (collectFilesByFolder options dir tree) ->
  List.NoDup (map (fun entry => slugOf options (fst entry)) files).
Proof.
  intros Hin.
  destruct (Grouped_collect options dir tree) as [_ Hg].
  destruct (Hg folder files Hin) as [Hn Hf].
  destruct (collect_Collected options dir tree) as [_ Hc].
  apply NoDup_map_NoDup_ForallPairs; [|apply (List.NoDup_map_inv _ _ Hn)].
  intros [r1 i1] [r2 i2] H1 H2 Hs. cbn [fst] in Hs.
  destruct (Hf r1 i1 H1) as [Hc1 _]. destruct (Hf r2 i2 H2) as [Hc2 _].
  destruct (Hc r1 i1 Hc1) as [He1 _]. destruct (Hc r2 i2 Hc2) as [He2 _].
  apply endsWith_spec in He1 as [b1 ->]. apply endsWith_spec in He2 as [b2 ->].
  unfold slugOf in Hs. rewrite !MetaFacts.removeExtension_append in Hs.
  subst b2. apply (In_mapGet _ _ _ Hn) in H1, H2. congruence.
Qed.

(** When no file has the name [__proto__], no file has the slug
    [__proto__]. *)
Lemma no_proto_slug (dir : string) (tree : list Entry) :
  Js.mapGet ("__proto__" +:+ extension options)
    (collectMarkdownFilesWithMetadata options dir tree) = None ->
  forall relPath info,
    In (relPath, info) (collectMarkdownFilesWithMetadata options dir tree) ->
    slugOf options relPath <> "__proto__".
Proof.
  intros Hnone relPath info Hin Hs.
  destruct (collect_Collected options dir tree) as [Hn Hc].
  destruct (Hc relPath info Hin) as [He _].
  apply endsWith_spec in He as [b ->].
  unfold slugOf in Hs. rewrite MetaFacts.removeExtension_append in Hs. subst b.
  apply (In_mapGet _ _ _ Hn) in Hin. congruence.
Qed.

(** The asset directory after a build by folder from an empty asset
    directory. *)
Lemma build_clean (tree : list Entry) :
  chunkByFolder options = true ->
  distinctKeys (collectFilesByFolder options (source options) tree) ->
  let allFolders := collectFilesByFolder options (source options) tree in
  let out := assets (build options host tree ∅) in
  (out = ∅
   \/ exists manifest,
        out !! (prefix options +:+ "-manifest.json")
        = Some (ManifestJson
                  (jsonManifest
                     (makeGlobalManifest options manifest
                        (Some (Js.mapKeys allFolders)))))
        /\ forall record, In record manifest ->
             FolderRecord options allFolders out (Js.mapKeys allFolders) record)
  /\ forall name a, out !! name = Some a ->
       (exists g, a = ManifestJson g)
       \/ exists folder c,
            name = fst (contentFile options (chunkFilename options folder) c)
            /\ a = snd (contentFile options (chunkFilename options folder) c).
Proof.
  intros Hchunk Hkeys allFolders out.
  unfold out, build, buildStart. rewrite Hchunk, bind_run.
  set (st0 := startOf options tree ∅).
  assert ((if incrementalByFolder options then loadPreviousManifest options
           else mret []) st0 = (Ok [], st0)) as ->.
  { destruct (incrementalByFolder options); [|reflexivity].
    rewrite loadPreviousManifest_run. unfold previousDocuments.
    cbn [st0 startOf assets]. rewrite lookup_empty. reflexivity. }
  rewrite changedFolders_clean, allFolders_check. fold allFolders.
  destruct (Z.of_nat (List.length (Js.mapKeys allFolders)) =? 0) eqn:Hz.
  { cbn [snd mret Async_ret]. split; [left; reflexivity|].
    intros name a H. cbn in H. rewrite lookup_empty in H. discriminate. }
  destruct (Grouped_collect options (source options) tree) as [Hnd Hg].
  fold allFolders in Hnd, Hg.
  destruct (foldM_processFolder_able allFolders (Js.mapKeys allFolders) []
              {| globalManifest := []; totalProcessed := 0; totalErrors := 0 |}
              st0) as (acc & st1 & Hrun & Hrec & Hch).
  { intros folder Hin. destruct (mapGet_key _ _ Hin) as [files Hget].
    exists files. split; [exact Hget|].
    apply (slugs_distinct (source options) tree folder), mapGet_In, Hget. }
  { cbn [app]. apply NoDup_map_NoDup_ForallPairs; [|exact Hnd].
    intros f1 f2 H1 H2 H. apply Hkeys; [exact H1 | exact H2|].
    apply chunkFilename_inj, H. }
  { intros record []. }
  cbn [app] in Hrec.
  rewrite bind_run. unfold processChangedFolders. rewrite bind_run, Hrun.
  cbn [mret Async_ret globalManifest].
  rewrite (writeMarkdownFiles_able _ _ _ _ Hchunk). cbn [snd assets].
  split.
  - right. exists (sortManifest host (globalManifest acc)).
    split; [apply lookup_insert_eq|].
    intros record Hin.
    apply (Permutation_in _ (sortManifest_perm host _)) in Hin.
    destruct (Hrec record Hin) as (f0 & fs & r & i & fm & h & Hd & Hget & Hi & Hr & Hs).
    exists f0, fs, r, i, fm, h. repeat (split; [assumption|]).
    intros Hp. destruct (Hs Hp) as (c & Hout & Hc).
    exists c. split; [|exact Hc].
    rewrite lookup_insert_ne; [exact Hout|].
    intros Heq. apply (manifest_not_chunk options). exists f0.
    revert Heq. unfold contentFile. destruct (compress options); cbn [fst]; auto.
  - intros name a H.
    destruct (decide (prefix options +:+ "-manifest.json" = name)) as [<-|Hne].
    + rewrite lookup_insert_eq in H. injection H as <-. left. eauto.
    + rewrite lookup_insert_ne in H by exact Hne.
      destruct (Hch name a H) as [H0|H0]; [|right; exact H0].
      cbn in H0. rewrite lookup_empty in H0. discriminate.
Qed.

End WithHost.

End PipelineFacts.

(** * The lookup on the served asset directory *)

Module ServeFacts.
Import Utils Types Eff Data Spec Examples.
Import EffFacts FetchFacts CacheFacts BuildFacts PipelineFacts.

Section WithHref.

Variable href : string -> string -> string.
Variable out : gmap string Plugin.Artifact.

Lemma formatAssetUrl_served (filename : string) :
  formatAssetUrl href filename None None = "/assets/docs/" +:+ filename.
Proof. reflexivity. Qed.

Lemma assetName_served (filename : string) :
  assetName ("/assets/docs/" +:+ filename) = Some filename.
Proof. reflexivity. Qed.

Lemma baseUrlOf_json (a : string) : baseUrlOf (a +:+ ".json") = a +:+ ".json".
Proof. unfold baseUrlOf. rewrite json_not_gz. reflexivity. Qed.

Lemma prefixOr_Some (p : string) : p <> EmptyString -> prefixOr (Some p) = p.
Proof. intros H. destruct p; [contradiction | reflexivity]. Qed.

(** The manifest file is never served compressed. *)
Lemma compressedAttempt_manifest (url : string) :
  compressedAttempt (manifestAssets (serve out)) url = None.
Proof.
  unfold compressedAttempt, serve, manifestAssets.
  destruct (assetName url ≫= _) as [[g|c|c]|]; reflexivity.
Qed.

Lemma getGlobalManifest_served (p : string) (g : GlobalManifest) :
  p <> EmptyString ->
  out !! (p +:+ "-manifest.json") = Some (Plugin.ManifestJson g) ->
  exists st1,
    getGlobalManifest href (serve out) None (Some p) initial = (Ok g, st1)
    /\ manifestCache st1 = None
    /\ globalManifestCache st1 = Some g
    /\ folderContentCache st1 = ∅
    /\ contentCache st1 = None.
Proof.
  intros Hp Hout. rewrite getGlobalManifest_run. cbn [initial globalManifestCache].
  rewrite (prefixOr_Some p Hp), formatAssetUrl_served.
  pose proof (fetchContent_run ("/assets/docs/" +:+ p +:+ "-manifest.json")
                (manifestAssets (serve out)) initial) as Hrun.
  cbv zeta in Hrun.
  replace (baseUrlOf ("/assets/docs/" +:+ p +:+ "-manifest.json"))
    with ("/assets/docs/" +:+ p +:+ "-manifest.json") in Hrun.
  2:{ symmetry.
      replace ("/assets/docs/" +:+ p +:+ "-manifest.json")
        with (("/assets/docs/" +:+ p +:+ "-manifest") +:+ ".json").
      - apply baseUrlOf_json.
      - rewrite !append_assoc3. reflexivity. }
  rewrite compressedAttempt_manifest in Hrun.
  assert (uncompressedAttempt (manifestAssets (serve out))
            ("/assets/docs/" +:+ p +:+ "-manifest.json") = Some g) as Hu.
  { unfold uncompressedAttempt, serve, manifestAssets.
    rewrite assetName_served. cbn [mbind option_bind]. rewrite Hout. reflexivity. }
  rewrite Hu in Hrun. rewrite Hrun. eexists. split; [reflexivity|].
  repeat split.
Qed.

Lemma getMarkdownManifest_served (a : Assets) (r p : option string)
  (g : GlobalManifest) (st : State) :
  manifestCache st = None -> globalManifestCache st = Some g ->
  exists st',
    getMarkdownManifest href a r p st
    = (Ok (map (fun doc => omit "_size" (omit "_mtime" doc)) (documents g)), st')
    /\ folderContentCache st' = folderContentCache st.
Proof.
  intros Hm Hg. unfold getMarkdownManifest.
  rewrite bind_run. unfold getState at 1. cbv iota. rewrite Hm, bind_run.
  rewrite getGlobalManifest_run, Hg. eexists. split; reflexivity.
Qed.

(** The content [c], written under [name] as [contentFile] gives it, is
    what [fetchContent] returns for the URL of [name]. *)
Lemma fetchContent_served (options : Plugin.Options) (base : string)
  (c : ContentMap) (st : State) :
  let name := base +:+ ".json" in
  out !! fst (BuildVocabulary.contentFile options name c)
  = Some (snd (BuildVocabulary.contentFile options name c)) ->
  (Plugin.compress options = false ->
   forall c', out !! (name +:+ ".gz") <> Some (Plugin.ContentJsonGz c')) ->
  exists st',
    fetchContent ("/assets/docs/" +:+ name) (contentAssets (serve out)) st
    = (Ok c, st').
Proof.
  intros name Hout Hgz.
  pose proof (fetchContent_run ("/assets/docs/" +:+ name)
                (contentAssets (serve out)) st) as Hrun.
  cbv zeta in Hrun.
  assert (baseUrlOf ("/assets/docs/" +:+ name) = "/assets/docs/" +:+ name) as Hb.
  { unfold name.
    replace ("/assets/docs/" +:+ base +:+ ".json")
      with (("/assets/docs/" +:+ base) +:+ ".json").
    - apply baseUrlOf_json.
    - rewrite !append_assoc3. reflexivity. }
  rewrite Hb in Hrun.
  assert (assetName (("/assets/docs/" +:+ name) +:+ ".gz") = Some (name +:+ ".gz"))
    as Hgzname by reflexivity.
  unfold BuildVocabulary.contentFile in Hout.
  destruct (Plugin.compress options) eqn:Hc; cbn [fst snd] in Hout.
  - assert (compressedAttempt (contentAssets (serve out))
              (("/assets/docs/" +:+ name) +:+ ".gz") = Some c) as Hca.
    { unfold compressedAttempt, serve, contentAssets. rewrite Hgzname.
      cbn [mbind option_bind]. rewrite Hout. reflexivity. }
    rewrite Hca in Hrun. rewrite Hrun. eexists. reflexivity.
  - assert (compressedAttempt (contentAssets (serve out))
              (("/assets/docs/" +:+ name) +:+ ".gz") = None) as Hca.
    { unfold compressedAttempt, serve, contentAssets. rewrite Hgzname.
      cbn [mbind option_bind]. specialize (Hgz eq_refl).
      destruct (out !! (name +:+ ".gz")) as [[g|c'|c']|]; try reflexivity.
      destruct (Hgz c' eq_refl). }
    assert (uncompressedAttempt (contentAssets (serve out))
              ("/assets/docs/" +:+ name) = Some c) as Hua.
    { unfold uncompressedAttempt, serve, contentAssets. rewrite assetName_served.
      cbn [mbind option_bind]. rewrite Hout. reflexivity. }
    rewrite Hca, Hua in Hrun. rewrite Hrun. eexists. reflexivity.
Qed.

Lemma loadFolderContent_served (options : Plugin.Options) (folder : string)
  (c : ContentMap) (st : State) :
  Plugin.prefix options <> EmptyString ->
  folderContentCache st !! folder = None ->
  out !! fst (BuildVocabulary.contentFile options
                (Plugin.chunkFilename options folder) c)
  = Some (snd (BuildVocabulary.contentFile options
                 (Plugin.chunkFilename options folder) c)) ->
  (Plugin.compress options = false ->
   forall c', out !! (Plugin.chunkFilename options folder +:+ ".gz")
              <> Some (Plugin.ContentJsonGz c')) ->
  exists st',
    loadFolderContent href (VString folder) (serve out) None
      (Some (Plugin.prefix options)) st = (Ok c, st').
Proof.
  intros Hp Hcache Hout Hgz.
  unfold loadFolderContent. rewrite bind_run. unfold getState at 1. cbv iota.
  rewrite Hcache, tryCatch_run, bind_run.
  rewrite (prefixOr_Some _ Hp), formatAssetUrl_served.
  assert (Plugin.chunkFilename options folder
          = (Plugin.prefix options +:+ "-content-" +:+ folderKeyOf folder)
            +:+ ".json") as Hname.
  { unfold Plugin.chunkFilename. rewrite !append_assoc3. reflexivity. }
  rewrite Hname in Hout, Hgz.
  destruct (fetchContent_served options _ c st Hout Hgz) as (st' & Hrun).
  cbv zeta in Hrun. rewrite !append_assoc3 in Hrun. rewrite Hrun.
  eexists. reflexivity.
Qed.

Lemma getMarkdownContent_served (options : Plugin.Options)
  (g : GlobalManifest) (c : ContentMap) (st : State) :
  Plugin.prefix options <> EmptyString ->
  globalManifestCache st = Some g -> _buildMode g = single ->
  contentCache st = None ->
  out !! fst (BuildVocabulary.contentFile options
                (Plugin.prefix options +:+ "-content.json") c)
  = Some (snd (BuildVocabulary.contentFile options
                 (Plugin.prefix options +:+ "-content.json") c)) ->
  (Plugin.compress options = false ->
   forall c', out !! ((Plugin.prefix options +:+ "-content.json") +:+ ".gz")
              <> Some (Plugin.ContentJsonGz c')) ->
  exists st',
    getMarkdownContent href (serve out) None (Some (Plugin.prefix options)) st
    = (Ok c, st').
Proof.
  intros Hp Hg Hmode Hcache Hout Hgz.
  unfold getMarkdownContent. rewrite bind_run, getGlobalManifest_run, Hg.
  rewrite decide_False by (rewrite Hmode; discriminate).
  rewrite bind_run. unfold getState at 1. cbv iota.
  rewrite Hcache, tryCatch_run, bind_run.
  rewrite (prefixOr_Some _ Hp), formatAssetUrl_served.
  assert (Plugin.prefix options +:+ "-content.json"
          = (Plugin.prefix options +:+ "-content") +:+ ".json") as Hname.
  { rewrite !append_assoc3. reflexivity. }
  rewrite Hname in Hout, Hgz.
  destruct (fetchContent_served options _ c st Hout Hgz) as (st' & Hrun).
  cbv zeta in Hrun. rewrite !append_assoc3 in Hrun.
  change ("-content" +:+ ".json") with "-content.json" in Hrun. rewrite Hrun.
  eexists. reflexivity.
Qed.

End WithHref.

End ServeFacts.

(** * A build by folder, then the lookup of its documents *)

Module RoundTripFacts.
Import Utils Types Eff Plugin Spec BuildVocabulary PipelineVocabulary Examples.
Import EffFacts CollectFacts PipelineFacts ServeFacts.

Lemma dirname_nonempty (p : string) : Path.dirname p <> EmptyString.
Proof.
  unfold Path.dirname. destruct p as [|c0 p]; [discriminate|].
  destruct (Path.dirnameLoop _ _ _) as [e|] eqn:He.
  - destruct (Ascii.eqb c0 Path.slash && Nat.eqb e 1); [discriminate|].
    assert (e <> 0%nat) as Hne.
    { clear - He. revert He.
      generalize (rev (list_ascii_of_string (String c0 p))).
      generalize true.
      induction (String.length (String c0 p) - 1)%nat as [|i IH];
        intros b l; [destruct l; discriminate|].
      destruct l as [|c l]; [discriminate|]. cbn [Path.dirnameLoop].
      destruct (Ascii.eqb c Path.slash).
      - destruct b; [apply IH | intros [= <-]; discriminate].
      - apply IH. }
    destruct e; [contradiction | discriminate].
  - destruct (Ascii.eqb c0 Path.slash); discriminate.
Qed.

(** [docMeta.folder || 'root'] is the folder in which the build groups the
    file. *)
Lemma lookup_folderOf (relPath : string) :
  (if truthy (folderValue relPath) then folderValue relPath else VString "root")
  = VString (folderOf relPath).
Proof.
  unfold folderValue, folderOf.
  destruct (String.eqb (Path.dirname relPath) "."); [reflexivity|].
  pose proof (dirname_nonempty relPath) as H.
  destruct (Path.dirname relPath); [contradiction | reflexivity].
Qed.

Lemma plain_fields (options : Options) (relPath : string)
  (metadata : FileMetadata) (validFrontmatter : Frontmatter) :
  Js.mapGet "slug" validFrontmatter = None ->
  Js.mapGet "folder" validFrontmatter = None ->
  let record := jsonObject (metaOf options relPath metadata validFrontmatter) in
  let doc := omit "_size" (omit "_mtime" record) in
  get record "slug" = VString (slugOf options relPath)
  /\ get doc "slug" = VString (slugOf options relPath)
  /\ get doc "folder" = folderValue relPath.
Proof.
  intros Hs Hf record doc. unfold doc, record.
  rewrite !LookupFacts.get_omit. cbn [bool_decide].
  rewrite !RecordFacts.get_jsonObject by apply RecordFacts.NoDup_metaOf.
  unfold metaOf. rewrite !MetaFacts.get_spread_absent by assumption.
  repeat split.
Qed.

Lemma plain_stored (options : Options) (out : gmap string Artifact)
  (folder slug : string) (document : MarkdownContent) :
  plainChunks out = true -> Stored options out folder slug document ->
  Js.mapGet "slug" (frontmatter document) = None
  /\ Js.mapGet "folder" (frontmatter document) = None.
Proof.
  intros Hplain (c & Hout & Hc). unfold plainChunks in Hplain.
  rewrite forallb_forall in Hplain.
  apply elem_of_map_to_list, list_elem_of_In in Hout.
  specialize (Hplain _ Hout). cbn [snd] in Hplain.
  assert (chunkOf (snd (contentFile options (chunkFilename options folder) c))
          = Some c) as Hchunk.
  { unfold contentFile. destruct (compress options); reflexivity. }
  rewrite Hchunk, forallb_forall in Hplain.
  apply elem_of_map_to_list, list_elem_of_In in Hc.
  specialize (Hplain _ Hc). cbn [snd] in Hplain.
  unfold plainDocument, Js.mapHas in Hplain.
  apply andb_true_iff in Hplain as [H1 H2].
  destruct (Js.mapGet "slug" _); [discriminate|].
  destruct (Js.mapGet "folder" _); [discriminate|]. auto.
Qed.

Lemma Stored_same (options : Options) (out : gmap string Artifact)
  (folder slug : string) (d1 d2 : MarkdownContent) :
  Stored options out folder slug d1 -> Stored options out folder slug d2 ->
  d1 = d2.
Proof.
  intros (c1 & H1 & Hc1) (c2 & H2 & Hc2).
  rewrite (contentFile_name options _ c1 c2) in H1. rewrite H1 in H2.
  assert (c1 = c2) as ->.
  { revert H2. unfold contentFile. destruct (compress options); cbn [snd];
      congruence. }
  congruence.
Qed.

Lemma find_record (P : Object -> bool) (f : Object -> Object)
  (manifest : list Object) (record : Object) :
  In record manifest -> P (f record) = true ->
  exists record',
    In record' manifest
    /\ List.find P (map f manifest) = Some (f record')
    /\ P (f record') = true.
Proof.
  intros Hin HP. destruct (List.find P (map f manifest)) as [x|] eqn:Hfind.
  - apply find_some in Hfind as [Hx HPx].
    apply in_map_iff in Hx as (record' & <- & Hr). eauto.
  - pose proof (find_none _ _ Hfind (f record) (in_map f _ _ Hin)). congruence.
Qed.

Section WithHost.

Variable href : string -> string -> string.
Variable options : Options.
Variable host : Host.

(** After a build by folder from an empty asset directory, every document
    of the manifest is found by [getMarkdownDocument] on the served
    directory, with the frontmatter that its record holds: when the host
    can write the files, no two folders have the same key, and no
    frontmatter holds a [slug] or a [folder].  The extension is read as the
    [RegExp] constructor reads it, and no file has the name [__proto__],
    which an assignment does not define on an object: the document of such
    a file is in no chunk. *)
Theorem build_then_get (tree : list Entry) (d : MarkdownMeta) :
  let out := assets (build options host tree ∅) in
  chunkByFolder options = true ->
  plainExtension (extension options) = true ->
  prefix options <> EmptyString ->
  Able options host ->
  distinctKeys (collectFilesByFolder options (source options) tree) ->
  plainChunks out = true ->
  In d (previousDocuments options out) ->
  Js.mapGet ("__proto__" +:+ extension options)
    (collectMarkdownFilesWithMetadata options (source options) tree) = None ->
  exists relPath metadata document st',
    d = jsonObject (metaOf options relPath metadata (frontmatter document))
    /\ get d "slug" = VString (slugOf options relPath)
    /\ Data.getMarkdownDocument href (slugOf options relPath) (serve out) None
         (Some (prefix options)) Data.initial
       = (Ok (Some (Own document)), st').
Proof.
  intros out Hchunk _ Hprefix able Hkeys Hplain Hd Hnone.
  pose proof (no_proto_slug options (source options) tree Hnone) as Hproto.
  destruct (build_clean options host able tree Hchunk Hkeys) as [Hman Hshape].
  fold out in Hman, Hshape. unfold previousDocuments in Hd.
  destruct Hman as [Hempty|(manifest & Hout & Hrecords)].
  { rewrite Hempty, lookup_empty in Hd. destruct Hd. }
  rewrite Hout in Hd. cbn [jsonManifest makeGlobalManifest documents] in Hd.
  apply in_map_iff in Hd as (record & <- & Hrecord).
  set (allFolders := collectFilesByFolder options (source options) tree) in *.
  destruct (Grouped_collect options (source options) tree) as [_ Hgroup].
  fold allFolders in Hgroup.
  destruct (collect_Collected options (source options) tree) as [_ Hcollected].
  assert (forall r, In r manifest ->
            exists relPath info document,
              In (relPath, info) (collectMarkdownFilesWithMetadata options
                                    (source options) tree)
              /\ r = metaOf options relPath (metadata info) (frontmatter document)
              /\ Stored options out (folderOf relPath) (slugOf options relPath)
                   document
              /\ Js.mapGet "slug" (frontmatter document) = None
              /\ Js.mapGet "folder" (frontmatter document) = None) as Hall.
  { intros r Hr.
    destruct (Hrecords r Hr)
      as (folder & files & rel & info & fm & h & _ & Hget & Hin & -> & Hs).
    destruct (Hgroup folder files (mapGet_In _ _ _ Hget)) as [_ Hfiles].
    destruct (Hfiles rel info Hin) as [Hc <-].
    specialize (Hs (Hproto _ _ Hc)).
    destruct (plain_stored _ _ _ _ _ Hplain Hs) as [H1 H2].
    exists rel, info, {| frontmatter := fm; Types.content := h |}.
    split; [exact Hc|]. split; [reflexivity|]. split; [exact Hs|].
    split; [exact H1 | exact H2]. }
  destruct (Hall record Hrecord) as (rel & info & document & Hc & -> & Hs & H1 & H2).
  destruct (plain_fields options rel (metadata info) _ H1 H2) as (Hslug & Hdoc & _).
  exists rel, (metadata info), document.
  (* the lookup *)
  unfold Data.getMarkdownDocument. rewrite bind_run.
  destruct (getGlobalManifest_served href out (prefix options) _ Hprefix Hout)
    as (st1 & -> & Hm1 & Hg1 & Hf1 & _).
  cbn [jsonManifest makeGlobalManifest _buildMode]. rewrite Hchunk.
  rewrite decide_True by reflexivity. rewrite bind_run.
  destruct (getMarkdownManifest_served href (serve out) None
              (Some (prefix options)) _ st1 Hm1 Hg1) as (st2 & -> & Hf2).
  cbn [jsonManifest makeGlobalManifest documents]. rewrite map_map.
  destruct (find_record
              (fun doc => strictEq (get doc "slug") (VString (slugOf options rel)))
              (fun r => omit "_size" (omit "_mtime" (jsonObject r)))
              manifest _ Hrecord) as (record' & Hr' & -> & Hfound).
  { rewrite Hdoc. apply bool_decide_eq_true_2. reflexivity. }
  destruct (Hall record' Hr')
    as (rel' & info' & document' & Hc' & -> & Hs' & H1' & H2').
  destruct (plain_fields options rel' (metadata info') _ H1' H2')
    as (_ & Hdoc' & Hfolder').
  rewrite Hdoc' in Hfound. apply bool_decide_eq_true_1 in Hfound.
  injection Hfound as Hsame.
  assert (rel' = rel) as ->.
  { destruct (Hcollected rel' info' Hc') as [He' _].
    destruct (Hcollected rel info Hc) as [He _].
    apply endsWith_spec in He' as [b' ->]. apply endsWith_spec in He as [b ->].
    unfold slugOf in Hsame. rewrite !MetaFacts.removeExtension_append in Hsame.
    congruence. }
  assert (document' = document) as -> by exact (Stored_same _ _ _ _ _ _ Hs' Hs).
  rewrite Hfolder', lookup_folderOf, bind_run.
  destruct Hs as (c & Hc0 & Hcs).
  destruct (loadFolderContent_served href out options (folderOf rel) c st2 Hprefix)
    as (st3 & ->).
  - rewrite Hf2, Hf1. apply lookup_empty.
  - exact Hc0.
  - intros Hcompress c' Hgz.
    destruct (Hshape _ _ Hgz) as [[g [=]]|(folder & c'' & _ & Ha)].
    revert Ha. unfold contentFile. rewrite Hcompress. discriminate.
  - exists st3. split; [reflexivity|]. split; [exact Hslug|].
    cbn [mret Async_ret]. unfold getProperty. rewrite Hcs. reflexivity.
Qed.

End WithHost.

End RoundTripFacts.

Module RoundTripExamples.
Import Utils Types Eff Plugin Spec BuildVocabulary PipelineVocabulary Examples Trees.

(** The document [guides/intro] of a build of [treeGuides] is found. *)
Lemma build_then_get_guides :
  let options := defaultOptions "docs" in
  let out := assets (build options host treeGuides ∅) in
  Able options host
  /\ exists document st',
       Data.getMarkdownDocument sameUrl "guides/intro" (serve out) None
         (Some "markdown") Data.initial
       = (Ok (Some (Own document)), st').
Proof.
  intros options out.
  assert (Able options host) as able.
  { split; [reflexivity|]. split; intros; reflexivity. }
  split; [exact able|].
  set (d := jsonObject
              (metaOf options "guides/intro.md" (stats 2000 30)
                 [("title", VString "Intro"); ("date", VString "2024-01-01")])).
  destruct (RoundTripFacts.build_then_get sameUrl options host treeGuides d)
    as (relPath & metadata & document & st' & Hd & Hslug & Hrun).
  - reflexivity.
  - reflexivity.
  - discriminate.
  - exact able.
  - intros f1 f2 H1 H2 Hk. vm_compute in H1, H2.
    destruct H1 as [<-|[<-|[]]], H2 as [<-|[<-|[]]]; try reflexivity;
      vm_compute in Hk; discriminate Hk.
  - vm_compute. reflexivity.
  - vm_compute. auto.
  - reflexivity.
  - assert (get d "slug" = VString "guides/intro") as Hg by reflexivity.
    rewrite Hg in Hslug. injection Hslug as Hs. rewrite <- Hs in Hrun.
    exists document, st'. exact Hrun.
Defined.

(** The top-level file [__proto__.md], whose frontmatter holds a [slug]:
    its record is in the manifest under that slug, its document is in no
    chunk, and [getMarkdownDocument] returns [null] for the slug. *)
Lemma build_then_get_proto_file :
  let options := defaultOptions "docs" in
  let out := assets (build options host treeProto ∅) in
  map (fun d => (get d "slug", get d "path")) (previousDocuments options out)
  = [(VString "intro", VString "__proto__.md")]
  /\ plainChunks out = true
  /\ fst (Data.getMarkdownDocument sameUrl "intro" (serve out) None
            (Some "markdown") Data.initial)
     = Ok None.
Proof. vm_compute. repeat split. Qed.

End RoundTripExamples.

(** * The effect of the page settles *)

Module SettleFacts.
Import Types Components RouteFacts.

(** What the effect leaves when the path is the route of the preloaded
    slug. *)
Lemma selectFromLocation_preloaded (manifest : list MarkdownMeta) (p : string)
  (preloadedDocument : option MarkdownContent) (s : PageState) :
  given (Some p) = true ->
  selectFromLocation manifest (Some p) preloadedDocument (docs p) s
  = if bool_decide (Some p = selectedDoc s) then s
    else {| selectedDoc := Some p; error := None; loads := loads s |}.
Proof.
  intros Hp. unfold selectFromLocation. rewrite Hp. cbn [andb].
  destruct (bool_decide (Some p = selectedDoc s)) eqn:Hsel; [|reflexivity].
  cbn [negb]. cbv iota. rewrite split_docs.
  change (indexOf (EmptyString :: "forge" :: "docs" :: Js.split "/" p) "docs")
    with (Some 2%nat).
  cbv iota beta.
  assert ((Z.of_nat 2 <? Z.of_nat (List.length
             (EmptyString :: "forge" :: "docs" :: Js.split "/" p)) - 1) = true)
    as ->.
  { pose proof (split_nonempty "/" p) as Hs. apply Z.ltb_lt.
    destruct (Js.split "/" p); [congruence | simpl List.length; lia]. }
  change (skipn (2 + 1) (EmptyString :: "forge" :: "docs" :: Js.split "/" p))
    with (Js.split "/" p).
  rewrite join_split.
  apply bool_decide_eq_true_1 in Hsel.
  rewrite (bool_decide_eq_true_2 (selectedDoc s = Some p)) by congruence.
  cbn [negb]. rewrite !andb_false_r. reflexivity.
Qed.

(** The effect settles: run again on the state that it leaves, it changes
    nothing and loads nothing, when nothing is preloaded, or when the path is
    the route of the preloaded slug. *)
Theorem selectFromLocation_settles (manifest : list MarkdownMeta)
  (preloadedDoc : option string) (preloadedDocument : option MarkdownContent)
  (pathname : string) (s : PageState) :
  given preloadedDoc = false
  \/ (exists p, preloadedDoc = Some p /\ pathname = docs p) ->
  let effect :=
    selectFromLocation manifest preloadedDoc preloadedDocument pathname in
  effect (effect s) = effect s.
Proof.
  intros H effect. unfold effect.
  destruct (given preloadedDoc) eqn:Hg.
  - destruct H as [H|(p & -> & ->)]; [discriminate|].
    rewrite !(selectFromLocation_preloaded _ _ _ _ Hg).
    destruct (bool_decide (Some p = selectedDoc s)) eqn:Hsel.
    + rewrite Hsel. reflexivity.
    + cbn [selectedDoc]. rewrite bool_decide_eq_true_2 by reflexivity.
      reflexivity.
  - clear H. unfold selectFromLocation. rewrite Hg. cbn [andb negb].
    destruct (indexOf (Js.split "/" pathname) "docs") as [docsIndex|].
    + destruct (Z.of_nat docsIndex <? _).
      * set (slug := join (skipn (docsIndex + 1) (Js.split "/" pathname))).
        destruct (negb (Js.isEmpty slug)
                  && existsb (fun doc => strictEq (get doc "slug") (VString slug))
                       manifest
                  && negb (bool_decide (selectedDoc s = Some slug))) eqn:E.
        -- cbn [selectedDoc]. rewrite bool_decide_eq_true_2 by reflexivity.
           cbn [negb]. rewrite andb_false_r. reflexivity.
        -- rewrite E. reflexivity.
      * destruct (given (selectedDoc s)) eqn:Hs; cbn [andb].
        -- reflexivity.
        -- rewrite Hs. reflexivity.
    + destruct (given (selectedDoc s)) eqn:Hs; cbn [andb].
      * reflexivity.
      * rewrite Hs. reflexivity.
Qed.

(** Nothing preloaded, at the route of [b] with [a] selected: a second run
    of the effect changes nothing. *)
Lemma selectFromLocation_settles_route :
  let manifest := [[("slug", VString "a")]; [("slug", VString "b")]] in
  let effect := selectFromLocation manifest None None "/forge/docs/b" in
  let s := {| selectedDoc := Some "a"; error := None; loads := [] |} in
  given None = false /\ effect (effect s) = effect s.
Proof.
  intros manifest effect s. split; [reflexivity|].
  exact (selectFromLocation_settles manifest None None "/forge/docs/b" s
           (or_introl eq_refl)).
Defined.

(** With [a] preloaded at the route of [b], the effect does not settle: it
    selects [b] and loads it, selects [a] again, and loads [b] once more. *)
Lemma selectFromLocation_alternates :
  let manifest := [[("slug", VString "a")]; [("slug", VString "b")]] in
  let effect := selectFromLocation manifest (Some "a") None "/forge/docs/b" in
  let s := {| selectedDoc := Some "a"; error := None; loads := [] |} in
  effect s = {| selectedDoc := Some "b"; error := None;
                loads := ["/forge/docs/b?api"] |}
  /\ effect (effect s)
     = {| selectedDoc := Some "a"; error := None;
          loads := ["/forge/docs/b?api"] |}
  /\ effect (effect (effect s))
     = {| selectedDoc := Some "b"; error := None;
          loads := ["/forge/docs/b?api"; "/forge/docs/b?api"] |}.
Proof. vm_compute. repeat split. Qed.

End SettleFacts.

(** * The groups of the list of documents *)

Module DocListFacts.
Import Types Eff ObjectOrder DocList DetectionFacts CollectFacts.
Import ObjectOrderFacts.

Local Abbreviation inFolder := (fun (folder : string) (doc : Object) =>
  String.eqb (folderKey doc) folder).

Lemma groupLoop_spec (todo : list Object) :
  forall (done : list Object) (groups : list (string * list Object)),
    Forall (fun doc => inherited (folderKey doc) = false) done ->
    List.NoDup (map fst groups) ->
    (forall folder,
       Js.mapGet folder groups
       = match List.filter (inFolder folder) done with
         | [] => None
         | folderDocs => Some folderDocs
         end) ->
    match groupLoop todo groups with
    | inr groups' =>
        Forall (fun doc => inherited (folderKey doc) = false) (done ++ todo)
        /\ List.NoDup (map fst groups')
        /\ forall folder,
             Js.mapGet folder groups'
             = match List.filter (inFolder folder) (done ++ todo) with
               | [] => None
               | folderDocs => Some folderDocs
               end
    | inl _ => Exists (fun doc => inherited (folderKey doc) = true) todo
    end.
Proof.
  induction todo as [|doc todo IH]; intros done groups Hdone Hnodup Hget.
  - cbn [groupLoop]. rewrite app_nil_r. auto.
  - cbn [groupLoop]. unfold groupStep.
    assert (forall folderDocs,
              Js.mapGet (folderKey doc) groups = Some folderDocs ->
              inherited (folderKey doc) = false) as Hown.
    { intros folderDocs H. rewrite Hget in H.
      destruct (List.filter (inFolder (folderKey doc)) done) as [|x l] eqn:Hf;
        [discriminate|].
      assert (In x (List.filter (inFolder (folderKey doc)) done)) as Hx
        by (rewrite Hf; left; reflexivity).
      apply filter_In in Hx as [Hx Hk]. apply String.eqb_eq in Hk.
      rewrite <- Hk. rewrite Forall_forall in Hdone.
      apply Hdone, list_elem_of_In, Hx. }
    assert (forall v,
              inherited (folderKey doc) = false ->
              v = List.filter (inFolder (folderKey doc)) done ++ [doc] ->
              match groupLoop todo (Js.mapSet (folderKey doc) v groups) with
              | inr groups' =>
                  Forall (fun doc => inherited (folderKey doc) = false)
                    (done ++ doc :: todo)
                  /\ List.NoDup (map fst groups')
                  /\ forall folder,
                       Js.mapGet folder groups'
                       = match List.filter (inFolder folder) (done ++ doc :: todo) with
                         | [] => None
                         | folderDocs => Some folderDocs
                         end
              | inl _ =>
                  Exists (fun doc => inherited (folderKey doc) = true) (doc :: todo)
              end) as Hstep.
    { intros v Hinh ->.
      specialize (IH (done ++ [doc])
                    (Js.mapSet (folderKey doc)
                       (List.filter (inFolder (folderKey doc)) done ++ [doc]) groups)).
      rewrite <- app_assoc in IH. cbn [app] in IH.
      destruct (groupLoop todo _) as [e|groups'].
      - apply Exists_cons_tl, IH.
        + apply Forall_app. split; [exact Hdone | constructor; [exact Hinh | constructor]].
        + apply NoDup_mapSet, Hnodup.
        + intros folder. rewrite mapGet_mapSet, List.filter_app. cbn [List.filter].
          destruct (decide (folderKey doc = folder)) as [<-|Hne].
          * rewrite String.eqb_refl.
            destruct (List.filter _ done); reflexivity.
          * apply String.eqb_neq in Hne. rewrite Hne, app_nil_r. apply Hget.
      - apply IH.
        + apply Forall_app. split; [exact Hdone | constructor; [exact Hinh | constructor]].
        + apply NoDup_mapSet, Hnodup.
        + intros folder. rewrite mapGet_mapSet, List.filter_app. cbn [List.filter].
          destruct (decide (folderKey doc = folder)) as [<-|Hne].
          * rewrite String.eqb_refl.
            destruct (List.filter _ done); reflexivity.
          * apply String.eqb_neq in Hne. rewrite Hne, app_nil_r. apply Hget. }
    destruct (Js.mapGet (folderKey doc) groups) as [folderDocs|] eqn:Hg.
    + apply Hstep; [apply (Hown _ eq_refl)|].
      rewrite Hget in Hg.
      destruct (List.filter (inFolder (folderKey doc)) done); congruence.
    + destruct (inherited (folderKey doc)) eqn:Hinh.
      * apply Exists_cons_hd, Hinh.
      * apply Hstep; [reflexivity|].
        rewrite Hget in Hg.
        destruct (List.filter (inFolder (folderKey doc)) done);
          [reflexivity | discriminate].
Qed.

(** [groupedDocs] throws when, and only when, the folder of a document is
    the name of a property that every object inherits.  Otherwise each
    folder of the documents is a key of the groups, once, and its group
    holds the documents of the folder in the order of the list;
    [Object.entries] lists these groups, each once, and in the order in
    which the folders first appear when no folder is an array index. *)
Theorem groupedDocs_partition (docs : list Object) :
  match groupedDocs docs with
  | inr groups =>
      Forall (fun doc => inherited (folderKey doc) = false) docs
      /\ List.NoDup (map fst groups)
      /\ (forall folder,
            Js.mapGet folder groups
            = match List.filter (inFolder folder) docs with
              | [] => None
              | folderDocs => Some folderDocs
              end)
      /\ Permutation (entries groups) groups
      /\ (Forall (fun doc => arrayIndex (folderKey doc) = None) docs ->
          entries groups = groups)
  | inl _ => Exists (fun doc => inherited (folderKey doc) = true) docs
  end.
Proof.
  unfold groupedDocs.
  pose proof (groupLoop_spec docs [] [] (List.Forall_nil _) (List.NoDup_nil _)
                (fun _ => eq_refl)) as H.
  cbn [app] in H. destruct (groupLoop docs []) as [e|groups]; [exact H|].
  destruct H as (H1 & H2 & H3). split; [exact H1|]. split; [exact H2|].
  split; [exact H3|]. split; [apply entries_perm|].
  intros Hplain. apply entries_plain. apply List.Forall_forall.
  intros [folder folderDocs] Hin. cbn [fst].
  apply (In_mapGet _ _ _ H2) in Hin. rewrite H3 in Hin.
  destruct (List.filter (inFolder folder) docs) as [|doc l] eqn:Hf;
    [discriminate|].
  assert (In doc (List.filter (inFolder folder) docs)) as Hd
    by (rewrite Hf; left; reflexivity).
  apply filter_In in Hd as [Hd Hk]. apply String.eqb_eq in Hk. subst folder.
  rewrite List.Forall_forall in Hplain. apply Hplain, Hd.
Qed.

End DocListFacts.

(** * The highlighter *)

Module HighlightFacts.
Import Types Eff Plugin Highlight.
Import MetaFacts BuildFacts UrlFacts FrontmatterFacts.

Lemma startsWith_drop (t p : string) :
  Js.startsWith t p = true -> t = p +:+ Js.drop (String.length p) t.
Proof.
  intros H. apply startsWith_spec in H as [b ->]. rewrite drop_append.
  reflexivity.
Qed.

Lemma cut_spec (s p before after : string) :
  cut s p = Some (before, after) -> s = before +:+ p +:+ after.
Proof.
  revert before. induction s as [|c s IH]; intros before; cbn [cut].
  - destruct (Js.startsWith EmptyString p) eqn:E; [|discriminate].
    intros [= <- <-]. apply (startsWith_drop _ _ E).
  - destruct (Js.startsWith (String c s) p) eqn:E.
    + intros [= <- <-]. apply (startsWith_drop _ _ E).
    + destruct (cut s p) as [[b a]|]; [|discriminate].
      intros [= <- <-]. rewrite (IH b eq_refl) at 1. reflexivity.
Qed.

(** The first occurrence of a text that starts with [p] is not before the
    first occurrence of [p]. *)
Lemma cut_longer (s p x before r after : string) :
  cut s p = Some (before, r) ->
  p +:+ r = (p +:+ x) +:+ after ->
  cut s (p +:+ x) = Some (before, after).
Proof.
  intros Hcut Heq. revert before Hcut.
  assert (forall t, Js.startsWith t p = false ->
                    Js.startsWith t (p +:+ x) = false) as Hno.
  { intros t Ht. destruct (Js.startsWith t (p +:+ x)) eqn:E; [|reflexivity].
    apply startsWith_spec in E as [b E]. rewrite append_assoc3 in E.
    assert (Js.startsWith t p = true) as Ht'
      by (apply startsWith_spec; eauto).
    congruence. }
  assert (forall t, Js.startsWith t p = true -> Js.drop (String.length p) t = r ->
                    cut t (p +:+ x) = Some (EmptyString, after)) as Hyes.
  { intros t Ht Hr. apply startsWith_spec in Ht as [b Hb]. subst t.
    rewrite drop_append in Hr. subst b. rewrite Heq.
    assert (Js.startsWith ((p +:+ x) +:+ after) (p +:+ x) = true) as Hs
      by (apply startsWith_spec; eauto).
    destruct ((p +:+ x) +:+ after) as [|c t] eqn:Et; cbn [cut]; rewrite Hs;
      rewrite <- Et, drop_append; reflexivity. }
  induction s as [|c s IH]; intros before Hcut; cbn [cut] in Hcut.
  - destruct (Js.startsWith EmptyString p) eqn:E; [|discriminate].
    injection Hcut as <- Hr. apply (Hyes _ E Hr).
  - destruct (Js.startsWith (String c s) p) eqn:E.
    + injection Hcut as <- Hr. apply (Hyes _ E Hr).
    + destruct (cut s p) as [[b a]|] eqn:Hc; [|discriminate].
      injection Hcut as <- <-. cbn [cut].
      rewrite (Hno _ E), (IH b eq_refl). reflexivity.
Qed.

Lemma span_spec (cls : ascii -> bool) (s a b : string) :
  span cls s = (a, b) -> s = a +:+ b.
Proof.
  revert a. induction s as [|c s IH]; intros a; cbn [span].
  - intros [= <- <-]. reflexivity.
  - destruct (cls c).
    + destruct (span cls s) as [a' b']. intros [= <- <-].
      rewrite (IH a' eq_refl). reflexivity.
    + intros [= <- <-]. reflexivity.
Qed.

Lemma drop_suffix (n : nat) (s : string) : exists t, s = t +:+ Js.drop n s.
Proof.
  revert s. induction n as [|n IH]; intros s.
  - exists EmptyString. reflexivity.
  - destruct s as [|c s]; [exists EmptyString; reflexivity|].
    destruct (IH s) as [t Ht]. exists (String c t). cbn [Js.drop].
    rewrite Ht at 1. reflexivity.
Qed.

(** What follows the opening tag is a suffix of the text. *)
Lemma openingTag_spec (s : string) (lang : option string) (r : string) :
  openingTag s = Some (lang, r) -> exists t, s = t +:+ r.
Proof.
  unfold openingTag. destruct (Js.startsWith s ">").
  - intros [= <- <-]. exact (drop_suffix 1 s).
  - destruct (span Js.isWhiteSpace s) as [spaces r0] eqn:Hs.
    apply span_spec in Hs. destruct (Js.isEmpty spaces); [discriminate|].
    destruct (Js.startsWith r0 classAttribute); [|discriminate].
    destruct (span _ (Js.drop _ r0)) as [l r1] eqn:Hl. apply span_spec in Hl.
    destruct (Js.startsWith r1 _); [|discriminate].
    intros [= <- <-].
    destruct (drop_suffix (String.length classAttribute) r0) as [t0 Ht0].
    destruct (drop_suffix 2 r1) as [t1 Ht1].
    exists (spaces +:+ t0 +:+ l +:+ t1).
    rewrite Hs, Ht0, Hl, Ht1 at 1. rewrite !append_assoc3. reflexivity.
Qed.


Lemma blockAt_none (s : string) :
  Js.startsWith s preCode = false -> blockAt s = None.
Proof. intros H. unfold blockAt. rewrite H. reflexivity. Qed.

Lemma matchAll_none (s : string) :
  Js.includes s preCode = false -> matchAll s 0 = [].
Proof.
  induction s as [|c s IH]; [reflexivity|].
  rewrite includes_unfold.
  destruct (Js.startsWith (String c s) preCode) eqn:E; [discriminate|].
  intros H. cbn [matchAll]. rewrite (blockAt_none _ E). apply IH, H.
Qed.

Lemma matchAll_skip (a b : string) :
  matchAll (a +:+ b) (String.length a) = matchAll b 0.
Proof.
  induction a as [|c a IH]; [reflexivity|].
  change (matchAll (a +:+ b) (String.length a) = matchAll b 0). exact IH.
Qed.

Lemma matchAll_cut (s before r : string) :
  cut s preCode = Some (before, r) ->
  matchAll s 0 = matchAll (preCode +:+ r) 0.
Proof.
  revert before. induction s as [|c s IH]; intros before Hcut;
    cbn [cut] in Hcut.
  - discriminate.
  - destruct (Js.startsWith (String c s) preCode) eqn:E.
    + assert (r = Js.drop (String.length preCode) (String c s)) as ->
        by congruence.
      rewrite <- (startsWith_drop _ _ E). reflexivity.
    + destruct (cut s preCode) as [[b a]|] eqn:Hc; [|discriminate].
      injection Hcut as _ <-. cbn [matchAll]. rewrite (blockAt_none _ E).
      apply (IH b eq_refl).
Qed.

Lemma substitution_plain (matched before after r : string) :
  Js.includes r "$" = false -> substitution matched before after r = r.
Proof.
  induction r as [|c r IH]; [reflexivity|].
  rewrite includes_unfold. cbn [Js.startsWith].
  destruct (Ascii.eqb "$" c) eqn:E; [discriminate|].
  cbn [andb]. intros H. apply Ascii.eqb_neq in E.
  assert (substitution matched before after (String c r)
          = String c (substitution matched before after r)) as ->.
  { cbn [substitution].
    destruct c as [[] [] [] [] [] [] [] []]; try reflexivity.
    congruence. }
  rewrite (IH H). reflexivity.
Qed.

Section WithHighlighter.

Variable highlight : string -> string -> Error + string.

Lemma highlightLoop_outcome (matches : list Block) :
  forall processedContent,
    match List.find (fails highlight)
            (List.filter (fun block => negb (Js.isEmpty (codeContent block)))
               matches) with
    | Some block =>
        highlightLoop highlight matches processedContent
        = HighlightError
            ("Failed to highlight code block with language "
             +:+ String Js.dquote (languageText (language block))
             +:+ String Js.dquote EmptyString)
            (Some (errorContextOf (language block)
                     (decodeEntities (codeContent block))))
    | None =>
        exists content,
          highlightLoop highlight matches processedContent = Highlighted content
    end.
Proof.
  induction matches as [|block matches IH]; intros processedContent.
  - eexists. reflexivity.
  - cbn [highlightLoop List.filter].
    destruct (Js.isEmpty (codeContent block)); cbn [negb]; [apply IH|].
    cbn [List.find]. unfold fails at 1.
    destruct (highlight _ _) as [e|h]; [reflexivity | apply IH].
Qed.

(** [highlightCodeBlocks] returns an error when, and only when, the
    highlighter throws on a block whose code is not empty, and the error is
    the one of the first such block: it names the language of the block,
    [undefined] for a block without a class.  It returns the HTML as it is
    when the HTML holds no [<pre><code]. *)
Theorem highlightCodeBlocks_outcome (htmlContent : string) :
  match List.find (fails highlight)
          (List.filter (fun block => negb (Js.isEmpty (codeContent block)))
             (matchAll htmlContent 0)) with
  | Some block =>
      highlightCodeBlocks highlight htmlContent
      = HighlightError
          ("Failed to highlight code block with language "
           +:+ String Js.dquote (languageText (language block))
           +:+ String Js.dquote EmptyString)
          (Some (errorContextOf (language block)
                   (decodeEntities (codeContent block))))
  | None =>
      (exists content,
         highlightCodeBlocks highlight htmlContent = Highlighted content)
      /\ (Js.includes htmlContent preCode = false ->
          highlightCodeBlocks highlight htmlContent = Highlighted htmlContent)
  end.
Proof.
  pose proof (highlightLoop_outcome (matchAll htmlContent 0) htmlContent) as H.
  unfold highlightCodeBlocks.
  destruct (List.find (fails highlight) _) as [block|]; [exact H|].
  split; [exact H|]. intros Hn. rewrite (matchAll_none _ Hn). reflexivity.
Qed.

(** A code block is replaced by what the highlighter returns for its
    decoded code, and the HTML around it is kept: for HTML that holds one
    block ([before] holds no [<pre><code], the code no [</code></pre>] and
    [after] no [<pre><code]), whose code is not empty, when the highlighted
    HTML holds no dollar sign. *)
Theorem highlightCodeBlocks_block (htmlContent before r0 r1 code after : string)
  (lang : option string) (highlighted : string) :
  cut htmlContent preCode = Some (before, r0) ->
  openingTag r0 = Some (lang, r1) ->
  cut r1 codePre = Some (code, after) ->
  Js.includes after preCode = false ->
  Js.isEmpty code = false ->
  highlight (decodeEntities code) (languageOrText lang) = inr highlighted ->
  Js.includes highlighted "$" = false ->
  highlightCodeBlocks highlight htmlContent
  = Highlighted (before +:+ highlighted +:+ after).
Proof.
  intros Hcut Hopen Hclose Hafter Hcode Hhl Hplain.
  unfold highlightCodeBlocks. rewrite (matchAll_cut _ _ _ Hcut).
  destruct (openingTag_spec _ _ _ Hopen) as [t Ht].
  pose proof (cut_spec _ _ _ _ Hclose) as Hr1.
  set (matched := preCode +:+ t +:+ code +:+ codePre).
  assert (preCode +:+ r0 = matched +:+ after) as Hs.
  { unfold matched. rewrite Ht, Hr1, !append_assoc3. reflexivity. }
  assert (blockAt (preCode +:+ r0)
          = Some ({| fullMatch := matched; language := lang;
                     codeContent := code |}, after)) as Hblock.
  { unfold blockAt.
    assert (Js.startsWith (preCode +:+ r0) preCode = true) as ->
      by (apply startsWith_spec; eauto).
    rewrite drop_append, Hopen, Hclose. do 3 f_equal.
    rewrite Hs, length_append.
    replace (String.length matched + String.length after - String.length after)%nat
      with (String.length matched) by lia.
    apply take_append. }
  assert (matchAll (preCode +:+ r0) 0
          = [{| fullMatch := matched; language := lang; codeContent := code |}])
    as ->.
  { change (preCode +:+ r0) with (String "<" ("pre><code" +:+ r0)) at 1.
    cbn [matchAll].
    change (String "<" ("pre><code" +:+ r0)) with (preCode +:+ r0).
    rewrite Hblock. cbn [fullMatch]. f_equal.
    assert (String "<" ("pre><code" +:+ r0) = matched +:+ after) as Hs' by exact Hs.
    destruct matched as [|c m] eqn:Em; [discriminate|].
    injection Hs' as _ ->.
    replace (String.length (String c m) - 1)%nat with (String.length m)
      by (cbn [String.length]; lia).
    rewrite matchAll_skip. apply matchAll_none, Hafter. }
  cbn [highlightLoop codeContent language fullMatch]. rewrite Hcode, Hhl.
  cbn [highlightLoop]. f_equal. unfold replaceString.
  assert (cut htmlContent matched = Some (before, after)) as ->.
  { unfold matched. apply (cut_longer _ _ _ _ _ _ Hcut). exact Hs. }
  rewrite (substitution_plain _ _ _ _ Hplain). reflexivity.
Qed.

End WithHighlighter.

Lemma cut_char (a b : string) (c : ascii) :
  Js.includes a (String c EmptyString) = false ->
  cut (a +:+ String c b) (String c EmptyString) = Some (a, b).
Proof.
  induction a as [|d a IH].
  - intros _. change (EmptyString +:+ String c b) with (String c b).
    cbn [cut Js.startsWith]. rewrite Ascii.eqb_refl. reflexivity.
  - rewrite includes_unfold. cbn [Js.startsWith].
    destruct (Ascii.eqb c d) eqn:E; [discriminate|]. cbn [andb]. intros H.
    change (String d a +:+ String c b) with (String d (a +:+ String c b)).
    cbn [cut Js.startsWith]. rewrite E. cbn [andb]. rewrite (IH H).
    reflexivity.
Qed.

Lemma replacePre_none (html : string) :
  Js.includes html "<pre" = false -> replacePre html = html.
Proof.
  induction html as [|c html IH]; [reflexivity|].
  rewrite includes_unfold.
  destruct (Js.startsWith (String c html) "<pre") eqn:E; [discriminate|].
  intros H. cbn [replacePre]. rewrite E, (IH H). reflexivity.
Qed.

Section WithShiki.

Variable codeToHtml : string -> string -> Error + string.

(** The [highlight] of [createShikiHighlighter] returns the HTML of
    [codeToHtml] with the attributes of its [pre] element replaced by the
    class and the style of the plugin, and HTML without [<pre] as it is.  It
    throws what [codeToHtml] throws, or, when the message of that holds
    [not found], an error that names the language. *)
Theorem shikiHighlight_outcome (code language : string) :
  match codeToHtml code language with
  | inr html =>
      exists out,
        shikiHighlight codeToHtml code language = inr out
        /\ (forall attrs rest,
              html = "<pre" +:+ attrs +:+ ">" +:+ rest ->
              Js.includes attrs ">" = false ->
              out = preClass +:+ rest)
        /\ (Js.includes html "<pre" = false -> out = html)
  | inl error =>
      shikiHighlight codeToHtml code language
      = inl (if Js.includes (message error) "not found"
             then {| message := "Language `" +:+ language
                                +:+ "` not found in Shiki highlighter" |}
             else error)
  end.
Proof.
  unfold shikiHighlight. destruct (codeToHtml code language) as [error|html].
  - destruct (Js.includes (message error) "not found"); reflexivity.
  - exists (replacePre html). split; [reflexivity|]. split.
    + intros attrs rest -> Hattrs.
      change ("<pre" +:+ attrs +:+ ">" +:+ rest)
        with (String "<" (String "p" (String "r" (String "e"
                (attrs +:+ String ">" rest))))).
      cbn [replacePre Js.startsWith Ascii.eqb Bool.eqb andb Js.drop].
      rewrite (cut_char _ _ _ Hattrs). reflexivity.
    + apply replacePre_none.
Qed.

End WithShiki.

End HighlightFacts.

Module HighlightExamples.
Import Types Eff Plugin Highlight.

(** The block of [sampleHtml] is replaced, its code decoded. *)
Lemma highlightCodeBlocks_block_sample :
  highlightCodeBlocks sampleHighlight sampleHtml
  = Highlighted "<p>x</p><span class=js>a < b</span><p>y</p>".
Proof.
  apply (HighlightFacts.highlightCodeBlocks_block sampleHighlight sampleHtml
           "<p>x</p>"
           (" class=" +:+ String Js.dquote "language-js"
            +:+ String Js.dquote ">a &lt; b</code></pre><p>y</p>")
           "a &lt; b</code></pre><p>y</p>" "a &lt; b" "<p>y</p>" (Some "js")
           "<span class=js>a < b</span>");
    reflexivity.
Defined.

(** The attributes of the [pre] element of [sampleCodeToHtml] are
    replaced. *)
Lemma shikiHighlight_sample :
  shikiHighlight sampleCodeToHtml "x" "css"
  = inr (preClass +:+ "<code>x</code></pre>").
Proof. reflexivity. Qed.

(** An escaped ampersand before [quot;] is decoded twice, before [lt;]
    once. *)
Lemma decodeEntities_order :
  decodeEntities "&amp;lt;" = "&lt;"
  /\ decodeEntities "&amp;quot;" = String Js.dquote EmptyString.
Proof. split; reflexivity. Qed.

(** The error for a block without a class names the language
    [undefined], and its context the language [text]. *)
Lemma highlightCodeBlocks_bare :
  highlightCodeBlocks sampleFailing sampleBare
  = HighlightError
      ("Failed to highlight code block with language "
       +:+ String Js.dquote "undefined" +:+ String Js.dquote EmptyString)
      (Some ("Language: `text`" +:+ nl +:+ "  Code snippet: "
             +:+ String Js.dquote "x" +:+ String Js.dquote EmptyString)).
Proof. reflexivity. Qed.

End HighlightExamples.

(** * A build in one piece, then the lookup of its documents *)

Module SingleFacts.
Import Utils Types Eff Plugin Spec BuildVocabulary PipelineVocabulary Examples.
Import EffFacts DetectionFacts BuildFacts SortFacts CollectFacts AccountFacts.
Import PipelineFacts ServeFacts.

Section WithHost.

Variable href : string -> string -> string.
Variable options : Options.
Variable host : Host.

Hypothesis able : Able options host.
Hypothesis single : chunkByFolder options = false.

Lemma writeMarkdownFiles_single (manifest : list MarkdownMeta)
  (content : ContentMap) (folders : option (list string)) (st : BuildState) :
  let written :=
    <[prefix options +:+ "-manifest.json" :=
        ManifestJson (jsonManifest (makeGlobalManifest options manifest folders))]>
      (assets st) in
  writeMarkdownFiles options host manifest content folders st
  = (Ok tt,
     {| texts := texts st;
        assets :=
          if 0 <? Z.of_nat (base.size content)
          then <[fst (contentFile options (prefix options +:+ "-content.json")
                        content) :=
                   snd (contentFile options (prefix options +:+ "-content.json")
                          content)]> written
          else written;
        reads := reads st |}).
Proof.
  intros written. destruct able as (Hmk & Hw & Hgz).
  unfold writeMarkdownFiles, mkdirAssets. rewrite tryCatch_run, bind_run, Hmk.
  unfold mret at 1. unfold Async_ret at 1. cbv beta iota. rewrite bind_run.
  unfold writeAsset at 1. rewrite Hw, single. cbn [negb andb].
  destruct (0 <? Z.of_nat (base.size content)); [|reflexivity].
  unfold contentFile, writeCompressedVersions.
  destruct (compress options) eqn:Hc; cbn [negb fst snd].
  - rewrite tryCatch_run, (Hgz eq_refl). unfold writeAsset. rewrite Hw.
    reflexivity.
  - unfold writeAsset. rewrite Hw. reflexivity.
Qed.

Lemma checkForChanges_clean (dir : string) (tree : list Entry) :
  let files := collectMarkdownFilesWithMetadata options dir tree in
  updatedFiles (checkForChanges options dir tree []) = files
  /\ (changed (checkForChanges options dir tree []) = false -> files = []).
Proof.
  intros files. unfold checkForChanges. fold files.
  destruct files as [|[rel info] files']; [split; [reflexivity | auto]|].
  cbn [existsb map Js.mapOfEntries fold_left Js.mapGet isFileChanged orb].
  split; [reflexivity | discriminate].
Qed.

Lemma collect_slugs (dir : string) (tree : list Entry) :
  List.NoDup (map (fun entry => slugOf options (fst entry))
                (collectMarkdownFilesWithMetadata options dir tree)).
Proof.
  destruct (collect_Collected options dir tree) as [Hn Hc].
  apply NoDup_map_NoDup_ForallPairs; [|apply (List.NoDup_map_inv _ _ Hn)].
  intros [r1 i1] [r2 i2] H1 H2 Hs. cbn [fst] in Hs.
  destruct (Hc r1 i1 H1) as [He1 _]. destruct (Hc r2 i2 H2) as [He2 _].
  apply endsWith_spec in He1 as [b1 ->]. apply endsWith_spec in He2 as [b2 ->].
  unfold slugOf in Hs. rewrite !MetaFacts.removeExtension_append in Hs.
  subst b2. apply (In_mapGet _ _ _ Hn) in H1, H2. congruence.
Qed.

(** The asset directory after a build in one piece from an empty asset
    directory. *)
Lemma build_single (tree : list Entry) :
  let out := assets (build options host tree ∅) in
  out = ∅
  \/ exists manifest content,
       (forall record, In record manifest ->
          exists relPath info document,
            In (relPath, info)
              (collectMarkdownFilesWithMetadata options (source options) tree)
            /\ record
               = metaOf options relPath (metadata info) (frontmatter document)
            /\ (slugOf options relPath <> "__proto__" ->
                content !! slugOf options relPath = Some document))
       /\ out
          = let written :=
              <[prefix options +:+ "-manifest.json" :=
                  ManifestJson
                    (jsonManifest (makeGlobalManifest options manifest None))]>
                (∅ : gmap string Artifact) in
            if 0 <? Z.of_nat (base.size content)
            then <[fst (contentFile options (prefix options +:+ "-content.json")
                          content) :=
                     snd (contentFile options (prefix options +:+ "-content.json")
                            content)]> written
            else written.
Proof.
  intros out. unfold out, build, buildStart. rewrite single, bind_run.
  set (st0 := startOf options tree ∅).
  rewrite loadPreviousManifest_run.
  assert (afterLoad options st0 = st0) as ->.
  { unfold afterLoad. cbn [st0 startOf assets]. rewrite lookup_empty.
    reflexivity. }
  assert (previousDocuments options (assets st0) = []) as ->.
  { unfold previousDocuments. cbn [st0 startOf assets]. rewrite lookup_empty.
    reflexivity. }
  destruct (checkForChanges_clean (source options) tree) as [Hfiles Hnone].
  destruct (changed (checkForChanges options (source options) tree [])).
  2:{ left. reflexivity. }
  cbn [negb]. right. rewrite Hfiles, bind_run.
  set (files := collectMarkdownFilesWithMetadata options (source options) tree).
  destruct (foldM_processEntry_steps options host files emptyAcc st0)
    as (acc & st1 & Hrun & Hsteps).
  destruct (foldM_processEntry_effect options host files emptyAcc st0)
    as (acc1 & st1' & Hrun1 & Hassets & _).
  rewrite Hrun in Hrun1. injection Hrun1 as <- <-.
  unfold processChangedFiles. rewrite bind_run, Hrun.
  cbn [mret Async_ret resultManifest resultContent].
  rewrite writeMarkdownFiles_single. cbn [snd assets]. rewrite Hassets.
  exists (sortManifest host (manifest acc)), (Plugin.content acc).
  split; [|reflexivity].
  intros record Hin. apply (Permutation_in _ (sortManifest_perm host _)) in Hin.
  destruct (Steps_records_exact options _ _ _ _ Hsteps
              (collect_slugs (source options) tree) Hin)
    as [[]|(r & i & fm & h & Hf & Hr & Hc)].
  exists r, i, {| frontmatter := fm; Types.content := h |}. auto.
Qed.

(** After a build in one piece from an empty asset directory, every
    document of the manifest is found by [getMarkdownDocument] on the served
    directory, under the slug of its path and with the frontmatter that its
    record holds, when the host can write the files.  The extension is read
    as the [RegExp] constructor reads it, and no file has the name
    [__proto__], which an assignment does not define on an object. *)
Theorem build_then_get_single (tree : list Entry) (d : MarkdownMeta) :
  let out := assets (build options host tree ∅) in
  plainExtension (extension options) = true ->
  prefix options <> EmptyString ->
  Js.mapGet ("__proto__" +:+ extension options)
    (collectMarkdownFilesWithMetadata options (source options) tree) = None ->
  In d (previousDocuments options out) ->
  exists relPath metadata document st',
    d = jsonObject (metaOf options relPath metadata (frontmatter document))
    /\ Data.getMarkdownDocument href (slugOf options relPath) (serve out) None
         (Some (prefix options)) Data.initial
       = (Ok (Some (Own document)), st').
Proof.
  intros out _ Hprefix Hnone Hd. unfold previousDocuments in Hd.
  destruct (build_single tree) as [Hempty|(manifest & content & Hrecords & Hout)];
    fold out in Hempty || fold out in Hout.
  { rewrite Hempty, lookup_empty in Hd. destruct Hd. }
  cbv zeta in Hout.
  set (g := jsonManifest (makeGlobalManifest options manifest None)) in *.
  assert (out !! (prefix options +:+ "-manifest.json") = Some (ManifestJson g))
    as Hman.
  { rewrite Hout. destruct (0 <? Z.of_nat (base.size content));
      [|apply lookup_insert_eq].
    rewrite lookup_insert_ne; [apply lookup_insert_eq|].
    unfold contentFile. destruct (compress options); cbn [fst]; intros H;
      rewrite ?append_assoc3 in H; apply append_inv in H; discriminate. }
  rewrite Hman in Hd. cbn [g jsonManifest makeGlobalManifest documents] in Hd.
  apply in_map_iff in Hd as (record & <- & Hrecord).
  destruct (Hrecords record Hrecord) as (rel & info & document & Hf & -> & Hc).
  specialize (Hc (no_proto_slug options (source options) tree Hnone _ _ Hf)).
  exists rel, (metadata info), document.
  assert (0 < Z.of_nat (base.size content)) as Hsize.
  { destruct (decide (base.size content = 0%nat)) as [H0|H0]; [|lia].
    apply map_size_empty_iff in H0. rewrite H0, lookup_empty in Hc.
    discriminate. }
  apply Z.ltb_lt in Hsize. rewrite Hsize in Hout.
  unfold Data.getMarkdownDocument. rewrite bind_run.
  destruct (getGlobalManifest_served href out (prefix options) g Hprefix Hman)
    as (st1 & -> & Hm1 & Hg1 & Hf1 & Hc1).
  assert (_buildMode g = Types.single) as Hmode.
  { cbn [g jsonManifest makeGlobalManifest _buildMode]. rewrite single.
    reflexivity. }
  rewrite decide_False by (rewrite Hmode; discriminate).
  rewrite bind_run.
  destruct (getMarkdownContent_served href out options g content st1 Hprefix
              Hg1 Hmode) as (st2 & ->).
  - exact Hc1.
  - rewrite Hout. apply lookup_insert_eq.
  - intros Hcompress c'. rewrite Hout. unfold contentFile. rewrite Hcompress.
    cbn [fst snd]. rewrite lookup_insert_ne.
    + rewrite lookup_insert_ne; [rewrite lookup_empty; discriminate|].
      intros H. rewrite append_assoc3 in H. apply append_inv in H. discriminate.
    + intros H. apply (f_equal String.length) in H.
      rewrite !MetaFacts.length_append in H. cbn in H. lia.
  - exists st2. split; [reflexivity|]. cbn [mret Async_ret].
    unfold getProperty. rewrite Hc. reflexivity.
Qed.

End WithHost.

End SingleFacts.

Module SingleExamples.
Import Utils Types Eff Plugin Spec BuildVocabulary PipelineVocabulary Examples Trees.

(** The record of [guides/intro.md] in a build of [treeGuides] in one
    piece: its document is found. *)
Lemma build_then_get_single_guides :
  let out := assets (build singleOptions host treeGuides ∅) in
  let d :=
    jsonObject
      (metaOf singleOptions "guides/intro.md" (stats 2000 30)
         [("title", VString "Intro"); ("date", VString "2024-01-01")]) in
  In d (previousDocuments singleOptions out)
  /\ exists relPath metadata document st',
       d = jsonObject
             (metaOf singleOptions relPath metadata (frontmatter document))
       /\ Data.getMarkdownDocument sameUrl (slugOf singleOptions relPath)
            (serve out) None (Some "markdown") Data.initial
          = (Ok (Some (Own document)), st').
Proof.
  intros out d.
  assert (In d (previousDocuments singleOptions out)) as Hd
    by (vm_compute; auto).
  split; [exact Hd|].
  apply (SingleFacts.build_then_get_single sameUrl singleOptions host).
  - split; [reflexivity|]. split; intros; reflexivity.
  - reflexivity.
  - reflexivity.
  - discriminate.
  - reflexivity.
  - exact Hd.
Defined.

End SingleExamples.

(** ** What a build reads, converts and writes *)

Module ProcessFacts.
Import Utils Types Eff Plugin Spec BuildVocabulary PipelineVocabulary.
Import EffFacts DetectionFacts BuildFacts SortFacts CollectFacts AccountFacts.
Import PipelineFacts.


Section WithHost.

Variable options : Options.
Variable host : Host.










End WithHost.

End ProcessFacts.
